(* ===== verification/_CoqProject ===== *)
-Q . S2P
Prelude.v
StreakModal.v
Clock.v
Settings.v
Timer.v
Store.v
Ledger.v
Auth.v
Tasks.v
FocusTask.v
TaskStore.v
Gemini.v
GeminiSpec.v
TaskForms.v
TaskCard.v
Dashboard.v
KanbanView.v
FocusTimerView.v
Pages.v
Profile.v
AuthFlow.v
StudyRoom.v
AuthProvider.v
Layout.v
SettingsView.v
AppShell.v
ProviderTree.v
