(* ===== verification/Prelude.v ===== *)
(** * StudyFlow: a verification development of the study app's engine

    This library models, in Rocq, the TypeScript/React sources of the
    StudyFlow study-productivity app (directory [src/src]).  This header
    is the map of the development; each file opens with its own summary.

    ** The program

    A React single-page application.  Its state lives in context providers
    that call each other through hooks, and in components that hold form
    state and call the providers:

    - [context/SettingsContext.tsx] keeps the timer settings and merges
      partial updates ([updateTimerSettings]), persisting them.
    - [context/TimerContext.tsx] is the Pomodoro state machine: [mode],
      [isActive], [timeLeft], three handlers and two [useEffect]s; on
      completion it calls [addSession(focusDuration)] of the ledger.
    - [context/SessionContext.tsx] is the session and streak ledger: the
      7-slot weekly array, the total study minutes, [addSession],
      [incrementStreak], [updateProfileStudyTime] (also run by an effect on
      every change of the total) and [fetchSessions].
    - [hooks/useAuth.tsx] ([AuthProvider]) keeps the user, session and
      loading flag set by two auth callbacks, creates missing profiles on
      sign-in and performs the once-per-day streak increment
      ([checkDailyStreak]), run by both racing callbacks; it signs out and
      shows the celebration dialog of
      [components/ui/StreakCelebrationModal.tsx].
    - [context/TaskContext.tsx] is the task store: optimistic local updates
      followed by writes to the [tasks] and [subtasks] tables.
    - [lib/task-utils.ts] selects the focus task ([getNextFocusTask]);
      [pages/Dashboard.tsx] shows it with the weekly streak and statistics.
    - [components/tasks/TaskCard.tsx], [AddTaskDialog.tsx] and the Kanban
      board and matrix turn user actions into calls of the task store.
    - [lib/gemini.ts] asks the Gemini API for subtask suggestions and falls
      back to keyword-chosen lists.
    - [RequireAuth] (in [hooks/useAuth.tsx]) blocks protected pages and
      stores the blocked path for [pages/AuthPage.tsx], whose two session
      callbacks bring the visitor back; the auth page's form signs in or up.
    - [pages/SettingsPage.tsx] edits copies of both settings and saves them
      through [updateTimerSettings] and [updateProfileSettings] of the
      settings provider; it also selects or uploads avatars.

    ** Files (in dependency order)

    - [Prelude.v] (this file): the state monad [St] of the asynchronous
      handlers (awaits run in order), frame reasoning ([keeps], [same]), the
      JavaScript [||] on numbers ([js_or], notation [||ₙ] in [sf_scope]),
      array helpers ([incr_slot], [count_where]) with their lemmas, the
      [studyflow] hint databases and the tactics [z_cases] and [st_run].
    - [StreakModal.v], Module [StreakModal]: the celebration dialog's
      confetti flag, its effect on [open] with the timer cleanup, its
      inputs and view.
    - [Clock.v], Module [Clock]: calendar days and weekdays of timestamps
      under a time-zone offset ([getDay], [toDateString] equality).
    - [Settings.v], Module [Settings]: [TimerSettings], defaults, the
      partial merge, the settings page's number inputs.
    - [Timer.v], Module [Timer]: [TimerProvider] as React runs it: state,
      setState calls as data, both effects with their dependency arrays, the
      render/commit loop [settle], the handlers, [step] on inputs (toggle,
      reset, mode, tick, settings change) and the reachability relation.
    - [Store.v], Module [Store]: the [Backend] class (where a provider's
      table store and fault schedule live), [call] (one awaited request that
      consumes one fault and yields [data: null] on failure) and the
      profile, session and timer-settings requests.
    - [Ledger.v], Module [Ledger]: [SessionProvider]: its state, the
      handlers, both effects re-run on changed dependencies, sign-in.
    - [Auth.v], Module [Auth]: [checkAndInitializeUser], [checkDailyStreak]
      and two daily checks interleaved under any schedule ([runSched]).
    - [Tasks.v], Module [Tasks]: [Task] and [SubTask], the card's subtask
      toggle and status derivation, progress, the Kanban drop handler and
      the Eisenhower quadrants.
    - [FocusTask.v], Module [FocusTask]: [Array.prototype.sort] as a stable
      insertion sort, [getNextFocusTask] and the contract of the spec's
      selector ([selectFocusTask_spec]).
    - [TaskStore.v], Module [TaskStore]: [TaskProvider] over the [tasks] and
      [subtasks] tables: fetch, add, update, delete, add-subtask, the load
      effect.
    - [Gemini.v], Module [Gemini]: reply cleaning, JSON values with
      JavaScript truthiness, the three generators over any [JSON.parse],
      the keyword fallback and its thirteen lists.
    - [GeminiSpec.v], Module [GeminiSpec]: the reference semantics of the
      reply handling: the language's global [replace] by well-founded
      recursion (Equations) and the TypeScript types of parsed values
      ([JsType], [hasType], the declared [AiSuggestion]).
    - [TaskForms.v], Module [AddTaskDialog]: the task dialog's form,
      submission in add and edit mode, collaborator selection
      ([collabStep]) and the rendered dialog ([dialogView]).
    - [TaskCard.v], Modules [TaskCardActions] and [TaskCard]: the card's
      handlers, its local state and the events it reacts to ([step],
      [run]) and the rendered card ([view]).
    - [Dashboard.v]: [WeeklyStreak], [ProgressOverview], [DashboardPage],
      [CurrentTask] with its card's state, events and view
      ([CurrentTaskCard]), [TasksPage] (the task list's search and filter)
      and [StreaksPage] (mock friends).
    - [KanbanView.v], Modules [KanbanCard], [KanbanBoard], [KanbanPage]:
      the task overview page: the board's columns and cards, drag and drop
      as events over the task provider, the progress bar, the view modes
      and the Eisenhower matrix of task cards.
    - [FocusTimerView.v], Module [FocusTimerView]: the timer card's
      [MM:SS] display ([formatTime] with [toString] and [padStart]) and its
      settings dialog (sliders, save handler, the effect copying settings
      back).
    - [Pages.v], Modules [WeeklyStreakView], [ProgressView],
      [DashboardView], [TasksPageView], [StreaksPageView], [TimerPageView]:
      the pages' rendered views over the providers' state ([DashboardView]
      composes the streak card, current-task card, progress card, timer
      card and task cards), the task list's search and filter events.
    - [Profile.v], Modules [Profile] and [SettingsPage]: the profile half
      of the settings provider over the [profiles] row and the page's save,
      preset and upload handlers over one world ([PageWorld]) holding both
      halves, the page's copies and the avatar bucket.
    - [AuthFlow.v], Module [AuthFlow] with [RequireAuth],
      [AuthRequiredDialog] and [AuthPage]: the browser's location and the
      [redirectAfterAuth] key, the guard's views and buttons, the auth
      page's session callbacks as a sequence of events, the form's
      inputs, mode switch, validation and submission as events
      ([formStep], [formRun]), the rendered form and the small prompt.
    - [StudyRoom.v], Module [StudyRoom]: the study room page's code
      generation, copy (with its pending feedback timers), code input and
      join check as events on its state, and the rendered page.
    - [AuthProvider.v], Module [AuthProvider]: the provider's session
      state composed with [Auth]'s store, [AuthFlow]'s browser and the
      [StreakModal] dialog; its callbacks, [signOut] and [refreshProfile]
      as events ([step], [run]) and what [RequireAuth] renders under it.
    - [Layout.v], Modules [Routes], [NavLink], [Sidebar], [App],
      [WebLayout], [ScrollToTop], [LoadingScreen]: the route table of
      [App.tsx] and the screen at a location under the auth provider;
      the links' sign-in prompt; the sidebar's events composed with the
      provider and the auth page's listener ([App.step]); the header's
      computations; the scroll button and the loading screen's timers.
    - [SettingsView.v], Module [SettingsView]: the settings page as the
      user drives it ([page_step], [page_run]): its inputs, switches,
      avatar buttons and sign-out dialog (through [AuthProvider.signOut]),
      each followed by the two effects copying the provider's state into
      the page's copies, run when [Profile]'s version counters moved
      (React compares the provider's objects by identity); the rendered
      page ([view]).
    - [AppShell.v], Modules [HeaderView], [LoadingView], [Shell]: the
      header's rendered view (streak, bell popover entries, avatar link),
      the loading screen's overlay, and [App.tsx]'s composition of the
      loading screen with the app ([Shell.step]): a click under the
      overlay hits the overlay, the auth library's notifications always
      reach the app.
    - [ProviderTree.v], Module [ProviderTree]: the React contexts and the
      five [useX] hooks that throw outside their provider, the hooks each
      provider, page, layout and dialog calls in the order of its body,
      and [App.tsx]'s tree of providers and routes ([appTree]); [render]
      is React's rendering as far as contexts go.

    ** Theorems (by group)

    - Timer: the render loop settles (termination); the invariant of
      reachable states; refinement of the spec's abstract timer on every
      input but pause; countdown, completion, a full focus session
      (liveness); pause discarding progress, negative settings freezing the
      timer, negative progress (the divergences the code has).
    - Ledger and Auth: the stored total grows by twice the running total per
      session and doubles on every load; local total, weekly slot and
      streak per session under any failures; the weekly window spans eight
      days; the daily streak adds one per day, also under any interleaving
      of the two racing checks.
    - Tasks: the focus selector is equivalent to the spec's contract; the
      card's status always matches the subtasks and a double toggle is the
      identity; a toggle through the store makes the task the focus task;
      the quadrants partition the open tasks; error paths of the store (a
      non-atomic subtask update, a silently failed subtask query that later
      erases subtasks, insert revert, delete refetch); the load effect
      settles; the dialog's deadline truncation and duplicate subtasks.
    - Gemini: the fence removal is equivalent to the language's
      [replace]; suggestions have the declared type when the items do, and
      a numeric title passes unchecked; titles and estimates are always
      present; stream and one-shot
      agree; a [null] item discards the reply; refinement may drop titles;
      fallback bounds and its keyword precedence.
    - Timer card: the display reads back to the seconds shown (round
      trip); the dialog only saves durations within its slider ranges.
    - Dashboard: a focus task without subtasks cannot be changed from the
      current-task card.
    - Pages: the dashboard's percentage is a whole number in 0..100; its
      recent list holds exactly the in-progress tasks ("All Done !"
      otherwise); a seven-slot week shows every day's count; one filter
      button is selected; the header's and the card's streaks agree.
    - Task overview: dragging a card into "In Progress" makes it the
      dashboard's focus task; drops on the own column or from outside change
      nothing; the board's columns partition the tasks; its progress bar
      agrees with the dashboard's.
    - Task card: signed out, no sequence of clicks reaches the delete
      confirmation or the edit dialog, nor calls [onDeleteTask].
    - Sign-in: the redirect handshake returns the visitor to the blocked
      page (round trip), unless both session callbacks fire, when the
      second one overrides it; short passwords never reach the auth
      library; the submit button is never left disabled, errors stay
      until the next submission, and after "Account Exists" the next
      click signs in with the same credentials.
    - Study room: a generated code, copied and pasted, is accepted (round
      trip); shorter codes are refused; the first copy's timer cuts the
      second copy's check icon short.
    - Auth provider: [user] always equals the session's user and the
      confetti shows only while the dialog is open (invariant); after
      sign-out no event without a session reaches a protected page; a
      token refresh on the day of the sign-in writes nothing and does not
      celebrate again; a first session creates the profile and celebrates 1.
    - Layout: signed out, no sequence of sidebar, prompt or provider
      inputs without a session renders a protected page; a protected
      link's prompt, sign-in and the auth page's callback bring the
      visitor back to that page (round trip); the sidebar's "public"
      Dashboard link leads to the guard; the header's due-today list is
      the tasks due on today's local day; the loading screen ends after
      its two timers; under its overlay the app sees exactly the auth
      library's notifications, and afterwards every input; every task due
      today has its entry in the bell's popover.
    - Providers: no context hook of the app throws on any route (the
      nesting of [App.tsx] is right); the executable check agrees with the
      declarative scoping and adding providers above keeps a tree scoped;
      with [TimerProvider] above [SessionProvider] the app would throw.
    - Task dialog: collaborators stay distinct under any selection, add
      and remove; the submit and generate buttons' guards.
    - Settings page: saving always reports success, a failed preset
      selection is not reverted, a failed upsert after an upload leaves an
      unreferenced object; the upload guards; file extensions; choosing a
      preset avatar discards a typed but unsaved name; the study time
      splits into hours and minutes that add back up.

    ** Bounds and fuel

    [Timer.settle] takes a fuel argument bounding the re-renders of one
    commit; two renders always suffice ([Timer.settle_total]) and [step]
    uses [render_fuel = 3].  All other loops are structural.  Integers are
    unbounded [Z]: durations, minutes and millisecond timestamps stay far
    below 2^53 in the code, and [FocusTask] shows [Number.MAX_VALUE] is a
    faithful "no deadline" for every valid date.

    ** Not modelled

    Styling and the JSX outside the modelled views, toasts (only their
    titles are recorded), the Supabase client and the Gemini SDK (a store
    with per-request failures, and replies taken as inputs), [JSON.parse]
    (a parameter), [crypto.randomUUID] (fresh ids as inputs), non-ASCII
    text, zod's e-mail check and the auth library (inputs), the landing
    page (marketing content that no route renders), React Router's
    internals (static-path matching is stated in [Layout]), the header's
    popover's open state and the confetti pieces' random placement;
    [ErrorBoundary] and [NotFound], which [App.tsx] imports but the
    repository does not contain.  The awaits
    inside one [AuthProvider] callback run as one step there; their
    interleaving is studied in [Auth.runSched].
*)

From Stdlib Require Import ZArith Lia.
From stdpp Require Export base list decidable.

Open Scope Z_scope.

(** ** A state monad with stdpp's monad classes *)

(** [St S A] is a computation that threads a state [S]; it is the shape of
    the async handlers of the providers once their awaits are run in order. *)
Definition St (S A : Type) : Type := S -> A * S.

#[export] Instance St_ret {S} : MRet (St S) := fun A x s => (x, s).
#[export] Instance St_bind {S} : MBind (St S) :=
  fun A B (f : A -> St S B) (c : St S A) s => let '(a, s') := c s in f a s'.

Definition st_get {S} : St S S := fun s => (s, s).
Definition st_put {S} (s : S) : St S unit := fun _ => (tt, s).
Definition st_modify {S} (f : S -> S) : St S unit := fun s => (tt, f s).
Definition run {S A} (c : St S A) (s : S) : A * S := c s.
Definition exec {S A} (c : St S A) (s : S) : S := snd (c s).

Lemma exec_bind {S A B} (c : St S A) (f : A -> St S B) s :
  exec (c ≫= f) s = exec (f (fst (c s))) (snd (c s)).
Proof. unfold exec, mbind, St_bind. by destruct (c s). Qed.

Lemma exec_ret {S A} (x : A) (s : S) : exec (mret x) s = s.
Proof. reflexivity. Qed.

Lemma exec_modify {S} (f : S -> S) s : exec (st_modify f) s = f s.
Proof. reflexivity. Qed.

(** ** Frame reasoning on the state monad *)

(** [keeps R c]: every run of [c] relates its start and end states by [R]. *)
Definition keeps {S A} (R : relation S) (c : St S A) : Prop := forall s, R s (snd (c s)).

(** [same f]: the projection [f] of the state is unchanged. *)
Definition same {S X} (f : S -> X) : relation S := fun s s' => f s' = f s.

#[export] Instance same_preorder {S X} (f : S -> X) : PreOrder (same f).
Proof. split; [intros ?; done | intros ??? H1 H2; unfold same in *; congruence]. Qed.

Lemma keeps_ret {S A} (R : relation S) `{!Reflexive R} (x : A) : keeps R (mret x).
Proof. intros s. apply reflexivity. Qed.

Lemma keeps_get {S} (R : relation S) `{!Reflexive R} : keeps R st_get.
Proof. intros s. apply reflexivity. Qed.

Lemma keeps_bind {S A B} (R : relation S) `{!Transitive R} (c : St S A) (f : A -> St S B) :
  keeps R c -> (forall a, keeps R (f a)) -> keeps R (c ≫= f).
Proof.
  intros Hc Hf s. unfold mbind, St_bind. destruct (c s) as [a s'] eqn:E.
  transitivity s'; [change s' with (snd (a, s')); rewrite <- E; apply Hc | apply Hf].
Qed.

Lemma keeps_modify {S X} (f : S -> X) (g : S -> S) :
  (forall s, f (g s) = f s) -> keeps (same f) (st_modify g).
Proof. intros H s. apply H. Qed.

Lemma exec_seq {S A B} (c : St S A) (k : St S B) s :
  exec (c ≫= fun _ => k) s = exec k (exec c s).
Proof. unfold exec, mbind, St_bind. by destruct (c s). Qed.

Lemma keeps_exec {S X A} (f : S -> X) (c : St S A) s :
  keeps (same f) c -> f (exec c s) = f s.
Proof. intros H. apply H. Qed.

(** ** JavaScript values *)

(** [x || d] on a number: [0] (and [NaN], which the model has no value for)
    is falsy, so the default [d] is taken. *)
Definition js_or (x d : Z) : Z := if x =? 0 then d else x.

Declare Scope sf_scope.
Delimit Scope sf_scope with sf.
Notation "x '||ₙ' d" := (js_or x d) (at level 50, left associativity) : sf_scope.
Open Scope sf_scope.

Lemma js_or_nonzero x d : x <> 0 -> (x ||ₙ d) = x.
Proof. unfold js_or. intros H. by rewrite (proj2 (Z.eqb_neq x 0) H). Qed.

Lemma js_or_zero d : (0 ||ₙ d) = d.
Proof. reflexivity. Qed.

Lemma js_or_0_r x : (x ||ₙ 0) = x.
Proof. unfold js_or. destruct (Z.eqb_spec x 0); lia. Qed.

Lemma js_or_pos x d : 0 <= x -> 0 < d -> 0 < (x ||ₙ d).
Proof. unfold js_or. destruct (Z.eqb_spec x 0); lia. Qed.

(** ** Lists as JavaScript arrays *)

(** [arr[i] = (arr[i] || 0) + 1] for an index inside the array. *)
Definition incr_slot (i : nat) (l : list Z) : list Z :=
  match l !! i with
  | Some v => <[i := (v ||ₙ 0) + 1]> l
  | None => l
  end.

Lemma length_incr_slot i l : length (incr_slot i l) = length l.
Proof. unfold incr_slot. destruct (l !! i); [apply length_insert | done]. Qed.

Lemma incr_slot_lookup_eq i l v :
  l !! i = Some v -> incr_slot i l !! i = Some (v + 1).
Proof.
  intros H. unfold incr_slot. rewrite H, list_lookup_insert_eq.
  - unfold js_or. by destruct (Z.eqb_spec v 0); subst.
  - by eapply lookup_lt_Some.
Qed.

Lemma incr_slot_lookup_ne i j l : i <> j -> incr_slot i l !! j = l !! j.
Proof.
  intros H. unfold incr_slot. destruct (l !! i); [|done].
  by apply list_lookup_insert_ne.
Qed.

(** [arr.filter(p).length] *)
Definition count_where {A} (p : A -> bool) (l : list A) : nat :=
  length (filter (fun x => p x = true) l).

Lemma count_where_cons {A} (p : A -> bool) x l :
  count_where p (x :: l) = ((if p x then 1 else 0) + count_where p l)%nat.
Proof. unfold count_where. rewrite filter_cons. by destruct (p x). Qed.

Lemma count_where_le {A} (p : A -> bool) l : (count_where p l <= length l)%nat.
Proof. unfold count_where. apply length_filter. Qed.

Lemma count_where_length_iff {A} (p : A -> bool) l :
  count_where p l = length l <-> Forall (fun x => p x = true) l.
Proof.
  induction l as [|x l IH]; [split; auto|].
  pose proof (count_where_le p l). rewrite count_where_cons, Forall_cons_iff.
  destruct (p x) eqn:E; simpl; split; intros Hc.
  - split; [done|]. apply IH. lia.
  - f_equal. apply IH, Hc.
  - lia.
  - destruct Hc; congruence.
Qed.

Lemma count_where_0_iff {A} (p : A -> bool) l :
  count_where p l = 0%nat <-> Forall (fun x => p x = false) l.
Proof.
  induction l as [|x l IH]; [split; auto|].
  rewrite count_where_cons, Forall_cons_iff.
  destruct (p x) eqn:E; simpl; split; intros Hc.
  - lia.
  - destruct Hc; congruence.
  - split; [done|]. apply IH, Hc.
  - apply IH, Hc.
Qed.

Lemma count_where_map {A B} (p : B -> bool) (f : A -> B) l :
  count_where p (map f l) = count_where (fun x => p (f x)) l.
Proof.
  induction l as [|x l IH]; [done|]. simpl. rewrite !count_where_cons, IH. done.
Qed.

(** ** Automation *)

Create HintDb studyflow discriminated.
Create Rewrite HintDb studyflow_rw.
#[export] Hint Rewrite @exec_bind @exec_ret @exec_modify : studyflow_rw.
#[export] Hint Rewrite js_or_zero js_or_0_r length_incr_slot : studyflow_rw.
#[export] Hint Resolve js_or_pos count_where_le : studyflow.
#[export] Hint Resolve keeps_ret keeps_get keeps_bind : studyflow.

(** Case analysis on every boolean comparison of integers in the goal. *)
Ltac z_cases :=
  repeat match goal with
  | |- context [Z.eqb ?a ?b] => destruct (Z.eqb_spec a b)
  | |- context [Z.ltb ?a ?b] => destruct (Z.ltb_spec a b)
  | |- context [Z.leb ?a ?b] => destruct (Z.leb_spec a b)
  end.

(** Evaluate a state-monad computation on a symbolic state: reduce, rewrite
    with the branch conditions the context states, and split the branches
    that remain. *)
Ltac st_run :=
  repeat (cbn; first
    [ rewrite bool_decide_eq_true_2 by done
    | progress rewrite ?js_or_0_r
    | match goal with
      | H : (_ =? _) = _ |- _ => progress rewrite H
      | H : (_ <? _) = _ |- _ => progress rewrite H
      | H : (_ <=? _) = _ |- _ => progress rewrite H
      end
    | case_bool_decide
    | match goal with
      | |- context [match ?l with [] => _ | _ :: _ => _ end] =>
          lazymatch l with [] => fail | _ :: _ => fail | _ => destruct l end
      | |- context [if (?a =? ?b) then _ else _] => destruct (a =? b)
      | |- context [if (?a <? ?b) then _ else _] => destruct (a <? b)
      | |- context [if (?a <=? ?b) then _ else _] => destruct (a <=? b)
      end ]); cbn.
