(* ===== verification/StreakModal.v ===== *)
(** * StreakModal: the celebration dialog of [components/ui/StreakCelebrationModal.tsx]

    The dialog is controlled: its owner ([AuthProvider] in
    [hooks/useAuth.tsx], [SessionProvider] in [context/SessionContext.tsx])
    holds [open] and the streak shown, and receives [onOpenChange].  Its
    own state is the confetti flag, set by an effect on [open] and cleared
    by a three-second timer the effect's cleanup cancels.  [Confetti]
    keeps the flag and whether that timer is pending; the timer firing is
    an event of the owner. *)

From stdpp Require Import strings.
From S2P Require Import Prelude.

Module StreakModal.

Record Confetti := mkConfetti { showConfetti : bool; timerPending : bool }.

(** Line 21 and the effect's first run on mount (lines 23-32). *)
Definition mountConfetti (open : bool) : Confetti := mkConfetti open open.

(** Lines 23-32: the effect runs when [open] changed; React first runs the
    cleanup of its previous run ([clearTimeout], line 28), then the body:
    open starts the confetti and a timer, closed stops the confetti. *)
Definition openEffect (prevOpen open : bool) (c : Confetti) : Confetti :=
  if Bool.eqb prevOpen open then c
  else if open then mkConfetti true true else mkConfetti false false.

(** Line 27: the timer's callback. *)
Definition confettiTimeout (c : Confetti) : Confetti :=
  if timerPending c then mkConfetti false false else c.

(** Line 18. *)
Definition defaultMessage : string := "You're on fire! Keep up the great work!".

(** What the user does with the dialog: the close button, escape or a
    click outside ([onOpenChange(false)] of the dialog, line 35) and the
    "Awesome!" button (lines 80-83, [onConfirm()] then
    [onOpenChange(false)]).  Both tell the owner [false]. *)
Inductive ModalEvent := Dismiss | Awesome.

Definition onOpenChangeOf (e : ModalEvent) : bool := false.

Record ModalView := mkModalView {
  mv_confetti : bool;    (** lines 38-55 *)
  mv_count : Z;          (** line 59 *)
  mv_message : string    (** line 76 *)
}.

(** Lines 34-106: nothing is rendered while the dialog is closed. *)
Definition view (open : bool) (streakCount : Z) (message : string) (c : Confetti) : option ModalView :=
  if open then Some (mkModalView (showConfetti c) streakCount message) else None.

(** The timer is pending exactly while the confetti shows, and only while
    the dialog is open. *)
Definition confettiInv (open : bool) (c : Confetti) : Prop :=
  timerPending c = showConfetti c /\ (showConfetti c = true -> open = true).

End StreakModal.

Import StreakModal.

(** ** Theorems *)

Lemma mountConfetti_inv open : confettiInv open (mountConfetti open).
Proof. by split. Qed.

Lemma openEffect_inv prev open c :
  confettiInv prev c -> confettiInv open (openEffect prev open c).
Proof.
  unfold openEffect, confettiInv. destruct prev, open; cbn; intuition.
Qed.

Lemma confettiTimeout_inv open c : confettiInv open c -> confettiInv open (confettiTimeout c).
Proof. destruct c as [[] []]; unfold confettiTimeout, confettiInv; cbn; intuition. Qed.

(** Once the timer has fired the confetti is gone until the dialog is
    closed and opened again. *)
Lemma confetti_after_timeout open c :
  confettiInv open c -> showConfetti (confettiTimeout c) = false.
Proof. destruct c as [[] []]; unfold confettiTimeout, confettiInv; cbn; intuition. Qed.

#[export] Hint Resolve mountConfetti_inv openEffect_inv confettiTimeout_inv : studyflow.
