(* ===== verification/Clock.v ===== *)
(** * Clock: the parts of JavaScript's [Date] the providers use

    Time is [Date.now()] in milliseconds since the epoch; the local calendar
    is a fixed [getTimezoneOffset()] in minutes (daylight-saving changes are
    not modelled).  [localDay] numbers local calendar days, [getDay] is the
    weekday with Sunday = 0 (1 January 1970 was a Thursday), and two
    timestamps have the same [toDateString()] exactly when they fall on the
    same local day.  These are the library's semantics, not code of the
    repository. *)

From S2P Require Import Prelude.

Module Clock.

Definition ms_per_day : Z := 86400000.

(** Local calendar day of a timestamp, for a timezone offset in minutes
    (local time = UTC - offset). *)
Definition localDay (tzOffset t : Z) : Z := (t - tzOffset * 60000) / ms_per_day.

(** [new Date(t).getDay()] *)
Definition getDay (tzOffset t : Z) : Z := (localDay tzOffset t + 4) mod 7.

(** [a.toDateString() === b.toDateString()] *)
Definition sameDateString (tzOffset a b : Z) : bool :=
  localDay tzOffset a =? localDay tzOffset b.

Lemma getDay_range tz t : 0 <= getDay tz t < 7.
Proof. unfold getDay. apply Z.mod_pos_bound. lia. Qed.

(** A timestamp one day later falls on the next local day. *)
Lemma localDay_add_day tz t : localDay tz (t + ms_per_day) = localDay tz t + 1.
Proof.
  unfold localDay. replace (t + ms_per_day - tz * 60000) with
    ((t - tz * 60000) + 1 * ms_per_day) by lia.
  rewrite Z.div_add by (unfold ms_per_day; lia). reflexivity.
Qed.

Lemma getDay_add_week tz t : getDay tz (t + 7 * ms_per_day) = getDay tz t.
Proof.
  unfold getDay, localDay.
  replace (t + 7 * ms_per_day - tz * 60000) with ((t - tz * 60000) + 7 * ms_per_day) by lia.
  rewrite Z.div_add by (unfold ms_per_day; lia).
  replace ((t - tz * 60000) / ms_per_day + 7 + 4) with
    (((t - tz * 60000) / ms_per_day + 4) + 1 * 7) by lia.
  apply Z.mod_add. lia.
Qed.

#[export] Hint Resolve getDay_range : studyflow.

End Clock.
