(* ===== verification/Settings.v ===== *)
(** * Settings: the timer settings of [SettingsProvider]

    Models [src/src/types/index.ts] ([TimerSettings]) and the timer half of
    [src/src/context/SettingsContext.tsx]: the defaults, the partial merge
    [{ ...timerSettings, ...settings }] of [updateTimerSettings] with its
    optimistic local write and best-effort upsert, the demo-mode
    [localStorage] effect, the settings load of [initSettings], and the
    numeric inputs of [src/src/pages/SettingsPage.tsx]
    ([parseInt(e.target.value) || d]). *)

From S2P Require Import Prelude.

Module Settings.

(** ** Data *)

Record TimerSettings := mkTimerSettings {
  focus_duration : Z;
  short_break : Z;
  long_break : Z;
  sessions_before_long_break : Z;
  auto_start_breaks : bool;
  auto_start_pomodoros : bool
}.

#[export] Instance TimerSettings_eq_dec : EqDecision TimerSettings.
Proof. solve_decision. Defined.

Definition defaultTimerSettings : TimerSettings :=
  mkTimerSettings 25 5 15 4 false false.

(** [Partial<TimerSettings>]: an absent key is [None]. *)
Record TimerSettingsPatch := mkPatch {
  set_focus_duration : option Z;
  set_short_break : option Z;
  set_long_break : option Z;
  set_sessions_before_long_break : option Z;
  set_auto_start_breaks : option bool;
  set_auto_start_pomodoros : option bool
}.

Definition emptyPatch : TimerSettingsPatch :=
  mkPatch None None None None None None.

(** [{ ...timerSettings, ...settings }]: a key of the patch wins. *)
Definition mergeTimerSettings (s : TimerSettings) (p : TimerSettingsPatch)
    : TimerSettings :=
  mkTimerSettings
    (default (focus_duration s) (set_focus_duration p))
    (default (short_break s) (set_short_break p))
    (default (long_break s) (set_long_break p))
    (default (sessions_before_long_break s) (set_sessions_before_long_break p))
    (default (auto_start_breaks s) (set_auto_start_breaks p))
    (default (auto_start_pomodoros s) (set_auto_start_pomodoros p)).

(** The patch of [FocusTimer]'s [handleSaveSettings]. *)
Definition focusTimerPatch (tempFocus tempBreak : Z) : TimerSettingsPatch :=
  mkPatch (Some tempFocus) (Some tempBreak) None None None None.

(** ** The provider's state and the store it writes *)

Record SettingsWorld := mkSettingsWorld {
  timerSettings : TimerSettings;          (** React state *)
  signedIn : bool;                        (** [user] is not null *)
  loading : bool;
  remoteTimerSettings : option TimerSettings;  (** the [timer_settings] row *)
  localStorageTimerSettings : option TimerSettings;  (** parsed [timerSettings] key *)
  errorToasts : nat                       (** destructive toasts shown *)
}.

Definition set_timerSettings (t : TimerSettings) (w : SettingsWorld) :=
  mkSettingsWorld t (signedIn w) (loading w) (remoteTimerSettings w)
    (localStorageTimerSettings w) (errorToasts w).
Definition set_loading (b : bool) (w : SettingsWorld) :=
  mkSettingsWorld (timerSettings w) (signedIn w) b (remoteTimerSettings w)
    (localStorageTimerSettings w) (errorToasts w).
Definition set_remote (r : option TimerSettings) (w : SettingsWorld) :=
  mkSettingsWorld (timerSettings w) (signedIn w) (loading w) r
    (localStorageTimerSettings w) (errorToasts w).
Definition set_localStorage (r : option TimerSettings) (w : SettingsWorld) :=
  mkSettingsWorld (timerSettings w) (signedIn w) (loading w)
    (remoteTimerSettings w) r (errorToasts w).
Definition add_toast (w : SettingsWorld) :=
  mkSettingsWorld (timerSettings w) (signedIn w) (loading w)
    (remoteTimerSettings w) (localStorageTimerSettings w) (S (errorToasts w)).

(** ** Operations *)

(** [updateTimerSettings]: the local state is replaced first; when signed in,
    the upsert is attempted once ([upsert_ok] is its outcome) and a failure
    only shows the "Sync Failed" toast. *)
Definition updateTimerSettings (upsert_ok : bool) (p : TimerSettingsPatch)
    (w : SettingsWorld) : SettingsWorld :=
  let newSettings := mergeTimerSettings (timerSettings w) p in
  let w1 := set_timerSettings newSettings w in
  if signedIn w then
    if upsert_ok then set_remote (Some newSettings) w1 else add_toast w1
  else w1.

(** The effect on [[timerSettings, user]]: demo mode writes to localStorage. *)
Definition persistDemoSettings (w : SettingsWorld) : SettingsWorld :=
  if signedIn w then w
  else set_localStorage (Some (timerSettings w)) w.

(** The outcome of the settings fetch raced against the 30 s timeout. *)
Inductive FetchOutcome :=
  | FetchTimedOut
  | FetchFailed
  | FetchRows (timerRow : option TimerSettings).

(** [initSettings] (timer part).  Signed out: stop loading and adopt the
    saved demo settings.  Signed in: adopt the row, or insert the defaults
    when there is none; on a timeout or an error keep the current values and
    show a toast.  [finally] clears [loading] in every signed-in case. *)
Definition initSettings (r : FetchOutcome) (w : SettingsWorld) : SettingsWorld :=
  if negb (signedIn w) then
    let w1 := set_loading false w in
    match localStorageTimerSettings w with
    | Some saved => set_timerSettings saved w1
    | None => w1
    end
  else
    set_loading false
      (match r with
       | FetchRows (Some row) => set_timerSettings row w
       | FetchRows None => set_remote (Some defaultTimerSettings) w
       | FetchTimedOut | FetchFailed => add_toast w
       end).

(** [parseInt(e.target.value) || d] of the settings page inputs; [None] is
    the [NaN] of an unparsable input. *)
Definition parseIntOr (parsed : option Z) (d : Z) : Z :=
  match parsed with
  | Some z => z ||ₙ d
  | None => d
  end.

(** The four number inputs of the timer card. *)
Definition onFocusInput (parsed : option Z) (s : TimerSettings) : TimerSettings :=
  mergeTimerSettings s (mkPatch (Some (parseIntOr parsed 25)) None None None None None).
Definition onShortBreakInput (parsed : option Z) (s : TimerSettings) : TimerSettings :=
  mergeTimerSettings s (mkPatch None (Some (parseIntOr parsed 5)) None None None None).
Definition onLongBreakInput (parsed : option Z) (s : TimerSettings) : TimerSettings :=
  mergeTimerSettings s (mkPatch None None (Some (parseIntOr parsed 15)) None None None).
Definition onSessionsInput (parsed : option Z) (s : TimerSettings) : TimerSettings :=
  mergeTimerSettings s (mkPatch None None None (Some (parseIntOr parsed 4)) None None).

(** ** Lemmas *)

Lemma merge_empty s : mergeTimerSettings s emptyPatch = s.
Proof. by destruct s. Qed.

Lemma merge_focus s p :
  focus_duration (mergeTimerSettings s p) = default (focus_duration s) (set_focus_duration p).
Proof. reflexivity. Qed.

Lemma merge_short_break s p :
  short_break (mergeTimerSettings s p) = default (short_break s) (set_short_break p).
Proof. reflexivity. Qed.

(** Both outcomes of the upsert leave the merged settings in the state. *)
Lemma updateTimerSettings_settings ok p w :
  timerSettings (updateTimerSettings ok p w) = mergeTimerSettings (timerSettings w) p.
Proof. unfold updateTimerSettings. by destruct (signedIn w), ok. Qed.

#[export] Hint Rewrite merge_empty merge_focus merge_short_break updateTimerSettings_settings : studyflow_rw.

End Settings.
