(* ===== verification/Timer.v ===== *)
(** * Timer: the Pomodoro state machine of [TimerProvider]

    Models [src/src/context/TimerContext.tsx].  React's execution model is
    written out: a handler issues [setState] calls ([Update]s, applied in
    order to the state); when the state changed the component re-renders and
    every [useEffect] whose dependency array changed runs with the values of
    that render; its [setState] calls are batched into the next render; the
    loop stops when a commit changes nothing ([settle]).  The one-second
    interval that the countdown effect arms is the [Tick] input: it exists
    exactly while [isActive && timeLeft > 0] held at the last run of that
    effect. *)

From Stdlib Require Import QArith.
From S2P Require Import Prelude Settings.
Import Settings.

Module Timer.

(** ** State *)

Inductive Mode := Focus | Break.

#[export] Instance Mode_eq_dec : EqDecision Mode.
Proof. solve_decision. Defined.

Record TimerState := mkTimer {
  mode : Mode;
  isActive : bool;
  timeLeft : Z
}.

#[export] Instance TimerState_eq_dec : EqDecision TimerState.
Proof. solve_decision. Defined.

(** [timerSettings.focus_duration || 25] and [timerSettings.short_break || 5]. *)
Definition focusDuration (st : TimerSettings) : Z := focus_duration st ||ₙ 25.
Definition breakDuration (st : TimerSettings) : Z := short_break st ||ₙ 5.

(** [mode === 'focus' ? focusDuration * 60 : breakDuration * 60], the
    expression the provider repeats for [totalSeconds], the settings effect,
    [resetTimer] and [setMode]. *)
Definition totalSecondsFor (st : TimerSettings) (m : Mode) : Z :=
  match m with
  | Focus => focusDuration st * 60
  | Break => breakDuration st * 60
  end.

(** The three [useState] initialisers. *)
Definition initialState (st : TimerSettings) : TimerState :=
  mkTimer Focus false (focusDuration st * 60).

(** ** setState calls *)

Inductive Update :=
  | SetMode (m : Mode)
  | SetIsActive (b : bool)
  | SetTimeLeft (t : Z)
  | DecTimeLeft.  (** [setTimeLeft((prev) => prev - 1)] *)

Definition applyUpdate (s : TimerState) (u : Update) : TimerState :=
  match u with
  | SetMode m => mkTimer m (isActive s) (timeLeft s)
  | SetIsActive b => mkTimer (mode s) b (timeLeft s)
  | SetTimeLeft t => mkTimer (mode s) (isActive s) t
  | DecTimeLeft => mkTimer (mode s) (isActive s) (timeLeft s - 1)
  end.

Definition applyUpdates (us : list Update) (s : TimerState) : TimerState :=
  fold_left applyUpdate us s.

(** Calls into the session ledger. *)
Inductive Emit := AddSession (minutes : Z).

#[export] Instance Emit_eq_dec : EqDecision Emit.
Proof. solve_decision. Defined.

(** ** The two effects *)

(** Lines 32-36: when the timer is not active, re-sync [timeLeft]. *)
Definition syncEffect (st : TimerSettings) (s : TimerState) : list Update :=
  if isActive s then [] else [SetTimeLeft (totalSecondsFor st (mode s))].

Definition syncDeps (st : TimerSettings) (s : TimerState) : Z * Z * Mode * bool :=
  (focusDuration st, breakDuration st, mode s, isActive s).

(** Lines 38-68: arm the interval, or fire the completion transition. *)
Definition countdownEffect (st : TimerSettings) (s : TimerState)
    : list Update * list Emit :=
  if isActive s && (0 <? timeLeft s) then ([], [])
  else if timeLeft s =? 0 then
    if isActive s then
      match mode s with
      | Focus =>
          ([SetMode Break; SetTimeLeft (breakDuration st * 60); SetIsActive false],
           [AddSession (focusDuration st)])
      | Break =>
          ([SetMode Focus; SetTimeLeft (focusDuration st * 60); SetIsActive false], [])
      end
    else ([], [])
  else ([], []).

(** [[isActive, timeLeft, mode, focusDuration, breakDuration, addSession]];
    [addSession] is taken as stable: a new identity only re-arms the
    interval, which changes no state. *)
Definition countdownDeps (st : TimerSettings) (s : TimerState)
    : bool * Z * Mode * Z * Z :=
  (isActive s, timeLeft s, mode s, focusDuration st, breakDuration st).

(** ** Render and commit *)

(** What one render of the provider sees. *)
Record Snap := mkSnap { cfg : TimerSettings; ui : TimerState }.

#[export] Instance Snap_eq_dec : EqDecision Snap.
Proof. solve_decision. Defined.

(** An effect runs on mount ([prev = None]) and when its dependencies differ
    from the previous render's. *)
Definition depsChanged {A} `{EqDecision A} (d : Snap -> A)
    (prev : option Snap) (cur : Snap) : bool :=
  match prev with
  | None => true
  | Some p => bool_decide (d p <> d cur)
  end.

(** Effects run in declaration order; their updates are batched. *)
Definition runEffects (prev : option Snap) (cur : Snap) : list Update * list Emit :=
  let u1 :=
    if depsChanged (fun x => syncDeps (cfg x) (ui x)) prev cur
    then syncEffect (cfg cur) (ui cur) else [] in
  let '(u2, ev) :=
    if depsChanged (fun x => countdownDeps (cfg x) (ui x)) prev cur
    then countdownEffect (cfg cur) (ui cur) else ([], []) in
  (u1 ++ u2, ev).

(** Re-render while a commit changes the state; [None] when the fuel (the
    number of renders allowed) runs out. *)
Fixpoint settle (fuel : nat) (prev : option Snap) (cur : Snap)
    : option (Snap * list Emit) :=
  match fuel with
  | O => None
  | S f =>
      let '(us, ev) := runEffects prev cur in
      let s' := applyUpdates us (ui cur) in
      if bool_decide (s' = ui cur) then Some (cur, ev)
      else
        match settle f (Some cur) (mkSnap (cfg cur) s') with
        | Some (fin, ev') => Some (fin, ev ++ ev')
        | None => None
        end
  end.

Definition render_fuel : nat := 3.

(** First render of [TimerProvider]. *)
Definition mount (st : TimerSettings) : option (Snap * list Emit) :=
  settle render_fuel None (mkSnap st (initialState st)).

(** ** Handlers and inputs *)

(** The interval exists while the last countdown effect armed it. *)
Definition intervalArmed (s : TimerState) : bool := isActive s && (0 <? timeLeft s).

Definition toggleTimer (s : TimerState) : list Update :=
  [SetIsActive (negb (isActive s))].

Definition resetTimer (st : TimerSettings) (s : TimerState) : list Update :=
  [SetIsActive false; SetTimeLeft (totalSecondsFor st (mode s))].

(** The [setMode] exposed by the context (lines 83-87). *)
Definition setModeHandler (st : TimerSettings) (m : Mode) : list Update :=
  [SetMode m; SetIsActive false; SetTimeLeft (totalSecondsFor st m)].

(** The interval callback (line 41). *)
Definition intervalCallback (s : TimerState) : list Update :=
  if intervalArmed s then [DecTimeLeft] else [].

Inductive Input :=
  | Toggle
  | Reset
  | SelectMode (m : Mode)
  | Tick
  | ChangeSettings (st : TimerSettings).

(** A render happens when the handler changed the state or the settings. *)
Definition commit (cur : Snap) (st' : TimerSettings) (us : list Update)
    : option (Snap * list Emit) :=
  let next := mkSnap st' (applyUpdates us (ui cur)) in
  if bool_decide (next = cur) then Some (cur, [])
  else settle render_fuel (Some cur) next.

Definition step (cur : Snap) (i : Input) : option (Snap * list Emit) :=
  let st := cfg cur in
  let s := ui cur in
  match i with
  | Toggle => commit cur st (toggleTimer s)
  | Reset => commit cur st (resetTimer st s)
  | SelectMode m => commit cur st (setModeHandler st m)
  | Tick => commit cur st (intervalCallback s)
  | ChangeSettings st' => commit cur st' []
  end.

(** A run of inputs, collecting the calls to the ledger. *)
Fixpoint runInputs (cur : Snap) (inputs : list Input) : option (Snap * list Emit) :=
  match inputs with
  | [] => Some (cur, [])
  | i :: rest =>
      match step cur i with
      | Some (nxt, ev) =>
          match runInputs nxt rest with
          | Some (fin, ev') => Some (fin, ev ++ ev')
          | None => None
          end
      | None => None
      end
  end.

(** [progress = ((totalSeconds - timeLeft) / totalSeconds) * 100] as a
    rational. *)
Definition totalSeconds (snap : Snap) : Z := totalSecondsFor (cfg snap) (mode (ui snap)).


(** ** The shape of a commit *)

(** The two settled shapes of the provider's state: paused at the full
    duration of its mode, or running with time left. *)
Definition pausedFull (st : TimerSettings) (s : TimerState) : Prop :=
  isActive s = false /\ timeLeft s = totalSecondsFor st (mode s).

Definition running (s : TimerState) : Prop :=
  isActive s = true /\ 0 < timeLeft s.

Lemma applyUpdates_app us1 us2 s :
  applyUpdates (us1 ++ us2) s = applyUpdates us2 (applyUpdates us1 s).
Proof. apply fold_left_app. Qed.

Ltac effects_cases :=
  unfold runEffects, depsChanged, syncEffect, countdownEffect, intervalArmed in *;
  repeat (match goal with
          | o : option Snap |- _ => destruct o
          | |- context [bool_decide ?P] => case_bool_decide
          | |- context [if isActive ?s then _ else _] => destruct (isActive s) eqn:?
          | |- context [match mode ?s with _ => _ end] => destruct (mode s) eqn:?
          | b : bool |- context [if ?b then _ else _] => destruct b
          | b : bool |- context [?b && _] => destruct b
          | m : Mode |- context [match ?m with Focus => _ | Break => _ end] => destruct m
          end; simpl in * ); z_cases; simpl in *.

(** In a settled shape the effects change nothing and call nothing. *)
Lemma effects_quiet prev st s :
  pausedFull st s \/ running s ->
  applyUpdates (runEffects prev (mkSnap st s)).1 s = s /\
  (runEffects prev (mkSnap st s)).2 = [].
Proof.
  destruct s as [m a t]; unfold pausedFull, running; simpl.
  intros [[-> ->] | [-> Ht]]; effects_cases; try lia; auto.
Qed.

(** One round of effects always lands in a settled shape, or changes
    nothing. *)
Lemma effects_land prev cur :
  applyUpdates (runEffects prev cur).1 (ui cur) = ui cur \/
  pausedFull (cfg cur) (applyUpdates (runEffects prev cur).1 (ui cur)).
Proof.
  destruct cur as [st [m a t]]; unfold pausedFull; simpl.
  effects_cases; auto; right; split; reflexivity || lia.
Qed.

Lemma settle_S f prev cur :
  settle (S f) prev cur =
  let '(us, ev) := runEffects prev cur in
  let s' := applyUpdates us (ui cur) in
  if bool_decide (s' = ui cur) then Some (cur, ev)
  else
    match settle f (Some cur) (mkSnap (cfg cur) s') with
    | Some (fin, ev') => Some (fin, ev ++ ev')
    | None => None
    end.
Proof. reflexivity. Qed.

Lemma settle_quiet f prev st s :
  pausedFull st s \/ running s ->
  settle (S f) prev (mkSnap st s) = Some (mkSnap st s, []).
Proof.
  intros Hq. destruct (effects_quiet prev st s Hq) as [Hu He]. rewrite settle_S.
  destruct (runEffects prev (mkSnap st s)) as [us ev]; simpl in *; subst.
  by rewrite bool_decide_eq_true_2.
Qed.

(** With two renders of fuel, a commit is exactly one round of effects. *)
Lemma settle_one_round fuel prev cur :
  (2 <= fuel)%nat ->
  settle fuel prev cur =
  Some (mkSnap (cfg cur) (applyUpdates (runEffects prev cur).1 (ui cur)),
        (runEffects prev cur).2).
Proof.
  intros Hf. destruct fuel as [|[|f]]; [lia|lia|].
  pose proof (effects_land prev cur) as Hl. rewrite settle_S.
  destruct (runEffects prev cur) as [us ev]; cbn [fst snd] in *.
  case_bool_decide as Heq.
  - rewrite Heq. by destruct cur.
  - destruct Hl as [Hl|Hl]; [contradiction|].
    rewrite settle_quiet by auto. by rewrite app_nil_r.
Qed.

(** C39: termination of the render loop. *)
Theorem settle_total fuel prev cur :
  (2 <= fuel)%nat -> is_Some (settle fuel prev cur).
Proof. intros Hf. rewrite settle_one_round by done. eauto. Qed.

Lemma settle_total_witness :
  (2 <= 2)%nat /\
  is_Some (settle 2 None (mkSnap defaultTimerSettings (initialState defaultTimerSettings))).
Proof. split; [lia|]. exact (settle_total 2 None _ (le_n 2)). Defined.


Lemma commit_spec cur st' us :
  commit cur st' us =
  let next := mkSnap st' (applyUpdates us (ui cur)) in
  if bool_decide (next = cur) then Some (cur, [])
  else Some (mkSnap st' (applyUpdates (runEffects (Some cur) next).1 (ui next)),
             (runEffects (Some cur) next).2).
Proof.
  unfold commit. case_bool_decide; [done|].
  by rewrite settle_one_round by (unfold render_fuel; lia).
Qed.

(** ** Reachable states *)

(** Non-negative durations: [|| 25] and [|| 5] then give positive
    minutes.  This is the precondition of the specification's abstract
    timer (section 4.1), which assumes the settings boundary checked the
    durations; the settings page does not ([parseInt(..) || 25] lets a
    negative number through), so the theorems stated over [reachable]
    hold for the program only with such settings, and [reachableAny]
    below drops the assumption. *)
Definition validSettings (st : TimerSettings) : Prop :=
  0 <= focus_duration st /\ 0 <= short_break st.

Definition inputValid (i : Input) : Prop :=
  match i with
  | ChangeSettings st => validSettings st
  | _ => True
  end.

Inductive reachable : Snap -> Prop :=
  | reachable_mount st snap ev :
      validSettings st -> mount st = Some (snap, ev) -> reachable snap
  | reachable_step snap i snap' ev :
      reachable snap -> inputValid i -> step snap i = Some (snap', ev) ->
      reachable snap'.

Definition timerInv (snap : Snap) : Prop :=
  validSettings (cfg snap) /\ (pausedFull (cfg snap) (ui snap) \/ running (ui snap)).

Lemma totalSecondsFor_pos st m : validSettings st -> 0 < totalSecondsFor st m.
Proof.
  intros [Hf Hb]. unfold totalSecondsFor, focusDuration, breakDuration.
  destruct m; apply Z.mul_pos_pos; try apply js_or_pos; lia.
Qed.

Ltac deps_cases :=
  repeat match goal with
  | H : ¬ (_ ≠ _) |- _ => apply dec_stable in H
  | H : syncDeps _ _ = syncDeps _ _ |- _ => unfold syncDeps in H; simplify_eq
  | H : countdownDeps _ _ = countdownDeps _ _ |- _ => unfold countdownDeps in H; simplify_eq
  end.

Lemma step_inv snap i snap' ev :
  timerInv snap -> inputValid i -> step snap i = Some (snap', ev) -> timerInv snap'.
Proof.
  destruct snap as [st [m a t]]. unfold timerInv, pausedFull, running; simpl.
  intros [Hv Hs] Hi.
  pose proof (totalSecondsFor_pos st Focus Hv). pose proof (totalSecondsFor_pos st Break Hv).
  simpl in *.
  destruct i; unfold step, toggleTimer, resetTimer, setModeHandler, intervalCallback;
    rewrite commit_spec; cbv zeta; case_bool_decide as Heq; intros Hstep;
    injection Hstep as <- <-; simpl; (split; [assumption|]);
    destruct Hs as [[-> ->]|[-> Ht]];
    effects_cases; deps_cases; simpl in *; try lia; auto.
  all: left; split; [done|unfold totalSecondsFor; destruct m; congruence].
Qed.

Lemma mount_inv st snap ev :
  validSettings st -> mount st = Some (snap, ev) -> timerInv snap.
Proof.
  intros Hv. unfold mount. rewrite settle_one_round by (unfold render_fuel; lia).
  intros Hm; injection Hm as <- <-. split; [done|].
  left. unfold initialState; effects_cases; split; reflexivity.
Qed.

Lemma inv_reachable snap : reachable snap -> timerInv snap.
Proof.
  induction 1; [by eapply mount_inv | by eapply step_inv].
Qed.

(** With valid durations every reachable state is paused at the full
    duration of its mode or running with time left. *)
Lemma reachable_timerInv snap : reachable snap -> timerInv snap.
Proof. apply inv_reachable. Qed.

(** ** Reachable states under any settings *)

(** [parseInt(..) || 25] lets any integer through (lines 343-390 of the
    settings page): the provider can be mounted with, and given, any
    settings. *)
Inductive reachableAny : Snap -> Prop :=
  | reachableAny_mount st snap ev : mount st = Some (snap, ev) -> reachableAny snap
  | reachableAny_step snap i snap' ev :
      reachableAny snap -> step snap i = Some (snap', ev) -> reachableAny snap'.

(** Running with no time left and no interval: what a negative duration
    leads to. *)
Definition frozen (s : TimerState) : Prop := isActive s = true /\ timeLeft s < 0.

Definition timerShape (snap : Snap) : Prop :=
  pausedFull (cfg snap) (ui snap) \/ running (ui snap) \/ frozen (ui snap).

(** [x || 25] is never 0, so no mode lasts zero seconds. *)
Lemma totalSecondsFor_nonzero st m : totalSecondsFor st m <> 0.
Proof.
  unfold totalSecondsFor, focusDuration, breakDuration, js_or.
  destruct m; [destruct (Z.eqb_spec (focus_duration st) 0)|destruct (Z.eqb_spec (short_break st) 0)]; lia.
Qed.

Lemma step_shape snap i snap' ev :
  timerShape snap -> step snap i = Some (snap', ev) -> timerShape snap'.
Proof.
  destruct snap as [st [m a t]]. unfold timerShape, pausedFull, running, frozen; simpl.
  intros Hs.
  pose proof (totalSecondsFor_nonzero st Focus). pose proof (totalSecondsFor_nonzero st Break).
  simpl in *.
  destruct i; unfold step, toggleTimer, resetTimer, setModeHandler, intervalCallback;
    rewrite commit_spec; cbv zeta; case_bool_decide as Heq; intros Hstep;
    injection Hstep as <- <-; simpl;
    destruct Hs as [[-> ->]|[[-> Ht]|[-> Ht]]];
    effects_cases; deps_cases; simpl in *; try lia; auto 6.
  all: try (left; split; [done|unfold totalSecondsFor; destruct m; congruence]).
  all: try (pose proof (totalSecondsFor_nonzero st0 Focus); pose proof (totalSecondsFor_nonzero st0 Break);
            unfold totalSecondsFor in *; simpl in *; lia).
Qed.

Lemma mount_shape st snap ev : mount st = Some (snap, ev) -> timerShape snap.
Proof.
  unfold mount. rewrite settle_one_round by (unfold render_fuel; lia).
  intros Hm; injection Hm as <- <-.
  left. unfold initialState; effects_cases; split; reflexivity.
Qed.

(** C4: under any settings the page lets through, every reachable state
    of the provider is paused at the full duration of its mode, running
    with time left, or active and frozen below zero (the state a negative
    duration leads to); an active timer never sits at 0. *)
Theorem reachable_timerShape snap : reachableAny snap -> timerShape snap.
Proof. induction 1; [by eapply mount_shape | by eapply step_shape]. Qed.

(** A focus duration of -5 typed on the settings page, then Start: the
    provider is frozen at -300 seconds. *)
Lemma reachable_timerShape_witness :
  reachableAny (mkSnap (onFocusInput (Some (-5)) defaultTimerSettings) (mkTimer Focus true (-300))) /\
  timerShape (mkSnap (onFocusInput (Some (-5)) defaultTimerSettings) (mkTimer Focus true (-300))).
Proof.
  assert (H : reachableAny (mkSnap (onFocusInput (Some (-5)) defaultTimerSettings) (mkTimer Focus true (-300)))).
  { apply (reachableAny_step (mkSnap (onFocusInput (Some (-5)) defaultTimerSettings)
             (initialState (onFocusInput (Some (-5)) defaultTimerSettings))) Toggle _ []).
    - apply (reachableAny_mount (onFocusInput (Some (-5)) defaultTimerSettings) _ []). vm_compute. reflexivity.
    - vm_compute. reflexivity. }
  split; [exact H|]. exact (reachable_timerShape _ H).
Defined.

(** The first render with the default settings. *)
Definition demoStart : Snap := mkSnap defaultTimerSettings (initialState defaultTimerSettings).

Lemma demoStart_reachable : reachable demoStart.
Proof.
  apply (reachable_mount defaultTimerSettings demoStart []); [split; simpl; lia|].
  vm_compute. reflexivity.
Qed.

Lemma demoRunning_reachable :
  reachable (mkSnap defaultTimerSettings (mkTimer Focus true 1500)).
Proof.
  apply (reachable_step demoStart Toggle _ [] demoStart_reachable I).
  vm_compute. reflexivity.
Qed.

Lemma reachable_timerInv_witness : reachable demoStart /\ timerInv demoStart.
Proof.
  split; [exact demoStart_reachable|]. exact (reachable_timerInv demoStart demoStart_reachable).
Defined.


Lemma totalSecondsFor_deps st st' m :
  focusDuration st = focusDuration st' -> breakDuration st = breakDuration st' ->
  totalSecondsFor st m = totalSecondsFor st' m.
Proof. intros Hf Hb. destruct m; simpl; congruence. Qed.

(** ** The abstract timer of the specification *)

(** Section 4.1 of the specification: [toggle] only flips [isRunning];
    [tick] counts down and fires the completion transition at 0; a settings
    change resizes the countdown only while paused. *)
Definition specStep (snap : Snap) (i : Input) : Snap * list Emit :=
  let st := cfg snap in
  let s := ui snap in
  match i with
  | Toggle => (mkSnap st (mkTimer (mode s) (negb (isActive s)) (timeLeft s)), [])
  | Reset => (mkSnap st (mkTimer (mode s) false (totalSecondsFor st (mode s))), [])
  | SelectMode m => (mkSnap st (mkTimer m false (totalSecondsFor st m)), [])
  | Tick =>
      if isActive s then
        if timeLeft s - 1 =? 0 then
          match mode s with
          | Focus => (mkSnap st (mkTimer Break false (totalSecondsFor st Break)),
                      [AddSession (focusDuration st)])
          | Break => (mkSnap st (mkTimer Focus false (totalSecondsFor st Focus)), [])
          end
        else (mkSnap st (mkTimer (mode s) true (timeLeft s - 1)), [])
      else (snap, [])
  | ChangeSettings st' =>
      if isActive s then (mkSnap st' s, [])
      else (mkSnap st' (mkTimer (mode s) false (totalSecondsFor st' (mode s))), [])
  end.

(** Pausing: [Toggle] on a running timer. *)
Definition isPause (snap : Snap) (i : Input) : bool :=
  match i with Toggle => isActive (ui snap) | _ => false end.

Lemma step_refines snap i :
  timerInv snap -> inputValid i -> isPause snap i = false ->
  step snap i = Some (specStep snap i).
Proof.
  destruct snap as [st [m a t]]. unfold timerInv, pausedFull, running; simpl.
  intros [Hv Hs] Hi Hp.
  pose proof (totalSecondsFor_pos st Focus Hv). pose proof (totalSecondsFor_pos st Break Hv).
  simpl in *.
  destruct Hs as [[-> ->]|[-> Ht]];
  destruct i; simpl in Hp; try discriminate;
    unfold step, toggleTimer, resetTimer, setModeHandler, intervalCallback, intervalArmed;
    simpl; z_cases; simpl;
    rewrite commit_spec; cbv zeta; case_bool_decide as Heq; simplify_eq;
    effects_cases; deps_cases; simpl in *; try lia; auto.
  all: rewrite (totalSecondsFor_deps st st0 m) by congruence; reflexivity.
Qed.

(** C5: refinement.  On every reachable state and every input except
    pausing, one step of the React provider is the step of the
    specification's abstract timer. *)
Theorem reachable_refines_spec snap i :
  reachable snap -> inputValid i -> isPause snap i = false ->
  step snap i = Some (specStep snap i).
Proof. intros Hr. apply step_refines, inv_reachable, Hr. Qed.

Lemma reachable_refines_spec_witness :
  step demoStart Tick = Some (specStep demoStart Tick) /\
  step (mkSnap defaultTimerSettings (mkTimer Focus true 1500)) Tick =
  Some (specStep (mkSnap defaultTimerSettings (mkTimer Focus true 1500)) Tick).
Proof.
  split.
  - exact (reachable_refines_spec demoStart Tick demoStart_reachable I eq_refl).
  - exact (reachable_refines_spec _ Tick demoRunning_reachable I eq_refl).
Defined.

Lemma pause_step snap :
  timerInv snap -> isActive (ui snap) = true ->
  step snap Toggle =
  Some (mkSnap (cfg snap)
          (mkTimer (mode (ui snap)) false (totalSecondsFor (cfg snap) (mode (ui snap)))), []).
Proof.
  destruct snap as [st [m a t]]. unfold timerInv, pausedFull, running; simpl.
  intros [Hv Hs] ->. unfold step, toggleTimer. rewrite commit_spec; cbv zeta.
  case_bool_decide as Heq; simplify_eq. effects_cases; deps_cases; simpl in *; auto.
Qed.

(** C1: pausing discards the progress.  [toggleTimer] on a running timer
    sets [isActive] to false, which changes a dependency of the settings
    effect; that effect then sees [!isActive] and resets [timeLeft] to the
    full duration.  A paused timer therefore always restarts from the full
    duration, where the specification's [toggle] keeps [secondsRemaining]. *)
Theorem pause_discards_progress snap :
  reachable snap -> isActive (ui snap) = true ->
  step snap Toggle = Some (specStep (specStep snap Toggle).1 Reset) /\
  (timeLeft (ui snap) < totalSeconds snap -> step snap Toggle <> Some (specStep snap Toggle)).
Proof.
  intros Hr Ha. rewrite (pause_step snap (inv_reachable snap Hr) Ha).
  destruct snap as [st [m a t]]; simpl in *; subst a. split; [reflexivity|].
  unfold totalSeconds; simpl. intros Hlt [=]. lia.
Qed.

Lemma pause_discards_progress_witness :
  let snap := mkSnap defaultTimerSettings (mkTimer Focus true 1500) in
  step snap Toggle = Some (specStep (specStep snap Toggle).1 Reset).
Proof.
  exact (proj1 (pause_discards_progress _ demoRunning_reachable eq_refl)).
Defined.

(** ** Runs of inputs *)

Lemma runInputs_app cur l1 l2 :
  runInputs cur (l1 ++ l2) =
  match runInputs cur l1 with
  | Some (mid, e1) =>
      match runInputs mid l2 with
      | Some (fin, e2) => Some (fin, e1 ++ e2)
      | None => None
      end
  | None => None
  end.
Proof.
  revert cur. induction l1 as [|i l1 IH]; intros cur; simpl.
  - by destruct (runInputs cur l2) as [[]|].
  - destruct (step cur i) as [[nxt e]|]; [|done]. rewrite IH.
    destruct (runInputs nxt l1) as [[mid e1]|]; [|done].
    destruct (runInputs mid l2) as [[fin e2]|]; [|done]. by rewrite app_assoc.
Qed.

Lemma runInputs_single cur i : runInputs cur [i] = match step cur i with
  | Some (nxt, e) => Some (nxt, e ++ []) | None => None end.
Proof. reflexivity. Qed.

Lemma toggle_start st m t :
  0 < t -> step (mkSnap st (mkTimer m false t)) Toggle = Some (mkSnap st (mkTimer m true t), []).
Proof.
  intros Ht. unfold step, toggleTimer. rewrite commit_spec; cbv zeta.
  case_bool_decide; simplify_eq. effects_cases; try lia; auto.
Qed.

Lemma tick_running st m t :
  1 < t -> step (mkSnap st (mkTimer m true t)) Tick = Some (mkSnap st (mkTimer m true (t - 1)), []).
Proof.
  intros Ht. unfold step, intervalCallback, intervalArmed; simpl; z_cases; [|lia].
  rewrite commit_spec; cbv zeta. case_bool_decide; simplify_eq; [lia|].
  effects_cases; deps_cases; try lia; auto.
Qed.

Lemma tick_one st m :
  step (mkSnap st (mkTimer m true 1)) Tick =
  Some (match m with
        | Focus => (mkSnap st (mkTimer Break false (breakDuration st * 60)),
                    [AddSession (focusDuration st)])
        | Break => (mkSnap st (mkTimer Focus false (focusDuration st * 60)), [])
        end).
Proof.
  unfold step, intervalCallback, intervalArmed; simpl.
  rewrite commit_spec; cbv zeta. case_bool_decide; simplify_eq.
  destruct m; effects_cases; deps_cases; auto.
Qed.

(** C27: the completion transition.  One tick at [timeLeft = 1] of a running
    focus interval stops the timer in break mode at the full break
    duration and calls [addSession(focusDuration)] exactly once; the end of
    a break returns to a stopped focus interval and calls nothing. *)
Theorem tick_completion st m :
  step (mkSnap st (mkTimer m true 1)) Tick =
  Some (match m with
        | Focus => (mkSnap st (mkTimer Break false (breakDuration st * 60)),
                    [AddSession (focusDuration st)])
        | Break => (mkSnap st (mkTimer Focus false (focusDuration st * 60)), [])
        end).
Proof. apply tick_one. Qed.

Lemma count_down st m (n : nat) t :
  Z.of_nat n < t ->
  runInputs (mkSnap st (mkTimer m true t)) (repeat Tick n) =
  Some (mkSnap st (mkTimer m true (t - Z.of_nat n)), []).
Proof.
  revert t. induction n as [|n IH]; intros t Hn; cbn [repeat runInputs].
  - by rewrite Z.sub_0_r.
  - rewrite tick_running by lia. rewrite IH by lia. cbn [app].
    by replace (t - 1 - Z.of_nat n) with (t - Z.of_nat (S n)) by lia.
Qed.

(** Countdown.  While running, [n] ticks with [n < timeLeft] lower
    [timeLeft] by exactly [n] and call nothing. *)
Theorem ticks_count_down st m (n : nat) t :
  Z.of_nat n < t ->
  runInputs (mkSnap st (mkTimer m true t)) (repeat Tick n) =
  Some (mkSnap st (mkTimer m true (t - Z.of_nat n)), []).
Proof. apply count_down. Qed.

Lemma ticks_count_down_witness :
  Z.of_nat 100 < 1500 /\
  runInputs (mkSnap defaultTimerSettings (mkTimer Focus true 1500)) (repeat Tick 100) =
  Some (mkSnap defaultTimerSettings (mkTimer Focus true (1500 - Z.of_nat 100)), []).
Proof.
  split; [lia|]. exact (ticks_count_down defaultTimerSettings Focus 100 1500 ltac:(lia)).
Defined.

(** C34: liveness of a focus interval.  From a paused focus interval at its
    full duration, starting the timer and letting the interval fire
    [focusDuration * 60] times completes the session: the timer stops in
    break mode and [addSession(focusDuration)] is called exactly once. *)
Theorem focus_session_completes st :
  validSettings st ->
  runInputs (mkSnap st (mkTimer Focus false (focusDuration st * 60)))
    (Toggle :: repeat Tick (Z.to_nat (focusDuration st * 60))) =
  Some (mkSnap st (mkTimer Break false (breakDuration st * 60)),
        [AddSession (focusDuration st)]).
Proof.
  intros Hv. pose proof (totalSecondsFor_pos st Focus Hv) as Hp; simpl in Hp.
  remember (focusDuration st * 60) as T eqn:HT.
  replace (Z.to_nat T) with (Z.to_nat (T - 1) + 1)%nat by lia.
  rewrite repeat_app. change (Toggle :: repeat Tick (Z.to_nat (T - 1)) ++ repeat Tick 1)
    with ([Toggle] ++ repeat Tick (Z.to_nat (T - 1)) ++ [Tick]).
  rewrite runInputs_app, runInputs_single, toggle_start by lia. simpl.
  rewrite runInputs_app, count_down by lia.
  rewrite runInputs_single. replace (T - Z.of_nat (Z.to_nat (T - 1))) with 1 by lia.
  rewrite tick_one. reflexivity.
Qed.

Lemma focus_session_completes_witness :
  validSettings defaultTimerSettings /\
  runInputs (mkSnap defaultTimerSettings (mkTimer Focus false 1500))
    (Toggle :: repeat Tick 1500) =
  Some (mkSnap defaultTimerSettings (mkTimer Break false 300), [AddSession 25]).
Proof.
  assert (Hv : validSettings defaultTimerSettings) by (split; simpl; lia).
  split; [exact Hv|]. exact (focus_session_completes defaultTimerSettings Hv).
Defined.

(** ** Durations the settings boundary does not reject *)

(** Ticks without an armed interval do nothing. *)
Lemma ticks_unarmed snap (n : nat) :
  intervalArmed (ui snap) = false -> runInputs snap (repeat Tick n) = Some (snap, []).
Proof.
  intros Ha. induction n as [|n IH]; [done|]. cbn [repeat runInputs].
  unfold step at 1, intervalCallback. rewrite Ha. rewrite commit_spec; cbv zeta.
  rewrite bool_decide_eq_true_2 by (by destruct snap as [? []]). by rewrite IH.
Qed.

(** C35: a negative focus duration freezes the timer.  The settings page
    keeps [parseInt(value) || 25], which lets a typed negative number
    through; the provider then starts a countdown at a negative [timeLeft]:
    the interval is never armed ([timeLeft > 0] fails) and the completion
    branch never fires ([timeLeft === 0] fails), so no number of ticks ever
    completes a session. *)
Theorem negative_focus_freezes_timer s0 z (n : nat) :
  z < 0 ->
  let st := onFocusInput (Some z) s0 in
  runInputs (mkSnap st (initialState st)) (Toggle :: repeat Tick n) =
  Some (mkSnap st (mkTimer Focus true (z * 60)), []).
Proof.
  intros Hz st.
  assert (Hf : focusDuration st = z).
  { unfold st, focusDuration, onFocusInput, parseIntOr; simpl.
    rewrite !(js_or_nonzero z 25) by lia. reflexivity. }
  unfold initialState. rewrite Hf. cbn [runInputs].
  unfold step at 1, toggleTimer. rewrite commit_spec; cbv zeta.
  case_bool_decide; simplify_eq. effects_cases; deps_cases; try lia. simpl.
  rewrite ticks_unarmed; [done|]. unfold intervalArmed; simpl. z_cases; [lia|done].
Qed.

Lemma negative_focus_freezes_timer_witness :
  -5 < 0 /\
  runInputs (mkSnap (onFocusInput (Some (-5)) defaultTimerSettings)
               (initialState (onFocusInput (Some (-5)) defaultTimerSettings)))
    (Toggle :: repeat Tick 3) =
  Some (mkSnap (onFocusInput (Some (-5)) defaultTimerSettings) (mkTimer Focus true (-300)), []).
Proof.
  split; [lia|]. exact (negative_focus_freezes_timer defaultTimerSettings (-5) 3 ltac:(lia)).
Defined.

(** [progress] of the provider, as a rational. *)
Definition progress (snap : Snap) : Q :=
  (inject_Z (totalSeconds snap - timeLeft (ui snap)) / inject_Z (totalSeconds snap))
  * inject_Z 100.

Definition shortFocus : TimerSettings := mergeTimerSettings defaultTimerSettings (focusTimerPatch 5 5).

(** C36: the progress ring can go below 0%.  Lowering the focus duration
    while a focus interval runs does not resize the countdown (as the
    specification asks), so [timeLeft] exceeds [totalSeconds] and
    [progress] is negative in a reachable state; the specification's
    invariant [secondsRemaining <= duration * 60] does not hold. *)
Theorem progress_negative_reachable :
  exists snap, reachable snap /\ totalSeconds snap < timeLeft (ui snap) /\ (progress snap < 0)%Q.
Proof.
  assert (Hv : validSettings defaultTimerSettings) by (split; simpl; lia).
  assert (Hv' : validSettings shortFocus) by (split; simpl; lia).
  pose proof demoRunning_reachable as H1.
  exists (mkSnap shortFocus (mkTimer Focus true 1500)). split; [|vm_compute; split; reflexivity].
  apply (reachable_step _ (ChangeSettings shortFocus) _ [] H1 Hv'). vm_compute. reflexivity.
Qed.

End Timer.
