(* ===== verification/Store.v ===== *)
(** * Store: the Supabase tables the providers read and write

    The providers talk to three tables: [profiles] (one row per user, with
    [total_study_minutes], [streak_days], [last_active_date]),
    [study_sessions] (append-only rows) and [timer_settings].  The model
    keeps the rows of the signed-in user.  Every remote call of a provider
    is one [call]: it consumes one entry of a fault schedule; a failing call
    changes nothing and yields what the client yields on error ([data] is
    [null]), since the providers destructure [{ data }] and do not throw.

    A provider's state is any type with a [Backend] instance: the interface
    says where the store (of any table type [D]) and the fault schedule live
    in it, with the laws the generic lemmas need.  The task provider
    ([TaskStore]) uses it with its own tables. *)

From S2P Require Import Prelude Settings.
Import Settings.

Module Store.

Record Profile := mkProfile {
  total_study_minutes : Z;
  streak_days : Z;
  last_active_date : option Z   (** a timestamp in ms *)
}.

Record SessionRow := mkRow {
  focus_minutes : Z;
  duration_seconds : Z;
  completed_at : Z;
  created_at : Z                (** set by the database to [now()] *)
}.

Record Db := mkDb {
  profile : option Profile;
  study_sessions : list SessionRow;
  timer_settings_row : option TimerSettings
}.

Definition set_profile (p : option Profile) (d : Db) : Db :=
  mkDb p (study_sessions d) (timer_settings_row d).
Definition set_study_sessions (rs : list SessionRow) (d : Db) : Db :=
  mkDb (profile d) rs (timer_settings_row d).
Definition set_timer_settings_row (t : option TimerSettings) (d : Db) : Db :=
  mkDb (profile d) (study_sessions d) t.

Definition with_total (v : Z) (p : Profile) : Profile :=
  mkProfile v (streak_days p) (last_active_date p).
Definition with_streak (v : Z) (p : Profile) : Profile :=
  mkProfile (total_study_minutes p) v (last_active_date p).
Definition with_streak_and_date (v t : Z) (p : Profile) : Profile :=
  mkProfile (total_study_minutes p) v (Some t).

(** ** The interface of a provider's state *)

Class Backend (D W : Type) := {
  db_of : W -> D;
  with_db : D -> W -> W;
  faults_of : W -> list bool;
  with_faults : list bool -> W -> W;
  db_with_db d w : db_of (with_db d w) = d;
  db_with_faults fs w : db_of (with_faults fs w) = db_of w;
  faults_with_db d w : faults_of (with_db d w) = faults_of w;
  faults_with_faults fs w : faults_of (with_faults fs w) = fs
}.

Section Calls.
Context {D W : Type} `{Backend D W}.

(** One awaited Supabase request. *)
Definition call {A} (dflt : A) (op : D -> A * D) : St W A := fun w =>
  match faults_of w with
  | true :: fs => (dflt, with_faults fs w)
  | false :: fs => let '(a, d) := op (db_of w) in (a, with_db d (with_faults fs w))
  | [] => let '(a, d) := op (db_of w) in (a, with_db d w)
  end.

(** Without faults a call is the operation on the store. *)
Lemma call_ok {A} (dflt : A) op w fs :
  faults_of w = false :: fs ->
  call dflt op w = ((op (db_of w)).1, with_db (op (db_of w)).2 (with_faults fs w)).
Proof. intros Hf. unfold call. rewrite Hf. by destruct (op (db_of w)). Qed.

Lemma call_fail {A} (dflt : A) op w fs :
  faults_of w = true :: fs -> call dflt op w = (dflt, with_faults fs w).
Proof. intros Hf. unfold call. by rewrite Hf. Qed.

(** A call leaves every part of the state outside the store and the fault
    schedule alone. *)
Lemma keeps_call {X A} (f : W -> X) (dflt : A) op :
  (forall d w, f (with_db d w) = f w) -> (forall fs w, f (with_faults fs w) = f w) ->
  keeps (same f) (call dflt op).
Proof.
  intros Hd Hf w. unfold same, call.
  destruct (faults_of w) as [|[|] fs]; try destruct (op (db_of w)); simpl;
    rewrite ?Hd, ?Hf; reflexivity.
Qed.

End Calls.

(** One step of a frame proof [keeps R c] over the monad's combinators. *)
Ltac keeps_step :=
  match goal with
  | |- keeps _ (_ ≫= _) => apply keeps_bind; [typeclasses eauto| |intros ?]
  | |- keeps _ (mret _) => apply keeps_ret; typeclasses eauto
  | |- keeps _ st_get => apply keeps_get; typeclasses eauto
  | |- keeps _ (call _ _) => apply keeps_call; intros; reflexivity
  | |- keeps _ (st_modify _) => apply keeps_modify; intros; reflexivity
  | |- keeps _ (match ?x with _ => _ end) => destruct x
  | |- keeps _ (if ?b then _ else _) => destruct b
  end.

Section ProfileCalls.
Context {W : Type} `{Backend Db W}.

(** [.from('profiles').select(...).eq('user_id', id).single()] *)
Definition selectProfile : St W (option Profile) := call None (fun d => (profile d, d)).

(** [.from('profiles').update(f).eq('user_id', id)]: no row, no change. *)
Definition updateProfile (f : Profile -> Profile) : St W unit :=
  call tt (fun d => (tt, set_profile (f <$> profile d) d)).

(** [.from('profiles').upsert(row, { onConflict: 'user_id' })] *)
Definition upsertProfile (p : Profile) : St W unit :=
  call tt (fun d => (tt, set_profile (Some p) d)).

(** [.from('study_sessions').insert(row)] *)
Definition insertSession (r : SessionRow) : St W unit :=
  call tt (fun d => (tt, set_study_sessions (study_sessions d ++ [r]) d)).

(** [.from('study_sessions').select(...).eq('user_id', id).gte('created_at', since)] *)
Definition selectSessionsSince (since : Z) : St W (option (list SessionRow)) :=
  call None (fun d => (Some (filter (fun r => since <=? created_at r) (study_sessions d)), d)).

(** [.from('timer_settings').select('id').eq('user_id', id).maybeSingle()] *)
Definition selectTimerSettings : St W (option TimerSettings) :=
  call None (fun d => (timer_settings_row d, d)).

(** [.from('timer_settings').upsert({ user_id })]: the column defaults. *)
Definition upsertTimerSettingsDefaults : St W unit :=
  call tt (fun d => (tt, set_timer_settings_row (Some defaultTimerSettings) d)).

End ProfileCalls.

End Store.
