(* ===== verification/Ledger.v ===== *)
(** * Ledger: the session and streak ledger of [SessionProvider]

    Models [src/src/context/SessionContext.tsx].  The provider's React state
    ([LedgerState]) lives in a [World] with the Supabase store (through the
    [Store.Backend] interface), the fault schedule of the remote calls, the
    signed-in user, the clock and the two demo-mode [localStorage] keys.
    Each async function is a computation of [St World]; its awaits run in
    order.  The [useEffect] on [[totalMinutes, user]] runs after the render
    a [setTotalMinutes] causes: [renderEffects] runs it when [totalMinutes]
    changed, at the first await of the caller, which is where React renders. *)

From S2P Require Import Prelude Clock Settings Store.
Import Clock Store.

Module Ledger.

(** ** State *)

Record LedgerState := mkLedger {
  sessions : list Z;            (** Monday = 0 ... Sunday = 6 *)
  totalMinutes : Z;
  previousUserId : option Z;
  accumulatedMinutes : Z;
  showStreakModal : bool;
  newStreakValue : Z
}.

Definition emptyWeek : list Z := [0; 0; 0; 0; 0; 0; 0].

Definition initialLedger : LedgerState := mkLedger emptyWeek 0 None 0 false 0.

Record World := mkWorld {
  ledger : LedgerState;
  store : Db;
  faults : list bool;
  user : option Z;              (** the id of [user], or [null] *)
  now : Z;
  tzOffset : Z;
  lsWeekly : option (list Z);   (** localStorage 'weeklyFocusSessions' *)
  lsTotal : option Z            (** localStorage 'totalFocusMinutes' *)
}.

#[export] Instance World_backend : Backend Db World := {
  db_of := store;
  with_db d w := mkWorld (ledger w) d (faults w) (user w) (now w) (tzOffset w) (lsWeekly w) (lsTotal w);
  faults_of := faults;
  with_faults fs w := mkWorld (ledger w) (store w) fs (user w) (now w) (tzOffset w) (lsWeekly w) (lsTotal w);
  db_with_db _ _ := eq_refl;
  db_with_faults _ _ := eq_refl;
  faults_with_db _ _ := eq_refl;
  faults_with_faults _ _ := eq_refl
}.

Definition modifyLedger (f : LedgerState -> LedgerState) : St World unit :=
  st_modify (fun w => mkWorld (f (ledger w)) (store w) (faults w) (user w) (now w)
                        (tzOffset w) (lsWeekly w) (lsTotal w)).

Definition set_sessions (v : list Z) (l : LedgerState) : LedgerState :=
  mkLedger v (totalMinutes l) (previousUserId l) (accumulatedMinutes l) (showStreakModal l) (newStreakValue l).
Definition set_totalMinutes (v : Z) (l : LedgerState) : LedgerState :=
  mkLedger (sessions l) v (previousUserId l) (accumulatedMinutes l) (showStreakModal l) (newStreakValue l).
Definition set_previousUserId (v : option Z) (l : LedgerState) : LedgerState :=
  mkLedger (sessions l) (totalMinutes l) v (accumulatedMinutes l) (showStreakModal l) (newStreakValue l).
Definition set_accumulatedMinutes (v : Z) (l : LedgerState) : LedgerState :=
  mkLedger (sessions l) (totalMinutes l) (previousUserId l) v (showStreakModal l) (newStreakValue l).
(** [setNewStreakValue(v); setShowStreakModal(true)] *)
Definition show_streak (v : Z) (l : LedgerState) : LedgerState :=
  mkLedger (sessions l) (totalMinutes l) (previousUserId l) (accumulatedMinutes l) true v.

Definition set_lsWeekly (v : list Z) (w : World) : World :=
  mkWorld (ledger w) (store w) (faults w) (user w) (now w) (tzOffset w) (Some v) (lsTotal w).
Definition set_lsTotal (v : Z) (w : World) : World :=
  mkWorld (ledger w) (store w) (faults w) (user w) (now w) (tzOffset w) (lsWeekly w) (Some v).

(** ** Weekly buckets *)

(** [getDay() === 0 ? 6 : getDay() - 1]: Monday-first index. *)
Definition dayIndexOf (day : Z) : nat := Z.to_nat (if day =? 0 then 6 else day - 1).

(** The [forEach] of [fetchSessions]: a row counts for its weekday when it
    lasted at least 120 minutes. *)
Definition bucketSessions (tz : Z) (rows : list SessionRow) : list Z :=
  fold_left (fun acc r =>
      if 120 * 60 <=? duration_seconds r
      then incr_slot (dayIndexOf (getDay tz (created_at r))) acc
      else acc) rows emptyWeek.

(** ** Operations *)

Definition fetchSessions : St World unit :=
  w ← st_get;
  match user w with
  | None => mret ()
  | Some _ =>
      p ← selectProfile;
      (match p with
       | Some p => modifyLedger (set_totalMinutes (total_study_minutes p ||ₙ 0))
       | None => mret ()
       end);;
      rows ← selectSessionsSince (now w - 7 * ms_per_day);
      match rows with
      | Some (r :: rs) => modifyLedger (set_sessions (bucketSessions (tzOffset w) (r :: rs)))
      | _ => modifyLedger (set_sessions emptyWeek)
      end
  end.

Definition updateProfileStudyTime (minutes : Z) : St World unit :=
  w ← st_get;
  match user w with
  | None => mret ()
  | Some _ =>
      p ← selectProfile;
      let currentTotal := match p with Some p => total_study_minutes p ||ₙ 0 | None => 0 end in
      if 0 <? minutes then updateProfile (with_total (currentTotal + minutes)) else mret ()
  end.

Definition incrementStreak : St World unit :=
  w ← st_get;
  match user w with
  | None => mret ()
  | Some _ =>
      p ← selectProfile;
      match p with
      | Some p =>
          let nextStreak := (streak_days p ||ₙ 0) + 1 in
          updateProfile (with_streak nextStreak);;
          modifyLedger (show_streak nextStreak)
      | None => mret ()
      end
  end.

(** The effect on [[totalMinutes, user]] (demo mode: localStorage). *)
Definition totalMinutesEffect : St World unit :=
  w ← st_get;
  match user w with
  | None => st_modify (set_lsTotal (totalMinutes (ledger w)))
  | Some _ => updateProfileStudyTime (totalMinutes (ledger w))
  end.

(** The effect on [[sessions, user]]. *)
Definition sessionsEffect : St World unit :=
  w ← st_get;
  match user w with
  | None => st_modify (set_lsWeekly (sessions (ledger w)))
  | Some _ => mret ()
  end.

(** The render after a state change: effects whose dependency changed. *)
Definition renderEffects (prevTotal : Z) (prevSessions : list Z) : St World unit :=
  w ← st_get;
  (if totalMinutes (ledger w) =? prevTotal then mret () else totalMinutesEffect);;
  (if bool_decide (sessions (ledger w) = prevSessions) then mret () else sessionsEffect).

(** [addSession]; [afterRender] is what React runs at the first await. *)
Definition addSession (afterRender : St World unit) (minutes : Z) : St World unit :=
  w ← st_get;
  let dayIndex := dayIndexOf (getDay (tzOffset w) (now w)) in
  let newTotalMinutes := totalMinutes (ledger w) + minutes in
  modifyLedger (set_totalMinutes newTotalMinutes);;
  afterRender;;
  (match user w with Some _ => incrementStreak | None => mret () end);;
  modifyLedger (set_accumulatedMinutes 0);;
  (match user w with
   | Some _ =>
       insertSession (mkRow minutes (minutes * 60) (now w) (now w));;
       updateProfileStudyTime newTotalMinutes
   | None => mret ()
   end);;
  if 120 <=? minutes
  then modifyLedger (fun l => set_sessions (incr_slot dayIndex (sessions l)) l)
  else mret ().

(** A completed session as the app runs it: [addSession] with the render
    its [setTotalMinutes] causes, then the render of its [setSessions]. *)
Definition recordSession (minutes : Z) : St World unit :=
  w ← st_get;
  let t0 := totalMinutes (ledger w) in
  let s0 := sessions (ledger w) in
  addSession (renderEffects t0 s0) minutes;;
  w' ← st_get;
  if bool_decide (sessions (ledger w') = s0) then mret () else sessionsEffect.

Definition getCurrentStreak (l : LedgerState) : nat := count_where (fun s => 0 <? s) (sessions l).

(** The effect on [[user, authLoading, previousUserId]] (lines 25-40);
    [fetchSessions()] is not awaited and [setPreviousUserId] runs first. *)
Definition onAuthState (authLoading : bool) : St World unit :=
  w ← st_get;
  if authLoading then mret () else
  match user w with
  | Some uid =>
      if bool_decide (previousUserId (ledger w) = Some uid) then mret ()
      else modifyLedger (set_previousUserId (Some uid));; fetchSessions
  | None =>
      match previousUserId (ledger w) with
      | None => mret ()
      | Some _ => modifyLedger (fun l => set_previousUserId None (set_totalMinutes 0 (set_sessions emptyWeek l)))
      end
  end.

(** Sign-in or reload: the auth effect and the render that follows it. *)
Definition loadForUser : St World unit :=
  w ← st_get;
  onAuthState false;;
  renderEffects (totalMinutes (ledger w)) (sessions (ledger w)).

(** ** Frame lemmas *)

Definition totalOf (w : World) : Z := totalMinutes (ledger w).
Definition sessionsOf (w : World) : list Z := sessions (ledger w).

Ltac keeps_tac :=
  unfold selectProfile, updateProfile, insertSession, selectSessionsSince in *;
  repeat match goal with
  | |- keeps _ (_ ≫= _) => apply keeps_bind; [typeclasses eauto| |intros ?]
  | |- keeps _ (mret _) => apply keeps_ret; typeclasses eauto
  | |- keeps _ st_get => apply keeps_get; typeclasses eauto
  | |- keeps _ (call _ _) => apply keeps_call; intros; reflexivity
  | |- keeps _ (st_modify _) => apply keeps_modify; intros; reflexivity
  | |- keeps _ (modifyLedger _) => apply keeps_modify; intros; reflexivity
  | |- keeps _ (match ?x with _ => _ end) => destruct x
  | |- keeps _ (if ?b then _ else _) => destruct b
  end.

Lemma updateProfileStudyTime_keeps m : keeps (same ledger) (updateProfileStudyTime m).
Proof. unfold updateProfileStudyTime. keeps_tac. Qed.

Lemma incrementStreak_keeps_total : keeps (same totalOf) incrementStreak.
Proof. unfold incrementStreak. keeps_tac. Qed.

Lemma incrementStreak_keeps_sessions : keeps (same sessionsOf) incrementStreak.
Proof. unfold incrementStreak. keeps_tac. Qed.

Lemma totalMinutesEffect_keeps : keeps (same ledger) totalMinutesEffect.
Proof.
  unfold totalMinutesEffect. apply keeps_bind; [typeclasses eauto|apply keeps_get; typeclasses eauto|].
  intros w. destruct (user w); [apply updateProfileStudyTime_keeps|keeps_tac].
Qed.

Lemma sessionsEffect_keeps : keeps (same ledger) sessionsEffect.
Proof. unfold sessionsEffect. keeps_tac. Qed.

Lemma renderEffects_keeps t s : keeps (same ledger) (renderEffects t s).
Proof.
  unfold renderEffects. keeps_tac; auto using totalMinutesEffect_keeps, sessionsEffect_keeps.
Qed.

Lemma keeps_ledger_total {A} (c : St World A) : keeps (same ledger) c -> keeps (same totalOf) c.
Proof. intros H w. unfold same, totalOf. by rewrite (H w). Qed.

Lemma keeps_ledger_sessions {A} (c : St World A) : keeps (same ledger) c -> keeps (same sessionsOf) c.
Proof. intros H w. unfold same, sessionsOf. by rewrite (H w). Qed.

#[export] Hint Resolve updateProfileStudyTime_keeps incrementStreak_keeps_total
  incrementStreak_keeps_sessions totalMinutesEffect_keeps sessionsEffect_keeps
  renderEffects_keeps keeps_ledger_total keeps_ledger_sessions : studyflow.

(** ** Running the handlers on a symbolic world *)

Ltac ledger_unfold :=
  unfold recordSession, loadForUser, onAuthState, fetchSessions, addSession, renderEffects,
    totalMinutesEffect, sessionsEffect, updateProfileStudyTime, incrementStreak,
    selectProfile, updateProfile, insertSession, selectSessionsSince, modifyLedger,
    exec, mbind, St_bind, mret, St_ret, st_get, st_modify, call,
    set_totalMinutes, set_accumulatedMinutes, set_previousUserId, show_streak,
    set_sessions, with_total, with_streak, set_profile, set_study_sessions,
    set_lsTotal, set_lsWeekly in *.

Ltac ledger_run := st_run.

(** ** Stored totals with a healthy store *)

(** C3: a recorded session adds the new running total, twice, to the stored
    total.  [addSession] calls [updateProfileStudyTime(newTotalMinutes)],
    which writes [current + newTotalMinutes] (a running total, where the
    increment [minutes] was meant), and the render that its
    [setTotalMinutes] causes runs the [[totalMinutes, user]] effect, which
    does the same once more.  The stored total grows by
    [2 * (totalMinutes + minutes)], not by [minutes] as the specification
    says. *)
Theorem record_session_stored_total l rows ts T s lad uid nw tz lw lt m :
  0 <= totalMinutes l -> 0 < m ->
  let w := mkWorld l (mkDb (Some (mkProfile T s lad)) rows ts) [] (Some uid) nw tz lw lt in
  option_map total_study_minutes (profile (store (exec (recordSession m) w))) =
  Some (T + 2 * (totalMinutes l + m)).
Proof.
  intros Hl Hm w.
  assert (E1 : (totalMinutes l + m =? totalMinutes l) = false) by (apply Z.eqb_neq; lia).
  assert (E2 : (0 <? totalMinutes l + m) = true) by (apply Z.ltb_lt; lia).
  unfold w; ledger_unfold; ledger_run.
  all: f_equal; lia.
Qed.

Lemma record_session_stored_total_witness :
  0 <= totalMinutes initialLedger /\ 0 < 25 /\
  option_map total_study_minutes
    (profile (store (exec (recordSession 25)
      (mkWorld initialLedger (mkDb (Some (mkProfile 100 3 None)) [] None) [] (Some 1)
         1704708000000 0 None None)))) = Some (100 + 2 * (totalMinutes initialLedger + 25)).
Proof.
  split; [simpl; lia|split; [lia|]].
  exact (record_session_stored_total initialLedger [] None 100 3 None 1 1704708000000 0 None None 25
           ltac:(simpl; lia) ltac:(lia)).
Defined.

(** C2: every sign-in or reload doubles the stored study time.  The auth
    effect calls [fetchSessions], which sets [totalMinutes] to the stored
    total [T]; that change runs the [[totalMinutes, user]] effect, whose
    [updateProfileStudyTime(T)] writes [T + T] back to the profile. *)
Theorem load_doubles_stored_total l rows ts T s lad uid nw tz lw lt :
  0 < T -> previousUserId l <> Some uid -> totalMinutes l <> T ->
  let w := mkWorld l (mkDb (Some (mkProfile T s lad)) rows ts) [] (Some uid) nw tz lw lt in
  totalOf (exec loadForUser w) = T /\
  option_map total_study_minutes (profile (store (exec loadForUser w))) = Some (2 * T).
Proof.
  intros HT Hp Ht w.
  assert (E1 : (T =? totalMinutes l) = false) by (apply Z.eqb_neq; lia).
  assert (E2 : (0 <? T) = true) by (apply Z.ltb_lt; lia).
  unfold w, totalOf; ledger_unfold.
  ledger_run. all: try congruence. all: split; [reflexivity|f_equal; lia].
Qed.

Lemma load_doubles_stored_total_witness :
  0 < 100 /\ previousUserId initialLedger <> Some 1 /\ totalMinutes initialLedger <> 100 /\
  option_map total_study_minutes
    (profile (store (exec loadForUser
      (mkWorld initialLedger (mkDb (Some (mkProfile 100 3 None)) [] None) [] (Some 1)
         1704708000000 0 None None)))) = Some (2 * 100).
Proof.
  assert (H1 : previousUserId initialLedger <> Some 1) by discriminate.
  assert (H2 : totalMinutes initialLedger <> 100) by discriminate.
  split; [lia|split; [exact H1|split; [exact H2|]]].
  exact (proj2 (load_doubles_stored_total initialLedger [] None 100 3 None 1 1704708000000 0
                  None None ltac:(lia) H1 H2)).
Defined.

(** ** Local state: optimistic and never rolled back *)

Lemma addSession_total aft m w :
  keeps (same ledger) aft -> totalOf (exec (addSession aft m) w) = totalOf w + m.
Proof.
  intros Ha. unfold addSession. rewrite exec_bind. cbn [st_get fst snd]. rewrite exec_seq.
  rewrite (keeps_exec totalOf); [reflexivity|].
  keeps_tac; eauto with studyflow.
Qed.

(** Whatever the store does (any schedule of failed requests) and
    whether or not a user is signed in, recording a session raises the
    local [totalMinutes] by exactly [minutes]: the optimistic update is
    never rolled back. *)
Theorem record_session_local_total w m :
  totalOf (exec (recordSession m) w) = totalOf w + m.
Proof.
  unfold recordSession. rewrite exec_bind. cbn [st_get fst snd]. rewrite exec_seq.
  rewrite (keeps_exec totalOf).
  - apply addSession_total. eauto with studyflow.
  - keeps_tac; eauto with studyflow.
Qed.

Lemma addSession_sessions aft m w :
  keeps (same ledger) aft ->
  sessionsOf (exec (addSession aft m) w) =
  if 120 <=? m then incr_slot (dayIndexOf (getDay (tzOffset w) (now w))) (sessionsOf w)
  else sessionsOf w.
Proof.
  intros Ha. unfold addSession. rewrite exec_bind. cbn [st_get fst snd]. rewrite !exec_seq.
  destruct (120 <=? m).
  - change (sessionsOf (exec (modifyLedger (fun l =>
        set_sessions (incr_slot (dayIndexOf (getDay (tzOffset w) (now w))) (sessions l)) l)) ?X))
      with (incr_slot (dayIndexOf (getDay (tzOffset w) (now w))) (sessionsOf X)).
    f_equal. rewrite !(keeps_exec sessionsOf); try reflexivity; keeps_tac; eauto with studyflow.
  - change (sessionsOf (exec (mret ()) ?X)) with (sessionsOf X).
    rewrite !(keeps_exec sessionsOf); try reflexivity; keeps_tac; eauto with studyflow.
Qed.

(** C28: the weekly slot rule.  Recording a session of [minutes] increments
    today's slot (Monday-first) by one when [minutes >= 120] and changes no
    slot otherwise, under any schedule of failed requests. *)
Theorem record_session_weekly w m :
  sessionsOf (exec (recordSession m) w) =
  if 120 <=? m then incr_slot (dayIndexOf (getDay (tzOffset w) (now w))) (sessionsOf w)
  else sessionsOf w.
Proof.
  unfold recordSession. rewrite exec_bind. cbn [st_get fst snd]. rewrite exec_seq.
  rewrite (keeps_exec sessionsOf).
  - apply addSession_sessions. eauto with studyflow.
  - keeps_tac; eauto with studyflow.
Qed.

(** ** The streak counter *)

(** C29: every recorded session increments the stored [streak_days] by one
    and shows the celebration with the new value, whatever its length and
    however many sessions were recorded that day (no per-day
    deduplication), when a user is signed in and the store is healthy. *)
Theorem record_session_increments_streak l rows ts T s lad uid nw tz lw lt m :
  let w := mkWorld l (mkDb (Some (mkProfile T s lad)) rows ts) [] (Some uid) nw tz lw lt in
  let w' := exec (recordSession m) w in
  option_map streak_days (profile (store w')) = Some (s + 1) /\
  showStreakModal (ledger w') = true /\ newStreakValue (ledger w') = s + 1.
Proof. intros w w'. unfold w', w; ledger_unfold. ledger_run. all: auto. Qed.

(** C38: signed out (demo mode), recording a session touches no stored row:
    the streak is not incremented at all, although the specification says
    each completed session increments it; the running total goes to the
    localStorage copy (which nothing reads back), beside the weekly array
    for sessions of 120 minutes or more. *)
Theorem signed_out_session_keeps_store l d fs nw tz lw lt m :
  m <> 0 ->
  let w := mkWorld l d fs None nw tz lw lt in
  store (exec (recordSession m) w) = d /\
  lsTotal (exec (recordSession m) w) = Some (totalMinutes l + m).
Proof.
  intros Hm w. assert (E : (totalMinutes l + m =? totalMinutes l) = false) by (apply Z.eqb_neq; lia).
  unfold w; ledger_unfold. ledger_run. all: auto.
Qed.

Lemma signed_out_session_keeps_store_witness :
  25 <> 0 /\
  store (exec (recordSession 25)
           (mkWorld initialLedger (mkDb None [] None) [] None 1704708000000 0 None None)) =
  mkDb None [] None.
Proof.
  split; [lia|].
  exact (proj1 (signed_out_session_keeps_store initialLedger (mkDb None [] None) [] 1704708000000
                  0 None None 25 ltac:(lia))).
Defined.

(** ** Weekly buckets *)

(** A row counts for slot [i]: at least two hours, on that weekday. *)
Definition qualifiesOn (tz : Z) (i : nat) (r : SessionRow) : bool :=
  (120 * 60 <=? duration_seconds r) && bool_decide (dayIndexOf (getDay tz (created_at r)) = i).

Lemma dayIndexOf_lt tz t : (dayIndexOf (getDay tz t) < 7)%nat.
Proof.
  pose proof (getDay_range tz t). unfold dayIndexOf.
  destruct (Z.eqb_spec (getDay tz t) 0); lia.
Qed.

Lemma bucket_fold tz rows acc i :
  length acc = 7%nat -> (i < 7)%nat ->
  fold_left (fun acc r =>
      if 120 * 60 <=? duration_seconds r
      then incr_slot (dayIndexOf (getDay tz (created_at r))) acc
      else acc) rows acc !! i =
  (fun v => v + Z.of_nat (count_where (qualifiesOn tz i) rows)) <$> acc !! i.
Proof.
  revert acc. induction rows as [|r rows IH]; intros acc Hlen Hi; simpl.
  - destruct (acc !! i); simpl; [f_equal; unfold count_where; simpl; lia|done].
  - rewrite count_where_cons. unfold qualifiesOn at 1.
    destruct (120 * 60 <=? duration_seconds r); simpl.
    + rewrite IH by (rewrite ?length_incr_slot; done).
      pose proof (dayIndexOf_lt tz (created_at r)).
      destruct (decide (dayIndexOf (getDay tz (created_at r)) = i)) as [<-|Hne].
      * rewrite bool_decide_eq_true_2 by done.
        destruct (lookup_lt_is_Some_2 acc (dayIndexOf (getDay tz (created_at r)))) as [v Hv]; [lia|].
        rewrite (incr_slot_lookup_eq _ _ v Hv), Hv. simpl. f_equal. lia.
      * rewrite bool_decide_eq_false_2 by done. rewrite incr_slot_lookup_ne by done.
        destruct (acc !! i); simpl; f_equal; lia.
    + rewrite IH by done. destruct (acc !! i); simpl; f_equal; lia.
Qed.

(** [fetchSessions]' bucketing: slot [i] of the rebuilt week counts
    exactly the rows of at least 120 minutes whose creation day is weekday
    [i] (Monday = 0, Sunday = 6). *)
Theorem bucket_counts tz rows i :
  (i < 7)%nat ->
  bucketSessions tz rows !! i = Some (Z.of_nat (count_where (qualifiesOn tz i) rows)).
Proof.
  intros Hi. unfold bucketSessions. rewrite bucket_fold by done.
  destruct i as [|[|[|[|[|[|[|]]]]]]]; simpl; try lia; reflexivity.
Qed.

Lemma bucket_counts_witness :
  (0 < 7)%nat /\
  bucketSessions 0 [mkRow 150 9000 1704704400000 1704704400000] !! 0%nat =
  Some (Z.of_nat (count_where (qualifiesOn 0 0) [mkRow 150 9000 1704704400000 1704704400000])).
Proof. split; [lia|]. exact (bucket_counts 0 _ 0 ltac:(lia)). Defined.

(** The sign-in of [demoWeek]: Monday 8 January 2024, 10:00 UTC, with a
    two-hour session on the previous Monday at 15:00 and one this morning. *)
Definition demoWeek : World :=
  mkWorld initialLedger
    (mkDb (Some (mkProfile 0 0 None))
       [mkRow 120 7200 1704121200000 1704121200000; mkRow 120 7200 1704704400000 1704704400000]
       None)
    [] (Some 1) 1704708000000 0 None None.

(** What [fetchSessions] puts in the week with a healthy store: the
    buckets of the rows created since [now - 7 days], or the empty week
    when there are none. *)
Lemma fetchSessions_week w uid :
  user w = Some uid -> faults w = [] ->
  sessionsOf (exec fetchSessions w) =
  match filter (fun r => now w - 7 * ms_per_day <=? created_at r) (study_sessions (store w)) with
  | [] => emptyWeek
  | rs => bucketSessions (tzOffset w) rs
  end.
Proof.
  destruct w as [l [p rows ts] fs u nw tz lw lt]; cbn; intros -> ->.
  ledger_unfold. cbn. destruct p; cbn;
    by destruct (filter (fun r => nw - 7 * ms_per_day <=? created_at r) rows).
Qed.

(** C37: the "last 7 days" window spans eight calendar days.  A session of
    at least two hours on the local day a week before today, later in the
    day than [now], lies inside the window [fetchSessions] queries
    ([created_at >= now - 7 days]); the week is bucketed by weekday only,
    so that session is counted in today's slot, beside today's own
    sessions. *)
Theorem weekly_window_merges_days w uid r :
  user w = Some uid -> faults w = [] -> r ∈ study_sessions (store w) ->
  now w - 7 * ms_per_day <= created_at r ->
  localDay (tzOffset w) (created_at r) = localDay (tzOffset w) (now w) - 7 ->
  120 * 60 <= duration_seconds r ->
  let today := dayIndexOf (getDay (tzOffset w) (now w)) in
  let window := filter (fun r => now w - 7 * ms_per_day <=? created_at r) (study_sessions (store w)) in
  r ∈ window /\ qualifiesOn (tzOffset w) today r = true /\
  sessionsOf (exec fetchSessions w) !! today = Some (Z.of_nat (count_where (qualifiesOn (tzOffset w) today) window)).
Proof.
  intros Hu Hf Hr Hc Hday Hd today window.
  assert (Hw : r ∈ window) by (apply list_elem_of_filter; split; [rewrite (proj2 (Z.leb_le _ _) Hc); done|done]).
  split; [done|]. split.
  - unfold qualifiesOn, today. rewrite (proj2 (Z.leb_le _ _) Hd), bool_decide_eq_true_2; [done|].
    unfold getDay. rewrite Hday. f_equal.
    replace (localDay (tzOffset w) (now w) - 7 + 4) with ((localDay (tzOffset w) (now w) + 4) + (-1) * 7) by lia.
    apply Z_mod_plus_full.
  - rewrite (fetchSessions_week w uid Hu Hf). fold window.
    destruct window as [|r0 rs] eqn:E; [by apply not_elem_of_nil in Hw|].
    apply bucket_counts, dayIndexOf_lt.
Qed.

(** Last Monday 15:00 and this Monday 10:00 (UTC): the week shows two
    sessions on Monday. *)
Lemma weekly_window_merges_days_witness :
  (user demoWeek = Some 1 /\ faults demoWeek = [] /\
   mkRow 120 7200 1704121200000 1704121200000 ∈ study_sessions (store demoWeek) /\
   now demoWeek - 7 * ms_per_day <= created_at (mkRow 120 7200 1704121200000 1704121200000) /\
   localDay (tzOffset demoWeek) (created_at (mkRow 120 7200 1704121200000 1704121200000))
     = localDay (tzOffset demoWeek) (now demoWeek) - 7 /\
   120 * 60 <= duration_seconds (mkRow 120 7200 1704121200000 1704121200000)) /\
  sessionsOf (exec fetchSessions demoWeek) !! dayIndexOf (getDay (tzOffset demoWeek) (now demoWeek)) = Some 2.
Proof.
  assert (Hr : mkRow 120 7200 1704121200000 1704121200000 ∈ study_sessions (store demoWeek))
    by (apply list_elem_of_In; cbn; tauto).
  assert (H1 : now demoWeek - 7 * ms_per_day <= created_at (mkRow 120 7200 1704121200000 1704121200000))
    by (vm_compute; discriminate).
  assert (H2 : localDay (tzOffset demoWeek) (created_at (mkRow 120 7200 1704121200000 1704121200000))
               = localDay (tzOffset demoWeek) (now demoWeek) - 7) by reflexivity.
  assert (H3 : 120 * 60 <= duration_seconds (mkRow 120 7200 1704121200000 1704121200000))
    by (vm_compute; discriminate).
  split; [split_and!; try reflexivity; assumption|].
  destruct (weekly_window_merges_days demoWeek 1 _ eq_refl eq_refl Hr H1 H2 H3) as (_ & _ & E).
  rewrite E. reflexivity.
Defined.

End Ledger.
