(* ===== verification/Auth.v ===== *)
(** * Auth: profile initialisation and the daily streak of [AuthProvider]

    Models [checkAndInitializeUser] and [checkDailyStreak] of
    [src/src/hooks/useAuth.tsx], over the same store as the ledger
    ([Store.Backend]).  [checkDailyStreak] is a read ([select]) followed by
    a write ([update]); both the [onAuthStateChange] listener and the
    [getSession()] promise run it on sign-in, so two runs may interleave.
    [threadStep] cuts the handler at its await, and [runSched] runs two
    such threads under an arbitrary schedule. *)

From S2P Require Import Prelude Clock Settings Store.
Import Clock Store.

Module Auth.

(** ** State *)

Record AuthWorld := mkAuthWorld {
  showStreakModal : bool;
  newStreakValue : Z;
  adb : Db;
  afaults : list bool;
  anow : Z;
  atz : Z
}.

#[export] Instance AuthWorld_backend : Backend Db AuthWorld := {
  db_of := adb;
  with_db d w := mkAuthWorld (showStreakModal w) (newStreakValue w) d (afaults w) (anow w) (atz w);
  faults_of := afaults;
  with_faults fs w := mkAuthWorld (showStreakModal w) (newStreakValue w) (adb w) fs (anow w) (atz w);
  db_with_db _ _ := eq_refl;
  db_with_faults _ _ := eq_refl;
  faults_with_db _ _ := eq_refl;
  faults_with_faults _ _ := eq_refl
}.

(** [setNewStreakValue(v); setShowStreakModal(true)] *)
Definition celebrate (v : Z) : St AuthWorld unit :=
  st_modify (fun w => mkAuthWorld true v (adb w) (afaults w) (anow w) (atz w)).

(** [.select('id').maybeSingle()] distinguishes "no row" ([Some None]) from
    an error ([None]). *)
Definition selectProfileMaybe : St AuthWorld (option (option Profile)) :=
  call None (fun d => (Some (profile d), d)).

Definition selectTimerSettingsMaybe : St AuthWorld (option (option Settings.TimerSettings)) :=
  call None (fun d => (Some (timer_settings_row d), d)).

(** ** Operations *)

(** Lines 57-104: create the profile (streak 1, active now) and the timer
    settings row when they are missing and the lookup did not fail. *)
Definition checkAndInitializeUser : St AuthWorld unit :=
  w ← st_get;
  p ← selectProfileMaybe;
  (match p with
   | Some None =>
       upsertProfile (mkProfile 0 1 (Some (anow w)));;
       celebrate 1
   | _ => mret ()
   end);;
  t ← selectTimerSettingsMaybe;
  match t with
  | Some None => upsertTimerSettingsDefaults
  | _ => mret ()
  end.

(** The decision and write of [checkDailyStreak], after its read. *)
Definition dailyWrite (p : option Profile) : St AuthWorld unit :=
  w ← st_get;
  match p with
  | Some p =>
      let lastActive := localDay (atz w) <$> last_active_date p in
      let today := localDay (atz w) (anow w) in
      if bool_decide (lastActive = Some today) then mret ()
      else
        let nextStreak := (streak_days p ||ₙ 0) + 1 in
        updateProfile (with_streak_and_date nextStreak (anow w));;
        celebrate nextStreak
  | None => mret ()
  end.

(** Lines 106-146. *)
Definition checkDailyStreak : St AuthWorld unit :=
  p ← selectProfile;
  dailyWrite p.

(** What both sign-in paths run (lines 35-38 and 47-51). *)
Definition onSignIn : St AuthWorld unit :=
  checkAndInitializeUser;; checkDailyStreak.

(** ** Two interleaved daily checks *)

Inductive Phase := Start | Read (p : option Profile) | Done.

Definition threadStep (ph : Phase) : St AuthWorld Phase :=
  match ph with
  | Start => p ← selectProfile; mret (Read p)
  | Read p => dailyWrite p;; mret Done
  | Done => mret Done
  end.

(** [true] schedules the first thread, [false] the second. *)
Fixpoint runSched (sched : list bool) (ph : Phase * Phase) : St AuthWorld (Phase * Phase) :=
  match sched with
  | [] => mret ph
  | b :: rest =>
      ph' ← (if b then p1 ← threadStep ph.1; mret (p1, ph.2)
             else p2 ← threadStep ph.2; mret (ph.1, p2));
      runSched rest ph'
  end.

(** ** Theorems *)

Ltac auth_unfold :=
  cbn [threadStep] in *;
  unfold onSignIn, checkAndInitializeUser, checkDailyStreak, dailyWrite, threadStep,
    celebrate, selectProfileMaybe, selectTimerSettingsMaybe, selectProfile, updateProfile,
    upsertProfile, upsertTimerSettingsDefaults,
    exec, mbind, St_bind, mret, St_ret, st_get, st_modify, call,
    with_streak_and_date, set_profile, set_timer_settings_row in *.

(** A first sign-in creates the profile with a streak of 1, active
    today, celebrates it, and creates the timer settings row; the daily
    check that follows on the same call sees today's date and adds
    nothing. *)
Theorem new_user_sign_in sm nv rows n tz :
  let w' := exec onSignIn (mkAuthWorld sm nv (mkDb None rows None) [] n tz) in
  profile (adb w') = Some (mkProfile 0 1 (Some n)) /\
  timer_settings_row (adb w') = Some Settings.defaultTimerSettings /\
  showStreakModal w' = true /\ newStreakValue w' = 1.
Proof. intros w'. unfold w'; auth_unfold. st_run; auto. Qed.

(** C30: on a calendar day other than the last active one, the daily check
    adds exactly one to the streak and records today, however many days
    were skipped (no reset to 1 on a gap); a second check the same day adds
    nothing. *)
Theorem daily_streak_once_per_day sm nv p rows ts n tz :
  localDay tz <$> last_active_date p <> Some (localDay tz n) ->
  let w1 := exec checkDailyStreak (mkAuthWorld sm nv (mkDb (Some p) rows ts) [] n tz) in
  let w2 := exec checkDailyStreak w1 in
  profile (adb w1) = Some (mkProfile (total_study_minutes p) (streak_days p + 1) (Some n)) /\
  newStreakValue w1 = streak_days p + 1 /\
  adb w2 = adb w1.
Proof.
  intros Hd w1 w2. unfold w2, w1; auth_unfold. destruct p as [T s lad]; simpl in Hd.
  st_run; try congruence; auto.
Qed.

Lemma daily_streak_once_per_day_witness :
  localDay 0 <$> Some 1704121200000 <> Some (localDay 0 1704708000000) /\
  profile (adb (exec checkDailyStreak
    (mkAuthWorld false 0 (mkDb (Some (mkProfile 0 4 (Some 1704121200000))) [] None) []
       1704708000000 0))) = Some (mkProfile 0 5 (Some 1704708000000)).
Proof.
  assert (Hd : localDay 0 <$> Some 1704121200000 <> Some (localDay 0 1704708000000))
    by (vm_compute; discriminate).
  split; [exact Hd|].
  exact (proj1 (daily_streak_once_per_day false 0 (mkProfile 0 4 (Some 1704121200000)) [] None
                  1704708000000 0 Hd)).
Defined.

(** *** Interleavings *)

Section Interleaving.
Context (p0 : Profile) (n tz : Z).
Hypothesis stale : localDay tz <$> last_active_date p0 <> Some (localDay tz n).

Let p1 : Profile := with_streak_and_date (streak_days p0 + 1) n p0.

Definition phaseOk (ph : Phase) : Prop :=
  ph = Start \/ ph = Read (Some p0) \/ ph = Read (Some p1) \/ ph = Done.

Definition settled (ph : Phase) : Prop := ph = Read (Some p1) \/ ph = Done.

(** What both threads may see, symmetric in the two threads. *)
Definition interleavingInv (phs : Phase * Phase) (w : AuthWorld) : Prop :=
  afaults w = [] /\ anow w = n /\ atz w = tz /\
  phaseOk phs.1 /\ phaseOk phs.2 /\
  (profile (adb w) = Some p0 \/ profile (adb w) = Some p1) /\
  (settled phs.1 \/ settled phs.2 -> profile (adb w) = Some p1).

Lemma threadStep_inv ph other w :
  interleavingInv (ph, other) w ->
  interleavingInv ((threadStep ph w).1, other) (threadStep ph w).2.
Proof.
  destruct w as [sm nv [pr rows ts] fs n' tz']; unfold interleavingInv, phaseOk, settled; simpl.
  intros (-> & -> & -> & Hph & Hot & Hpr & Hset).
  destruct Hph as [ -> | [ -> | [ -> | -> ]]].
  - destruct Hpr as [Hq|Hq]; rewrite Hq; auth_unfold; simpl; intuition congruence.
  - destruct Hpr as [Hq|Hq]; rewrite Hq; unfold p1 in *; auth_unfold; st_run;
      try contradiction; intuition congruence.
  - assert (pr = Some p1) as -> by auto. unfold p1 in *; auth_unfold; st_run; intuition congruence.
  - auth_unfold; simpl; intuition congruence.
Qed.

Lemma interleavingInv_swap a b w : interleavingInv (a, b) w -> interleavingInv (b, a) w.
Proof. unfold interleavingInv; simpl. intuition. Qed.

Lemma runSched_inv sched phs w :
  interleavingInv phs w ->
  interleavingInv (runSched sched phs w).1 (runSched sched phs w).2.
Proof.
  revert phs w. induction sched as [|b rest IH]; intros [a c] w Hi; [done|].
  cbn [runSched]. unfold mbind, St_bind, mret, St_ret.
  destruct b; cbn [fst snd].
  - pose proof (threadStep_inv a c w Hi) as Hs.
    destruct (threadStep a w) as [a' w'] eqn:E. cbn [fst snd] in Hs |- *. apply IH, Hs.
  - pose proof (threadStep_inv c a w (interleavingInv_swap _ _ _ Hi)) as Hs.
    destruct (threadStep c w) as [c' w'] eqn:E. cbn [fst snd] in Hs |- *.
    apply IH, interleavingInv_swap, Hs.
Qed.

End Interleaving.

(** C6: two daily checks racing on sign-in (the auth listener and the
    [getSession] promise) never double-count: under every schedule of their
    reads and writes, once both have finished the stored streak has grown
    by exactly one and records today. *)
Theorem concurrent_daily_checks p0 sm nv rows ts n tz sched :
  localDay tz <$> last_active_date p0 <> Some (localDay tz n) ->
  let r := runSched sched (Start, Start) (mkAuthWorld sm nv (mkDb (Some p0) rows ts) [] n tz) in
  r.1 = (Done, Done) ->
  profile (adb r.2) = Some (with_streak_and_date (streak_days p0 + 1) n p0).
Proof.
  intros Hd r Hdone.
  assert (Hi : interleavingInv p0 n tz (Start, Start)
                 (mkAuthWorld sm nv (mkDb (Some p0) rows ts) [] n tz)).
  { unfold interleavingInv, phaseOk, settled; simpl. intuition congruence. }
  pose proof (runSched_inv p0 n tz Hd sched _ _ Hi) as (_ & _ & _ & _ & _ & _ & Hs).
  apply Hs. fold r. rewrite Hdone. unfold settled. auto.
Qed.

Lemma concurrent_daily_checks_witness :
  let p0 := mkProfile 0 4 (Some 1704121200000) in
  localDay 0 <$> last_active_date p0 <> Some (localDay 0 1704708000000) /\
  profile (adb (runSched [true; false; true; false] (Start, Start)
                  (mkAuthWorld false 0 (mkDb (Some p0) [] None) [] 1704708000000 0)).2) =
  Some (with_streak_and_date (streak_days p0 + 1) 1704708000000 p0).
Proof.
  intros p0.
  assert (Hd : localDay 0 <$> last_active_date p0 <> Some (localDay 0 1704708000000))
    by (vm_compute; discriminate).
  split; [exact Hd|].
  exact (concurrent_daily_checks p0 false 0 [] None 1704708000000 0 [true; false; true; false]
           Hd eq_refl).
Defined.

End Auth.
