(* ===== verification/Tasks.v ===== *)
(** * Tasks: the task model, the task card and the two boards

    [src/src/types/index.ts] declares [Task] and [SubTask]; the components
    that derive something from a task without touching the store are here:
    the subtask toggle of [components/tasks/TaskCard.tsx]
    ([handleToggleSubtask], which recomputes the status from the subtasks,
    and the progress bar), the drop handler of
    [components/kanban/KanbanBoard.tsx] and the Eisenhower classification
    [getQuadrant] of [pages/KanbanPage.tsx].  Dates are timestamps in ms. *)

From Stdlib Require Import QArith.
From stdpp Require Import strings.
From S2P Require Import Prelude.

Module Tasks.

(** ** Data (types/index.ts, lines 3-24) *)

Inductive Status := Todo | InProgress | Done.
Inductive Priority := Low | Medium | High.

#[export] Instance Status_eq_dec : EqDecision Status.
Proof. solve_decision. Defined.
#[export] Instance Priority_eq_dec : EqDecision Priority.
Proof. solve_decision. Defined.

Record SubTask := mkSubTask {
  st_id : string;
  st_title : string;
  completed : bool;
  isAiSuggested : option bool;
  st_estimatedTime : option Z
}.

(** [priority] is optional: rows loaded from the database may have none
    (TaskContext.tsx line 115).  [collaborators] and [parentId] are never
    read by the modelled code and are left out. *)
Record Task := mkTask {
  id : string;
  title : string;
  description : option string;
  status : Status;
  priority : option Priority;
  deadline : option Z;
  estimatedTime : option Z;
  subtasks : list SubTask;
  createdAt : Z;
  lastEditedAt : option Z
}.

#[export] Instance SubTask_eq_dec : EqDecision SubTask.
Proof. solve_decision. Defined.
#[export] Instance Task_eq_dec : EqDecision Task.
Proof. solve_decision. Defined.

(** Object spreads [{ ...task, field: v }]. *)
Definition with_status (s : Status) (t : Task) : Task :=
  mkTask (id t) (title t) (description t) s (priority t) (deadline t)
    (estimatedTime t) (subtasks t) (createdAt t) (lastEditedAt t).
Definition with_subtasks_status (l : list SubTask) (s : Status) (t : Task) : Task :=
  mkTask (id t) (title t) (description t) s (priority t) (deadline t)
    (estimatedTime t) l (createdAt t) (lastEditedAt t).
Definition with_subtasks (l : list SubTask) (t : Task) : Task :=
  with_subtasks_status l (status t) t.
Definition with_lastEditedAt (n : Z) (t : Task) : Task :=
  mkTask (id t) (title t) (description t) (status t) (priority t) (deadline t)
    (estimatedTime t) (subtasks t) (createdAt t) (Some n).

(** ** TaskCard (components/tasks/TaskCard.tsx) *)

(** [s.id === subtaskId ? { ...s, completed: !s.completed } : s] *)
Definition toggleSubtask (subtaskId : string) (s : SubTask) : SubTask :=
  if bool_decide (st_id s = subtaskId)
  then mkSubTask (st_id s) (st_title s) (negb (completed s)) (isAiSuggested s) (st_estimatedTime s)
  else s.

(** [subtasks.filter(s => s.completed).length] *)
Definition completedCount (l : list SubTask) : nat := count_where completed l.

(** Lines 71-82: the status a subtask list implies; an empty list keeps the
    old one. *)
Definition deriveStatus (old : Status) (l : list SubTask) : Status :=
  if bool_decide (0 < length l)%nat then
    if bool_decide (completedCount l = length l) then Done
    else if bool_decide (0 < completedCount l)%nat then InProgress
    else Todo
  else old.

(** Lines 65-85: the task passed to [onUpdateTask]. *)
Definition handleToggleSubtask (task : Task) (subtaskId : string) : Task :=
  let updatedSubtasks := map (toggleSubtask subtaskId) (subtasks task) in
  with_subtasks_status updatedSubtasks (deriveStatus (status task) updatedSubtasks) task.

(** Lines 60-63: the width of the progress bar, in percent. *)
Definition cardProgress (task : Task) : Q :=
  if bool_decide (0 < length (subtasks task))%nat
  then (inject_Z (Z.of_nat (completedCount (subtasks task)))
        / inject_Z (Z.of_nat (length (subtasks task)))) * inject_Z 100
  else 0.

(** A task whose status is the one its subtasks imply. *)
Definition statusConsistent (t : Task) : Prop := status t = deriveStatus (status t) (subtasks t).

(** ** KanbanBoard (components/kanban/KanbanBoard.tsx) *)

(** Line 35: the tasks of one column. *)
Definition column (tasks : list Task) (s : Status) : list Task :=
  filter (fun t => status t = s) tasks.

(** [tasks.find(t => t.id === taskId)] *)
Definition findTask (tasks : list Task) (taskId : string) : option Task :=
  snd <$> list_find (fun t => id t = taskId) tasks.

(** Lines 20-26: the task passed to [onUpdateTask], if any. *)
Definition handleDrop (tasks : list Task) (taskId : string) (s : Status) : option Task :=
  match findTask tasks taskId with
  | Some task => if bool_decide (status task <> s) then Some (with_status s task) else None
  | None => None
  end.

(** ** The Eisenhower matrix (pages/KanbanPage.tsx, lines 94-104) *)

Inductive Quadrant := DoFirst | Schedule | Delegate | Delete.

#[export] Instance Quadrant_eq_dec : EqDecision Quadrant.
Proof. solve_decision. Defined.

Definition two_days_ms : Z := 2 * 24 * 60 * 60 * 1000.

Definition getQuadrant (now : Z) (task : Task) : option Quadrant :=
  if bool_decide (status task = Done) then None
  else
    let isUrgent := match deadline task with
                    | Some d => bool_decide (d - now < two_days_ms)
                    | None => false
                    end in
    let isImportant := bool_decide (priority task = Some High) in
    if isUrgent && isImportant then Some DoFirst
    else if negb isUrgent && isImportant then Some Schedule
    else if isUrgent && negb isImportant then Some Delegate
    else Some Delete.

(** Lines 123 and 128: the tasks shown in a quadrant. *)
Definition quadrantTasks (now : Z) (tasks : list Task) (q : Quadrant) : list Task :=
  filter (fun t => getQuadrant now t = Some q) tasks.

Definition demoSubtasks : list SubTask :=
  [mkSubTask "s1" "Choose and narrow down research topic" true None None;
   mkSubTask "s2" "Conduct preliminary research" false (Some true) None].

Definition demoTask : Task :=
  mkTask "1" "Write Research Paper on Climate Change" None InProgress (Some High)
    (Some 1705312800000) (Some 480) demoSubtasks 1704708000000 (Some 1704704400000).

(** ** Theorems *)

(** *** The subtask toggle *)

Lemma toggleSubtask_involutive i s : toggleSubtask i (toggleSubtask i s) = s.
Proof.
  destruct s as [sid ti c ai e]. unfold toggleSubtask; simpl.
  destruct (decide (sid = i)).
  - rewrite (bool_decide_eq_true_2 (sid = i)) by done; simpl.
    rewrite bool_decide_eq_true_2 by done. by rewrite negb_involutive.
  - rewrite (bool_decide_eq_false_2 (sid = i)) by done; simpl.
    by rewrite bool_decide_eq_false_2.
Qed.

Lemma map_toggleSubtask_involutive i l : map (toggleSubtask i) (map (toggleSubtask i) l) = l.
Proof. rewrite map_map. erewrite map_ext; [apply map_id|]. intros. apply toggleSubtask_involutive. Qed.

Lemma deriveStatus_nil old : deriveStatus old [] = old.
Proof. done. Qed.

(** On a non-empty list the old status does not matter, and the result is
    read off the completion flags. *)
Lemma deriveStatus_cons o1 o2 s l : deriveStatus o1 (s :: l) = deriveStatus o2 (s :: l).
Proof. done. Qed.

Lemma deriveStatus_cases old l :
  l <> [] ->
  (deriveStatus old l = Done <-> Forall (fun s => completed s = true) l) /\
  (deriveStatus old l = Todo <-> Forall (fun s => completed s = false) l) /\
  (deriveStatus old l = InProgress <->
     ~ Forall (fun s => completed s = true) l /\ ~ Forall (fun s => completed s = false) l).
Proof.
  intros Hl. rewrite <- count_where_length_iff, <- count_where_0_iff.
  assert (0 < length l)%nat by (destruct l; simpl; [congruence | lia]).
  pose proof (count_where_le completed l).
  unfold deriveStatus, completedCount. rewrite bool_decide_eq_true_2 by lia.
  repeat case_bool_decide; split_and!; split; intros; try done; try lia; intuition lia.
Qed.

#[local] Hint Resolve toggleSubtask_involutive map_toggleSubtask_involutive : studyflow.

(** C10: after a toggle, a task with subtasks is [Done] exactly when all of
    them are completed, [Todo] exactly when none is, and [InProgress]
    exactly otherwise: the card keeps the status in step with the subtasks,
    whatever status the task had before. *)
Theorem toggle_status_matches_subtasks t i :
  subtasks t <> [] ->
  let r := handleToggleSubtask t i in
  (status r = Done <-> Forall (fun s => completed s = true) (subtasks r)) /\
  (status r = Todo <-> Forall (fun s => completed s = false) (subtasks r)) /\
  (status r = InProgress <->
     ~ Forall (fun s => completed s = true) (subtasks r) /\
     ~ Forall (fun s => completed s = false) (subtasks r)).
Proof.
  intros Hne r. apply deriveStatus_cases. simpl.
  destruct (subtasks t); [congruence | discriminate].
Qed.

Lemma toggle_status_matches_subtasks_witness :
  subtasks demoTask <> [] /\ status (handleToggleSubtask demoTask "s2") = Done.
Proof.
  split; [discriminate|].
  apply (toggle_status_matches_subtasks demoTask "s2"); [discriminate|].
  repeat constructor.
Defined.

(** Toggling the same subtask twice gives back the task, whenever its
    status was the one its subtasks imply (a round trip of the card). *)
Theorem toggle_twice_restores t i :
  statusConsistent t -> handleToggleSubtask (handleToggleSubtask t i) i = t.
Proof.
  unfold statusConsistent, handleToggleSubtask, with_subtasks_status.
  destruct t as [tid ti de st pr dl et l ca le]; simpl. intros Hc.
  rewrite map_toggleSubtask_involutive. f_equal.
  destruct l as [|s l]; [done|]. rewrite Hc. apply deriveStatus_cons.
Qed.

Lemma toggle_twice_restores_witness :
  statusConsistent demoTask /\ handleToggleSubtask (handleToggleSubtask demoTask "s1") "s1" = demoTask.
Proof.
  assert (H : statusConsistent demoTask) by reflexivity.
  split; [exact H | apply (toggle_twice_restores demoTask "s1" H)].
Defined.

(** The progress bar of a task card always shows between 0 and 100
    percent. *)
Lemma cardProgress_bounds t : (0 <= cardProgress t <= 100)%Q.
Proof.
  unfold cardProgress, completedCount. case_bool_decide as Hn; [|split; discriminate].
  pose proof (count_where_le completed (subtasks t)) as Hle.
  set (c := count_where completed (subtasks t)) in *. set (n := length (subtasks t)) in *.
  assert (Hn' : (0 < inject_Z (Z.of_nat n))%Q) by (change 0%Q with (inject_Z 0); rewrite <- Zlt_Qlt; lia).
  split.
  - apply Qmult_le_0_compat; [|discriminate].
    apply Qle_shift_div_l; [done|]. rewrite Qmult_0_l. change 0%Q with (inject_Z 0). rewrite <- Zle_Qle. lia.
  - apply (Qle_trans _ (1 * inject_Z 100)); [|discriminate].
    apply Qmult_le_compat_r; [|discriminate].
    apply Qle_shift_div_r; [done|]. rewrite Qmult_1_l, <- Zle_Qle. lia.
Qed.

(** *** The Eisenhower matrix *)

Lemma getQuadrant_None now t : getQuadrant now t = None <-> status t = Done.
Proof.
  unfold getQuadrant. case_bool_decide; [done|].
  split; [|done]. cbv zeta.
  destruct (deadline t); [destruct (bool_decide (_ - now < _))|];
    destruct (bool_decide (priority t = Some High)); simpl; discriminate.
Qed.

(** The four quadrants of the matrix partition the tasks that are not
    done: every open task is shown in exactly one quadrant, and done tasks
    in none. *)
Theorem quadrants_partition now tasks :
  (length (quadrantTasks now tasks DoFirst) + length (quadrantTasks now tasks Schedule)
   + length (quadrantTasks now tasks Delegate) + length (quadrantTasks now tasks Delete))%nat
  = length (filter (fun t => status t <> Done) tasks).
Proof.
  induction tasks as [|t tasks IH]; [done|]. unfold quadrantTasks in *.
  rewrite !filter_cons.
  destruct (getQuadrant now t) as [q|] eqn:E.
  - assert (status t <> Done) by (rewrite <- (getQuadrant_None now); congruence).
    destruct q; repeat case_decide; simpl; try congruence; lia.
  - apply getQuadrant_None in E. repeat case_decide; simpl; try congruence; lia.
Qed.

End Tasks.
