(* ===== verification/FocusTask.v ===== *)
(** * FocusTask: the focus-task selector of [lib/task-utils.ts]

    [getNextFocusTask] filters the in-progress tasks and returns the first
    one after sorting by edit time (newest first); when there is none it does
    the same for the to-do tasks, sorted by deadline (none last) and then by
    priority.  Only the sign of a comparator matters to a sort, so the
    millisecond differences are kept as [Z]: timestamps and their
    differences are exact in doubles, and [Number.MAX_VALUE - d] keeps its
    sign.

    [Array.prototype.sort] is stable since ES2019; [jsSort] is a stable
    insertion sort, which for a consistent comparator gives the one stable
    sorted order any conforming engine gives.  The selector only reads the
    head of the sorted array, and [jsSort_head] shows that head is the first
    element no later element beats ([selectFirst]). *)

From stdpp Require Import strings sets.
From S2P Require Import Prelude Tasks.
Import Tasks.

Module FocusTask.

(** ** The sort and its head *)

Section Sort.
Context {A : Type} (cmp : A -> A -> Z).

(** [x] goes after every element that does not compare greater: the
    insertion order of equal elements is kept. *)
Fixpoint insertBy (x : A) (l : list A) : list A :=
  match l with
  | [] => [x]
  | y :: ys => if 0 <? cmp y x then x :: y :: ys else y :: insertBy x ys
  end.

Definition jsSort (l : list A) : list A := fold_left (fun acc x => insertBy x acc) l [].

(** A linear scan keeping the first best element. *)
Fixpoint bestFrom (b : A) (l : list A) : A :=
  match l with
  | [] => b
  | x :: xs => bestFrom (if 0 <? cmp b x then x else b) xs
  end.

Definition selectFirst (l : list A) : option A :=
  match l with
  | [] => None
  | x :: xs => Some (bestFrom x xs)
  end.

(** [t] is the first element of [l] that no element of [l] beats. *)
Definition firstBest (l : list A) (t : A) : Prop :=
  exists pre post, l = pre ++ t :: post /\
    Forall (fun u => cmp t u < 0) pre /\ Forall (fun u => cmp t u <= 0) post.

Lemma insertBy_cons x y ys :
  exists zs, insertBy x (y :: ys) = (if 0 <? cmp y x then x else y) :: zs.
Proof. simpl. destruct (0 <? cmp y x); eauto. Qed.

Lemma fold_insertBy_head l y ys :
  head (fold_left (fun acc x => insertBy x acc) l (y :: ys)) = Some (bestFrom y l).
Proof.
  revert y ys. induction l as [|x l IH]; intros y ys; [done|]. cbn [fold_left bestFrom].
  destruct (insertBy_cons x y ys) as [zs ->]. apply IH.
Qed.

Lemma jsSort_head l : head (jsSort l) = selectFirst l.
Proof. destruct l as [|x l]; [done|]. apply fold_insertBy_head. Qed.

Lemma insertBy_perm x l : insertBy x l ≡ₚ x :: l.
Proof.
  induction l as [|y l IH]; [done|]. simpl.
  destruct (0 <? cmp y x); [done|]. rewrite IH. constructor.
Qed.

Lemma jsSort_perm l : jsSort l ≡ₚ l.
Proof.
  unfold jsSort. rewrite <- (app_nil_r l) at 2.
  generalize (@nil A). induction l as [|x l IH]; intros acc; simpl; [done|].
  rewrite IH, insertBy_perm. by rewrite Permutation_middle.
Qed.

(** The comparators of the selector are antisymmetric and their [<= 0] is
    transitive. *)
Context (cmp_antisym : forall a b, cmp b a = - cmp a b)
        (cmp_trans : forall a b c, cmp a b <= 0 -> cmp b c <= 0 -> cmp a c <= 0).

Lemma cmp_refl a : cmp a a = 0.
Proof. pose proof (cmp_antisym a a). lia. Qed.

Lemma cmp_lt_le_trans a b c : cmp a b < 0 -> cmp b c <= 0 -> cmp a c < 0.
Proof.
  intros H1 H2. pose proof (cmp_trans a b c ltac:(lia) H2).
  destruct (Z.eq_dec (cmp a c) 0) as [E|]; [|lia].
  pose proof (cmp_trans b c a H2 ltac:(rewrite cmp_antisym; lia)).
  rewrite (cmp_antisym b a) in *. lia.
Qed.

Lemma cmp_le_lt_trans a b c : cmp a b <= 0 -> cmp b c < 0 -> cmp a c < 0.
Proof.
  intros H1 H2. pose proof (cmp_trans a b c H1 ltac:(lia)).
  destruct (Z.eq_dec (cmp a c) 0) as [E|]; [|lia].
  pose proof (cmp_trans c a b ltac:(rewrite cmp_antisym; lia) H1).
  rewrite (cmp_antisym c b) in *. lia.
Qed.

Lemma firstBest_le_head x xs t : firstBest (x :: xs) t -> cmp t x <= 0.
Proof.
  intros ([|p pre] & post & E & Hpre & _); simplify_list_eq.
  - rewrite cmp_refl; lia.
  - apply Forall_cons_1 in Hpre as [? _]. lia.
Qed.

Lemma bestFrom_firstBest b l : firstBest (b :: l) (bestFrom b l).
Proof.
  revert b. induction l as [|x xs IH]; intros b; simpl.
  - exists [], []. repeat constructor.
  - destruct (Z.ltb_spec 0 (cmp b x)) as [Hbx|Hbx].
    + pose proof (IH x) as Hx. pose proof (firstBest_le_head _ _ _ Hx) as Htx.
      destruct Hx as (pre & post & E & Hpre & Hpost).
      exists (b :: pre), post. rewrite E. split; [done|]. split; [|done].
      constructor; [|done]. apply (cmp_le_lt_trans _ x); [done|]. rewrite cmp_antisym. lia.
    + destruct (IH b) as ([|p pre] & post & E & Hpre & Hpost); simpl in E;
        injection E as Hb Hxs.
      * rewrite <- Hb in Hpost |- *. subst post. exists [], (x :: xs). repeat constructor; auto with lia.
      * subst p. apply Forall_cons_1 in Hpre as [Htb Hpre].
        exists (b :: x :: pre), post. split; [simpl; by rewrite <- Hxs|]. split; [|done].
        repeat constructor; auto. apply (cmp_lt_le_trans _ b); lia.
Qed.

Lemma selectFirst_firstBest l t : selectFirst l = Some t -> firstBest l t.
Proof. destruct l; intros [= <-]. apply bestFrom_firstBest. Qed.

End Sort.

(** The first element of a list that a strict order [before] does not
    place after another, with earlier elements strictly behind it: there is
    at most one. *)
Definition firstBy {A} (before : A -> A -> Prop) (l : list A) (t : A) : Prop :=
  exists pre post, l = pre ++ t :: post /\
    Forall (fun u => before t u) pre /\ Forall (fun u => ~ before u t) post.

Lemma firstBy_unique {A} (before : A -> A -> Prop) l t1 t2 :
  firstBy before l t1 -> firstBy before l t2 -> t1 = t2.
Proof.
  intros (pre1 & post1 & E1 & P1 & Q1) (pre2 & post2 & E2 & P2 & Q2). subst l.
  revert pre2 E2 P2. induction pre1 as [|a pre1 IH]; intros [|b pre2] E P2;
    simplify_list_eq; auto.
  - apply Forall_cons_1 in P2 as [H _]. rewrite Forall_app, Forall_cons_iff in Q1.
    destruct Q1 as (_ & Q & _). contradiction.
  - apply Forall_cons_1 in P1 as [H _]. rewrite Forall_app, Forall_cons_iff in Q2.
    destruct Q2 as (_ & Q & _). contradiction.
  - apply Forall_cons_1 in P1 as [_ P1]. apply Forall_cons_1 in P2 as [_ P2].
    eapply IH; eauto.
Qed.

(** ** The selector (lines 11-43) *)

(** [new Date(a.lastEditedAt || a.createdAt).getTime()] *)
Definition editTime (t : Task) : Z := default (createdAt t) (lastEditedAt t).

(** Lines 15-19: newest edit first. *)
Definition cmpInProgress (a b : Task) : Z := editTime b - editTime a.

(** [Number.MAX_VALUE], the largest finite double. *)
Definition MAX_VALUE : Z := (2 ^ 53 - 1) * 2 ^ 971.

(** Lines 25-26. *)
Definition deadlineKey (t : Task) : Z := default MAX_VALUE (deadline t).

(** Lines 33-35: [priorityMap[a.priority || 'undefined'] || 0]. *)
Definition priorityRank (p : option Priority) : Z :=
  match p with
  | Some High => 3
  | Some Medium => 2
  | Some Low => 1
  | None => 0
  end.

(** Lines 23-38: nearest deadline first, then highest priority. *)
Definition cmpTodo (a b : Task) : Z :=
  let deadlineA := deadlineKey a in
  let deadlineB := deadlineKey b in
  if negb (deadlineA =? deadlineB) then deadlineA - deadlineB
  else priorityRank (priority b) - priorityRank (priority a).

Definition getNextFocusTask (tasks : list Task) : option Task :=
  let inProgressTasks := filter (fun t => status t = InProgress) tasks in
  if bool_decide (0 < length inProgressTasks)%nat
  then head (jsSort cmpInProgress inProgressTasks)
  else
    let todoTasks := filter (fun t => status t = Todo) tasks in
    if bool_decide (0 < length todoTasks)%nat
    then head (jsSort cmpTodo todoTasks)
    else None.

(** ** The contract of the selector (spec section 4.3) *)

Definition editedLater (a b : Task) : Prop := editTime b < editTime a.

(** Deadlines in order, a missing deadline after every date. *)
Definition deadlineBefore (a b : option Z) : Prop :=
  match a, b with
  | Some x, Some y => x < y
  | Some _, None => True
  | None, _ => False
  end.

Definition dueFirst (a b : Task) : Prop :=
  deadlineBefore (deadline a) (deadline b) \/
  (deadline a = deadline b /\ priorityRank (priority b) < priorityRank (priority a)).

(** The in-progress task edited last, else the to-do task due first (the
    more important among equal deadlines), else none; ties go to the task
    listed first. *)
Definition selectFocusTask_spec (tasks : list Task) (r : option Task) : Prop :=
  match filter (fun t => status t = InProgress) tasks with
  | _ :: _ => exists t, r = Some t /\
                firstBy editedLater (filter (fun t => status t = InProgress) tasks) t
  | [] =>
      match filter (fun t => status t = Todo) tasks with
      | _ :: _ => exists t, r = Some t /\ firstBy dueFirst (filter (fun t => status t = Todo) tasks) t
      | [] => r = None
      end
  end.

(** The range of a JavaScript [Date]: at most 8.64e15 ms from the epoch. *)
Definition max_date_ms : Z := 8640000000000000.

Definition validDeadline (t : Task) : Prop :=
  forall d, deadline t = Some d -> Z.abs d <= max_date_ms.

Definition validDeadlines (tasks : list Task) : Prop := Forall validDeadline tasks.

Definition day_ms : Z := 86400000.
Definition demoNow : Z := 1704708000000.

Definition demoTaskOf (i : string) (st : Status) (p : option Priority) (dl : option Z)
    (edited : Z) : Task :=
  mkTask i i None st (p) dl None [] (demoNow - 7 * day_ms) (Some edited).

Definition editedYesterday := demoTaskOf "a" InProgress (Some Low) None (demoNow - day_ms).
Definition editedToday := demoTaskOf "b" InProgress (Some Low) None demoNow.
Definition dueLow := demoTaskOf "c" Todo (Some Low) (Some (demoNow + 3 * day_ms)) demoNow.
Definition dueHigh := demoTaskOf "d" Todo (Some High) (Some (demoNow + 3 * day_ms)) demoNow.
Definition finished := demoTaskOf "e" Done (Some High) None demoNow.

(** ** Theorems *)

Lemma cmpInProgress_antisym a b : cmpInProgress b a = - cmpInProgress a b.
Proof. unfold cmpInProgress. lia. Qed.

Lemma cmpInProgress_trans a b c :
  cmpInProgress a b <= 0 -> cmpInProgress b c <= 0 -> cmpInProgress a c <= 0.
Proof. unfold cmpInProgress. lia. Qed.

Lemma cmpTodo_le a b :
  cmpTodo a b <= 0 <->
  deadlineKey a < deadlineKey b \/
  (deadlineKey a = deadlineKey b /\ priorityRank (priority b) <= priorityRank (priority a)).
Proof. unfold cmpTodo; simpl. destruct (Z.eqb_spec (deadlineKey a) (deadlineKey b)); simpl; lia. Qed.

Lemma cmpTodo_lt a b :
  cmpTodo a b < 0 <->
  deadlineKey a < deadlineKey b \/
  (deadlineKey a = deadlineKey b /\ priorityRank (priority b) < priorityRank (priority a)).
Proof. unfold cmpTodo; simpl. destruct (Z.eqb_spec (deadlineKey a) (deadlineKey b)); simpl; lia. Qed.

Lemma cmpTodo_antisym a b : cmpTodo b a = - cmpTodo a b.
Proof.
  unfold cmpTodo; simpl. rewrite (Z.eqb_sym (deadlineKey b)).
  destruct (Z.eqb_spec (deadlineKey a) (deadlineKey b)); simpl; lia.
Qed.

Lemma cmpTodo_trans a b c : cmpTodo a b <= 0 -> cmpTodo b c <= 0 -> cmpTodo a c <= 0.
Proof. rewrite !cmpTodo_le. lia. Qed.

Lemma cmpInProgress_lt a b : cmpInProgress a b < 0 <-> editedLater a b.
Proof. unfold cmpInProgress, editedLater. lia. Qed.

(** Inside the range of dates, [Number.MAX_VALUE] is a faithful "no
    deadline". *)
Lemma cmpTodo_lt_dueFirst a b :
  validDeadline a -> validDeadline b -> cmpTodo a b < 0 <-> dueFirst a b.
Proof.
  intros Ha Hb. rewrite cmpTodo_lt. unfold dueFirst, deadlineKey, validDeadline in *.
  assert (max_date_ms < MAX_VALUE) by reflexivity. unfold max_date_ms in *.
  destruct (deadline a) as [x|], (deadline b) as [y|]; simpl;
    try specialize (Ha _ eq_refl); try specialize (Hb _ eq_refl);
    split; intros; try lia; intuition (try congruence; try lia).
Qed.

(** The head of a stable sort, read through the order it stands for. *)
Lemma firstBest_firstBy {A} (cmp : A -> A -> Z) (before : A -> A -> Prop) l t :
  (forall a b, cmp b a = - cmp a b) ->
  (forall a b, a ∈ l -> b ∈ l -> cmp a b < 0 <-> before a b) ->
  firstBest cmp l t -> firstBy before l t.
Proof.
  intros Hanti Hiff (pre & post & E & Hpre & Hpost).
  assert (Hin : forall u, u ∈ pre \/ u ∈ post \/ u = t -> u ∈ l)
    by (intros u Hu; rewrite E, elem_of_app, elem_of_cons; tauto).
  exists pre, post. split; [done|]. split.
  - rewrite Forall_forall in Hpre |- *. intros u Hu.
    pose proof Hu as Hu'. apply list_elem_of_In in Hu'.
    apply Hiff; [apply Hin; tauto.. | auto].
  - rewrite Forall_forall in Hpost |- *. intros u Hu Hb.
    pose proof Hu as Hu'. apply list_elem_of_In in Hu'.
    apply Hiff in Hb; [|apply Hin; tauto..].
    rewrite Hanti in Hb. specialize (Hpost u Hu). lia.
Qed.

Lemma head_jsSort_firstBy {A} (cmp : A -> A -> Z) (before : A -> A -> Prop) x l :
  (forall a b, cmp b a = - cmp a b) ->
  (forall a b c, cmp a b <= 0 -> cmp b c <= 0 -> cmp a c <= 0) ->
  (forall a b, a ∈ x :: l -> b ∈ x :: l -> cmp a b < 0 <-> before a b) ->
  exists t, head (jsSort cmp (x :: l)) = Some t /\ firstBy before (x :: l) t.
Proof.
  intros Hanti Htrans Hiff. rewrite jsSort_head. eexists; split; [done|].
  apply (firstBest_firstBy cmp); [done..|]. by apply bestFrom_firstBest.
Qed.

Lemma getNextFocusTask_in_progress tasks :
  filter (fun t => status t = InProgress) tasks <> [] ->
  exists t, getNextFocusTask tasks = Some t /\
            firstBy editedLater (filter (fun t => status t = InProgress) tasks) t.
Proof.
  unfold getNextFocusTask. destruct (filter _ tasks) as [|a ip]; [done|]. intros _.
  rewrite bool_decide_eq_true_2 by (simpl; lia).
  apply head_jsSort_firstBy; [apply cmpInProgress_antisym | apply cmpInProgress_trans |].
  intros x y _ _. apply cmpInProgress_lt.
Qed.

Lemma getNextFocusTask_refines tasks :
  validDeadlines tasks -> selectFocusTask_spec tasks (getNextFocusTask tasks).
Proof.
  intros Hv. unfold getNextFocusTask, selectFocusTask_spec.
  destruct (filter (fun t => status t = InProgress) tasks) as [|a ip] eqn:Eip.
  - rewrite bool_decide_eq_false_2 by (simpl; lia).
    destruct (filter (fun t => status t = Todo) tasks) as [|b td] eqn:Etd; [done|].
    rewrite bool_decide_eq_true_2 by (simpl; lia).
    apply head_jsSort_firstBy; [apply cmpTodo_antisym | apply cmpTodo_trans |].
    intros x y Hx Hy. rewrite <- Etd, !list_elem_of_filter in *.
    unfold validDeadlines in Hv. rewrite Forall_forall in Hv.
    apply cmpTodo_lt_dueFirst; apply Hv, list_elem_of_In; tauto.
  - rewrite bool_decide_eq_true_2 by (simpl; lia).
    apply head_jsSort_firstBy; [apply cmpInProgress_antisym | apply cmpInProgress_trans |].
    intros x y _ _. apply cmpInProgress_lt.
Qed.

Lemma selectFocusTask_spec_unique tasks r1 r2 :
  selectFocusTask_spec tasks r1 -> selectFocusTask_spec tasks r2 -> r1 = r2.
Proof.
  unfold selectFocusTask_spec.
  destruct (filter (fun t => status t = InProgress) tasks) as [|a ip];
    [destruct (filter (fun t => status t = Todo) tasks) as [|b td]; [congruence|]|];
    intros (t1 & -> & H1) (t2 & -> & H2); f_equal; eapply firstBy_unique; eauto.
Qed.

Lemma filter_nil_Forall {A} (P : A -> Prop) `{!forall x, Decision (P x)} l :
  filter P l = [] <-> Forall (fun x => ~ P x) l.
Proof.
  induction l as [|x l IH]; [split; auto|]. rewrite filter_cons, Forall_cons_iff.
  case_decide; split; intros H'; try discriminate; try tauto; by apply IH.
Qed.

(** C7: the selector implements its contract: on tasks whose deadlines are
    dates, [getNextFocusTask] returns the in-progress task edited last,
    else the to-do task with the nearest deadline (none counting as
    latest) and then the highest priority, else [null], ties going to the
    task listed first; and the contract admits no other result. *)
Theorem getNextFocusTask_correct tasks r :
  validDeadlines tasks -> selectFocusTask_spec tasks r <-> r = getNextFocusTask tasks.
Proof.
  intros Hv. split.
  - intros Hs. eapply selectFocusTask_spec_unique; [exact Hs|]. by apply getNextFocusTask_refines.
  - intros ->. by apply getNextFocusTask_refines.
Qed.

Lemma getNextFocusTask_correct_witness :
  validDeadlines [dueLow; dueHigh; finished] /\
  (selectFocusTask_spec [dueLow; dueHigh; finished] (Some dueHigh) <->
   Some dueHigh = getNextFocusTask [dueLow; dueHigh; finished]).
Proof.
  assert (Hv : validDeadlines [dueLow; dueHigh; finished]).
  { unfold validDeadlines, validDeadline.
    repeat apply Forall_cons; try apply Forall_nil; intros d Hd; vm_compute in Hd;
      first [discriminate | injection Hd as <-; vm_compute; discriminate]. }
  split; [exact Hv | apply (getNextFocusTask_correct _ _ Hv)].
Defined.

(** The selector returns [null] exactly when every task is done. *)
Theorem getNextFocusTask_none tasks :
  getNextFocusTask tasks = None <-> Forall (fun t => status t = Done) tasks.
Proof.
  unfold getNextFocusTask.
  destruct (filter (fun t => status t = InProgress) tasks) as [|a ip] eqn:Eip;
    [destruct (filter (fun t => status t = Todo) tasks) as [|b td] eqn:Etd|].
  - rewrite !bool_decide_eq_false_2 by (simpl; lia). split; [intros _|done].
    apply filter_nil_Forall in Eip, Etd. rewrite Forall_forall in *.
    intros t Ht. specialize (Eip t Ht). specialize (Etd t Ht). destruct (status t); tauto.
  - rewrite bool_decide_eq_false_2, bool_decide_eq_true_2 by (simpl; lia).
    rewrite jsSort_head. split; [discriminate|]. intros Hd.
    assert (Hb : b ∈ filter (fun t => status t = Todo) tasks) by (rewrite Etd; left).
    apply list_elem_of_filter in Hb as [Hb Hin]. rewrite Forall_forall in Hd.
    apply list_elem_of_In in Hin. rewrite Hd in Hb; auto. discriminate.
  - rewrite bool_decide_eq_true_2 by (simpl; lia).
    rewrite jsSort_head. split; [discriminate|]. intros Hd.
    assert (Ha : a ∈ filter (fun t => status t = InProgress) tasks) by (rewrite Eip; left).
    apply list_elem_of_filter in Ha as [Ha Hin]. rewrite Forall_forall in Hd.
    apply list_elem_of_In in Hin. rewrite Hd in Ha; auto. discriminate.
Qed.

(** The selection examples of the specification (section 8): of two
    in-progress tasks the one edited today wins over the one edited
    yesterday; with no task in progress, of two to-do tasks due in three
    days the high-priority one wins over the low-priority one. *)
Example spec_selection_examples :
  getNextFocusTask [editedYesterday; editedToday; dueLow] = Some editedToday /\
  getNextFocusTask [dueLow; finished; dueHigh] = Some dueHigh.
Proof. split; vm_compute; reflexivity. Qed.

End FocusTask.
