(* ===== verification/TaskStore.v ===== *)
(** * TaskStore: the task provider of [context/TaskContext.tsx]

    [TaskProvider] keeps the task list, the AI suggestions per task (a
    [Record<string, AiSuggestion[]>], here a [gmap]), a loading flag and the
    id of the user whose tasks are loaded.  Every handler updates the local
    list first (optimistically) and then, for a signed-in user, writes the
    [tasks] and [subtasks] tables through [Store.call], one fault per
    request; a failure shows a toast (the list [toasts] records their
    titles) and, for [addTask] only, reverts the local change.

    The tables hold the rows of the signed-in user, newest task first (the
    order of [.order('created_at', { ascending: false })] under a clock that
    does not go back); subtask rows are kept in insertion order, the order
    of their [created_at].  The schema is not part of the repository: a
    task insert fails on an existing id (primary key), and deleting a task
    row leaves its subtask rows alone, as the client issues no delete for
    them. *)

From stdpp Require Import strings gmap.
From S2P Require Import Prelude Store Tasks FocusTask.
Import Store Tasks FocusTask.

Module TaskStore.

(** ** Rows (the columns the provider writes and reads) *)

Record TaskRow := mkTaskRow {
  r_id : string;
  r_title : string;
  r_description : option string;
  r_status : Status;
  r_deadline : option Z;
  r_estimated_minutes : option Z;
  r_priority : option Priority;
  r_created_at : Z;
  r_updated_at : option Z
}.

Record SubtaskRow := mkSubtaskRow {
  s_id : string;
  s_task_id : string;
  s_title : string;
  s_completed : bool;
  s_is_ai_suggested : bool;
  s_estimated_minutes : option Z
}.

Record TaskDb := mkTaskDb {
  task_rows : list TaskRow;
  subtask_rows : list SubtaskRow
}.

Record AiSuggestion := mkAiSuggestion {
  a_id : string;
  a_title : string;
  a_estimatedTime : option Z
}.

(** [x || null] on an optional string and an optional number. *)
Definition str_or_null (o : option string) : option string :=
  match o with Some "" => None | _ => o end.
Definition num_or_null (o : option Z) : option Z :=
  match o with Some 0 => None | _ => o end.

(** Lines 184-191 and 241-248. *)
Definition subtaskRow (taskId : string) (st : SubTask) : SubtaskRow :=
  mkSubtaskRow (st_id st) taskId (st_title st) (completed st)
    (default false (isAiSuggested st)) (num_or_null (st_estimatedTime st)).

(** Lines 116-122. *)
Definition subtaskOfRow (r : SubtaskRow) : SubTask :=
  mkSubTask (s_id r) (s_title r) (s_completed r) (Some (s_is_ai_suggested r)) (s_estimated_minutes r).

(** Lines 108-126: a row and its subtask rows as a [Task]
    ([subtasksData || []]: a failed subtask query gives no subtasks). *)
Definition taskOfRow (r : TaskRow) (subs : option (list SubtaskRow)) : Task :=
  mkTask (r_id r) (r_title r) (str_or_null (r_description r)) (r_status r) (r_priority r)
    (r_deadline r) (r_estimated_minutes r) (map subtaskOfRow (default [] subs))
    (r_created_at r) (r_updated_at r).

(** ** The provider's state *)

Record TaskWorld := mkTaskWorld {
  tasks : list Task;
  taskSuggestions : gmap string (list AiSuggestion);
  loading : bool;
  previousUserId : option string;
  toasts : list string;
  tdb : TaskDb;
  tfaults : list bool;
  tnow : Z;
  tuser : option string
}.

#[export] Instance TaskWorld_backend : Backend TaskDb TaskWorld := {
  db_of := tdb;
  with_db d w := mkTaskWorld (tasks w) (taskSuggestions w) (loading w) (previousUserId w)
                   (toasts w) d (tfaults w) (tnow w) (tuser w);
  faults_of := tfaults;
  with_faults fs w := mkTaskWorld (tasks w) (taskSuggestions w) (loading w) (previousUserId w)
                        (toasts w) (tdb w) fs (tnow w) (tuser w);
  db_with_db _ _ := eq_refl;
  db_with_faults _ _ := eq_refl;
  faults_with_db _ _ := eq_refl;
  faults_with_faults _ _ := eq_refl
}.

(** [setTasks(prev => f(prev))] and the other setters. *)
Definition setTasks (f : list Task -> list Task) : St TaskWorld unit :=
  st_modify (fun w => mkTaskWorld (f (tasks w)) (taskSuggestions w) (loading w) (previousUserId w)
                        (toasts w) (tdb w) (tfaults w) (tnow w) (tuser w)).
Definition setTaskSuggestions
    (f : gmap string (list AiSuggestion) -> gmap string (list AiSuggestion)) : St TaskWorld unit :=
  st_modify (fun w => mkTaskWorld (tasks w) (f (taskSuggestions w)) (loading w) (previousUserId w)
                        (toasts w) (tdb w) (tfaults w) (tnow w) (tuser w)).
Definition setLoading (b : bool) : St TaskWorld unit :=
  st_modify (fun w => mkTaskWorld (tasks w) (taskSuggestions w) b (previousUserId w)
                        (toasts w) (tdb w) (tfaults w) (tnow w) (tuser w)).
Definition setPreviousUserId (u : option string) : St TaskWorld unit :=
  st_modify (fun w => mkTaskWorld (tasks w) (taskSuggestions w) (loading w) u
                        (toasts w) (tdb w) (tfaults w) (tnow w) (tuser w)).
Definition toast (title : string) : St TaskWorld unit :=
  st_modify (fun w => mkTaskWorld (tasks w) (taskSuggestions w) (loading w) (previousUserId w)
                        (toasts w ++ [title]) (tdb w) (tfaults w) (tnow w) (tuser w)).

(** ** Requests; each yields whether it succeeded ([!error]) or its data *)

Definition set_task_rows (rs : list TaskRow) (d : TaskDb) : TaskDb := mkTaskDb rs (subtask_rows d).
Definition set_subtask_rows (rs : list SubtaskRow) (d : TaskDb) : TaskDb := mkTaskDb (task_rows d) rs.

(** [.from('tasks').insert(row)]: the database sets [created_at]. *)
Definition insertTaskRow (r : TaskRow) : St TaskWorld bool :=
  call false (fun d =>
    if bool_decide (r_id r ∈ map r_id (task_rows d)) then (false, d)
    else (true, set_task_rows (r :: task_rows d) d)).

(** [.from('subtasks').insert(rows)] *)
Definition insertSubtaskRows (rs : list SubtaskRow) : St TaskWorld bool :=
  call false (fun d => (true, set_subtask_rows (subtask_rows d ++ rs) d)).

(** [.from('tasks').update(f).eq('id', id).eq('user_id', uid)] *)
Definition updateTaskRow (tid : string) (f : TaskRow -> TaskRow) : St TaskWorld bool :=
  call false (fun d =>
    (true, set_task_rows (map (fun r => if bool_decide (r_id r = tid) then f r else r) (task_rows d)) d)).

(** [.from('subtasks').delete().eq('task_id', id)] *)
Definition deleteSubtaskRows (tid : string) : St TaskWorld bool :=
  call false (fun d => (true, set_subtask_rows (filter (fun s => s_task_id s <> tid) (subtask_rows d)) d)).

(** [.from('tasks').delete().eq('id', id).eq('user_id', uid)] *)
Definition deleteTaskRow (tid : string) : St TaskWorld bool :=
  call false (fun d => (true, set_task_rows (filter (fun r => r_id r <> tid) (task_rows d)) d)).

(** [.from('tasks').select('*').eq('user_id', uid).order('created_at', desc)] *)
Definition selectTaskRows : St TaskWorld (option (list TaskRow)) :=
  call None (fun d => (Some (task_rows d), d)).

(** [.from('subtasks').select('*').eq('task_id', id).order('created_at')] *)
Definition selectSubtaskRows (tid : string) : St TaskWorld (option (list SubtaskRow)) :=
  call None (fun d => (Some (filter (fun s => s_task_id s = tid) (subtask_rows d)), d)).

(** ** Handlers *)

(** The row [addTask] inserts (lines 163-172); [created_at] is the
    database's [now()], and [updated_at] is not sent. *)
Definition taskRowOf (t : Task) (createdAt : Z) : TaskRow :=
  mkTaskRow (id t) (title t) (str_or_null (description t)) (status t) (deadline t)
    (num_or_null (estimatedTime t)) (priority t) createdAt None.

(** The columns [updateTask] writes (lines 214-222). *)
Definition updatedRow (t : Task) (now : Z) (r : TaskRow) : TaskRow :=
  mkTaskRow (r_id r) (title t) (str_or_null (description t)) (status t) (deadline t)
    (num_or_null (estimatedTime t)) (priority t) (r_created_at r) (Some now).

(** Lines 98-128: one subtask query per task row ([Promise.all]). *)
Fixpoint fetchSubtasks (rows : list TaskRow) : St TaskWorld (list Task) :=
  match rows with
  | [] => mret []
  | r :: rs =>
      subs ← selectSubtaskRows (r_id r);
      ts ← fetchSubtasks rs;
      mret (taskOfRow r subs :: ts)
  end.

(** Lines 86-143; [closureTasks] is the [tasks] of the render whose
    handler called it. *)
Definition fetchTasks (closureTasks : list Task) : St TaskWorld unit :=
  w ← st_get;
  match tuser w with
  | None => mret ()
  | Some _ =>
      rows ← selectTaskRows;
      match rows with
      | None =>
          (if bool_decide (length closureTasks = 0%nat) then setTasks (fun _ => []) else mret ());;
          toast "Error loading tasks"
      | Some rows =>
          if bool_decide (0 < length rows)%nat
          then ts ← fetchSubtasks rows; setTasks (fun _ => ts)
          else setTasks (fun _ => [])
      end
  end.

(** [Omit<Task, 'id' | 'createdAt'>] as the dialog builds it. *)
Record TaskData := mkTaskData {
  d_title : string;
  d_description : option string;
  d_status : Status;
  d_priority : option Priority;
  d_deadline : option Z;
  d_estimatedTime : option Z;
  d_subtasks : list SubTask
}.

Definition newTaskOf (newId : string) (d : TaskData) (now : Z) : Task :=
  mkTask newId (d_title d) (d_description d) (d_status d) (d_priority d) (d_deadline d)
    (d_estimatedTime d) (d_subtasks d) now (Some now).

(** Lines 145-204; [newId] is the value of [crypto.randomUUID()]. *)
Definition addTask (newId : string) (d : TaskData) (suggestions : list AiSuggestion)
    : St TaskWorld unit :=
  w ← st_get;
  let newTask := newTaskOf newId d (tnow w) in
  setTasks (fun prev => newTask :: prev);;
  (if bool_decide (0 < length suggestions)%nat
   then setTaskSuggestions (fun prev => <[newId := suggestions]> prev)
   else mret ());;
  match tuser w with
  | None => mret ()
  | Some _ =>
      ok ← insertTaskRow (taskRowOf newTask (tnow w));
      if negb ok then
        setTasks (filter (fun t => id t <> newId));;
        toast "Error saving task"
      else if bool_decide (0 < length (subtasks newTask))%nat then
        ok2 ← insertSubtaskRows (map (subtaskRow newId) (subtasks newTask));
        if negb ok2 then toast "Error saving task" else mret ()
      else mret ()
  end.

(** Lines 206-259: update the row, then delete every subtask row of the
    task and insert the current ones. *)
Definition updateTask (updatedTask : Task) : St TaskWorld unit :=
  w ← st_get;
  setTasks (map (fun t => if bool_decide (id t = id updatedTask)
                          then with_lastEditedAt (tnow w) updatedTask else t));;
  match tuser w with
  | None => mret ()
  | Some _ =>
      ok ← updateTaskRow (id updatedTask) (updatedRow updatedTask (tnow w));
      if negb ok then toast "Update failed" else
      ok2 ← deleteSubtaskRows (id updatedTask);
      if negb ok2 then toast "Update failed" else
      if bool_decide (0 < length (subtasks updatedTask))%nat then
        ok3 ← insertSubtaskRows (map (subtaskRow (id updatedTask)) (subtasks updatedTask));
        if negb ok3 then toast "Update failed" else mret ()
      else mret ()
  end.

(** Lines 261-275: on failure, refetch (not awaited; nothing follows it). *)
Definition deleteTask (taskId : string) : St TaskWorld unit :=
  w ← st_get;
  setTasks (filter (fun t => id t <> taskId));;
  match tuser w with
  | None => mret ()
  | Some _ =>
      ok ← deleteTaskRow taskId;
      if negb ok then toast "Delete failed";; fetchTasks (tasks w) else mret ()
  end.

(** Lines 277-296. *)
Definition addSubtask (taskId : string) (subtask : SubTask) : St TaskWorld unit :=
  w ← st_get;
  match findTask (tasks w) taskId with
  | None => mret ()
  | Some task =>
      updateTask (with_subtasks (subtasks task ++ [subtask]) task);;
      setTaskSuggestions (fun prev =>
        <[taskId := default [] (filter (fun s => a_title s <> st_title subtask) <$> prev !! taskId)]> prev)
  end.

(** Lines 21-46: the demo data; [loadTime] is when the module was loaded. *)
Definition researchTask (loadTime : Z) : Task :=
  mkTask "1" "Write Research Paper on Climate Change"
    (Some "A comprehensive analysis of climate change effects on coastal ecosystems")
    InProgress (Some High) (Some (loadTime + 7 * 24 * 60 * 60 * 1000)) (Some 480)
    [mkSubTask "s1" "Choose and narrow down research topic" true None None;
     mkSubTask "s2" "Conduct preliminary research" true (Some true) None;
     mkSubTask "s3" "Create an outline" false (Some true) None;
     mkSubTask "s4" "Write introduction" false None None]
    loadTime (Some (loadTime - 1000 * 60 * 60)).

Definition initialTasks (loadTime : Z) : list Task := [researchTask loadTime].

Definition sampleSuggestions : gmap string (list AiSuggestion) :=
  {[ "1" := [mkAiSuggestion "a1" "Draft body paragraphs with evidence" (Some 120)] ]}.

(** Lines 57-84: the load effect (the component stays mounted). *)
Definition loadEffect (loadTime : Z) (authLoading : bool) : St TaskWorld unit :=
  w ← st_get;
  if authLoading then mret () else
  match tuser w with
  | Some uid =>
      if bool_decide (previousUserId w <> Some uid) then
        setLoading true;; fetchTasks (tasks w);; setPreviousUserId (Some uid);; setLoading false
      else mret ()
  | None =>
      setTasks (fun _ => initialTasks loadTime);;
      setTaskSuggestions (fun _ => sampleSuggestions);;
      setPreviousUserId None;;
      setLoading false
  end.

(** ** Frame lemmas *)

Ltac task_keeps :=
  repeat (keeps_step || (progress unfold toast, setTaskSuggestions, setLoading,
    setPreviousUserId, insertTaskRow, insertSubtaskRows, updateTaskRow, deleteSubtaskRows,
    deleteTaskRow, selectTaskRows, selectSubtaskRows)).

(** [prev.map(t => t.id === u.id ? { ...u, lastEditedAt: now } : t)] *)
Definition replaceTask (now : Z) (u : Task) (l : list Task) : list Task :=
  map (fun t => if bool_decide (id t = id u) then with_lastEditedAt now u else t) l.

(** Only the optimistic update of [updateTask] touches the list. *)
Lemma updateTask_tasks u w : tasks (exec (updateTask u) w) = replaceTask (tnow w) u (tasks w).
Proof.
  unfold updateTask. rewrite exec_bind. cbn [st_get fst snd].
  rewrite exec_seq, keeps_exec; [done|]. cbn [tnow]. task_keeps.
Qed.

Lemma replaceTask_same_id now u l t :
  t ∈ replaceTask now u l -> id t = id u -> t = with_lastEditedAt now u.
Proof.
  unfold replaceTask. rewrite list_elem_of_fmap. intros (t0 & -> & _).
  case_bool_decide; [done | contradiction].
Qed.

Lemma replaceTask_other_id now u l t :
  t ∈ replaceTask now u l -> id t <> id u -> t ∈ l.
Proof.
  unfold replaceTask. rewrite list_elem_of_fmap. intros (t0 & -> & Hin).
  case_bool_decide; [done | auto].
Qed.

Lemma replaceTask_in now u l t :
  t ∈ l -> id t = id u -> with_lastEditedAt now u ∈ replaceTask now u l.
Proof.
  intros Hin Hid. unfold replaceTask. apply list_elem_of_fmap. exists t.
  by rewrite bool_decide_eq_true_2.
Qed.

Lemma filter_eq_filter_neq {A} (f : A -> string) i l :
  filter (fun x => f x = i) (filter (fun x => f x <> i) l) = [].
Proof.
  induction l as [|x l IH]; [done|]. rewrite (filter_cons (fun x => f x <> i)).
  case_decide; [rewrite filter_cons, decide_False|]; done.
Qed.

Ltac task_unfold :=
  unfold loadEffect, addSubtask, deleteTask, updateTask, addTask, fetchTasks,
    setTasks, setTaskSuggestions, setLoading, setPreviousUserId, toast,
    insertTaskRow, insertSubtaskRows, updateTaskRow, deleteSubtaskRows, deleteTaskRow,
    selectTaskRows, selectSubtaskRows, set_task_rows, set_subtask_rows,
    exec, mbind, St_bind, mret, St_ret, st_get, st_modify, call in *.

(** What a fault-free [fetchTasks] shows for the rows of the store. *)
Definition viewRow (db : TaskDb) (r : TaskRow) : Task :=
  taskOfRow r (Some (filter (fun x => s_task_id x = r_id r) (subtask_rows db))).
Definition dbView (db : TaskDb) : list Task := map (viewRow db) (task_rows db).

Lemma fetchSubtasks_ok rows w :
  tfaults w = [] -> fetchSubtasks rows w = (map (viewRow (tdb w)) rows, w).
Proof.
  intros Hf. induction rows as [|r rows IH]; [done|].
  destruct w as [ts sg ld pu to db fs n us]; simpl in Hf; subst.
  cbn [fetchSubtasks]. unfold mbind, St_bind, selectSubtaskRows, call. cbn.
  rewrite IH. done.
Qed.

Lemma updateTask_keeps_suggestions u : keeps (same taskSuggestions) (updateTask u).
Proof. unfold updateTask, setTasks. task_keeps. Qed.

Definition demoLoadTime : Z := 1704708000000.
Definition demoTask0 : Task := researchTask demoLoadTime.

Definition demoWorld (user : option string) (faults : list bool) : TaskWorld :=
  mkTaskWorld (initialTasks demoLoadTime) ∅ false None [] (mkTaskDb [] []) faults
    (demoLoadTime + 3600000) user.

Definition demoRow : TaskRow :=
  mkTaskRow "t1" "Revise chapter 3" None Todo None None (Some Medium) 1704708000000 None.
Definition demoSubRows : list SubtaskRow :=
  [mkSubtaskRow "x1" "t1" "Read notes" false false None].

(** ** Theorems *)

(** C8: [updateTask] is not atomic: when the row update and the delete of
    the subtask rows succeed and the insert of the new ones fails, the
    database keeps no subtask of the task while the list on screen still
    shows them, and the user only sees "Update failed". *)
Theorem update_failure_drops_remote_subtasks w uid u :
  tuser w = Some uid -> tfaults w = [false; false; true] -> subtasks u <> [] ->
  let w' := exec (updateTask u) w in
  filter (fun s => s_task_id s = id u) (subtask_rows (tdb w')) = [] /\
  (forall t, t ∈ tasks w' -> id t = id u -> subtasks t = subtasks u) /\
  toasts w' = toasts w ++ ["Update failed"].
Proof.
  intros Hu Hf Hs w'. split_and!.
  - unfold w'. destruct w as [ts sg ld pu to [rows subs] fs n us]; simpl in Hu, Hf; subst.
    task_unfold. cbn. rewrite bool_decide_eq_true_2 by (destruct (subtasks u); simpl; [done|lia]).
    apply filter_eq_filter_neq.
  - intros t Ht Hid. unfold w' in Ht. rewrite updateTask_tasks in Ht.
    by rewrite (replaceTask_same_id _ _ _ _ Ht Hid).
  - unfold w'. destruct w as [ts sg ld pu to [rows subs] fs n us]; simpl in Hu, Hf; subst.
    task_unfold. cbn. rewrite bool_decide_eq_true_2 by (destruct (subtasks u); simpl; [done|lia]).
    done.
Qed.

Lemma update_failure_drops_remote_subtasks_witness :
  tuser (demoWorld (Some "u1") [false; false; true]) = Some "u1" /\
  tfaults (demoWorld (Some "u1") [false; false; true]) = [false; false; true] /\
  subtasks demoTask0 <> [] /\
  toasts (exec (updateTask demoTask0) (demoWorld (Some "u1") [false; false; true])) = ["Update failed"].
Proof.
  assert (H3 : subtasks demoTask0 <> []) by discriminate.
  split_and!; [reflexivity | reflexivity | exact H3 |].
  exact (proj2 (proj2 (update_failure_drops_remote_subtasks
                         (demoWorld (Some "u1") [false; false; true]) "u1" demoTask0 eq_refl eq_refl H3))).
Defined.

Lemma findTask_Some l i t : findTask l i = Some t -> t ∈ l /\ id t = i.
Proof.
  unfold findTask. destruct (list_find _ l) as [[k x]|] eqn:E; intros [= <-].
  apply list_find_Some in E as (Hk & Hx & _). split; [|done]. by eapply list_elem_of_lookup_2.
Qed.

Lemma filter_replaceTask now u l :
  filter (fun t => id t <> id u) (replaceTask now u l) = filter (fun t => id t <> id u) l.
Proof.
  induction l as [|t l IH]; [done|]. unfold replaceTask in *. simpl. rewrite !filter_cons.
  case_bool_decide as Hid.
  - rewrite !decide_False by (simpl; auto). done.
  - rewrite !decide_True by done. by f_equal.
Qed.

Lemma filter_fresh i l : i ∉ map id l -> filter (fun t => id t <> i) l = l.
Proof.
  induction l as [|t l IH]; [done|]. simpl. intros Hi. rewrite filter_cons, decide_True.
  - f_equal. apply IH. intros Hin. apply Hi. by right.
  - intros <-. apply Hi. left.
Qed.

Lemma editTime_with_lastEditedAt n u : editTime (with_lastEditedAt n u) = n.
Proof. reflexivity. Qed.

(** In the list after [updateTask u] at time [now], every task edited
    before [now] stays as it was, except those replaced by [u]. *)
Lemma replaceTask_edit_times now u l v :
  Forall (fun t => editTime t < now) l -> v ∈ replaceTask now u l ->
  v = with_lastEditedAt now u \/ editTime v < now.
Proof.
  intros Hl Hv. destruct (decide (id v = id u)) as [E|E].
  - left. by eapply replaceTask_same_id.
  - right. apply replaceTask_other_id in Hv; [|done].
    rewrite Forall_forall in Hl. apply Hl, list_elem_of_In, Hv.
Qed.

(** An update that leaves a listed task in progress makes it the focus
    task when every task was last edited before now: [updateTask] stamps
    it with the current time. *)
Lemma update_in_progress_focus w u t :
  t ∈ tasks w -> id t = id u ->
  Forall (fun v => editTime v < tnow w) (tasks w) ->
  status u = InProgress ->
  getNextFocusTask (tasks (exec (updateTask u) w)) = Some (with_lastEditedAt (tnow w) u).
Proof.
  intros Hin Hid Hold Hip. rewrite updateTask_tasks.
  set (ut := with_lastEditedAt (tnow w) u).
  set (l := replaceTask (tnow w) u (tasks w)).
  assert (Hut : ut ∈ filter (fun t => status t = InProgress) l).
  { apply list_elem_of_filter. split; [done|]. by apply (replaceTask_in _ _ _ t). }
  destruct (getNextFocusTask_in_progress l) as (r & -> & Hr); [by intros E; rewrite E in Hut; inversion Hut|].
  f_equal. apply (firstBy_unique editedLater _ _ _ Hr).
  destruct (list_elem_of_split_l _ _ Hut) as (pre & post & E & Hpre).
  exists pre, post. split; [done|]. unfold editedLater.
  assert (Het : editTime ut = tnow w) by apply editTime_with_lastEditedAt. rewrite Het. split.
  - apply Forall_forall. intros v Hv. apply list_elem_of_In in Hv.
    assert (v ∈ l) by (eapply list_elem_of_filter; rewrite E; set_solver).
    destruct (replaceTask_edit_times (tnow w) u (tasks w) v Hold) as [->|]; [done|contradiction|done].
  - apply Forall_forall. intros v Hv. apply list_elem_of_In in Hv.
    assert (v ∈ l) by (eapply list_elem_of_filter; rewrite E; set_solver).
    destruct (replaceTask_edit_times (tnow w) u (tasks w) v Hold) as [->|]; [done|fold ut; lia|lia].
Qed.


(** C11: toggling a subtask on a task card goes through [updateTask], which
    stamps the task with the current time: when the toggle leaves the task
    in progress and every task was last edited before now, the dashboard's
    focus task becomes that task, whatever the store answers. *)
Theorem toggled_task_becomes_focus w t i :
  t ∈ tasks w ->
  Forall (fun u => editTime u < tnow w) (tasks w) ->
  status (handleToggleSubtask t i) = InProgress ->
  getNextFocusTask (tasks (exec (updateTask (handleToggleSubtask t i)) w)) =
    Some (with_lastEditedAt (tnow w) (handleToggleSubtask t i)).
Proof.
  intros Hin Hold Hip. apply (update_in_progress_focus w _ t); [done|reflexivity|done|done].
Qed.

Lemma toggled_task_becomes_focus_witness :
  demoTask0 ∈ tasks (demoWorld None []) /\
  Forall (fun u => editTime u < tnow (demoWorld None [])) (tasks (demoWorld None [])) /\
  status (handleToggleSubtask demoTask0 "s3") = InProgress /\
  getNextFocusTask (tasks (exec (updateTask (handleToggleSubtask demoTask0 "s3")) (demoWorld None []))) =
    Some (with_lastEditedAt (tnow (demoWorld None [])) (handleToggleSubtask demoTask0 "s3")).
Proof.
  assert (H1 : demoTask0 ∈ tasks (demoWorld None [])) by (simpl; left).
  assert (H2 : Forall (fun u => editTime u < tnow (demoWorld None [])) (tasks (demoWorld None [])))
    by (repeat constructor).
  assert (H3 : status (handleToggleSubtask demoTask0 "s3") = InProgress) by reflexivity.
  split_and!; [exact H1 | exact H2 | exact H3 |].
  exact (toggled_task_becomes_focus (demoWorld None []) demoTask0 "s3" H1 H2 H3).
Defined.

(** Dropping a card on a Kanban column moves that task, and only it, to
    the column's status in the provider's list. *)
Theorem drop_moves_task w tid s t' :
  handleDrop (tasks w) tid s = Some t' ->
  let w' := exec (updateTask t') w in
  (forall u, u ∈ tasks w' -> id u = tid -> status u = s) /\
  filter (fun u => id u <> tid) (tasks w') = filter (fun u => id u <> tid) (tasks w).
Proof.
  unfold handleDrop. destruct (findTask (tasks w) tid) as [task|] eqn:Ef; [|done].
  apply findTask_Some in Ef as [_ Hid]. case_bool_decide; [|done]. intros [= <-].
  rewrite updateTask_tasks. simpl. subst tid. split.
  - intros u Hu Hu'. by rewrite (replaceTask_same_id _ _ _ _ Hu Hu').
  - exact (filter_replaceTask _ (with_status s task) _).
Qed.

Lemma drop_moves_task_witness :
  handleDrop (tasks (demoWorld None [])) "1" Done = Some (with_status Done demoTask0) /\
  forall u, u ∈ tasks (exec (updateTask (with_status Done demoTask0)) (demoWorld None [])) ->
    id u = "1" -> status u = Done.
Proof.
  assert (H : handleDrop (tasks (demoWorld None [])) "1" Done = Some (with_status Done demoTask0))
    by reflexivity.
  split; [exact H | exact (proj1 (drop_moves_task (demoWorld None []) "1" Done _ H))].
Defined.

(** A failed insert of a new task takes it off the list again and
    leaves the store alone, with the toast "Error saving task"; the AI
    suggestions stored for the new id are not removed. *)
Theorem add_failure_reverts w uid newId d sugg :
  tuser w = Some uid -> tfaults w = [true] -> newId ∉ map id (tasks w) ->
  let w' := exec (addTask newId d sugg) w in
  tasks w' = tasks w /\ tdb w' = tdb w /\ toasts w' = toasts w ++ ["Error saving task"] /\
  (sugg <> [] -> taskSuggestions w' !! newId = Some sugg).
Proof.
  intros Hu Hf Hfresh.
  destruct w as [ts sg ld pu to db fs n us]; simpl in Hu, Hf, Hfresh; subst.
  task_unfold. case_bool_decide as Hs; cbn -[insert lookup filter];
    rewrite filter_cons, decide_False, filter_fresh by (simpl; auto); split_and!; try done.
  - intros _. by rewrite lookup_insert_eq.
  - intros Hne. destruct sugg; simpl in Hs; [done|lia].
Qed.

Lemma add_failure_reverts_witness :
  tuser (demoWorld (Some "u1") [true]) = Some "u1" /\ tfaults (demoWorld (Some "u1") [true]) = [true] /\
  ("2" ∉ map id (tasks (demoWorld (Some "u1") [true]))) /\
  tasks (exec (addTask "2" (mkTaskData "Revise" None Todo None None None []) [])
           (demoWorld (Some "u1") [true])) = tasks (demoWorld (Some "u1") [true]).
Proof.
  assert (H3 : "2" ∉ map id (tasks (demoWorld (Some "u1") [true]))) by (apply (bool_decide_unpack _); vm_compute; exact I).
  split_and!; [reflexivity | reflexivity | exact H3 |].
  exact (proj1 (add_failure_reverts (demoWorld (Some "u1") [true]) "u1" "2"
                  (mkTaskData "Revise" None Todo None None None []) [] eq_refl eq_refl H3)).
Defined.

(** Signed out, deleting a task just added gives back the list it was
    added to, and neither handler touches the store. *)
Theorem add_delete_roundtrip_signed_out w newId d sugg :
  tuser w = None -> newId ∉ map id (tasks w) ->
  let w' := exec (deleteTask newId) (exec (addTask newId d sugg) w) in
  tasks w' = tasks w /\ tdb w' = tdb w.
Proof.
  intros Hu Hfresh.
  destruct w as [ts sg ld pu to db fs n us]; simpl in Hu, Hfresh; subst.
  task_unfold. case_bool_decide; cbn -[insert lookup filter];
    rewrite filter_cons, decide_False, filter_fresh by (simpl; auto); done.
Qed.

Lemma add_delete_roundtrip_signed_out_witness :
  tuser (demoWorld None []) = None /\ ("2" ∉ map id (tasks (demoWorld None []))) /\
  tasks (exec (deleteTask "2") (exec (addTask "2" (mkTaskData "Revise" None Todo None None None []) [])
           (demoWorld None []))) = tasks (demoWorld None []).
Proof.
  assert (H2 : "2" ∉ map id (tasks (demoWorld None []))) by (apply (bool_decide_unpack _); vm_compute; exact I).
  split_and!; [reflexivity | exact H2 |].
  exact (proj1 (add_delete_roundtrip_signed_out (demoWorld None []) "2"
                  (mkTaskData "Revise" None Todo None None None []) [] eq_refl H2)).
Defined.

(** C9: a failed subtask query while loading is silent: the task is shown
    without subtasks ([subtasksData || []]), and the next edit of that task
    (here a Kanban drop) deletes all its subtask rows and inserts none, with
    no error shown: the subtasks are lost. *)
Theorem failed_subtask_query_then_edit_erases_subtasks r subs uid n sg ld pu to s :
  filter (fun x => s_task_id x = r_id r) subs <> [] ->
  let w0 := mkTaskWorld [] sg ld pu to (mkTaskDb [r] subs) [false; true] n (Some uid) in
  let w1 := exec (fetchTasks []) w0 in
  let w2 := exec (updateTask (with_status s (taskOfRow r None))) w1 in
  tasks w1 = [taskOfRow r None] /\ subtasks (taskOfRow r None) = [] /\
  filter (fun x => s_task_id x = r_id r) (subtask_rows (tdb w2)) = [] /\ toasts w2 = to.
Proof.
  intros _. task_unfold. cbn -[filter]. split_and!; try done. apply filter_eq_filter_neq.
Qed.

Lemma failed_subtask_query_then_edit_erases_subtasks_witness :
  filter (fun x => s_task_id x = r_id demoRow) demoSubRows <> [] /\
  subtask_rows (tdb (exec (updateTask (with_status InProgress (taskOfRow demoRow None)))
    (exec (fetchTasks []) (mkTaskWorld [] ∅ false None [] (mkTaskDb [demoRow] demoSubRows)
       [false; true] 1704711600000 (Some "u1"))))) = [].
Proof.
  assert (H : filter (fun x => s_task_id x = r_id demoRow) demoSubRows <> []) by (vm_compute; discriminate).
  split; [exact H|].
  destruct (failed_subtask_query_then_edit_erases_subtasks demoRow demoSubRows "u1" 1704711600000 ∅
              false None [] InProgress H) as (_ & _ & E & _).
  rewrite <- E. vm_compute. reflexivity.
Defined.

(** when deleting a task fails remotely, the provider shows "Delete
    failed" and refetches: the list becomes what the store holds, so the
    task comes back. *)
Theorem delete_failure_refetches w uid tid :
  tuser w = Some uid -> tfaults w = [true] ->
  let w' := exec (deleteTask tid) w in
  tasks w' = dbView (tdb w) /\ tdb w' = tdb w /\ toasts w' = toasts w ++ ["Delete failed"].
Proof.
  intros Hu Hf. destruct w as [ts sg ld pu to [rows subs] fs n us]; simpl in Hu, Hf; subst.
  task_unfold. cbn -[filter fetchSubtasks].
  destruct rows as [|r rows]; cbn -[filter fetchSubtasks]; [done|].
  rewrite bool_decide_eq_true_2 by lia. cbn -[filter fetchSubtasks].
  rewrite fetchSubtasks_ok by reflexivity. done.
Qed.

Lemma delete_failure_refetches_witness :
  tuser (demoWorld (Some "u1") [true]) = Some "u1" /\ tfaults (demoWorld (Some "u1") [true]) = [true] /\
  tasks (exec (deleteTask "1") (demoWorld (Some "u1") [true])) = [].
Proof.
  split_and!; [reflexivity | reflexivity |].
  exact (proj1 (delete_failure_refetches (demoWorld (Some "u1") [true]) "u1" "1" eq_refl eq_refl)).
Defined.

(** Adding a subtask appends it to the task (through [updateTask]) and
    drops from the task's AI suggestions exactly those with the same
    title. *)
Theorem addSubtask_appends w taskId task sub :
  findTask (tasks w) taskId = Some task ->
  let w' := exec (addSubtask taskId sub) w in
  (forall u, u ∈ tasks w' -> id u = taskId -> subtasks u = subtasks task ++ [sub]) /\
  (forall a, a ∈ default [] (taskSuggestions w' !! taskId) <->
             a ∈ default [] (taskSuggestions w !! taskId) /\ a_title a <> st_title sub).
Proof.
  intros Hf. pose proof (findTask_Some _ _ _ Hf) as [_ Hid].
  unfold addSubtask. rewrite exec_bind. cbn [st_get fst snd]. rewrite Hf, exec_seq.
  unfold setTaskSuggestions. rewrite exec_modify. cbn [tasks taskSuggestions]. split.
  - intros u Hu Hu'. rewrite updateTask_tasks in Hu.
    rewrite (replaceTask_same_id _ _ _ _ Hu); [done | by rewrite Hu'].
  - intros a. rewrite lookup_insert_eq, (keeps_exec _ _ _ (updateTask_keeps_suggestions _)).
    destruct (taskSuggestions w !! taskId); simpl.
    + rewrite list_elem_of_filter. tauto.
    + split; [intros Ha | intros [Ha _]]; exfalso; exact (not_elem_of_nil _ Ha).
Qed.

Lemma addSubtask_appends_witness :
  findTask (tasks (demoWorld None [])) "1" = Some demoTask0 /\
  forall u, u ∈ tasks (exec (addSubtask "1" (mkSubTask "s5" "Write conclusion" false None None))
                          (demoWorld None [])) -> id u = "1" ->
    subtasks u = subtasks demoTask0 ++ [mkSubTask "s5" "Write conclusion" false None None].
Proof.
  assert (H : findTask (tasks (demoWorld None [])) "1" = Some demoTask0) by reflexivity.
  split; [exact H|].
  exact (proj1 (addSubtask_appends (demoWorld None []) "1" demoTask0 _ H)).
Defined.

(** For a newly signed-in user and a store that answers, the load effect
    shows the stored tasks, records the user and clears the loading flag;
    the re-run its own [previousUserId] change triggers does nothing, so the
    effect settles. *)
Theorem load_effect_settles w uid lt :
  tuser w = Some uid -> previousUserId w <> Some uid -> tfaults w = [] ->
  let w1 := exec (loadEffect lt false) w in
  tasks w1 = dbView (tdb w) /\ previousUserId w1 = Some uid /\ loading w1 = false /\
  exec (loadEffect lt false) w1 = w1.
Proof.
  intros Hu Hp Hf. destruct w as [ts sg ld pu to [rows subs] fs n us]; simpl in Hu, Hp, Hf; subst.
  task_unfold. cbn -[filter fetchSubtasks]. rewrite bool_decide_eq_true_2 by done.
  cbn -[filter fetchSubtasks].
  destruct rows as [|r rows]; cbn -[filter fetchSubtasks].
  - rewrite bool_decide_eq_false_2 by (simpl; lia). cbn.
    rewrite bool_decide_eq_false_2 by (intros Hc; apply Hc, eq_refl); done.
  - rewrite bool_decide_eq_true_2 by lia; cbn -[filter fetchSubtasks].
    rewrite fetchSubtasks_ok by reflexivity. cbn -[filter].
    rewrite bool_decide_eq_false_2 by (intros Hc; apply Hc, eq_refl); done.
Qed.

Lemma load_effect_settles_witness :
  tuser (demoWorld (Some "u1") []) = Some "u1" /\ previousUserId (demoWorld (Some "u1") []) <> Some "u1" /\
  tfaults (demoWorld (Some "u1") []) = [] /\
  previousUserId (exec (loadEffect demoLoadTime false) (demoWorld (Some "u1") [])) = Some "u1".
Proof.
  assert (H2 : previousUserId (demoWorld (Some "u1") []) <> Some "u1") by discriminate.
  split_and!; [reflexivity | exact H2 | reflexivity |].
  exact (proj1 (proj2 (load_effect_settles (demoWorld (Some "u1") []) "u1" demoLoadTime
                         eq_refl H2 eq_refl))).
Defined.

End TaskStore.
