(* ===== verification/Gemini.v ===== *)
(** * Gemini: the AI subtask suggestions of [lib/gemini.ts]

    [generateTaskSuggestions], [generateTaskSuggestionsStream] and
    [refineSubtasks] send a prompt to the Gemini API, strip Markdown fences
    from the reply, [JSON.parse] it and map its items to suggestions; any
    exception (no API key, network error, invalid JSON, [null.title]) falls
    back to [getFallbackSuggestions], which picks one of thirteen fixed
    lists by keywords of the title and description.

    The API call is an input ([reply]: [None] when it throws) and
    [JSON.parse] a parameter of the section ([parse]: [None] when it
    throws), so the theorems hold for any reply and any parser.  Parsed
    values are [Json] with integer numbers.  Strings are ASCII
    ([toLowerCase] and [trim] act on ASCII letters and whitespace).  The
    [id] of a suggestion is a fresh [crypto.randomUUID()] and is left out:
    [Suggestion] is an [AiSuggestion] without it. *)

From stdpp Require Import strings.
From Stdlib Require Import Ascii.
From S2P Require Import Prelude.

Module Gemini.

(** ** JavaScript strings (ASCII) *)

Definition lowerAscii (c : ascii) : ascii :=
  let n := nat_of_ascii c in
  if (65 <=? n)%nat && (n <=? 90)%nat then ascii_of_nat (n + 32) else c.

(** [s.toLowerCase()] *)
Fixpoint toLowerCase (s : string) : string :=
  match s with
  | EmptyString => EmptyString
  | String c rest => String (lowerAscii c) (toLowerCase rest)
  end.

(** [/k/.test(s)] for a literal [k]: [k] occurs in [s]. *)
Fixpoint contains (k s : string) : bool :=
  String.prefix k s || match s with EmptyString => false | String _ rest => contains k rest end.

(** [/k1|k2|...|kn/i.test(text)] on a lower-case [text] and lower-case
    literals. *)
Definition testAny (ks : list string) (text : string) : bool := existsb (fun k => contains k text) ks.

(** [s.replace(/pat/g, "")] for a non-empty literal [pat]: matches are
    removed left to right without overlapping ([skip] counts the
    characters of the match being removed). *)
Fixpoint removeAllFrom (pat : string) (skip : nat) (s : string) : string :=
  match s with
  | EmptyString => EmptyString
  | String c rest =>
      match skip with
      | S k => removeAllFrom pat k rest
      | O => if String.prefix pat s then removeAllFrom pat (String.length pat - 1) rest
             else String c (removeAllFrom pat 0 rest)
      end
  end.

Definition removeAll (pat s : string) : string := removeAllFrom pat 0 s.

Definition isWhiteSpace (c : ascii) : bool :=
  match nat_of_ascii c with 9 | 10 | 11 | 12 | 13 | 32 => true | _ => false end%nat.

Fixpoint dropWhite (l : list ascii) : list ascii :=
  match l with
  | c :: rest => if isWhiteSpace c then dropWhite rest else l
  | [] => []
  end.

(** [s.trim()] *)
Definition trim (s : string) : string :=
  String.string_of_list_ascii (rev (dropWhite (rev (dropWhite (String.list_ascii_of_string s))))).

(** Lines 66-69 (and 147-150, 188). *)
Definition cleanText (text : string) : string := trim (removeAll "```" (removeAll "```json" text)).

(** ** Parsed JSON and JavaScript values *)

#[warnings="-register-all"]
Inductive Json :=
  | JNull
  | JBool (b : bool)
  | JNum (n : Z)
  | JStr (s : string)
  | JArr (items : list Json)
  | JObj (fields : list (string * Json)).

(** [v.f]: [None] is [undefined]; reading a property of [null] throws
    (the outer [None]).  Duplicate keys: [JSON.parse] keeps the last. *)
Definition prop (v : Json) (f : string) : option (option Json) :=
  match v with
  | JNull => None
  | JObj fs => Some ((fun p : nat * (string * Json) => p.2.2) <$> list_find (fun kv => kv.1 = f) (rev fs))
  | _ => Some None
  end.

Definition truthy (v : option Json) : bool :=
  match v with
  | None | Some JNull => false
  | Some (JBool b) => b
  | Some (JNum n) => negb (n =? 0)
  | Some (JStr s) => negb (bool_decide (s = ""))
  | Some (JArr _) | Some (JObj _) => true
  end.

(** [a || b] *)
Definition jsOr (a b : option Json) : option Json := if truthy a then a else b.

Record Suggestion := mkSuggestion {
  sg_title : option Json;
  sg_estimatedTime : option Json
}.

(** [arr.map(f)] on a parsed value: only arrays have [map]; anything else
    throws, as does [f] on an item. *)
Definition jsMap {B} (v : Json) (f : Json -> option B) : option (list B) :=
  match v with
  | JArr items => mapM f items
  | _ => None
  end.

(** ** The fallback suggestions (lines 206-714) *)

Definition template (l : list (string * Z)) : list Suggestion :=
  map (fun '(t, n) => mkSuggestion (Some (JStr t)) (Some (JNum n))) l.

Definition getResearchSuggestions : list Suggestion := template
  [("Define research question and objectives", 30);
   ("Conduct literature review and gather sources", 90);
   ("Organize research materials and notes", 45);
   ("Analyze findings and identify patterns", 60);
   ("Create outline and structure", 30);
   ("Write and cite sources properly", 120)].

Definition getEssaySuggestions : list Suggestion := template
  [("Brainstorm ideas and create thesis statement", 30);
   ("Research and gather supporting evidence", 60);
   ("Create detailed outline with main points", 25);
   ("Write introduction and hook", 30);
   ("Draft body paragraphs with evidence", 90);
   ("Write conclusion and proofread", 45)].

Definition getPresentationSuggestions : list Suggestion := template
  [("Research topic and gather key information", 60);
   ("Create presentation outline and structure", 30);
   ("Design slides with visuals and minimal text", 75);
   ("Prepare speaker notes and examples", 45);
   ("Practice delivery and timing", 60)].

Definition getExamSuggestions : list Suggestion := template
  [("Review syllabus and identify key topics", 20);
   ("Organize notes and study materials", 40);
   ("Create summary sheets or flashcards", 60);
   ("Practice with past papers or questions", 90);
   ("Review difficult concepts and formulas", 60);
   ("Take practice test under timed conditions", 75)].

Definition getProjectSuggestions : list Suggestion := template
  [("Understand requirements and deliverables", 30);
   ("Break down project into milestones", 40);
   ("Research methods and gather resources", 60);
   ("Create initial prototype or draft", 90);
   ("Test, refine, and improve work", 75);
   ("Prepare documentation and presentation", 45)].

Definition getCodingSuggestions : list Suggestion := template
  [("Understand problem requirements and constraints", 25);
   ("Plan algorithm and data structures", 35);
   ("Set up development environment", 20);
   ("Write initial code implementation", 90);
   ("Test with different inputs and edge cases", 45);
   ("Debug, optimize, and document code", 60)].

Definition getLabSuggestions : list Suggestion := template
  [("Read lab manual and understand procedure", 30);
   ("Review safety protocols and materials", 20);
   ("Prepare lab notebook and data tables", 25);
   ("Conduct experiment and collect data", 90);
   ("Analyze results and calculations", 60);
   ("Write lab report with conclusions", 75)].

Definition getReadingSuggestions : list Suggestion := template
  [("Preview chapter and identify key sections", 15);
   ("Read actively and take notes", 60);
   ("Highlight main ideas and concepts", 30);
   ("Summarize each section in own words", 40);
   ("Review and answer study questions", 35)].

Definition getGroupWorkSuggestions : list Suggestion := template
  [("Schedule initial team meeting", 30);
   ("Divide tasks and assign responsibilities", 40);
   ("Set deadlines and communication plan", 25);
   ("Complete individual assigned work", 90);
   ("Review team members' contributions", 45);
   ("Integrate work and finalize project", 60)].

Definition getMathSuggestions : list Suggestion := template
  [("Review relevant formulas and theorems", 30);
   ("Work through example problems", 60);
   ("Practice similar problems independently", 75);
   ("Check solutions and identify mistakes", 40);
   ("Seek help on difficult concepts", 35)].

Definition getLanguageSuggestions : list Suggestion := template
  [("Review vocabulary and key phrases", 30);
   ("Practice grammar exercises", 45);
   ("Listen to native speakers or audio", 40);
   ("Practice speaking or writing", 50);
   ("Get feedback and make corrections", 35)].

Definition getArtSuggestions : list Suggestion := template
  [("Gather inspiration and reference materials", 30);
   ("Create initial sketches or concepts", 45);
   ("Plan composition and color scheme", 35);
   ("Work on main piece with techniques", 120);
   ("Add final details and refinements", 60)].

Definition getGenericAcademicSuggestions : list Suggestion := template
  [("Understand the assignment requirements", 20);
   ("Research and gather necessary materials", 60);
   ("Create an outline or plan of action", 30);
   ("Complete the main work or draft", 90);
   ("Review, edit, and refine your work", 45);
   ("Prepare final submission", 25)].

(** Lines 233-279: the task-type detectors. *)
Definition isResearchTask := testAny ["research"; "paper"; "thesis"; "dissertation"; "literature review"; "survey"; "study"].
Definition isEssayTask := testAny ["essay"; "write"; "composition"; "article"; "report"; "analysis"].
Definition isPresentationTask := testAny ["presentation"; "present"; "slides"; "powerpoint"; "ppt"; "keynote"; "speak"].
Definition isExamTask := testAny ["exam"; "test"; "quiz"; "midterm"; "final"; "assessment"; "review"].
Definition isProjectTask := testAny ["project"; "build"; "create"; "develop"; "design"; "implement"].
Definition isCodingTask := testAny ["code"; "program"; "coding"; "software"; "app"; "website"; "algorithm"; "debug"; "function"].
Definition isLabTask := testAny ["lab"; "experiment"; "laboratory"; "practical"; "demonstration"].
Definition isReadingTask := testAny ["read"; "book"; "chapter"; "textbook"; "article"; "journal"; "literature"].
Definition isGroupTask := testAny ["group"; "team"; "collaborate"; "together"; "partner"].
Definition isMathTask := testAny ["math"; "calculus"; "algebra"; "equation"; "problem set"; "solve"; "calculate"; "proof"].
Definition isLanguageTask := testAny ["language"; "translate"; "vocabulary"; "grammar"; "speaking"; "pronunciation"].
Definition isArtTask := testAny ["art"; "draw"; "paint"; "sketch"; "design"; "creative"; "sculpture"; "portfolio"].

(** Lines 210-212: [`${lowerTitle} ${lowerDesc}`]. *)
Definition combinedText (title : string) (description : option string) : string :=
  toLowerCase title ++ " " ++ default "" (toLowerCase <$> description).

(** Lines 206-230. *)
Definition getFallbackSuggestions (title : string) (description : option string) : list Suggestion :=
  let combined := combinedText title description in
  if isResearchTask combined then getResearchSuggestions
  else if isEssayTask combined then getEssaySuggestions
  else if isPresentationTask combined then getPresentationSuggestions
  else if isExamTask combined then getExamSuggestions
  else if isProjectTask combined then getProjectSuggestions
  else if isCodingTask combined then getCodingSuggestions
  else if isLabTask combined then getLabSuggestions
  else if isReadingTask combined then getReadingSuggestions
  else if isGroupTask combined then getGroupWorkSuggestions
  else if isMathTask combined then getMathSuggestions
  else if isLanguageTask combined then getLanguageSuggestions
  else if isArtTask combined then getArtSuggestions
  else getGenericAcademicSuggestions.

(** A suggestion as the fallback lists write it: a non-empty title and an
    estimate within the 15-120 minutes the prompt asks of the model. *)
Definition suggestionOk (s : Suggestion) : bool :=
  match s with
  | mkSuggestion (Some (JStr t)) (Some (JNum n)) => negb (bool_decide (t = "")) && (15 <=? n) && (n <=? 120)
  | _ => false
  end.

Definition allFallbackLists : list (list Suggestion) :=
  [getResearchSuggestions; getEssaySuggestions; getPresentationSuggestions; getExamSuggestions;
   getProjectSuggestions; getCodingSuggestions; getLabSuggestions; getReadingSuggestions;
   getGroupWorkSuggestions; getMathSuggestions; getLanguageSuggestions; getArtSuggestions;
   getGenericAcademicSuggestions].

(** ** The generators *)

Section Generation.

(** [JSON.parse]; [None] when it throws. *)
Variable parse : string -> option Json.

(** Lines 85-89: [{ title: item.title || item.name || "Untitled subtask",
    estimatedTime: item.estimatedTime || item.estimated_time || 30 }]. *)
Definition itemToSuggestion (item : Json) : option Suggestion :=
  title ← prop item "title";
  name ← prop item "name";
  time ← prop item "estimatedTime";
  time' ← prop item "estimated_time";
  mret (mkSuggestion (jsOr title (jsOr name (Some (JStr "Untitled subtask"))))
                     (jsOr time (jsOr time' (Some (JNum 30))))).

(** Lines 22-102; [reply] is the text of the response, [None] when
    [getGenAI] or the request throws. *)
Definition generateTaskSuggestions (title : string) (description : option string)
    (reply : option string) : list Suggestion :=
  let fallback := getFallbackSuggestions title description in
  match reply ≫= (fun text => parse (cleanText text)) with
  | Some parsed =>
      match parsed with
      | JArr items => default fallback (mapM itemToSuggestion items)
      | _ => fallback
      end
  | None => fallback
  end.

(** Lines 105-160; [chunks] are the texts of the streamed chunks, each
    also passed to [onChunk]. *)
Definition generateTaskSuggestionsStream (title : string) (description : option string)
    (chunks : option (list string)) : list Suggestion :=
  let fallback := getFallbackSuggestions title description in
  match chunks with
  | Some cs =>
      let fullText := foldl String.append "" cs in
      match parse (cleanText fullText) with
      | Some parsed => default fallback (jsMap parsed itemToSuggestion)
      | None => fallback
      end
  | None => fallback
  end.

(** Lines 165-200: [{ title: item.title, estimatedTime: item.estimatedTime }],
    and the current subtasks on any error. *)
Definition refineItem (item : Json) : option Suggestion :=
  title ← prop item "title";
  time ← prop item "estimatedTime";
  mret (mkSuggestion title time).

Definition refineSubtasks (currentSubtasks : list Suggestion) (reply : option string)
    : list Suggestion :=
  match reply ≫= (fun text => parse (cleanText text)) with
  | Some parsed => default currentSubtasks (jsMap parsed refineItem)
  | None => currentSubtasks
  end.

End Generation.

(** Lines 716-718: [!!apiKey]. *)
Definition isGeminiConfigured (apiKey : option string) : bool :=
  match apiKey with Some k => negb (bool_decide (k = "")) | None => false end.

(** ** Theorems *)

Lemma fallback_in_lists title description :
  getFallbackSuggestions title description ∈ allFallbackLists.
Proof.
  unfold getFallbackSuggestions, allFallbackLists.
  repeat (case_match; [by repeat constructor|]); by repeat constructor.
Qed.

Lemma fallback_lists_ok :
  Forall (fun l => (5 <= length l <= 6)%nat /\ Forall (fun s => suggestionOk s = true) l) allFallbackLists.
Proof. repeat constructor; vm_compute; lia. Qed.

Lemma suggestionOk_spec s :
  suggestionOk s = true ->
  exists t n, s = mkSuggestion (Some (JStr t)) (Some (JNum n)) /\ t <> "" /\ 15 <= n <= 120.
Proof.
  intros H. destruct s as [[[| | |t| |]|] [[| |n| | |]|]]; simpl in H; try discriminate.
  apply andb_prop in H as [H H3]. apply andb_prop in H as [H1 H2].
  apply negb_true_iff, bool_decide_eq_false in H1. apply Z.leb_le in H2, H3.
  exists t, n. repeat split; auto.
Qed.

(** The fallback always offers five or six suggestions, each with a
    non-empty title and an estimate between 15 and 120 minutes, whatever
    the title and description. *)
Theorem fallback_estimates_in_range title description :
  let l := getFallbackSuggestions title description in
  (5 <= length l <= 6)%nat /\
  Forall (fun s => exists t n, s = mkSuggestion (Some (JStr t)) (Some (JNum n)) /\
                              t <> "" /\ 15 <= n <= 120) l.
Proof.
  pose proof fallback_lists_ok as Hok. rewrite Forall_forall in Hok.
  destruct (Hok _ (proj1 (list_elem_of_In _ _) (fallback_in_lists title description))) as [Hlen Hs].
  split; [done|]. eapply Forall_impl; [|exact Hs]. intros s. apply suggestionOk_spec.
Qed.

(** C14: the research detector runs first and matches any occurrence of
    "study": a task such as "Study for the final exam" gets the research
    suggestions, never the exam ones. *)
Theorem study_always_research title description :
  contains "study" (combinedText title description) = true ->
  getFallbackSuggestions title description = getResearchSuggestions.
Proof.
  intros H. unfold getFallbackSuggestions, isResearchTask, testAny.
  replace (existsb _ _) with true; [done|]. symmetry. apply existsb_exists.
  exists "study". split; [simpl; tauto | done].
Qed.

Lemma study_always_research_witness :
  contains "study" (combinedText "Study for the final exam" None) = true /\
  getFallbackSuggestions "Study for the final exam" None = getResearchSuggestions.
Proof.
  assert (H : contains "study" (combinedText "Study for the final exam" None) = true) by (vm_compute; reflexivity).
  split; [exact H | exact (study_always_research _ _ H)].
Defined.

Lemma suggestionOk_truthy s :
  suggestionOk s = true -> truthy (sg_title s) = true /\ truthy (sg_estimatedTime s) = true.
Proof.
  intros H. destruct (suggestionOk_spec s H) as (t & n & -> & Ht & Hn). simpl.
  rewrite bool_decide_eq_false_2 by done. split; [done|]. destruct (Z.eqb_spec n 0); [lia|done].
Qed.

Lemma fallback_truthy title description :
  Forall (fun s => truthy (sg_title s) = true /\ truthy (sg_estimatedTime s) = true)
    (getFallbackSuggestions title description).
Proof.
  pose proof fallback_lists_ok as Hok. rewrite Forall_forall in Hok.
  destruct (Hok _ (proj1 (list_elem_of_In _ _) (fallback_in_lists title description))) as [_ Hs].
  eapply Forall_impl; [|exact Hs]. intros s. apply suggestionOk_truthy.
Qed.

Lemma jsOr_truthy a b : truthy b = true -> truthy (jsOr a b) = true.
Proof. unfold jsOr. by destruct (truthy a) eqn:E. Qed.

Lemma itemToSuggestion_truthy item s :
  itemToSuggestion item = Some s ->
  truthy (sg_title s) = true /\ truthy (sg_estimatedTime s) = true.
Proof.
  unfold itemToSuggestion.
  destruct (prop item "title"), (prop item "name"), (prop item "estimatedTime"),
    (prop item "estimated_time"); simpl; intros H; try discriminate.
  injection H as <-. simpl. split; repeat apply jsOr_truthy; reflexivity.
Qed.

Lemma mapM_Forall {A B} (f : A -> option B) (P : B -> Prop) l k :
  (forall x y, f x = Some y -> P y) -> mapM f l = Some k -> Forall P k.
Proof.
  intros Hf Hm. apply mapM_Some_1 in Hm. induction Hm; constructor; eauto.
Qed.

Lemma mapM_None {A B} (f : A -> option B) l x : x ∈ l -> f x = None -> mapM f l = None.
Proof.
  induction l as [|y l IH]; intros Hx Hf; [by apply not_elem_of_nil in Hx|].
  simpl. apply elem_of_cons in Hx as [->|Hx].
  - by rewrite Hf.
  - destruct (f y); simpl; [|done]. by rewrite IH.
Qed.

(** Whatever the model replies, or if it fails, every suggestion
    [generateTaskSuggestions] returns has a title and an estimate (the
    defaults of [item.title || item.name || "Untitled subtask"] and
    [|| 30], or the fallback's). *)
Theorem generate_always_titled parse title description reply :
  Forall (fun s => truthy (sg_title s) = true /\ truthy (sg_estimatedTime s) = true)
    (generateTaskSuggestions parse title description reply).
Proof.
  unfold generateTaskSuggestions.
  destruct (reply ≫= _) as [[| | | | items |]|]; try apply fallback_truthy.
  destruct (mapM itemToSuggestion items) as [l|] eqn:E; simpl; [|apply fallback_truthy].
  eapply mapM_Forall; [|exact E]. apply itemToSuggestion_truthy.
Qed.

(** The streaming generator returns what the one-shot generator returns
    for the concatenation of the chunks: it lacks the [Array.isArray]
    check, but [map] on a parsed non-array throws into the same fallback. *)
Theorem stream_matches_single_reply parse title description chunks :
  generateTaskSuggestionsStream parse title description chunks =
  generateTaskSuggestions parse title description (foldl String.append "" <$> chunks).
Proof.
  unfold generateTaskSuggestionsStream, generateTaskSuggestions.
  destruct chunks as [cs|]; [|done]. simpl. by destruct (parse _) as [[]|].
Qed.

(** one [null] item in the model's array makes [item.title] throw, and
    the whole reply is replaced by the keyword fallback, valid items
    included. *)
Theorem null_item_falls_back parse title description text items :
  parse (cleanText text) = Some (JArr items) -> JNull ∈ items ->
  generateTaskSuggestions parse title description (Some text) =
  getFallbackSuggestions title description.
Proof.
  intros Hp Hn. unfold generateTaskSuggestions. simpl. rewrite Hp.
  by rewrite (mapM_None _ _ _ Hn).
Qed.

Definition replyWithNull (_ : string) : option Json :=
  Some (JArr [JObj [("title", JStr "Outline the essay"); ("estimatedTime", JNum 30)]; JNull]).

Lemma null_item_falls_back_witness :
  replyWithNull (cleanText "[...]") =
    Some (JArr [JObj [("title", JStr "Outline the essay"); ("estimatedTime", JNum 30)]; JNull]) /\
  JNull ∈ [JObj [("title", JStr "Outline the essay"); ("estimatedTime", JNum 30)]; JNull] /\
  generateTaskSuggestions replyWithNull "Essay on climate" None (Some "[...]") =
  getFallbackSuggestions "Essay on climate" None.
Proof.
  assert (H1 : replyWithNull (cleanText "[...]") =
    Some (JArr [JObj [("title", JStr "Outline the essay"); ("estimatedTime", JNum 30)]; JNull]))
    by reflexivity.
  assert (H2 : JNull ∈ [JObj [("title", JStr "Outline the essay"); ("estimatedTime", JNum 30)]; JNull])
    by (right; left).
  split_and!; [exact H1 | exact H2 | exact (null_item_falls_back _ _ _ _ _ H1 H2)].
Defined.

Lemma prop_missing fs f : f ∉ fs.*1 -> prop (JObj fs) f = Some None.
Proof.
  intros Hf. simpl. destruct (list_find _ (rev fs)) as [[k [f' v]]|] eqn:E; [|done].
  apply list_find_Some in E as (Hk & Hf' & _). simpl in Hf'. subst f'.
  exfalso. apply Hf. apply list_elem_of_fmap. exists (f, v). split; [done|].
  apply list_elem_of_In, (proj2 (in_rev _ _)), list_elem_of_In. by eapply list_elem_of_lookup_2.
Qed.

(** [refineSubtasks] does not default the fields: when the model replies
    with objects that have no "title", the refined list keeps one suggestion
    per object, each without a title. *)
Theorem refine_may_drop_titles parse current text items :
  parse (cleanText text) = Some (JArr items) ->
  Forall (fun item => exists fs, item = JObj fs /\ "title" ∉ fs.*1) items ->
  exists l, refineSubtasks parse current (Some text) = l /\ length l = length items /\
            Forall (fun s => sg_title s = None) l.
Proof.
  intros Hp Hitems. unfold refineSubtasks. simpl. rewrite Hp. simpl.
  assert (Hm : exists l, mapM refineItem items = Some l /\ length l = length items /\
                         Forall (fun s => sg_title s = None) l).
  { clear Hp. induction Hitems as [|item items (fs & -> & Hfs) _ IH]; [by exists []|].
    destruct IH as (l & Hl & Hlen & Hnone). cbn [mapM]. rewrite Hl. unfold refineItem.
    rewrite (prop_missing fs "title" Hfs).
    destruct (prop (JObj fs) "estimatedTime") as [t|] eqn:Et; [|simpl in Et; discriminate].
    cbn. eexists; split; [reflexivity|]. split; [simpl; by f_equal | by constructor]. }
  destruct Hm as (l & -> & Hlen & Hnone). by exists l.
Qed.

Definition replyUntitled (_ : string) : option Json := Some (JArr [JObj [("name", JStr "Outline")]]).

Lemma refine_may_drop_titles_witness :
  replyUntitled (cleanText "[...]") = Some (JArr [JObj [("name", JStr "Outline")]]) /\
  Forall (fun item => exists fs, item = JObj fs /\ "title" ∉ fs.*1) [JObj [("name", JStr "Outline")]] /\
  exists l, refineSubtasks replyUntitled [] (Some "[...]") = l /\ length l = 1%nat /\
            Forall (fun s => sg_title s = None) l.
Proof.
  assert (H1 : replyUntitled (cleanText "[...]") = Some (JArr [JObj [("name", JStr "Outline")]]))
    by reflexivity.
  assert (H2 : Forall (fun item => exists fs, item = JObj fs /\ "title" ∉ fs.*1)
                 [JObj [("name", JStr "Outline")]]).
  { repeat constructor. eexists; split; [reflexivity|].
    apply (bool_decide_unpack _). vm_compute. exact I. }
  split_and!; [exact H1 | exact H2 |].
  exact (refine_may_drop_titles replyUntitled [] "[...]" _ H1 H2).
Defined.

End Gemini.
