(* ===== verification/GeminiSpec.v ===== *)
(** * GeminiSpec: reference semantics for the reply handling of [lib/gemini.ts]

    Two specifications the model of [Gemini] is checked against.

    - [replaceAllRef] is [String.prototype.replace] with a global literal
      pattern as the language defines it: scanning left to right, a match
      at the current position is removed and the scan resumes after it,
      otherwise the character is kept.  It is defined by well-founded
      recursion on the length of the text (Equations); [Gemini.removeAll],
      the streaming form with a skip counter, computes the same.
    - [JsType] and [hasType] are the TypeScript types of the parsed reply;
      [conformsAiSuggestion] is the declared [AiSuggestion] of
      [types/index.ts] (lines 26-30).  The generators promise
      [Promise<AiSuggestion[]>] but check nothing but [Array.isArray]. *)

From Equations Require Import Equations.
From stdpp Require Import strings.
From Stdlib Require Import Ascii.
From S2P Require Import Prelude Gemini.
Import Gemini.

Module GeminiSpec.

(** [s.substring(n)] *)
Fixpoint dropChars (n : nat) (s : string) : string :=
  match n, s with
  | O, _ => s
  | S _, EmptyString => EmptyString
  | S n, String _ rest => dropChars n rest
  end.

(** [s.replace(/pat/g, "")] by the language's definition; an empty
    pattern matches the empty string everywhere and removes nothing. *)
Equations? replaceAllRef (pat s : string) : string by wf (String.length s) lt :=
  replaceAllRef EmptyString s := s;
  replaceAllRef (String _ _) EmptyString := EmptyString;
  replaceAllRef (String p ps) (String c rest) with String.prefix (String p ps) (String c rest) := {
    | true := replaceAllRef (String p ps) (dropChars (String.length ps) rest);
    | false := String c (replaceAllRef (String p ps) rest) }.
Proof.
  all: cbn; try lia.
  assert (Hd : forall n s, (String.length (dropChars n s) <= String.length s)%nat).
  { induction n as [|n IH]; intros [|c' s']; cbn; try lia. specialize (IH s'). lia. }
  specialize (Hd (String.length ps) rest). lia.
Defined.

(** ** Types of JSON values *)

Inductive JsType := TNull | TBool | TNumber | TString | TArray (t : JsType) | TUnion (a b : JsType).

Fixpoint hasType (t : JsType) (v : Json) : bool :=
  match t, v with
  | TNull, JNull | TBool, JBool _ | TNumber, JNum _ | TString, JStr _ => true
  | TArray t, JArr items => forallb (hasType t) items
  | TUnion a b, v => hasType a v || hasType b v
  | _, _ => false
  end.

(** A property of an object type: [optional] when declared with [?]. *)
Definition fieldHasType (t : JsType) (optional : bool) (f : option Json) : bool :=
  match f with
  | None => optional
  | Some v => hasType t v
  end.

(** [interface AiSuggestion { id: string; title: string; estimatedTime?: number }]
    (the id is generated apart). *)
Definition conformsAiSuggestion (s : Suggestion) : bool :=
  fieldHasType TString false (sg_title s) && fieldHasType TNumber true (sg_estimatedTime s).

(** A property the mapping reads with [||]: absent, falsy, or of type [t]. *)
Definition orFieldOk (t : JsType) (item : Json) (f : string) : bool :=
  match prop item f with
  | Some None => true
  | Some (Some v) => hasType t v || negb (truthy (Some v))
  | None => false
  end.

(** An item the model should return: [title] and [name] strings,
    [estimatedTime] and [estimated_time] numbers, where present. *)
Definition itemTyped (item : Json) : bool :=
  orFieldOk TString item "title" && orFieldOk TString item "name" &&
  orFieldOk TNumber item "estimatedTime" && orFieldOk TNumber item "estimated_time".

(** A reply whose only item has a numeric title. *)
Definition replyNumericTitle (_ : string) : option Json :=
  Some (JArr [JObj [("title", JNum 5); ("estimatedTime", JNum 20)]]).

(** A reply of two well-typed items, one of them with a falsy title. *)
Definition replyTyped (_ : string) : option Json :=
  Some (JArr [JObj [("title", JStr "Outline"); ("estimatedTime", JNum 20)];
              JObj [("title", JStr ""); ("name", JStr "Draft")]]).

(** No backtick in the text: the fences cannot start inside it. *)
Fixpoint noBacktick (s : string) : bool :=
  match s with
  | EmptyString => true
  | String c rest => negb (Ascii.eqb c "`"%char) && noBacktick rest
  end.

End GeminiSpec.

Import GeminiSpec.

(** ** Theorems *)

(** The skip counter of [removeAllFrom] stands for the characters of the
    match still to drop. *)
Lemma removeAllFrom_ref p ps k s :
  removeAllFrom (String p ps) k s = replaceAllRef (String p ps) (dropChars k s).
Proof.
  revert k. induction s as [|c rest IH]; intros [|k].
  - by simp replaceAllRef.
  - by simp replaceAllRef.
  - cbn [removeAllFrom dropChars]. simp replaceAllRef.
    destruct (String.prefix (String p ps) (String c rest)); cbn.
    + rewrite IH. f_equal. f_equal. lia.
    + by rewrite IH.
  - cbn [removeAllFrom dropChars]. apply IH.
Qed.

(** [removeAll] is the language's [replace(/pat/g, "")] for a non-empty
    literal. *)
Lemma removeAll_ref pat s : pat <> "" -> removeAll pat s = replaceAllRef pat s.
Proof. intros Hp. destruct pat as [|p ps]; [done|]. apply (removeAllFrom_ref p ps 0). Qed.

(** [cleanText] strips the fences as the language's [replace] with the
    two global patterns would, then trims. *)
Lemma cleanText_spec text :
  cleanText text = trim (replaceAllRef "```" (replaceAllRef "```json" text)).
Proof. unfold cleanText. by rewrite !removeAll_ref. Qed.

Example cleanText_fenced :
  cleanText "```json
[1]
```" = "[1]".
Proof. rewrite cleanText_spec. vm_compute. reflexivity. Qed.

(** ** Fenced replies *)

Lemma string_app_nil s : (s ++ "")%string = s.
Proof. induction s as [|c s IH]; [reflexivity|]. change (String c (s ++ "") = String c s). by rewrite IH. Qed.

(** Skipping the rest of a match drops exactly its characters. *)
Lemma removeAllFrom_skip pat u s :
  removeAllFrom pat (String.length u) (u ++ s) = removeAllFrom pat 0 s.
Proof. induction u as [|c u IH]; [done|]. cbn. apply IH. Qed.

Lemma prefix_app u s : String.prefix u (u ++ s) = true.
Proof.
  induction u as [|c u IH]; [by destruct s|]. change (String.prefix (String c u) (String c (u ++ s)) = true).
  cbn. destruct (Ascii.ascii_dec c c); [apply IH|contradiction].
Qed.

(** A match at the head is removed. *)
Lemma removeAllFrom_head p ps s :
  removeAllFrom (String p ps) 0 (String p ps ++ s) = removeAllFrom (String p ps) 0 s.
Proof.
  change (removeAllFrom (String p ps) 0 (String p (ps ++ s)) = removeAllFrom (String p ps) 0 s).
  assert (Hp : String.prefix (String p ps) (String p (ps ++ s)) = true) by exact (prefix_app (String p ps) s).
  cbn [removeAllFrom]. rewrite Hp.
  replace (String.length (String p ps) - 1)%nat with (String.length ps) by (cbn; lia).
  apply removeAllFrom_skip.
Qed.

(** Text without a backtick is kept as it is by a pattern that starts with
    one. *)
Lemma removeAllFrom_plain ps body t :
  noBacktick body = true ->
  removeAllFrom (String "`" ps) 0 (body ++ t) = (body ++ removeAllFrom (String "`" ps) 0 t)%string.
Proof.
  induction body as [|c body IH]; [done|]. cbn [noBacktick]. intros Hb.
  apply andb_true_iff in Hb as [Hc Hb].
  change (removeAllFrom (String "`" ps) 0 (String c (body ++ t))
          = String c (body ++ removeAllFrom (String "`" ps) 0 t)). cbn [removeAllFrom].
  assert (Hp : String.prefix (String "`" ps) (String c (body ++ t)) = false).
  { cbn [String.prefix]. destruct (Ascii.ascii_dec "`" c) as [E|]; [|done].
    subst c. vm_compute in Hc. discriminate. }
  rewrite Hp, IH by done. reflexivity.
Qed.

(** C40: [cleanText] unwraps a fenced reply: for every body without a
    backtick (the JSON array the model is asked for, with its line breaks),
    the text the model sends as ["```json" ++ body ++ "```"] is cleaned to
    the trimmed body, and a bare body is only trimmed. *)
Theorem cleanText_fenced_roundtrip body :
  noBacktick body = true ->
  cleanText ("```json" ++ body ++ "```") = trim body /\ cleanText body = trim body.
Proof.
  intros Hb. unfold cleanText, removeAll.
  assert (Hplain : forall ps, removeAllFrom (String "`" ps) 0 body = body).
  { intros ps. rewrite <- (string_app_nil body) at 1. rewrite removeAllFrom_plain by done.
    apply string_app_nil. }
  split; [|by rewrite !Hplain].
  rewrite removeAllFrom_head, removeAllFrom_plain by done.
  change (removeAllFrom "```json" 0 "```") with "```".
  rewrite removeAllFrom_plain by done. cbn [removeAllFrom]. by rewrite string_app_nil.
Qed.

Lemma cleanText_fenced_roundtrip_witness :
  noBacktick " [1] " = true /\
  cleanText ("```json" ++ " [1] " ++ "```") = trim " [1] " /\ trim " [1] " = "[1]".
Proof.
  assert (H : noBacktick " [1] " = true) by reflexivity.
  split; [exact H|]. split; [exact (proj1 (cleanText_fenced_roundtrip " [1] " H))|]. vm_compute. reflexivity.
Defined.

(** ** The declared type of the suggestions *)

Lemma fallback_conforms title description :
  Forall (fun s => conformsAiSuggestion s = true) (getFallbackSuggestions title description).
Proof.
  assert (H : Forall (Forall (fun s => conformsAiSuggestion s = true)) allFallbackLists)
    by (repeat constructor).
  rewrite Forall_forall in H. apply H, list_elem_of_In, fallback_in_lists.
Qed.

Lemma orFieldOk_spec t item f o :
  orFieldOk t item f = true -> prop item f = Some o -> truthy o = true -> fieldHasType t false o = true.
Proof.
  unfold orFieldOk. intros H E Ht. rewrite E in H. destruct o as [v|]; [|done].
  apply orb_true_iff in H as [H|H]; [done|]. by rewrite Ht in H.
Qed.

Lemma jsOr_fieldHasType t a b :
  (truthy a = true -> fieldHasType t false a = true) -> fieldHasType t false b = true ->
  fieldHasType t false (jsOr a b) = true.
Proof. unfold jsOr. destruct (truthy a); auto. Qed.

Lemma itemToSuggestion_conforms item s :
  itemTyped item = true -> itemToSuggestion item = Some s -> conformsAiSuggestion s = true.
Proof.
  unfold itemTyped, itemToSuggestion. intros Hty.
  apply andb_true_iff in Hty as [Hty Hte']. apply andb_true_iff in Hty as [Hty Hte].
  apply andb_true_iff in Hty as [Htt Htn].
  destruct (prop item "title") as [ot|] eqn:Et, (prop item "name") as [on|] eqn:En,
    (prop item "estimatedTime") as [oe|] eqn:Ee, (prop item "estimated_time") as [oe'|] eqn:Ee';
    cbn; intros H; try discriminate. injection H as <-.
  unfold conformsAiSuggestion; cbn. apply andb_true_iff; split.
  - apply jsOr_fieldHasType; [eauto using orFieldOk_spec|].
    apply jsOr_fieldHasType; [eauto using orFieldOk_spec|done].
  - assert (Hn : fieldHasType TNumber false (jsOr oe (jsOr oe' (Some (JNum 30)))) = true).
    { apply jsOr_fieldHasType; [eauto using orFieldOk_spec|].
      apply jsOr_fieldHasType; [eauto using orFieldOk_spec|done]. }
    by destruct (jsOr oe _).
Qed.

Lemma mapM_Forall_in {A B} (f : A -> option B) (P : B -> Prop) l k :
  (forall x y, x ∈ l -> f x = Some y -> P y) -> mapM f l = Some k -> Forall P k.
Proof.
  intros Hf Hm. apply mapM_Some_1 in Hm. induction Hm as [|x y l k Hxy _ IH]; constructor.
  - eapply Hf; [left|done].
  - apply IH. intros x' y' Hx'. apply Hf. by right.
Qed.

(** C12: When every item of the model's array has string titles and names
    and numeric estimates where present, every suggestion
    [generateTaskSuggestions] returns has the declared [AiSuggestion]
    type: a string title and a number or no estimate (the fallback lists
    have it too). *)
Theorem generate_conforms parse title description reply :
  (forall text items, reply = Some text -> parse (cleanText text) = Some (JArr items) ->
     forallb itemTyped items = true) ->
  Forall (fun s => conformsAiSuggestion s = true) (generateTaskSuggestions parse title description reply).
Proof.
  intros Hitems. unfold generateTaskSuggestions.
  destruct reply as [text|]; cbn; [|apply fallback_conforms].
  destruct (parse (cleanText text)) as [[| | | | items |]|] eqn:Ep; try apply fallback_conforms.
  destruct (mapM itemToSuggestion items) as [l|] eqn:E; cbn; [|apply fallback_conforms].
  eapply mapM_Forall_in; [|exact E]. intros x y Hx. apply itemToSuggestion_conforms.
  specialize (Hitems text items eq_refl Ep). rewrite forallb_forall in Hitems.
  by apply Hitems, list_elem_of_In.
Qed.

Lemma generate_conforms_witness :
  Forall (fun s => conformsAiSuggestion s = true)
    (generateTaskSuggestions replyTyped "Essay" None (Some "[...]")) /\
  generateTaskSuggestions replyTyped "Essay" None (Some "[...]") =
    [mkSuggestion (Some (JStr "Outline")) (Some (JNum 20)); mkSuggestion (Some (JStr "Draft")) (Some (JNum 30))].
Proof.
  assert (H : forall text items, Some "[...]"%string = Some text -> replyTyped (cleanText text) = Some (JArr items) ->
            forallb itemTyped items = true).
  { intros text items _ E. injection E as <-. vm_compute. reflexivity. }
  split; [exact (generate_conforms replyTyped "Essay" None (Some "[...]") H)|]. vm_compute. reflexivity.
Defined.

Lemma mapM_in {A B} (f : A -> option B) l k x :
  mapM f l = Some k -> x ∈ l -> exists y, f x = Some y /\ y ∈ k.
Proof.
  intros Hm. apply mapM_Some_1 in Hm. induction Hm as [|a b l k Hab _ IH]; intros Hx.
  - by apply not_elem_of_nil in Hx.
  - apply elem_of_cons in Hx as [->|Hx].
    + exists b. split; [done|by left].
    + destruct (IH Hx) as (y & Hy & Hk). exists y. split; [done|by right].
Qed.

(** Reading a property throws only on [null]: every other item maps. *)
Lemma itemToSuggestion_total item : item <> JNull -> is_Some (itemToSuggestion item).
Proof. destruct item; [done|..]; intros _; eexists; reflexivity. Qed.

(** C13: the type is not checked at run time.  For every reply whose items
    are all non-null, an item whose title is a non-zero number becomes a
    suggestion whose title is that number: [generateTaskSuggestions]
    returns a value that is not an [AiSuggestion], and the task card then
    stores it as a subtask title. *)
Theorem numeric_title_breaks_type parse title description text items item n :
  parse (cleanText text) = Some (JArr items) -> JNull ∉ items -> item ∈ items ->
  prop item "title" = Some (Some (JNum n)) -> n <> 0 ->
  exists s, s ∈ generateTaskSuggestions parse title description (Some text) /\
    sg_title s = Some (JNum n) /\ conformsAiSuggestion s = false.
Proof.
  intros Hp Hnull Hi Ht Hn. unfold generateTaskSuggestions. cbn. rewrite Hp.
  destruct (mapM itemToSuggestion items) as [k|] eqn:E.
  - destruct (mapM_in _ _ _ _ E Hi) as (y & Hy & Hk). exists y. split; [done|].
    unfold itemToSuggestion in Hy. rewrite Ht in Hy.
    destruct (prop item "name"), (prop item "estimatedTime"), (prop item "estimated_time");
      cbn in Hy; try discriminate. injection Hy as <-. cbn.
    unfold jsOr. cbn. rewrite (proj2 (Z.eqb_neq n 0) Hn). split; reflexivity.
  - exfalso. assert (Hs : is_Some (mapM itemToSuggestion items)).
    { apply mapM_is_Some, Forall_forall. intros x Hx. apply itemToSuggestion_total.
      intros ->. by apply Hnull, list_elem_of_In. }
    rewrite E in Hs. by destruct Hs.
Qed.

(** A reply of one item titled 5: the suggestion's title is the number 5. *)
Lemma numeric_title_breaks_type_witness :
  exists s, s ∈ generateTaskSuggestions replyNumericTitle "Essay" None (Some "[...]") /\
    sg_title s = Some (JNum 5) /\ conformsAiSuggestion s = false.
Proof.
  assert (Hp : replyNumericTitle (cleanText "[...]")
               = Some (JArr [JObj [("title", JNum 5); ("estimatedTime", JNum 20)]])) by reflexivity.
  assert (Hnull : JNull ∉ [JObj [("title", JNum 5); ("estimatedTime", JNum 20)]]).
  { intros H. apply elem_of_cons in H as [H|H]; [discriminate|by apply not_elem_of_nil in H]. }
  assert (Hi : JObj [("title", JNum 5); ("estimatedTime", JNum 20)]
               ∈ [JObj [("title", JNum 5); ("estimatedTime", JNum 20)]]) by left.
  assert (Ht : prop (JObj [("title", JNum 5); ("estimatedTime", JNum 20)]) "title" = Some (Some (JNum 5)))
    by reflexivity.
  exact (numeric_title_breaks_type replyNumericTitle "Essay" None "[...]" _ _ 5 Hp Hnull Hi Ht ltac:(lia)).
Defined.
