(* ===== verification/TaskForms.v ===== *)
(** * TaskForms: the task dialog

    [components/tasks/AddTaskDialog.tsx] edits a form (title, description,
    deadline as a [YYYY-MM-DD] date input, a priority that may be "auto",
    subtask titles, AI suggestions) and on submit builds either the data of
    a new task ([onAddTask], i.e. [TaskStore.addTask]) or an updated task
    ([onUpdateTask], i.e. [TaskStore.updateTask]).  The date input holds a
    day; [new Date("YYYY-MM-DD")] reads it as UTC midnight, so the form's
    [f_deadline] is that timestamp.  Fresh ids ([crypto.randomUUID()]) come
    from an injective supply [ids].  Suggestions here are the
    [AiSuggestion]s the generator resolves to, as their type declares. *)

From stdpp Require Import strings.
From S2P Require Import Prelude Tasks FocusTask TaskStore Gemini.
Import Tasks FocusTask TaskStore Gemini.

Module AddTaskDialog.

Definition day_ms : Z := 1000 * 60 * 60 * 24.

(** [new Date(new Date(d).toISOString().split('T')[0])]: the UTC day of
    [d], at midnight. *)
Definition dateInputOf (d : Z) : Z := d - d mod day_ms.

Inductive PriorityChoice := PLow | PMedium | PHigh | PAuto.

#[export] Instance PriorityChoice_eq_dec : EqDecision PriorityChoice.
Proof. solve_decision. Defined.

Definition choiceOf (p : option Priority) : PriorityChoice :=
  match p with
  | Some Low => PLow
  | Some High => PHigh
  | Some Medium | None => PMedium
  end.

Record Form := mkForm {
  f_title : string;
  f_description : string;
  f_deadline : option Z;
  f_priority : PriorityChoice;
  f_newSubtask : string;
  f_manualSubtasks : list string;
  f_generated : list AiSuggestion;
  f_isGenerating : bool;
  f_open : bool;
  f_showAuthPrompt : bool
}.

(** Lines 46-53 and the reset branch of the effect (lines 68-76). *)
Definition emptyForm (open : bool) : Form :=
  mkForm "" "" None PMedium "" [] [] false open false.

(** Lines 60-67: the form of a task being edited. *)
Definition formOf (task : Task) (open : bool) : Form :=
  mkForm (title task) (default "" (description task)) (dateInputOf <$> deadline task)
    (choiceOf (priority task)) "" (map st_title (subtasks task)) [] false open false.

Definition with_manualSubtasks (l : list string) (f : Form) : Form :=
  mkForm (f_title f) (f_description f) (f_deadline f) (f_priority f) (f_newSubtask f) l
    (f_generated f) (f_isGenerating f) (f_open f) (f_showAuthPrompt f).

(** Lines 79-86. *)
Definition handleOpenChange (signedIn : bool) (newOpen : bool) (f : Form) : Form :=
  if newOpen && negb signedIn
  then mkForm (f_title f) (f_description f) (f_deadline f) (f_priority f) (f_newSubtask f)
         (f_manualSubtasks f) (f_generated f) (f_isGenerating f) false true
  else mkForm (f_title f) (f_description f) (f_deadline f) (f_priority f) (f_newSubtask f)
         (f_manualSubtasks f) (f_generated f) (f_isGenerating f) newOpen (f_showAuthPrompt f).

(** Lines 88-92. *)
Definition handleAddManualSubtask (f : Form) : Form :=
  if bool_decide (trim (f_newSubtask f) = "") then f
  else mkForm (f_title f) (f_description f) (f_deadline f) (f_priority f) ""
         (f_manualSubtasks f ++ [trim (f_newSubtask f)]) (f_generated f) (f_isGenerating f)
         (f_open f) (f_showAuthPrompt f).

(** Lines 94-110: [suggestions] is what [generateTaskSuggestions] resolves
    to; it never rejects, so the catch branch is not reached. *)
Definition handleGenerateSuggestions (suggestions : list AiSuggestion) (f : Form) : Form :=
  if bool_decide (trim (f_title f) = "") then f
  else mkForm (f_title f) (f_description f) (f_deadline f) (f_priority f) (f_newSubtask f)
         (f_manualSubtasks f) suggestions false (f_open f) (f_showAuthPrompt f).

(** Lines 112-115. *)
Definition handleAddSuggestion (s : AiSuggestion) (f : Form) : Form :=
  mkForm (f_title f) (f_description f) (f_deadline f) (f_priority f) (f_newSubtask f)
    (f_manualSubtasks f ++ [a_title s]) (filter (fun x => a_id x <> a_id s) (f_generated f))
    (f_isGenerating f) (f_open f) (f_showAuthPrompt f).

(** Lines 124-146: the "auto" priority from title keywords and the
    distance to the deadline ([daysUntilDeadline <= 2] is
    [d - now <= 2 * day_ms] on integer milliseconds). *)
Definition autoPriority (title : string) (deadline : option Z) (now : Z) : Priority :=
  let lowerTitle := toLowerCase title in
  let byKeyword :=
    if contains "urgent" lowerTitle || contains "exam" lowerTitle ||
       contains "test" lowerTitle || contains "deadline" lowerTitle then High
    else if contains "presentation" lowerTitle || contains "project" lowerTitle ||
            contains "meeting" lowerTitle then Medium
    else Low in
  match deadline with
  | Some d =>
      if d - now <=? 2 * day_ms then High
      else if (d - now <=? 7 * day_ms) && negb (bool_decide (byKeyword = High)) then Medium
      else byKeyword
  | None => byKeyword
  end.

Definition finalPriority (f : Form) (now : Z) : Priority :=
  match f_priority f with
  | PAuto => autoPriority (f_title f) (f_deadline f) now
  | PLow => Low
  | PMedium => Medium
  | PHigh => High
  end.

(** Lines 150-162: an existing subtask of the same title is kept (the
    first one), otherwise a new one. *)
Definition editedSubtask (ids : nat -> string) (task : Task) (i : nat) (st : string) : SubTask :=
  match list_find (fun t => st_title t = st) (subtasks task) with
  | Some (_, existing) => existing
  | None => mkSubTask (ids i) st false None None
  end.

Inductive Action :=
  | DoAddTask (d : TaskData) (suggestions : list AiSuggestion)
  | DoUpdateTask (t : Task).

(** Lines 117-208: the call made and the form afterwards; [editing] is the
    task of an edit dialog. *)
Definition handleSubmit (ids : nat -> string) (now : Z) (editing : option Task) (f : Form)
    : Form * option Action :=
  if bool_decide (trim (f_title f) = "") then (f, None) else
  let totalEstimatedTime := Z.of_nat (length (f_manualSubtasks f)) * 30 in
  let p := finalPriority f now in
  match editing with
  | Some task =>
      let updatedSubtasks := imap (editedSubtask ids task) (f_manualSubtasks f) in
      let updatedTask :=
        mkTask (id task) (f_title f) (Some (f_description f)) (status task) (Some p)
          (f_deadline f) (Some totalEstimatedTime) updatedSubtasks (createdAt task) (Some now) in
      (mkForm (f_title f) (f_description f) (f_deadline f) (f_priority f) (f_newSubtask f)
         (f_manualSubtasks f) (f_generated f) false false (f_showAuthPrompt f),
       Some (DoUpdateTask updatedTask))
  | None =>
      let newTask :=
        mkTaskData (f_title f) (Some (f_description f)) Todo (Some p) (f_deadline f)
          (Some totalEstimatedTime)
          (imap (fun i st => mkSubTask (ids i) st false None None) (f_manualSubtasks f)) in
      (emptyForm false, Some (DoAddTask newTask (f_generated f)))
  end.

(** ** Collaborators (lines 25-31, 54-56, 210-221) *)

Inductive Role := Viewer | Editor | Admin.

Record Collaborator := mkCollaborator {
  c_id : string; c_name : string; c_streak : Z; c_avatar : string; c_role : Role
}.

(** Lines 26-31: [(id, name, streak, avatar)]. *)
Definition mockFriends : list (string * string * Z * string) :=
  [("1", "Sarah Wilson", 45, "SW"); ("2", "Mike Chen", 12, "MC");
   ("3", "Emma Davis", 8, "ED"); ("4", "James Rod", 0, "JR")].

Definition friendId (f : string * string * Z * string) : string := f.1.1.1.

Record CollabState := mkCollabState {
  collaborators : list Collaborator; selectedFriendId : string; selectedRole : Role
}.

(** Lines 210-217. *)
Definition handleAddCollaborator (st : CollabState) : CollabState :=
  if bool_decide (selectedFriendId st = "") then st else
  match list_find (fun f => friendId f = selectedFriendId st) mockFriends with
  | Some (_, (id_, name, streak, avatar)) =>
      if bool_decide (id_ ∈ c_id <$> collaborators st) then st
      else mkCollabState (collaborators st ++ [mkCollaborator id_ name streak avatar (selectedRole st)]) ""
             (selectedRole st)
  | None => st
  end.

(** Lines 219-221. *)
Definition removeCollaborator (cid : string) (st : CollabState) : CollabState :=
  mkCollabState (filter (fun c => c_id c <> cid) (collaborators st)) (selectedFriendId st) (selectedRole st).

(** Line 379: the friends the select still offers. *)
Definition selectableFriends (st : CollabState) : list (string * string * Z * string) :=
  filter (fun f => friendId f ∉ c_id <$> collaborators st) mockFriends.

Inductive CollabEvent := SelectFriend (fid : string) | SelectRole (r : Role) | AddCollaborator | RemoveCollaborator (cid : string).

Definition collabStep (st : CollabState) (e : CollabEvent) : CollabState :=
  match e with
  | SelectFriend fid => mkCollabState (collaborators st) fid (selectedRole st)
  | SelectRole r => mkCollabState (collaborators st) (selectedFriendId st) r
  | AddCollaborator => handleAddCollaborator st
  | RemoveCollaborator cid => removeCollaborator cid st
  end.

(** ** The rendered dialog (lines 224-457) *)

Record DialogView := mkDialogView {
  dv_open : bool;
  dv_heading : string;                 (** line 237 *)
  dv_generateButton : option bool;     (** lines 254-267: shown, and whether disabled *)
  dv_autoHint : bool;                  (** lines 298-302 *)
  dv_subtasks : list string;           (** lines 335-348 *)
  dv_suggestions : list string;        (** lines 351-368 *)
  dv_submitLabel : string;             (** lines 435-443 *)
  dv_submitDisabled : bool;            (** line 432 *)
  dv_authPrompt : bool                 (** lines 450-454 *)
}.

Definition dialogView (isEditMode : bool) (f : Form) : DialogView :=
  let blank := bool_decide (trim (f_title f) = "") in
  mkDialogView (f_open f) (if isEditMode then "Edit Task" else "Create New Task")
    (if bool_decide (length (f_generated f) = 0%nat) && negb (f_isGenerating f) then Some blank else None)
    (bool_decide (f_priority f = PAuto))
    (f_manualSubtasks f) (a_title <$> f_generated f)
    (if f_isGenerating f then "Generating..." else if isEditMode then "Update Task" else "Create Task")
    (blank || f_isGenerating f) (f_showAuthPrompt f).

(** ** Theorems *)

Lemma dateInputOf_le d : dateInputOf d <= d.
Proof. unfold dateInputOf, day_ms. pose proof (Z.mod_pos_bound d (1000 * 60 * 60 * 24)). lia. Qed.

(** C15: saving the edit dialog of a task without touching it replaces the
    task's deadline by the UTC midnight of its day: the date input keeps
    only [YYYY-MM-DD], so any time of day is lost (and a deadline set in
    local time may move to the previous or next day). *)
Theorem edit_truncates_deadline ids now task :
  trim (title task) <> "" ->
  exists t', snd (handleSubmit ids now (Some task) (formOf task true)) = Some (DoUpdateTask t') /\
             deadline t' = dateInputOf <$> deadline task.
Proof.
  intros Ht. unfold handleSubmit. rewrite bool_decide_eq_false_2 by done. simpl. by eexists.
Qed.

Definition demoDeadlineTask : Task :=
  mkTask "t1" "Lab report" None Todo (Some High) (Some 1705341600000) None [] 1704708000000 None.

Lemma edit_truncates_deadline_witness :
  trim (title demoDeadlineTask) <> "" /\
  exists t', snd (handleSubmit (fun _ => "n") 1704711600000 (Some demoDeadlineTask)
                    (formOf demoDeadlineTask true)) = Some (DoUpdateTask t') /\
             deadline t' = Some 1705276800000.
Proof.
  assert (H : trim (title demoDeadlineTask) <> "") by (vm_compute; discriminate).
  split; [exact H|].
  destruct (edit_truncates_deadline (fun _ => "n") 1704711600000 demoDeadlineTask H) as (t' & E & D).
  exists t'. split; [exact E|]. rewrite D. reflexivity.
Defined.

Lemma editedSubtask_existing ids task i st e :
  list_find (fun t => st_title t = st) (subtasks task) = Some (i, e) ->
  forall j, editedSubtask ids task j st = e.
Proof. intros H j. unfold editedSubtask. by rewrite H. Qed.

(** C16: in the edit dialog, two subtask lines with the title of an existing
    subtask both become that same subtask, with one id: the saved task
    holds a duplicated subtask, and toggling either toggles both. *)
Theorem duplicate_titles_share_subtask ids now task x :
  trim (title task) <> "" -> x ∈ map st_title (subtasks task) ->
  exists t' e, snd (handleSubmit ids now (Some task) (with_manualSubtasks [x; x] (formOf task true)))
               = Some (DoUpdateTask t') /\
             st_title e = x /\ subtasks t' = [e; e].
Proof.
  intros Ht Hx. apply list_elem_of_fmap in Hx as (s & Hs & Hin).
  destruct (list_find_elem_of (fun t => st_title t = x) (subtasks task) s) as [[i e] He];
    [done | by symmetry|].
  pose proof He as Hp. apply list_find_Some in Hp as (_ & He' & _).
  unfold handleSubmit. rewrite bool_decide_eq_false_2 by done. simpl.
  eexists _, e. split; [reflexivity|]. split; [done|].
  simpl. by rewrite !(editedSubtask_existing ids task i x e He).
Qed.

Definition demoEditTask : Task :=
  mkTask "t2" "Exam prep" None InProgress (Some High) None None
    [mkSubTask "u1" "Flashcards" true None None] 1704708000000 None.

Lemma duplicate_titles_share_subtask_witness :
  trim (title demoEditTask) <> "" /\ "Flashcards" ∈ map st_title (subtasks demoEditTask) /\
  exists t' e, snd (handleSubmit (fun _ => "n") 1704711600000 (Some demoEditTask)
                     (with_manualSubtasks ["Flashcards"; "Flashcards"] (formOf demoEditTask true)))
               = Some (DoUpdateTask t') /\
             st_title e = "Flashcards" /\ subtasks t' = [e; e].
Proof.
  assert (H1 : trim (title demoEditTask) <> "") by (vm_compute; discriminate).
  assert (H2 : "Flashcards" ∈ map st_title (subtasks demoEditTask)) by (simpl; left).
  split_and!; [exact H1 | exact H2 |].
  exact (duplicate_titles_share_subtask (fun _ => "n") 1704711600000 demoEditTask "Flashcards" H1 H2).
Defined.

(** A nearer deadline never lowers the automatic priority. *)
Lemma autoPriority_deadline_monotone title now d1 d2 :
  d1 <= d2 ->
  priorityRank (Some (autoPriority title (Some d2) now)) <=
  priorityRank (Some (autoPriority title (Some d1) now)).
Proof.
  intros Hd. unfold autoPriority. cbv zeta.
  repeat match goal with
  | |- context [if ?b then _ else _] =>
      lazymatch b with context [Z.leb] => fail | _ => destruct b end
  end; simpl;
  repeat match goal with |- context [?a <=? ?b] => destruct (Z.leb_spec a b) end; simpl; lia.
Qed.

End AddTaskDialog.

Import AddTaskDialog.

Lemma handleAddCollaborator_nodup st :
  NoDup (c_id <$> collaborators st) -> NoDup (c_id <$> collaborators (handleAddCollaborator st)).
Proof.
  intros Hnd. unfold handleAddCollaborator. case_bool_decide; [done|].
  destruct (list_find _ mockFriends) as [[k [[[i n] sk] a]]|]; [|done].
  case_bool_decide as Hin; [done|]. cbn. rewrite fmap_app. apply list.NoDup_app. split; [done|].
  split; [|apply NoDup_singleton]. intros x Hx Hx'. cbn in Hx'. apply list_elem_of_singleton in Hx'. by subst.
Qed.

Lemma removeCollaborator_nodup cid st :
  NoDup (c_id <$> collaborators st) -> NoDup (c_id <$> collaborators (removeCollaborator cid st)).
Proof.
  intros Hnd. cbn. induction (collaborators st) as [|c cs IH]; [constructor|].
  rewrite fmap_cons in Hnd. apply list.NoDup_cons in Hnd as [Hc Hnd]. rewrite filter_cons.
  case_decide; [|auto]. rewrite fmap_cons. constructor; [|auto].
  intros Hin. apply Hc. apply list_elem_of_fmap in Hin as (c' & Heq & Hc').
  apply list_elem_of_filter in Hc' as [_ Hc']. apply list_elem_of_fmap. by exists c'.
Qed.

(** The dialog never lists a friend twice as a collaborator, whatever
    is selected, added and removed. *)
Lemma collaborators_stay_distinct st es :
  NoDup (c_id <$> collaborators st) -> NoDup (c_id <$> collaborators (foldl collabStep st es)).
Proof.
  revert st. induction es as [|e es IH]; intros st Hnd; [done|]. cbn. apply IH.
  destruct e; cbn [collabStep]; auto using handleAddCollaborator_nodup, removeCollaborator_nodup.
Qed.

(** The submit button is disabled exactly when the title is blank or
    suggestions are being generated, and the generate button is offered
    only before any suggestion exists. *)
Lemma dialog_buttons isEdit f :
  dv_submitDisabled (dialogView isEdit f) = bool_decide (trim (f_title f) = "") || f_isGenerating f /\
  (dv_generateButton (dialogView isEdit f) <> None -> f_generated f = [] /\ f_isGenerating f = false).
Proof.
  split; [done|]. cbn. destruct (f_generated f), (f_isGenerating f); cbn; naive_solver.
Qed.

(** Picking Sarah twice adds her once; the select then offers the three
    other friends, and removing her offers all four again. *)
Example collaborator_flow :
  let st := foldl collabStep (mkCollabState [] "" Viewer)
              [SelectFriend "1"; SelectRole Editor; AddCollaborator; SelectFriend "1"; AddCollaborator] in
  (c_id <$> collaborators st) = ["1"] /\ c_role <$> collaborators st = [Editor] /\
  length (selectableFriends st) = 3%nat /\
  length (selectableFriends (removeCollaborator "1" st)) = 4%nat.
Proof. vm_compute. repeat split. Qed.
