(* ===== verification/TaskCard.v ===== *)
(** * TaskCard: the task card of [components/tasks/TaskCard.tsx]

    The card renders one task of the provider: a header with its title,
    a compact progress when collapsed, the deadline, the estimate in hours,
    the priority and status badges, a menu (edit, delete), and when
    expanded the detailed progress, the subtasks with their checkboxes, an
    input for a new subtask and the AI suggestions.  It keeps seven pieces
    of local state ([CardState]); its props are the provider's handlers,
    whose calls are the [Effect]s a [step] returns.

    [TaskCardActions] holds the handlers that build what is passed to the
    props; [TaskCard] the state, the events a user can cause (only on
    elements that are rendered: a dialog's buttons exist while it is open,
    and the three dialogs have no trigger of their own), [step], and the
    rendered [view].  Suggestions are the [AiSuggestion]s the generator
    resolves to; [generateTaskSuggestions] never rejects, so the card's
    "AI Error" branch is not an event. *)

From stdpp Require Import strings.
From S2P Require Import Prelude Tasks TaskStore Gemini.
Import Tasks TaskStore Gemini.

Module TaskCardActions.

(** Lines 88-97: the subtask passed to [onAddSubtask]; the typed text is
    checked after [trim()] but stored as typed. *)
Definition handleAddSubtask (newId : string) (task : Task) (newSubtask : string)
    : option (string * SubTask) :=
  if bool_decide (trim newSubtask = "") then None
  else Some (id task, mkSubTask newId newSubtask false None None).

(** Lines 99-108. *)
Definition handleAddSuggestion (newId : string) (task : Task) (s : AiSuggestion) : string * SubTask :=
  (id task, mkSubTask newId (a_title s) false (Some true) (a_estimatedTime s)).

(** Lines 110-133: the suggestions handed to [onSuggestionsGenerated] and
    the toast; [suggestions] is what the generator resolves to. *)
Definition handleGenerateSuggestions (task : Task) (suggestions : list AiSuggestion)
    : option (string * list AiSuggestion) :=
  if bool_decide (trim (title task) = "") then None else Some (id task, suggestions).

Inductive DeleteStep := AskSignIn | AskConfirm.

(** Lines 135-141. *)
Definition handleDeleteClick (signedIn : bool) : DeleteStep :=
  if signedIn then AskConfirm else AskSignIn.

(** Lines 143-148: the id passed to [onDeleteTask]. *)
Definition handleConfirmDelete (task : Task) : string := id task.

End TaskCardActions.

Module TaskCard.
Import TaskCardActions.

(** Lines 51-58. *)
Record CardState := mkCard {
  expanded : bool;
  showSuggestions : bool;
  newSubtask : string;
  showAuthPrompt : bool;
  showDeleteConfirm : bool;
  showEditDialog : bool;
  isGeneratingSuggestions : bool
}.

Definition initCard : CardState := mkCard false false "" false false false false.

Definition set_expanded b c := mkCard b (showSuggestions c) (newSubtask c) (showAuthPrompt c) (showDeleteConfirm c) (showEditDialog c) (isGeneratingSuggestions c).
Definition set_showSuggestions b c := mkCard (expanded c) b (newSubtask c) (showAuthPrompt c) (showDeleteConfirm c) (showEditDialog c) (isGeneratingSuggestions c).
Definition set_newSubtask s c := mkCard (expanded c) (showSuggestions c) s (showAuthPrompt c) (showDeleteConfirm c) (showEditDialog c) (isGeneratingSuggestions c).
Definition set_showAuthPrompt b c := mkCard (expanded c) (showSuggestions c) (newSubtask c) b (showDeleteConfirm c) (showEditDialog c) (isGeneratingSuggestions c).
Definition set_showDeleteConfirm b c := mkCard (expanded c) (showSuggestions c) (newSubtask c) (showAuthPrompt c) b (showEditDialog c) (isGeneratingSuggestions c).
Definition set_showEditDialog b c := mkCard (expanded c) (showSuggestions c) (newSubtask c) (showAuthPrompt c) (showDeleteConfirm c) b (isGeneratingSuggestions c).
Definition set_generating b c := mkCard (expanded c) (showSuggestions c) (newSubtask c) (showAuthPrompt c) (showDeleteConfirm c) (showEditDialog c) b.

(** Calls of the props and toasts. *)
Inductive Effect :=
  | OnAddSubtask (taskId : string) (s : SubTask)
  | OnUpdateTask (t : Task)
  | OnDeleteTask (taskId : string)
  | OnSuggestionsGenerated (taskId : string) (suggestions : list AiSuggestion)
  | ShowToast (title : string).

Inductive CardEvent :=
  | ToggleExpand                              (** the chevron, line 156 *)
  | CheckSubtask (subtaskId : string)         (** a checkbox, line 305 *)
  | TypeSubtask (text : string)               (** the input, line 332 *)
  | EnterSubtask (newId : string)             (** Enter in the input, line 333 *)
  | ToggleSuggestionList                      (** line 346 *)
  | GenerateStart                             (** either generate button *)
  | GenerateDone (suggestions : list AiSuggestion)
  | AddSuggestionClick (newId : string) (s : AiSuggestion)
  | EditClick                                 (** menu item, lines 252-262 *)
  | DeleteClick                               (** menu item, line 265 *)
  | ConfirmDeleteClick                        (** the dialog's Delete *)
  | DeleteDialogClose                         (** Cancel or dismiss *)
  | AuthPromptClose
  | EditSaved (t : Task)                      (** the edit dialog's [onUpdateTask] *)
  | EditDialogClose.

(** The card's handlers on one event: the new state and the calls made. *)
Definition step (signedIn : bool) (task : Task) (c : CardState) (e : CardEvent)
    : CardState * list Effect :=
  match e with
  | ToggleExpand => (set_expanded (negb (expanded c)) c, [])
  | CheckSubtask sid =>
      if expanded c then (c, [OnUpdateTask (handleToggleSubtask task sid)]) else (c, [])
  | TypeSubtask s => if expanded c then (set_newSubtask s c, []) else (c, [])
  | EnterSubtask newId =>
      if expanded c then
        match TaskCardActions.handleAddSubtask newId task (newSubtask c) with
        | Some (tid, st) => (set_newSubtask "" c, [OnAddSubtask tid st])
        | None => (c, [])
        end
      else (c, [])
  | ToggleSuggestionList => (set_showSuggestions (negb (showSuggestions c)) c, [])
  | GenerateStart =>
      if expanded c && negb (isGeneratingSuggestions c) && negb (bool_decide (trim (title task) = ""))
      then (set_generating true c, []) else (c, [])
  | GenerateDone l =>
      if isGeneratingSuggestions c then
        (set_generating false (set_showSuggestions true c),
         [OnSuggestionsGenerated (id task) l; ShowToast "AI Suggestions Generated"])
      else (c, [])
  | AddSuggestionClick newId s =>
      if expanded c && showSuggestions c then
        let '(tid, st) := TaskCardActions.handleAddSuggestion newId task s in (c, [OnAddSubtask tid st])
      else (c, [])
  | EditClick => if signedIn then (set_showEditDialog true c, []) else (set_showAuthPrompt true c, [])
  | DeleteClick =>
      match handleDeleteClick signedIn with
      | AskSignIn => (set_showAuthPrompt true c, [])
      | AskConfirm => (set_showDeleteConfirm true c, [])
      end
  | ConfirmDeleteClick =>
      if showDeleteConfirm c then (set_showDeleteConfirm false c, [OnDeleteTask (handleConfirmDelete task)])
      else (c, [])
  | DeleteDialogClose => (set_showDeleteConfirm false c, [])
  | AuthPromptClose => (set_showAuthPrompt false c, [])
  | EditSaved t => if showEditDialog c then (set_showEditDialog false c, [OnUpdateTask t]) else (c, [])
  | EditDialogClose => (set_showEditDialog false c, [])
  end.

(** A sequence of events on a card whose task does not change. *)
Fixpoint run (signedIn : bool) (task : Task) (c : CardState) (es : list CardEvent)
    : CardState * list Effect :=
  match es with
  | [] => (c, [])
  | e :: es =>
      let '(c1, fx1) := step signedIn task c e in
      let '(c2, fx2) := run signedIn task c1 es in
      (c2, fx1 ++ fx2)
  end.

(** ** The rendered card *)

(** [Math.round(m / 60)] for integer minutes. *)
Definition hoursOf (minutes : Z) : Z := (minutes + 30) / 60.

(** Line 216: [task.priority.charAt(0).toUpperCase() + task.priority.slice(1)]. *)
Definition priorityLabel (p : Priority) : string :=
  match p with Low => "Low" | Medium => "Medium" | High => "High" end.

(** Line 227. *)
Definition statusLabel (s : Status) : string :=
  match s with InProgress => "In Progress" | Done => "Done" | Todo => "To Do" end.

Record SubtaskRow := mkSubtaskRow {
  row_title : string; row_struck : bool; row_ai : bool; row_minutes : option Z
}.

(** Lines 298-323: a subtask line; [estimatedTime &&] hides 0. *)
Definition subtaskRow (s : SubTask) : SubtaskRow :=
  mkSubtaskRow (st_title s) (completed s) (default false (isAiSuggested s))
    (match st_estimatedTime s with Some m => if m =? 0 then None else Some m | None => None end).

Inductive SuggestionArea :=
  | GenerateButton (label : string) (disabled : bool)
  | SuggestionList (toggleLabel : string) (regenerateLabel : string) (disabled : bool)
      (rows : list (string * option Z)).

(** Lines 342-420. *)
Definition suggestionArea (c : CardState) (aiSuggestions : list AiSuggestion) : SuggestionArea :=
  if bool_decide (0 < length aiSuggestions)%nat then
    SuggestionList ((if showSuggestions c then "Hide" else "Show") ++ " AI suggestions")
      (if isGeneratingSuggestions c then "Generating..." else "Regenerate") (isGeneratingSuggestions c)
      (if showSuggestions c then
         map (fun s => (a_title s, match a_estimatedTime s with
                                   | Some m => if m =? 0 then None else Some m
                                   | None => None end)) aiSuggestions
       else [])
  else GenerateButton (if isGeneratingSuggestions c then "Generating AI suggestions..." else "Generate AI Suggestions")
         (isGeneratingSuggestions c).

Record CardView := mkView {
  v_title : string;
  v_compactProgress : option (nat * nat);
  v_description : option string;
  v_deadline : option Z;
  v_hours : option Z;
  v_priority : option string;
  v_status : string;
  v_detailedProgress : option (nat * nat);
  v_subtasks : list SubtaskRow;
  v_suggestions : option SuggestionArea;
  v_authPrompt : option string;
  v_deleteDialog : option string;
  v_editDialogTask : option Task
}.

(** Lines 150-472; the progress bars' width is [cardProgress]. *)
Definition view (task : Task) (aiSuggestions : list AiSuggestion) (c : CardState) : CardView :=
  let n := length (subtasks task) in
  let done_ := Tasks.completedCount (subtasks task) in
  mkView (title task)
    (if negb (expanded c) && bool_decide (0 < n)%nat then Some (done_, n) else None)
    (if expanded c then match description task with
                        | Some d => if bool_decide (d = "") then None else Some d
                        | None => None end
     else None)
    (deadline task)
    (match estimatedTime task with Some m => if m =? 0 then None else Some (hoursOf m) | None => None end)
    (priorityLabel <$> priority task)
    (statusLabel (status task))
    (if expanded c && bool_decide (0 < n)%nat then Some (done_, n) else None)
    (if expanded c then map subtaskRow (subtasks task) else [])
    (if expanded c then Some (suggestionArea c aiSuggestions) else None)
    (if showAuthPrompt c then Some "Please sign in to delete tasks." else None)
    (if showDeleteConfirm c then Some (title task) else None)
    (if showEditDialog c then Some task else None).

(** What a signed-out visitor can never reach: the delete confirmation
    and the edit dialog. *)
Definition signedOutInv (c : CardState) : Prop := showDeleteConfirm c = false /\ showEditDialog c = false.

(** A task of twenty minutes, with one subtask, for the examples. *)
Definition demoCardTask : Task :=
  mkTask "t1" "Read chapter 3" None Todo (Some Low) None (Some 20)
    [mkSubTask "s1" "Skim" false None None] 0 None.

End TaskCard.

Import TaskCard.

(** ** Theorems *)

Lemma step_signed_out task c e :
  signedOutInv c ->
  signedOutInv (fst (step false task c e)) /\
  Forall (fun fx => forall tid, fx <> OnDeleteTask tid) (snd (step false task c e)).
Proof.
  intros [Hd He]. destruct c as [ex ss ns sa sd se ig]; cbn in Hd, He; subst sd se.
  unfold signedOutInv.
  destruct e; cbn; repeat (case_match; cbn); repeat constructor; congruence.
Qed.

Lemma run_signed_out task es c :
  signedOutInv c ->
  signedOutInv (fst (run false task c es)) /\
  Forall (fun fx => forall tid, fx <> OnDeleteTask tid) (snd (run false task c es)).
Proof.
  revert c. induction es as [|e es IH]; intros c Hc; [split; [done|constructor]|].
  cbn. destruct (step false task c e) as [c1 fx1] eqn:E1.
  destruct (step_signed_out task c e Hc) as [Hc1 Hfx1]. rewrite E1 in Hc1, Hfx1; cbn in Hc1, Hfx1.
  destruct (run false task c1 es) as [c2 fx2] eqn:E2.
  destruct (IH c1 Hc1) as [Hc2 Hfx2]. rewrite E2 in Hc2, Hfx2.
  split; [done|]. apply Forall_app; auto.
Qed.

(** C33: Signed out, no sequence of clicks on a task card opens its delete
    confirmation or its edit dialog, and the card never calls
    [onDeleteTask]: both menu items open the sign-in prompt instead. *)
Theorem signed_out_never_deletes task es :
  signedOutInv (fst (run false task initCard es)) /\
  Forall (fun fx => forall tid, fx <> OnDeleteTask tid) (snd (run false task initCard es)).
Proof. apply run_signed_out. by split. Qed.

(** Signed in, the menu's Delete and the dialog's Delete do call
    [onDeleteTask] with the task's id. *)
Lemma signed_in_delete task :
  snd (run true task initCard [DeleteClick; ConfirmDeleteClick]) = [OnDeleteTask (id task)].
Proof. reflexivity. Qed.

(** The sign-in prompt the Edit item opens speaks of deleting. *)
Lemma edit_prompt_mentions_delete task ai :
  v_authPrompt (view task ai (fst (step false task initCard EditClick)))
    = Some "Please sign in to delete tasks.".
Proof. reflexivity. Qed.

(** A generation started on an expanded card hands the suggestions to
    the provider, shows them, and re-enables the buttons. *)
Lemma generate_flow task l :
  trim (title task) <> "" ->
  run true task initCard [ToggleExpand; GenerateStart; GenerateDone l] =
    (mkCard true true "" false false false false,
     [OnSuggestionsGenerated (id task) l; ShowToast "AI Suggestions Generated"]).
Proof. intros Ht. cbn. by rewrite bool_decide_eq_false_2. Qed.

(** The compact and the detailed progress are never shown together, and
    both count the completed subtasks. *)
Lemma progress_views task ai c :
  (v_compactProgress (view task ai c) = None \/ v_detailedProgress (view task ai c) = None) /\
  forall k n, (v_compactProgress (view task ai c) = Some (k, n) \/ v_detailedProgress (view task ai c) = Some (k, n)) ->
    k = Tasks.completedCount (subtasks task) /\ n = length (subtasks task) /\ (0 < n)%nat.
Proof.
  cbn. destruct (expanded c); cbn; case_bool_decide as Hn; split; auto; intros k n [Hv|Hv]; by inversion Hv.
Qed.

(** An estimate under half an hour shows as "0h". *)
Lemma short_estimate_shows_zero_hours task ai c m :
  estimatedTime task = Some m -> 0 < m < 30 -> v_hours (view task ai c) = Some 0.
Proof.
  intros Hm Hr. cbn. rewrite Hm. rewrite (proj2 (Z.eqb_neq m 0)) by lia. f_equal.
  unfold hoursOf. apply Z.div_small. lia.
Qed.

Example demo_card_zero_hours : v_hours (view demoCardTask [] initCard) = Some 0.
Proof. apply (short_estimate_shows_zero_hours _ _ _ 20); [reflexivity|lia]. Qed.
