(* ===== verification/Dashboard.v ===== *)
(** * Dashboard: the views of [pages/Dashboard.tsx]

    The dashboard shows the ledger's weekly array ([WeeklyStreak]), counts
    over the task list and the total study time ([ProgressOverview]), the
    focus task of [getNextFocusTask] with its own subtask toggle and
    subtask input ([CurrentTask]), and the in-progress tasks as "recent".
    [TasksPage] is the search and status filter of [pages/TasksPage.tsx],
    [StreaksPage] the mock friends of [pages/StreaksPage.tsx].
    The weekly array is the ledger's [sessions]; counts are [nat], the
    study time is integer minutes. *)

From Stdlib Require Import QArith Ascii.
From stdpp Require Import strings.
From S2P Require Import Prelude Tasks FocusTask Gemini.
Import Tasks FocusTask Gemini.

Module WeeklyStreak.

(** Lines 8-20. *)
Definition getPandaImage (sessions : Z) : string * string :=
  let displaySessions := Z.min sessions 7 in
  if displaySessions =? 0 then ("/panda-0.png", "Rest")
  else if displaySessions =? 1 then ("/panda-1.png", "Getting Started")
  else if displaySessions =? 2 then ("/panda-2.png", "Building Up")
  else if displaySessions =? 3 then ("/panda-3.png", "Good Progress")
  else if displaySessions =? 4 then ("/panda-4.png", "Great Work")
  else if displaySessions =? 5 then ("/panda-5.png", "Excellent!")
  else if displaySessions =? 6 then ("/panda-6.png", "On Fire!")
  else ("/panda-7.png", "Unstoppable!").

(** Line 22: [focusSessions.reduce((sum, s) => sum + s, 0)]. *)
Definition totalSessions (focusSessions : list Z) : Z := foldl Z.add 0 focusSessions.

(** Line 23: [focusSessions.filter(s => s > 0).length], shown as the
    "day streak". *)
Definition currentStreak (focusSessions : list Z) : nat := count_where (fun s => 0 <? s) focusSessions.

End WeeklyStreak.

Module ProgressOverview.

(** Lines 10-13. *)
Definition totalTasks (tasks : list Task) : nat := length tasks.
Definition completedTasks (tasks : list Task) : nat :=
  count_where (fun t => bool_decide (status t = Done)) tasks.
Definition inProgressTasks (tasks : list Task) : nat :=
  count_where (fun t => bool_decide (status t = InProgress)) tasks.
Definition overallProgress (tasks : list Task) : Q :=
  if bool_decide (0 < totalTasks tasks)%nat
  then (inject_Z (Z.of_nat (completedTasks tasks)) / inject_Z (Z.of_nat (totalTasks tasks)))
       * inject_Z 100
  else 0.

(** Line 36: [Math.round(totalStudyMinutes / 60)], rounding halves up. *)
Definition studyHours (totalStudyMinutes : Z) : Z := (totalStudyMinutes + 30) / 60.

End ProgressOverview.

Module DashboardPage.

(** Line 24: [profileSettings.full_name || user?.email?.split('@')[0] || 'User'];
    [emailName] is the part of the address before the first ['@']. *)
Fixpoint emailName (email : string) : string :=
  match email with
  | EmptyString => EmptyString
  | String c rest => if bool_decide (c = "@"%char) then EmptyString else String c (emailName rest)
  end.

Definition userName (fullName : string) (email : option string) : string :=
  if negb (bool_decide (fullName = "")) then fullName
  else match email with
       | Some e => if negb (bool_decide (emailName e = "")) then emailName e else "User"
       | None => "User"
       end.

(** Line 35. *)
Definition currentTask (tasks : list Task) : option Task := getNextFocusTask tasks.

(** Line 40. *)
Definition recentTasks (tasks : list Task) : list Task :=
  filter (fun t => status t = InProgress) tasks.

End DashboardPage.

Module CurrentTask.

(** Lines 53-79: the same derivation as the task card, written again. *)
Definition handleToggleSubtask (task : Task) (subtaskId : string) : Task :=
  let updatedSubtasks :=
    map (fun s => if bool_decide (st_id s = subtaskId)
                  then mkSubTask (st_id s) (st_title s) (negb (completed s)) (isAiSuggested s)
                         (st_estimatedTime s)
                  else s) (subtasks task) in
  let completedCount := count_where completed updatedSubtasks in
  let newStatus :=
    if bool_decide (0 < length updatedSubtasks)%nat then
      if bool_decide (completedCount = length updatedSubtasks) then Done
      else if bool_decide (0 < completedCount)%nat then InProgress
      else Todo
    else status task in
  with_subtasks_status updatedSubtasks newStatus task.

Inductive Outcome := NoChange | AskSignIn | Update (t : Task).

(** Lines 81-96: signed-in only; the title is trimmed and the task stamped. *)
Definition handleAddSubtask (signedIn : bool) (newId : string) (now : Z) (task : Task)
    (newSubtaskTitle : string) : Outcome :=
  if negb signedIn then AskSignIn
  else if bool_decide (trim newSubtaskTitle = "") then NoChange
  else Update (with_lastEditedAt now
                 (with_subtasks (subtasks task ++ [mkSubTask newId (trim newSubtaskTitle) false None None])
                    task)).

End CurrentTask.

Module CurrentTaskCard.
Import CurrentTask.

(** Lines 32-33. *)
Record CardState := mkCardState { showAuthPrompt : bool; newSubtaskTitle : string }.

Inductive Effect := OnUpdateTask (t : Task) | Navigate (path : string).

Inductive CardEvent :=
  | PickTask                                 (** line 39, the empty card *)
  | CheckSubtask (subtaskId : string)        (** line 145 *)
  | TypeSubtask (text : string)              (** line 165 *)
  | EnterSubtask (newId : string) (now : Z)  (** lines 168-178 *)
  | AuthPromptClose.

(** Whether the add-subtask input is rendered: inside the subtask block
    (line 127) and only with [onUpdateTask] (line 160). *)
Definition addInputShown (task : Task) (hasUpdate : bool) : bool :=
  bool_decide (0 < length (subtasks task))%nat && hasUpdate.

(** The card's handlers on one event ([task = null]: the empty card). *)
Definition step (signedIn hasUpdate : bool) (task : option Task) (c : CardState) (e : CardEvent)
    : CardState * list Effect :=
  match task, e with
  | None, PickTask => (c, [Navigate "/tasks"])
  | Some t, CheckSubtask sid =>
      if bool_decide (sid ∈ st_id <$> subtasks t) && hasUpdate
      then (c, [OnUpdateTask (handleToggleSubtask t sid)]) else (c, [])
  | Some t, TypeSubtask s => if addInputShown t hasUpdate then (mkCardState (showAuthPrompt c) s, []) else (c, [])
  | Some t, EnterSubtask newId now =>
      if addInputShown t hasUpdate then
        match handleAddSubtask signedIn newId now t (newSubtaskTitle c) with
        | AskSignIn => (mkCardState true (newSubtaskTitle c), [])
        | NoChange => (c, [])
        | Update t' => (mkCardState (showAuthPrompt c) "", [OnUpdateTask t'])
        end
      else (c, [])
  | _, AuthPromptClose => (mkCardState false (newSubtaskTitle c), [])
  | _, _ => (c, [])
  end.

Fixpoint run (signedIn hasUpdate : bool) (task : option Task) (c : CardState) (es : list CardEvent)
    : CardState * list Effect :=
  match es with
  | [] => (c, [])
  | e :: es =>
      let '(c1, fx1) := step signedIn hasUpdate task c e in
      let '(c2, fx2) := run signedIn hasUpdate task c1 es in
      (c2, fx1 ++ fx2)
  end.

(** Lines 32-46 (no task) and 98-192. *)
Inductive CurrentView :=
  | EmptyCard
  | TaskView (title : string) (description : option string) (deadline : option Z)
      (hoursRemaining : option Z) (progress : option (nat * nat)) (rows : list (string * bool))
      (checkboxesEnabled : bool) (addInput : bool) (authPrompt : option string).

Definition view (hasUpdate : bool) (task : option Task) (c : CardState) : CurrentView :=
  match task with
  | None => EmptyCard
  | Some t =>
      let n := length (subtasks t) in
      TaskView (title t)
        (match description t with Some d => if bool_decide (d = "") then None else Some d | None => None end)
        (deadline t)
        (match estimatedTime t with Some m => if m =? 0 then None else Some ((m + 30) / 60) | None => None end)
        (if bool_decide (0 < n)%nat then Some (completedCount (subtasks t), n) else None)
        (if bool_decide (0 < n)%nat then map (fun s => (st_title s, completed s)) (subtasks t) else [])
        hasUpdate (addInputShown t hasUpdate)
        (if showAuthPrompt c then Some "Please sign in to add new subtasks." else None)
  end.

(** A focus task without subtasks. *)
Definition bareTask : Task := mkTask "t9" "Revise notes" None InProgress None None None [] 0 None.

End CurrentTaskCard.

Module TasksPage.

(** Line 13: [useState<'all' | 'todo' | 'in-progress' | 'done'>]. *)
Inductive Filter := FAll | FStatus (s : Status).

(** Lines 15-19. *)
Definition matchesSearch (searchQuery : string) (task : Task) : bool :=
  contains (toLowerCase searchQuery) (toLowerCase (title task)).

Definition matchesFilter (filter : Filter) (task : Task) : bool :=
  match filter with
  | FAll => true
  | FStatus s => bool_decide (status task = s)
  end.

Definition filteredTasks (searchQuery : string) (filter : Filter) (tasks : list Task) : list Task :=
  base.filter (fun task => matchesSearch searchQuery task && matchesFilter filter task) tasks.

End TasksPage.

Module StreaksPage.

(** [Friend] (types/index.ts, lines 50-57) with the [todayHighlight] the
    mock data adds. *)
Record Friend := mkFriend {
  f_id : string; f_name : string; f_streak : Z; f_avatar : string;
  f_lastActive : option Z; f_todayHighlight : option string
}.

(** StreaksPage.tsx, lines 9-14, at page load time [now]. *)
Definition mockFriends (now : Z) : list Friend :=
  [mkFriend "1" "Sarah Wilson" 45 "SW" (Some now) (Some "Completed 4h study session!");
   mkFriend "2" "Mike Chen" 12 "MC" (Some (now - 1000 * 60 * 30)) (Some "Aced the calculus quiz");
   mkFriend "3" "Emma Davis" 8 "ED" (Some (now - 1000 * 60 * 60 * 2)) None;
   mkFriend "4" "James Rod" 0 "JR" (Some (now - 1000 * 60 * 60 * 24)) None].

(** Lines 20-22. *)
Definition filteredFriends (searchQuery : string) (friends : list Friend) : list Friend :=
  filter (fun friend => contains (toLowerCase searchQuery) (toLowerCase (f_name friend))) friends.

(** Lines 65-67: [friend.lastActive && now - lastActive < 1 hour]. *)
Definition activity (now : Z) (friend : Friend) : string :=
  match f_lastActive friend with
  | Some t => if now - t <? 1000 * 60 * 60 then "Active recently" else "Offline"
  | None => "Offline"
  end.

(** Lines 61-68: the highlight when truthy, else the activity. *)
Definition friendStatus (now : Z) (friend : Friend) : string :=
  match f_todayHighlight friend with
  | Some h => if bool_decide (h = "") then activity now friend else h
  | None => activity now friend
  end.

End StreaksPage.

(** ** Theorems *)

(** The dashboard's card and the task card toggle a subtask identically. *)
Lemma current_task_toggle_agrees task i :
  CurrentTask.handleToggleSubtask task i = handleToggleSubtask task i.
Proof. reflexivity. Qed.

(** The "day streak" counts active days of the week, at most seven. *)
Lemma currentStreak_le_days l : (WeeklyStreak.currentStreak l <= length l)%nat.
Proof. apply count_where_le. Qed.

(** When some task is in progress, the focus task is one of the recent
    tasks the dashboard lists. *)
Lemma current_task_is_recent tasks :
  DashboardPage.recentTasks tasks <> [] ->
  exists t, DashboardPage.currentTask tasks = Some t /\ t ∈ DashboardPage.recentTasks tasks.
Proof.
  intros Hne. destruct (getNextFocusTask_in_progress tasks Hne) as (t & Ht & pre & post & E & _).
  exists t. split; [done|]. unfold DashboardPage.recentTasks. rewrite E.
  apply elem_of_app. right. apply elem_of_cons. by left.
Qed.

(** [Math.round(m / 60)] for integer minutes. *)
Lemma studyHours_spec m :
  60 * ProgressOverview.studyHours m <= m + 30 < 60 * ProgressOverview.studyHours m + 60.
Proof.
  unfold ProgressOverview.studyHours.
  pose proof (Z.div_mod (m + 30) 60 ltac:(lia)). pose proof (Z.mod_pos_bound (m + 30) 60 ltac:(lia)). lia.
Qed.

Lemma lowerAscii_idem c : lowerAscii (lowerAscii c) = lowerAscii c.
Proof. destruct c as [[] [] [] [] [] [] [] []]; reflexivity. Qed.

Lemma toLowerCase_idem s : toLowerCase (toLowerCase s) = toLowerCase s.
Proof. induction s as [|c s IH]; [done|]. cbn. by rewrite lowerAscii_idem, IH. Qed.

(** The task list's search ignores case: a query and its lower-case
    form select the same tasks, under every filter. *)
Theorem search_ignores_case q flt tasks :
  TasksPage.filteredTasks (toLowerCase q) flt tasks = TasksPage.filteredTasks q flt tasks.
Proof.
  unfold TasksPage.filteredTasks, TasksPage.matchesSearch. by rewrite toLowerCase_idem.
Qed.

Lemma filter_status_count (P : Task -> bool) tasks :
  length (filter (fun t => P t && TasksPage.matchesFilter TasksPage.FAll t) tasks) =
  (length (filter (fun t => P t && TasksPage.matchesFilter (TasksPage.FStatus Todo) t) tasks) +
   length (filter (fun t => P t && TasksPage.matchesFilter (TasksPage.FStatus InProgress) t) tasks) +
   length (filter (fun t => P t && TasksPage.matchesFilter (TasksPage.FStatus Done) t) tasks))%nat.
Proof.
  induction tasks as [|t ts IH]; [done|]. rewrite !filter_cons. cbv beta iota delta [TasksPage.matchesFilter].
  destruct (P t), (status t); cbn [andb]; repeat case_decide; cbn in *; try contradiction; try congruence; lia.
Qed.

(** For any search, the three status filters split the "All" list: the
    task counts of To Do, In Progress and Done add up to the count shown
    under All. *)
Theorem status_filters_partition q tasks :
  length (TasksPage.filteredTasks q TasksPage.FAll tasks) =
  (length (TasksPage.filteredTasks q (TasksPage.FStatus Todo) tasks) +
   length (TasksPage.filteredTasks q (TasksPage.FStatus InProgress) tasks) +
   length (TasksPage.filteredTasks q (TasksPage.FStatus Done) tasks))%nat.
Proof. apply filter_status_count. Qed.

(** Whatever the load time, the mock friends show two highlights and two
    "Offline" (an hour is not over for Mike, who has a highlight). *)
Lemma mock_friend_statuses now :
  map (StreaksPage.friendStatus now) (StreaksPage.mockFriends now) =
    ["Completed 4h study session!"; "Aced the calculus quiz"; "Offline"; "Offline"].
Proof.
  unfold StreaksPage.mockFriends, StreaksPage.friendStatus, StreaksPage.activity.
  cbn [map StreaksPage.f_todayHighlight StreaksPage.f_lastActive].
  rewrite (proj2 (Z.ltb_ge (now - (now - 1000 * 60 * 60 * 2)) (1000 * 60 * 60))) by lia.
  rewrite (proj2 (Z.ltb_ge (now - (now - 1000 * 60 * 60 * 24)) (1000 * 60 * 60))) by lia.
  reflexivity.
Qed.

(** C32: A focus task without subtasks cannot be changed from the dashboard
    card, whatever the visitor does: the add-subtask input is only
    rendered inside the block shown when the task has subtasks, so the
    card never calls [onUpdateTask] for it. *)
Theorem current_card_no_first_subtask signedIn hasUpdate task c es :
  subtasks task = [] -> snd (CurrentTaskCard.run signedIn hasUpdate (Some task) c es) = [].
Proof.
  intros Hs. revert c. induction es as [|e es IH]; intros c; [done|]. cbn [CurrentTaskCard.run].
  assert (Hstep : snd (CurrentTaskCard.step signedIn hasUpdate (Some task) c e) = []).
  { unfold CurrentTaskCard.step, CurrentTaskCard.addInputShown. rewrite Hs.
    by destruct e. }
  destruct (CurrentTaskCard.step _ _ _ c e) as [c1 fx1]. cbn in Hstep. subst fx1.
  specialize (IH c1). destruct (CurrentTaskCard.run _ _ _ c1 es). cbn in IH |- *. by rewrite IH.
Qed.

Lemma current_card_no_first_subtask_witness :
  subtasks CurrentTaskCard.bareTask = [] /\
  snd (CurrentTaskCard.run true true (Some CurrentTaskCard.bareTask) (CurrentTaskCard.mkCardState false "")
         [CurrentTaskCard.TypeSubtask "Read ch. 1"; CurrentTaskCard.EnterSubtask "s1" 5]) = [].
Proof.
  assert (H : subtasks CurrentTaskCard.bareTask = []) by reflexivity.
  split; [exact H|]. exact (current_card_no_first_subtask true true CurrentTaskCard.bareTask _ _ H).
Defined.
