(* ===== verification/KanbanView.v ===== *)
(** * KanbanView: the task overview page, [pages/KanbanPage.tsx] with [components/kanban]

    The page shows the overall progress and either the Kanban board
    ([KanbanBoard.tsx]: three columns by status, [KanbanColumn.tsx],
    [KanbanCard.tsx]) or the Eisenhower matrix (four quadrants of task
    cards).  Dragging a card onto a column calls the task store's
    [updateTask] with the new status ([Tasks.handleDrop]).

    One drag and drop is one event: the card's [dragstart] puts its id in
    the drag's [dataTransfer] and the column's [drop] reads it back; a drop
    of anything else (a file, text from another page) finds no [taskId]
    and reads [""].  The page runs over the task provider's world
    ([TaskStore.TaskWorld]), each update to completion. *)

From stdpp Require Import strings gmap.
From Stdlib Require Import QArith.
From S2P Require Import Prelude Tasks FocusTask TaskStore TaskCard Dashboard.
Import Tasks FocusTask TaskStore TaskCard.

Module KanbanCard.

Record KanbanCardView := mkKanbanCardView {
  kc_title : string;                  (** line 23 *)
  kc_counter : option (nat * nat);    (** lines 25-29 *)
  kc_progress : Q;                    (** lines 12-15 and 36 *)
  kc_complete : bool;                 (** line 34 *)
  kc_deadline : option Z;             (** lines 43-48 *)
  kc_hours : option Z                 (** lines 49-54 *)
}.

(** Lines 11-58: [progress] is the task card's [cardProgress]; the
    estimate shows when truthy, rounded to hours. *)
Definition view (task : Task) : KanbanCardView :=
  let n := length (subtasks task) in
  mkKanbanCardView (title task)
    (if bool_decide (0 < n)%nat then Some (completedCount (subtasks task), n) else None)
    (cardProgress task) (Qeq_bool (cardProgress task) 100)
    (deadline task)
    (match estimatedTime task with Some m => if m =? 0 then None else Some (hoursOf m) | None => None end).

End KanbanCard.

Module KanbanBoard.

(** Lines 10-14. *)
Definition columns : list (Status * string) :=
  [(Todo, "To Do"); (InProgress, "In Progress"); (Done, "Done")].

Record ColumnView := mkColumnView {
  col_title : string; col_count : nat; col_cards : list KanbanCard.KanbanCardView;
  col_placeholder : bool   (** "Drop tasks here", KanbanColumn lines 53-57 *)
}.

(** KanbanColumn lines 14-60, with the tasks of line 35. *)
Definition columnView (tasks : list Task) (c : Status * string) : ColumnView :=
  let ts := column tasks c.1 in
  mkColumnView c.2 (length ts) (KanbanCard.view <$> ts) (bool_decide (length ts = 0)%nat).

Definition boardView (tasks : list Task) : list ColumnView := columnView tasks <$> columns.

Inductive BoardEvent :=
  | DragCardTo (taskId : string) (s : Status)   (** a card's [dragstart], then a column's [drop] *)
  | ForeignDrop (s : Status).                   (** a drop not started on a card *)

(** Lines 16-26: what the drop passes to [onUpdateTask], the task
    provider's [updateTask]. *)
Definition boardStep (w : TaskWorld) (e : BoardEvent) : TaskWorld :=
  let '(tid, s) := match e with DragCardTo tid s => (tid, s) | ForeignDrop s => (""%string, s) end in
  match handleDrop (tasks w) tid s with
  | Some t' => exec (updateTask t') w
  | None => w
  end.

End KanbanBoard.

Module KanbanPage.

Inductive ViewMode := Board | Matrix.

(** Lines 16-18. *)
Definition completedTasks (tasks : list Task) : nat := length (column tasks Done).

Definition progress (tasks : list Task) : Q :=
  if bool_decide (0 < length tasks)%nat
  then (inject_Z (Z.of_nat (completedTasks tasks)) / inject_Z (Z.of_nat (length tasks))) * inject_Z 100
  else 0.

(** Lines 106-111: the quadrants in [Object.keys] order. *)
Definition quadrants : list (Quadrant * string * string) :=
  [(DoFirst, "Do First", "Urgent & Important"); (Schedule, "Schedule", "Not Urgent & Important");
   (Delegate, "Delegate", "Urgent & Not Important"); (Delete, "Don't Do", "Not Urgent & Not Important")].

Record QuadrantView := mkQuadrantView {
  q_title : string; q_count : nat; q_cards : list CardView; q_empty : bool
}.

(** Lines 113-148: each task card is a fresh [TaskCard] with the
    provider's suggestions for the task. *)
Definition quadrantView (now : Z) (tasks : list Task) (sugg : gmap string (list AiSuggestion))
    (q : Quadrant * string * string) : QuadrantView :=
  let ts := quadrantTasks now tasks q.1.1 in
  mkQuadrantView q.1.2 (length ts) ((fun t => TaskCard.view t (default [] (sugg !! id t)) initCard) <$> ts)
    (bool_decide (length ts = 0)%nat).

Inductive Content := BoardContent (cols : list KanbanBoard.ColumnView) | MatrixContent (qs : list QuadrantView).

Record PageView := mkPageView {
  pv_counts : nat * nat;     (** line 59 *)
  pv_progress : Q;           (** line 62 *)
  pv_content : Content       (** lines 66-79 *)
}.

(** Lines 12-83. *)
Definition view (now : Z) (mode : ViewMode) (w : TaskWorld) : PageView :=
  mkPageView (completedTasks (tasks w), length (tasks w)) (progress (tasks w))
    (match mode with
     | Board => BoardContent (KanbanBoard.boardView (tasks w))
     | Matrix => MatrixContent (quadrantView now (tasks w) (taskSuggestions w) <$> quadrants)
     end).

Inductive PageEvent := SetViewMode (m : ViewMode) | BoardInput (e : KanbanBoard.BoardEvent).

(** Lines 31-48 and the board's inputs (shown only in board mode). *)
Definition step (st : ViewMode * TaskWorld) (e : PageEvent) : ViewMode * TaskWorld :=
  match e, st.1 with
  | SetViewMode m, _ => (m, st.2)
  | BoardInput b, Board => (Board, KanbanBoard.boardStep st.2 b)
  | BoardInput _, Matrix => st
  end.

End KanbanPage.

Import KanbanCard KanbanBoard KanbanPage.

(** ** Theorems *)

(** C: dragging a card that is not in progress onto the "In Progress"
    column makes it the dashboard's focus task when every task was last
    edited before now: the drop goes through [updateTask], which stamps
    the task with the current time, whatever the database answers. *)
Theorem drag_to_in_progress_focus w tid t :
  findTask (tasks w) tid = Some t -> status t <> InProgress ->
  Forall (fun v => editTime v < tnow w) (tasks w) ->
  getNextFocusTask (tasks (boardStep w (DragCardTo tid InProgress)))
    = Some (with_lastEditedAt (tnow w) (with_status InProgress t)).
Proof.
  intros Hf Hs Hold. unfold boardStep, handleDrop. rewrite Hf, bool_decide_eq_true_2 by done.
  destruct (findTask_Some _ _ _ Hf) as [Hin _].
  by apply (update_in_progress_focus w _ t).
Qed.

Definition kanbanDemoWorld : TaskWorld :=
  mkTaskWorld [with_status Todo demoTask0] ∅ false None [] (mkTaskDb [] []) [] (demoLoadTime + 3600000) None.

Lemma drag_to_in_progress_focus_witness :
  (findTask (tasks kanbanDemoWorld) "1" = Some (with_status Todo demoTask0) /\
   status (with_status Todo demoTask0) <> InProgress /\
   Forall (fun v => editTime v < tnow kanbanDemoWorld) (tasks kanbanDemoWorld)) /\
  getNextFocusTask (tasks (boardStep kanbanDemoWorld (DragCardTo "1" InProgress)))
    = Some (with_lastEditedAt (tnow kanbanDemoWorld) (with_status InProgress (with_status Todo demoTask0))).
Proof.
  assert (H1 : findTask (tasks kanbanDemoWorld) "1" = Some (with_status Todo demoTask0)) by reflexivity.
  assert (H2 : status (with_status Todo demoTask0) <> InProgress) by discriminate.
  assert (H3 : Forall (fun v => editTime v < tnow kanbanDemoWorld) (tasks kanbanDemoWorld))
    by (repeat constructor; vm_compute; reflexivity).
  split; [split_and!; assumption|].
  exact (drag_to_in_progress_focus kanbanDemoWorld "1" _ H1 H2 H3).
Defined.

(** Dropping a card on its own column, or dropping anything that did not
    start on a card, changes nothing. *)
Lemma drop_same_column w tid t s :
  findTask (tasks w) tid = Some t -> status t = s -> boardStep w (DragCardTo tid s) = w.
Proof.
  intros Hf Hs. unfold boardStep, handleDrop. rewrite Hf, bool_decide_eq_false_2; [done|]. tauto.
Qed.

Lemma foreign_drop_noop w s :
  Forall (fun t => id t <> "") (tasks w) -> boardStep w (ForeignDrop s) = w.
Proof.
  intros Hids. unfold boardStep, handleDrop.
  destruct (findTask (tasks w) "") as [t|] eqn:Ef; [|done].
  destruct (findTask_Some _ _ _ Ef) as [Hin Hid]. rewrite Forall_forall in Hids.
  exfalso. apply (Hids t); [by apply list_elem_of_In|done].
Qed.

Lemma column_lengths tasks :
  (length (column tasks Todo) + length (column tasks InProgress) + length (column tasks Done))%nat = length tasks.
Proof.
  induction tasks as [|t ts IH]; [done|]. unfold column in *. rewrite !filter_cons.
  destruct (status t); repeat first [rewrite decide_True by done | rewrite decide_False by done]; cbn; lia.
Qed.

(** Every task is on exactly one column of the board: the columns'
    counts add up to the number of tasks. *)
Lemma board_counts tasks : foldl Nat.add 0%nat (col_count <$> boardView tasks) = length tasks.
Proof. cbn. rewrite <- (column_lengths tasks). lia. Qed.

Lemma completedTasks_count tasks :
  KanbanPage.completedTasks tasks = ProgressOverview.completedTasks tasks.
Proof.
  induction tasks as [|t ts IH]; [done|]. unfold KanbanPage.completedTasks, ProgressOverview.completedTasks, column in *.
  rewrite filter_cons, count_where_cons. case_decide; case_bool_decide; try contradiction; cbn; lia.
Qed.

(** The task overview's progress bar and the dashboard's "Overall
    Progress" show the same percentage. *)
Lemma progress_agrees tasks : KanbanPage.progress tasks = ProgressOverview.overallProgress tasks.
Proof. unfold KanbanPage.progress, ProgressOverview.overallProgress. by rewrite completedTasks_count. Qed.
