(* ===== verification/FocusTimerView.v ===== *)
(** * FocusTimerView: the timer card of [components/timer/FocusTimer.tsx]

    The card shows [timeLeft] of the timer provider as [MM:SS]
    ([formatTime]) and has a dialog with two sliders whose values
    [handleSaveSettings] passes to [Settings.updateTimerSettings]; an effect
    copies the provider's settings back into the dialog.  [view] is the
    rendered card for the timer provider's state ([Timer.TimerState]), its
    progress and the ledger's weekly [sessions].  Numbers print
    with [Number.prototype.toString] on integers, [DecimalString]'s
    conversion here; [Math.floor(s / 60)] is [Z.div] and JavaScript's [%]
    is [Z.rem]. *)

From stdpp Require Import strings.
From Stdlib Require Import Ascii DecimalString DecimalZ.
From Stdlib Require Import QArith.
From S2P Require Import Prelude Settings Timer.
Import Settings Timer.

Module FocusTimerView.

(** [n.toString()] of an integer. *)
Definition numToString (z : Z) : string := NilZero.string_of_int (Z.to_int z).

Fixpoint zeros (n : nat) : string :=
  match n with
  | O => EmptyString
  | S n => String "0" (zeros n)
  end.

(** [s.padStart(2, '0')] *)
Definition padStart2 (s : string) : string :=
  if bool_decide (String.length s < 2)%nat then (zeros (2 - String.length s) ++ s)%string else s.

(** Lines 55-59. *)
Definition formatTime (seconds : Z) : string :=
  let mins := seconds / 60 in
  let secs := Z.rem seconds 60 in
  (padStart2 (numToString mins) ++ ":" ++ padStart2 (numToString secs))%string.

(** The settings dialog: lines 36-38. *)
Record Dialog := mkDialog { settingsOpen : bool; tempFocus : Z; tempBreak : Z }.

(** Lines 37-38 and the effect of lines 41-44:
    [timerSettings.focus_duration || initialFocusDuration]. *)
Definition syncTemps (initialFocusDuration initialBreakDuration : Z) (t : TimerSettings)
    (d : Dialog) : Dialog :=
  mkDialog (settingsOpen d) (focus_duration t ||ₙ initialFocusDuration)
    (short_break t ||ₙ initialBreakDuration).

(** The values a slider [min..max] with [step] reports (lines 174-195). *)
Definition sliderValues (lo hi step : Z) : list Z :=
  map (fun k => lo + Z.of_nat k * step) (seq 0 (Z.to_nat ((hi - lo) / step) + 1)).

Definition focusSlider : list Z := sliderValues 5 60 5.
Definition breakSlider : list Z := sliderValues 1 30 1.

(** Lines 46-53: save the two durations, then close the dialog; the
    effect then copies the provider's settings back. *)
Definition handleSaveSettings (upsert_ok : bool) (initialFocusDuration initialBreakDuration : Z)
    (d : Dialog) (w : SettingsWorld) : Dialog * SettingsWorld :=
  let w' := updateTimerSettings upsert_ok (focusTimerPatch (tempFocus d) (tempBreak d)) w in
  (syncTemps initialFocusDuration initialBreakDuration (timerSettings w')
     (mkDialog false (tempFocus d) (tempBreak d)), w').

(** Reading a displayed time back: digits, a colon, digits. *)
Fixpoint splitColon (s : string) : string * option string :=
  match s with
  | EmptyString => (EmptyString, None)
  | String c rest =>
      if bool_decide (c = ":"%char) then (EmptyString, Some rest)
      else let '(a, b) := splitColon rest in (String c a, b)
  end.

Definition readNat (s : string) : option Z := Z.of_uint <$> NilZero.uint_of_string s.

Definition parseTime (t : string) : option Z :=
  match splitColon t with
  | (a, Some b) => m ← readNat a; s ← readNat b; Some (60 * m + s)
  | _ => None
  end.

(** A non-empty numeral, as [toString] and [padStart] leave it. *)
Definition numeral (s : string) (z : Z) : Prop :=
  exists d, d <> Decimal.Nil /\ s = NilEmpty.string_of_uint d /\ Z.of_uint d = z.

(** A signed-in provider with the default settings. *)
Definition demoSettingsWorld : SettingsWorld := mkSettingsWorld defaultTimerSettings true false None None 0.

(** Line 67: [sessions.reduce((acc, curr) => acc + curr, 0)] over the
    ledger's seven weekday slots. *)
Definition totalSessions (sessions : list Z) : Z := foldl Z.add 0 sessions.

Record TimerCardView := mkTimerCardView {
  tv_focusTab : bool;          (** which tab is highlighted, lines 72-94 *)
  tv_display : string;         (** line 124 *)
  tv_caption : string;         (** line 127 *)
  tv_ringOffset : Q;           (** line 117, as a fraction of the circumference *)
  tv_pauseIcon : bool;         (** line 147 *)
  tv_dialog : option (Z * Z);  (** lines 154-203, the two slider values *)
  tv_sessionsToday : Z         (** line 211 *)
}.

(** Lines 68-216: the card for the provider's state, its [progress] and
    the ledger's [sessions]. *)
Definition view (s : TimerState) (progress : Q) (sessions : list Z) (d : Dialog) : TimerCardView :=
  mkTimerCardView (bool_decide (mode s = Focus)) (formatTime (timeLeft s))
    (if bool_decide (mode s = Focus) then "Stay focused" else "Take a break")
    (1 - progress / 100) (isActive s)
    (if settingsOpen d then Some (tempFocus d, tempBreak d) else None)
    (totalSessions sessions).

End FocusTimerView.

Import FocusTimerView.

(** ** Theorems *)

(** Printed digits contain no colon. *)
Lemma splitColon_digits d r :
  splitColon (NilEmpty.string_of_uint d ++ ":" ++ r)%string = (NilEmpty.string_of_uint d, Some r).
Proof. induction d; simpl; rewrite ?IHd; reflexivity. Qed.

Lemma zeros_digits n d :
  (zeros n ++ NilEmpty.string_of_uint d)%string = NilEmpty.string_of_uint (Nat.iter n Decimal.D0 d).
Proof. induction n as [|n IH]; [done|]. exact (f_equal (String "0") IH). Qed.

Lemma of_uint_leading_zeros n d : Z.of_uint (Nat.iter n Decimal.D0 d) = Z.of_uint d.
Proof. induction n as [|n IH]; [done|]. exact IH. Qed.

Lemma numeral_numToString z : 0 <= z -> numeral (numToString z) z.
Proof.
  intros Hz. unfold numToString. pose proof (DecimalZ.of_to z) as Hof.
  destruct (Z.to_int z) as [u|u] eqn:E; [|destruct z; cbn in E; [discriminate E|discriminate E|lia]].
  exists (match u with Decimal.Nil => Decimal.D0 Decimal.Nil | _ => u end).
  split; [|split]; destruct u; cbn in Hof |- *; (discriminate || exact Hof || reflexivity).
Qed.

Lemma numeral_padStart2 s z : numeral s z -> numeral (padStart2 s) z.
Proof.
  intros (d & Hd & -> & <-). unfold padStart2. case_bool_decide; [|by exists d].
  rewrite zeros_digits. exists (Nat.iter (2 - String.length (NilEmpty.string_of_uint d)) Decimal.D0 d).
  split; [|by rewrite of_uint_leading_zeros].
  destruct (2 - _)%nat; [done|]. cbn. discriminate.
Qed.

Lemma readNat_numeral s z : numeral s z -> readNat s = Some z.
Proof.
  intros (d & Hd & -> & <-). unfold readNat.
  assert (E : NilZero.uint_of_string (NilEmpty.string_of_uint d)
              = NilEmpty.uint_of_string (NilEmpty.string_of_uint d)) by (destruct d; done).
  by rewrite E, NilEmpty.usu.
Qed.

(** [formatTime] prints a non-negative number of seconds so that it
    reads back: the minutes and the two-digit seconds before and after the
    colon give the same number of seconds. *)
Theorem formatTime_roundtrip seconds : 0 <= seconds -> parseTime (formatTime seconds) = Some seconds.
Proof.
  intros Hs. unfold formatTime, parseTime.
  destruct (numeral_padStart2 _ _ (numeral_numToString (seconds / 60) ltac:(apply Z.div_pos; lia)))
    as (dm & Hdm & Em & Vm).
  pose proof (numeral_padStart2 _ _ (numeral_numToString (Z.rem seconds 60)
                ltac:(apply Z.rem_nonneg; lia))) as Hsec.
  rewrite Em, splitColon_digits. cbv beta iota zeta.
  rewrite (readNat_numeral (NilEmpty.string_of_uint dm) (seconds / 60)) by (exists dm; auto).
  rewrite (readNat_numeral _ _ Hsec). cbn. f_equal.
  rewrite Z.rem_mod_nonneg by lia. pose proof (Z.div_mod seconds 60). lia.
Qed.

Lemma formatTime_roundtrip_witness :
  0 <= 1499 /\ parseTime (formatTime 1499) = Some 1499 /\ formatTime 1499 = "24:59"%string.
Proof.
  assert (H : 0 <= 1499) by lia.
  split; [exact H|]. split; [exact (formatTime_roundtrip 1499 H)|]. vm_compute. reflexivity.
Defined.

Lemma sliderValues_bounds lo hi step x :
  0 < step -> lo <= hi -> x ∈ sliderValues lo hi step -> lo <= x <= hi.
Proof.
  intros Hst Hle Hx. apply list_elem_of_In, in_map_iff in Hx as (k & <- & Hk).
  apply in_seq in Hk. pose proof (Z.mul_div_le (hi - lo) step Hst).
  pose proof (Z.div_pos (hi - lo) step ltac:(lia) Hst). nia.
Qed.

(** Saving the timer card's dialog with any values of its sliders sets
    the provider's focus and short-break durations to them (so within
    5-60 and 1-30 minutes, never the zero or negative values the settings
    page accepts), keeps the other settings whatever the upsert does, and
    leaves the dialog closed and showing the saved values. *)
Theorem save_dialog_sets_durations ok iF iB d w :
  tempFocus d ∈ focusSlider -> tempBreak d ∈ breakSlider ->
  timerSettings (snd (handleSaveSettings ok iF iB d w))
    = mkTimerSettings (tempFocus d) (tempBreak d) (long_break (timerSettings w))
        (sessions_before_long_break (timerSettings w)) (auto_start_breaks (timerSettings w))
        (auto_start_pomodoros (timerSettings w)) /\
  (5 <= tempFocus d <= 60 /\ 1 <= tempBreak d <= 30) /\
  fst (handleSaveSettings ok iF iB d w) = mkDialog false (tempFocus d) (tempBreak d).
Proof.
  intros Hf Hb.
  pose proof (sliderValues_bounds 5 60 5 _ ltac:(lia) ltac:(lia) Hf).
  pose proof (sliderValues_bounds 1 30 1 _ ltac:(lia) ltac:(lia) Hb).
  unfold handleSaveSettings, syncTemps. cbn. rewrite updateTimerSettings_settings. cbn.
  rewrite !js_or_nonzero by lia. auto.
Qed.

Lemma save_dialog_sets_durations_witness :
  (30 ∈ focusSlider /\ 10 ∈ breakSlider) /\
  timerSettings (snd (handleSaveSettings false 25 5 (mkDialog true 30 10) demoSettingsWorld))
    = mkTimerSettings 30 10 15 4 false false.
Proof.
  assert (Hf : 30 ∈ focusSlider) by (apply (bool_decide_unpack _); vm_compute; exact I).
  assert (Hb : 10 ∈ breakSlider) by (apply (bool_decide_unpack _); vm_compute; exact I).
  split; [done|].
  exact (proj1 (save_dialog_sets_durations false 25 5 (mkDialog true 30 10) demoSettingsWorld Hf Hb)).
Defined.

(** "Sessions today" adds up the whole week: the ledger's array holds one
    slot per weekday, and a session on Monday and two on Sunday show as
    three on any day. *)
Lemma sessions_today_sums_week s p d :
  tv_sessionsToday (view s p [1; 0; 0; 0; 0; 0; 2] d) = 3.
Proof. reflexivity. Qed.
