(* ===== verification/Pages.v ===== *)
(** * Pages: the dashboard, task list, streaks and timer pages

    The pages of [pages/] render the providers' state through the
    components modelled elsewhere: [Dashboard.tsx] composes the weekly
    streak ([components/dashboard/WeeklyStreak.tsx]), the current-task
    card, the progress overview ([ProgressOverview.tsx]), the timer card
    and the in-progress task cards; [TasksPage.tsx] filters the task cards
    by a search text and a status; [StreaksPage.tsx] lists mock friends;
    [TimerPage.tsx] shows the timer card and three tips.  A view is a
    record of what the page shows; numbers print with [Math.round] where
    the page rounds ([jsRound], floor of [x + 1/2]). *)

From stdpp Require Import strings gmap.
From Stdlib Require Import Ascii QArith Qround.
From S2P Require Import Prelude Settings Timer Tasks FocusTask TaskStore TaskCard Dashboard FocusTimerView.
Import Settings Timer Tasks FocusTask TaskStore TaskCard.

(** [Math.round] on a rational. *)
Definition jsRound (q : Q) : Z := Qfloor (q + (1 # 2)).

Module WeeklyStreakView.

Import WeeklyStreak.

(** Line 6. *)
Definition days : list string := ["Mon"; "Tue"; "Wed"; "Thu"; "Fri"; "Sat"; "Sun"].

Record DayView := mkDayView { dv_day : string; dv_panda : string * string; dv_count : option Z }.

(** Lines 41-60: [focusSessions[index]] is [undefined] past the array's
    end, [Math.min(undefined, 7)] is [NaN] and no comparison holds. *)
Definition dayView (focusSessions : list Z) (i : nat) (day : string) : DayView :=
  match nth_error focusSessions i with
  | Some s => mkDayView day (getPandaImage s) (Some s)
  | None => mkDayView day ("/panda-7.png", "Unstoppable!") None
  end.

Record StreakView := mkStreakView { sv_daysActive : nat; sv_totalSessions : Z; sv_days : list DayView }.

(** Lines 5-65. *)
Definition view (focusSessions : list Z) : StreakView :=
  mkStreakView (currentStreak focusSessions) (totalSessions focusSessions)
    (imap (dayView focusSessions) days).

End WeeklyStreakView.

Module ProgressView.

Import ProgressOverview.

Record ProgressCard := mkProgressCard {
  pc_percent : Z;            (** line 50 *)
  pc_barWidth : Q;           (** line 55 *)
  pc_stats : list (string * Z) (** lines 15-40: label and value ([h] after the hours) *)
}.

(** Lines 9-74. *)
Definition view (tasks : list Task) (totalStudyMinutes : Z) : ProgressCard :=
  mkProgressCard (jsRound (overallProgress tasks)) (overallProgress tasks)
    [("Total Tasks", Z.of_nat (totalTasks tasks)); ("Completed", Z.of_nat (completedTasks tasks));
     ("In Progress", Z.of_nat (inProgressTasks tasks)); ("Study Time", studyHours totalStudyMinutes)].

End ProgressView.

Module DashboardView.

Record View := mkView {
  d_userName : string;                            (** line 50 *)
  d_streak : WeeklyStreakView.StreakView;         (** line 58 *)
  d_current : CurrentTaskCard.CurrentView;        (** line 66 *)
  d_progress : ProgressView.ProgressCard;         (** line 69 *)
  d_timer : FocusTimerView.TimerCardView;         (** line 72 *)
  d_recent : option (list CardView)               (** lines 88-109: [None] is "All Done !" *)
}.

(** [Dashboard.tsx] lines 16-115 over the providers' state: the task
    provider's world, the ledger's weekly array and total, the profile's
    name, the user's e-mail, the timer provider's state and progress, and
    the local state of the current-task card, the timer card's dialog and
    each task card. *)
Definition view (w : TaskWorld) (sessions : list Z) (totalMinutes : Z) (fullName : string)
    (email : option string) (ts : TimerState) (timerProgress : Q) (dialog : FocusTimerView.Dialog)
    (current : CurrentTaskCard.CardState) (cards : string -> CardState) : View :=
  let recent := DashboardPage.recentTasks (tasks w) in
  mkView (DashboardPage.userName fullName email) (WeeklyStreakView.view sessions)
    (CurrentTaskCard.view true (DashboardPage.currentTask (tasks w)) current)
    (ProgressView.view (tasks w) totalMinutes)
    (FocusTimerView.view ts timerProgress sessions dialog)
    (if bool_decide (0 < length recent)%nat
     then Some ((fun t => TaskCard.view t (default [] (taskSuggestions w !! id t)) (cards (id t))) <$> recent)
     else None).

End DashboardView.

Module TasksPageView.

Import TasksPage.

Record PageState := mkPageState { searchQuery : string; filter : Filter }.

Inductive PageEvent := TypeSearch (s : string) | ClickFilter (f : Filter).

(** Lines 38-50. *)
Definition step (st : PageState) (e : PageEvent) : PageState :=
  match e with
  | TypeSearch s => mkPageState s (filter st)
  | ClickFilter f => mkPageState (searchQuery st) f
  end.

(** Line 45: the buttons in order. *)
Definition filters : list Filter := [FAll; FStatus Todo; FStatus InProgress; FStatus Done].

(** Line 52: ['all' -> 'All'], ['in-progress' -> 'In Progress'], else the
    value with its first letter upper-cased. *)
Definition filterLabel (f : Filter) : string :=
  match f with
  | FAll => "All"
  | FStatus InProgress => "In Progress"
  | FStatus Todo => "Todo"
  | FStatus Done => "Done"
  end.

Record View := mkView {
  t_buttons : list (string * bool);      (** lines 45-54: label, selected *)
  t_cards : option (list CardView)       (** lines 59-79: [None] is "No tasks found" *)
}.

Definition filterEq (a b : Filter) : bool :=
  match a, b with
  | FAll, FAll => true
  | FStatus s, FStatus s' => bool_decide (s = s')
  | _, _ => false
  end.

(** Lines 10-83. *)
Definition view (w : TaskWorld) (cards : string -> CardState) (st : PageState) : View :=
  let shown := filteredTasks (searchQuery st) (filter st) (tasks w) in
  mkView ((fun f => (filterLabel f, filterEq (filter st) f)) <$> filters)
    (if bool_decide (length shown = 0)%nat then None
     else Some ((fun t => TaskCard.view t (default [] (taskSuggestions w !! id t)) (cards (id t))) <$> shown)).

End TasksPageView.

Module StreaksPageView.

Import StreaksPage.

Record FriendRow := mkFriendRow {
  fr_avatar : string; fr_name : string; fr_status : string; fr_streak : Z; fr_flameLit : bool
}.

(** Lines 50-92. *)
Definition row (now : Z) (f : Friend) : FriendRow :=
  mkFriendRow (f_avatar f) (f_name f) (friendStatus now f) (f_streak f) (0 <? f_streak f).

Record View := mkView { s_rows : list FriendRow; s_empty : option string }.

(** A double quote character. *)
Definition dq : string := String "034"%char EmptyString.

(** Lines 16-104: the friends list never changes ([setFriends] is never
    called) and the camera button only logs. *)
Definition view (loadTime now : Z) (searchQuery : string) : View :=
  let shown := filteredFriends searchQuery (mockFriends loadTime) in
  mkView (row now <$> shown)
    (if bool_decide (length shown = 0)%nat
     then Some ("No friends found matching " ++ dq ++ searchQuery ++ dq)%string else None).

End StreaksPageView.

Module TimerPageView.

(** Lines 26-45. *)
Definition tips : list (string * string) :=
  [("25 min focus", "Work on a single task without distractions");
   ("5 min break", "Rest your mind before the next session");
   ("Track progress", "Build your streak with consistent sessions")].

Record View := mkView { tp_timer : FocusTimerView.TimerCardView; tp_tips : list (string * string) }.

(** Lines 5-49. *)
Definition view (ts : TimerState) (timerProgress : Q) (sessions : list Z) (d : FocusTimerView.Dialog) : View :=
  mkView (FocusTimerView.view ts timerProgress sessions d) tips.

End TimerPageView.

(** ** Theorems *)

Lemma Qfloor_half z : Qfloor (inject_Z z + (1 # 2)) = z.
Proof.
  unfold Qfloor, Qplus, inject_Z. cbn -[Z.mul Z.add].
  rewrite Z.mul_1_l, Z.add_comm, Z.div_add by lia. reflexivity.
Qed.

Lemma jsRound_bounds q lo hi : (inject_Z lo <= q)%Q -> (q <= inject_Z hi)%Q -> lo <= jsRound q <= hi.
Proof.
  intros Hlo Hhi. unfold jsRound. split.
  - rewrite <- (Qfloor_Z lo). apply Qfloor_resp_le. apply Qle_trans with q; [done|].
    rewrite <- (Qplus_0_r q) at 1. apply Qplus_le_r. discriminate.
  - rewrite <- (Qfloor_half hi). apply Qfloor_resp_le. by apply Qplus_le_l.
Qed.

Lemma overallProgress_bounds tasks :
  (0 <= ProgressOverview.overallProgress tasks <= 100)%Q.
Proof.
  unfold ProgressOverview.overallProgress, ProgressOverview.totalTasks. case_bool_decide as Hn; [|split; discriminate].
  pose proof (count_where_le (fun t => bool_decide (status t = Tasks.Done)) tasks) as Hc.
  fold (ProgressOverview.completedTasks tasks) in Hc.
  set (c := ProgressOverview.completedTasks tasks) in *. set (n := length tasks) in *.
  assert (Hq : (0 < inject_Z (Z.of_nat n))%Q) by (change 0%Q with (inject_Z 0); rewrite <- Zlt_Qlt; lia).
  split.
  - apply Qmult_le_0_compat; [|discriminate]. apply Qle_shift_div_l; [done|].
    rewrite Qmult_0_l. change 0%Q with (inject_Z 0). rewrite <- Zle_Qle. lia.
  - apply Qle_trans with (1 * inject_Z 100)%Q; [|compute; discriminate].
    apply Qmult_le_compat_r; [|compute; discriminate].
    apply Qle_shift_div_r; [done|]. rewrite Qmult_1_l, <- Zle_Qle. lia.
Qed.

(** The dashboard's "Overall Progress" is a whole percentage between 0
    and 100. *)
Lemma progress_percent_bounds tasks m : 0 <= ProgressView.pc_percent (ProgressView.view tasks m) <= 100.
Proof.
  destruct (overallProgress_bounds tasks). apply jsRound_bounds; assumption.
Qed.

(** The recent-tasks section shows the cards of exactly the tasks in
    progress, and "All Done !" exactly when none is. *)
Lemma dashboard_recent w sessions m fullName email ts p d current cards :
  let v := DashboardView.view w sessions m fullName email ts p d current cards in
  (DashboardView.d_recent v = None <-> Forall (fun t => status t <> InProgress) (tasks w)) /\
  (forall cs, DashboardView.d_recent v = Some cs -> Forall (fun c => v_status c = "In Progress") cs).
Proof.
  intros v. unfold v, DashboardView.view, DashboardPage.recentTasks. cbn [DashboardView.d_recent].
  split.
  - case_bool_decide as Hn; split; intros H; try done.
    + exfalso. destruct (filter _ (tasks w)) as [|t l] eqn:E; [cbn in Hn; lia|].
      assert (Ht : t ∈ filter (fun t => status t = InProgress) (tasks w)) by (rewrite E; left).
      apply list_elem_of_filter in Ht as [Hs Ht]. rewrite Forall_forall in H.
      by apply (H t); [apply list_elem_of_In|].
    + apply Forall_forall. intros t Ht Hs. apply Hn.
      assert (t ∈ filter (fun t => status t = InProgress) (tasks w))
        by (apply list_elem_of_filter; split; [done|by apply list_elem_of_In]).
      destruct (filter _ (tasks w)); [set_solver|cbn; lia].
  - case_bool_decide; intros cs Hcs; [|done]. injection Hcs as <-.
    apply Forall_forall. intros c Hc. apply list_elem_of_In, list_elem_of_fmap in Hc as (t & -> & Ht).
    apply list_elem_of_filter in Ht as [Hs _]. cbn. by rewrite Hs.
Qed.

(** With the ledger's seven weekday slots every day of the streak card
    shows its count, in order. *)
Lemma streak_days_shown s :
  length s = 7%nat -> (fun d => WeeklyStreakView.dv_count d) <$> WeeklyStreakView.sv_days (WeeklyStreakView.view s) = Some <$> s.
Proof.
  intros Hl. do 7 (destruct s as [|? s]; [done|]). destruct s; [|done]. reflexivity.
Qed.

(** One filter button is selected, whichever was clicked last. *)
Lemma one_filter_selected w cards st :
  length (filter (fun b => b.2 = true) (TasksPageView.t_buttons (TasksPageView.view w cards st))) = 1%nat.
Proof. destruct st as [q [|[]]]; reflexivity. Qed.
