(* ===== verification/Profile.v ===== *)
(** * Profile: the profile settings and the settings page's handlers

    The profile half of [context/SettingsContext.tsx]: [initSettings]
    adopts the stored row or inserts one for a new user
    ([initSettingsPage], which runs [Settings.initSettings] for the timer
    half); [updateProfileSettings] merges a partial profile into the provider's
    state ([{ ...profileSettings, ...settings }]) and upserts the given
    columns of the [profiles] row; a failure only shows "Sync Failed".  The
    handlers of [pages/SettingsPage.tsx] ([handleSave], [handleAvatarSelect],
    [handleAvatarUpload]) call it and the timer half
    ([Settings.updateTimerSettings]).

    Neither update ever rejects (both catch their errors), so the page's
    own [catch] branches that report or revert a failed save are never
    reached.  A request's outcome is the next entry of a fault schedule
    ([true]: the request fails); the storage upload is one such request and
    [getPublicUrl] a parameter of the section, as the storage library
    builds it. *)

From stdpp Require Import strings.
From Stdlib Require Import Ascii DecimalString.
From S2P Require Import Prelude Settings.
Import Settings.

Module Profile.

(** [ProfileSettings] (types/index.ts, lines 82-88). *)
Record ProfileSettings := mkProfileSettings {
  full_name : option string;
  avatar_url : option string;
  avatar_type : option string;
  total_study_minutes : Z;
  streak_days : Z
}.

(** SettingsContext.tsx, lines 16-22. *)
Definition defaultProfileSettings : ProfileSettings := mkProfileSettings None None None 0 0.

(** The keys the page passes to [updateProfileSettings]: [Some v] when the
    key is present (with value [v], possibly [null]). *)
Record ProfilePatch := mkProfilePatch {
  p_full_name : option (option string);
  p_avatar_url : option (option string);
  p_avatar_type : option (option string)
}.

(** [{ ...profileSettings, ...settings }] *)
Definition mergeProfile (s : ProfileSettings) (p : ProfilePatch) : ProfileSettings :=
  mkProfileSettings (default (full_name s) (p_full_name p)) (default (avatar_url s) (p_avatar_url p))
    (default (avatar_type s) (p_avatar_type p)) (total_study_minutes s) (streak_days s).

(** The columns of the [profiles] row these handlers write. *)
Record ProfileRow := mkProfileRow {
  row_full_name : option string;
  row_avatar_url : option string;
  row_avatar_type : option string;
  row_updated_at : option Z
}.

(** [.upsert({ user_id, ...settings, updated_at }, { onConflict: 'user_id' })]:
    the given columns over the existing row, or over an empty one. *)
Definition upsertRow (r : option ProfileRow) (p : ProfilePatch) (now : Z) : ProfileRow :=
  let base := default (mkProfileRow None None None None) r in
  mkProfileRow (default (row_full_name base) (p_full_name p)) (default (row_avatar_url base) (p_avatar_url p))
    (default (row_avatar_type base) (p_avatar_type p)) (Some now).

(** The provider, the page and the stores they write. *)
Record PageWorld := mkPageWorld {
  timerHalf : SettingsWorld;            (** the timer settings of the provider *)
  profileSettings : ProfileSettings;    (** the provider's profile state *)
  localTimerSettings : TimerSettings;   (** the page's copies *)
  localProfile : ProfileSettings;
  saving : bool;
  uploadingAvatar : bool;
  pageToasts : list string;             (** titles of the page's toasts *)
  syncFailedToasts : nat;               (** the provider's "Sync Failed" *)
  profileRow : option ProfileRow;
  storedObjects : list string;          (** paths in the [avatars] bucket *)
  pfaults : list bool;
  pnow : Z;
  puser : option string;
  profileVersion : nat;                 (** how many times each provider state was replaced: *)
  timerVersion : nat                    (** React compares states by identity, not by value *)
}.

Definition pmodify (f : PageWorld -> PageWorld) : St PageWorld unit := st_modify f.

(** One request: [true] when it fails. *)
Definition nextFails : St PageWorld bool := fun w =>
  match pfaults w with
  | b :: fs => (b, mkPageWorld (timerHalf w) (profileSettings w) (localTimerSettings w)
                     (localProfile w) (saving w) (uploadingAvatar w) (pageToasts w)
                     (syncFailedToasts w) (profileRow w) (storedObjects w) fs (pnow w) (puser w) (profileVersion w) (timerVersion w))
  | [] => (false, w)
  end.

Definition set_profileSettings (s : ProfileSettings) (w : PageWorld) : PageWorld :=
  mkPageWorld (timerHalf w) s (localTimerSettings w) (localProfile w) (saving w) (uploadingAvatar w)
    (pageToasts w) (syncFailedToasts w) (profileRow w) (storedObjects w) (pfaults w) (pnow w) (puser w) (S (profileVersion w)) (timerVersion w).
Definition set_localProfile (s : ProfileSettings) (w : PageWorld) : PageWorld :=
  mkPageWorld (timerHalf w) (profileSettings w) (localTimerSettings w) s (saving w) (uploadingAvatar w)
    (pageToasts w) (syncFailedToasts w) (profileRow w) (storedObjects w) (pfaults w) (pnow w) (puser w) (profileVersion w) (timerVersion w).
Definition set_timerHalf (t : SettingsWorld) (w : PageWorld) : PageWorld :=
  mkPageWorld t (profileSettings w) (localTimerSettings w) (localProfile w) (saving w) (uploadingAvatar w)
    (pageToasts w) (syncFailedToasts w) (profileRow w) (storedObjects w) (pfaults w) (pnow w) (puser w) (profileVersion w) (S (timerVersion w)).
Definition set_saving (b : bool) (w : PageWorld) : PageWorld :=
  mkPageWorld (timerHalf w) (profileSettings w) (localTimerSettings w) (localProfile w) b (uploadingAvatar w)
    (pageToasts w) (syncFailedToasts w) (profileRow w) (storedObjects w) (pfaults w) (pnow w) (puser w) (profileVersion w) (timerVersion w).
Definition set_uploading (b : bool) (w : PageWorld) : PageWorld :=
  mkPageWorld (timerHalf w) (profileSettings w) (localTimerSettings w) (localProfile w) (saving w) b
    (pageToasts w) (syncFailedToasts w) (profileRow w) (storedObjects w) (pfaults w) (pnow w) (puser w) (profileVersion w) (timerVersion w).
Definition pageToast (title : string) (w : PageWorld) : PageWorld :=
  mkPageWorld (timerHalf w) (profileSettings w) (localTimerSettings w) (localProfile w) (saving w)
    (uploadingAvatar w) (pageToasts w ++ [title]) (syncFailedToasts w) (profileRow w) (storedObjects w)
    (pfaults w) (pnow w) (puser w) (profileVersion w) (timerVersion w).
Definition syncFailed (w : PageWorld) : PageWorld :=
  mkPageWorld (timerHalf w) (profileSettings w) (localTimerSettings w) (localProfile w) (saving w)
    (uploadingAvatar w) (pageToasts w) (S (syncFailedToasts w)) (profileRow w) (storedObjects w)
    (pfaults w) (pnow w) (puser w) (profileVersion w) (timerVersion w).
Definition set_profileRow (r : option ProfileRow) (w : PageWorld) : PageWorld :=
  mkPageWorld (timerHalf w) (profileSettings w) (localTimerSettings w) (localProfile w) (saving w)
    (uploadingAvatar w) (pageToasts w) (syncFailedToasts w) r (storedObjects w) (pfaults w) (pnow w) (puser w) (profileVersion w) (timerVersion w).
(** [upload(filePath, file, { upsert: true })]: the bucket's paths, an
    upload to a path already there replacing its object. *)
Definition add_object (path : string) (w : PageWorld) : PageWorld :=
  mkPageWorld (timerHalf w) (profileSettings w) (localTimerSettings w) (localProfile w) (saving w)
    (uploadingAvatar w) (pageToasts w) (syncFailedToasts w) (profileRow w)
    (if bool_decide (path ∈ storedObjects w) then storedObjects w else storedObjects w ++ [path])
    (pfaults w) (pnow w) (puser w) (profileVersion w) (timerVersion w).
Definition set_localTimerSettings (t : TimerSettings) (w : PageWorld) : PageWorld :=
  mkPageWorld (timerHalf w) (profileSettings w) t (localProfile w) (saving w) (uploadingAvatar w)
    (pageToasts w) (syncFailedToasts w) (profileRow w) (storedObjects w) (pfaults w) (pnow w) (puser w) (profileVersion w) (timerVersion w).

(** SettingsContext.tsx, lines 174-198. *)
Definition updateProfileSettings (p : ProfilePatch) : St PageWorld unit :=
  w ← st_get;
  pmodify (set_profileSettings (mergeProfile (profileSettings w) p));;
  match puser w with
  | None => mret ()
  | Some _ =>
      failed ← nextFails;
      if (failed : bool) then pmodify syncFailed
      else pmodify (fun w' => set_profileRow (Some (upsertRow (profileRow w') p (pnow w'))) w')
  end.

(** [Settings.updateTimerSettings] inside the page's world: when signed
    in, its upsert is the next request. *)
Definition updateTimerSettingsP (p : TimerSettingsPatch) : St PageWorld unit :=
  w ← st_get;
  if signedIn (timerHalf w) then
    failed ← nextFails;
    pmodify (fun w' => set_timerHalf (updateTimerSettings (negb (failed : bool)) p (timerHalf w')) w')
  else pmodify (fun w' => set_timerHalf (updateTimerSettings true p (timerHalf w')) w').

(** The [profiles] row as [select('*')] returns it. *)
Record StoredProfile := mkStoredProfile {
  sp_full_name : option string;
  sp_avatar_url : option string;
  sp_avatar_type : option string;
  sp_total_study_minutes : option Z;
  sp_streak_days : option Z
}.

(** [s || null] on a nullable string: the empty string counts as none. *)
Definition strOrNull (s : option string) : option string :=
  match s with
  | Some EmptyString | None => None
  | Some x => Some x
  end.

(** SettingsContext.tsx, lines 81-88. *)
Definition profileOfStored (r : StoredProfile) : ProfileSettings :=
  mkProfileSettings (strOrNull (sp_full_name r)) (strOrNull (sp_avatar_url r)) (strOrNull (sp_avatar_type r))
    (default 0 (sp_total_study_minutes r) ||ₙ 0) (default 0 (sp_streak_days r) ||ₙ 0).

(** The object the provider inserts for a missing profile. *)
Record ProfileInsert := mkProfileInsert {
  ins_user_id : string;
  ins_full_name : option string;
  ins_avatar_url : option string;
  ins_avatar_type : option string;
  ins_total_study_minutes : option Z;
  ins_streak_days : option Z
}.

(** [{ ...r, ...s }] for a [ProfileSettings] [s]: each of its keys wins. *)
Definition spreadProfile (r : ProfileInsert) (s : ProfileSettings) : ProfileInsert :=
  mkProfileInsert (ins_user_id r) (full_name s) (avatar_url s) (avatar_type s)
    (Some (total_study_minutes s)) (Some (streak_days s)).

(** [email.split('@')[0]] *)
Fixpoint beforeAt (email : string) : string :=
  match email with
  | EmptyString => EmptyString
  | String c rest => if bool_decide (c = "@"%char) then EmptyString else String c (beforeAt rest)
  end.

(** Lines 91-95: [{ user_id, full_name: user.email?.split('@')[0] || 'User',
    ...defaultProfileSettings }]. *)
Definition initProfileInsert (uid : string) (email : option string) : ProfileInsert :=
  let name := match email with
              | Some e => if bool_decide (beforeAt e = "") then "User" else beforeAt e
              | None => "User"
              end in
  spreadProfile (mkProfileInsert uid (Some name) None None None None) defaultProfileSettings.

(** The outcome of [Promise.race([Promise.all([profiles, timer_settings]), timeout])]. *)
Inductive InitFetch :=
  | InitTimedOut
  | InitFailed
  | InitRows (profileRes : option StoredProfile) (timerRes : option TimerSettings).

Definition timerOutcome (r : InitFetch) : FetchOutcome :=
  match r with
  | InitTimedOut => FetchTimedOut
  | InitFailed => FetchFailed
  | InitRows _ t => FetchRows t
  end.

(** Lines 41-136 with both halves: the profile is adopted, or inserted
    when missing ([insertOk]: the insert succeeds; its error is only
    logged), then the timer half runs as [Settings.initSettings]. *)
Definition initSettingsPage (r : InitFetch) (email : option string) (insertOk : bool)
    (w : PageWorld) : PageWorld :=
  let w1 := match puser w, r with
            | Some _, InitRows (Some p) _ => set_profileSettings (profileOfStored p) w
            | Some uid, InitRows None _ =>
                let i := initProfileInsert uid email in
                if insertOk
                then set_profileRow (Some (mkProfileRow (ins_full_name i) (ins_avatar_url i) (ins_avatar_type i) None)) w
                else w
            | _, _ => w
            end in
  set_timerHalf (initSettings (timerOutcome r) (timerHalf w1)) w1.

(** The whole [TimerSettings] object as a patch. *)
Definition fullPatch (t : TimerSettings) : TimerSettingsPatch :=
  mkPatch (Some (focus_duration t)) (Some (short_break t)) (Some (long_break t))
    (Some (sessions_before_long_break t)) (Some (auto_start_breaks t)) (Some (auto_start_pomodoros t)).

End Profile.

Module SettingsPage.
Import Profile.

Record AvatarPreset := mkAvatarPreset { av_id : string; av_name : string; av_path : string }.

(** Lines 28-37. *)
Definition AVATAR_PRESETS : list AvatarPreset :=
  [mkAvatarPreset "pastel-bear" "Bear" "/pastel-bear.png";
   mkAvatarPreset "pastel-rabbit" "Rabbit" "/pastel-rabbit.png";
   mkAvatarPreset "pastel-panda" "Panda" "/pastel-panda.png";
   mkAvatarPreset "pastel-chick" "Chick" "/pastel-chick.png";
   mkAvatarPreset "pastel-cat" "Cat" "/pastel-cat.png";
   mkAvatarPreset "pastel-dog" "Dog" "/pastel-dog.png";
   mkAvatarPreset "pastel-koala" "Koala" "/pastel-koala.png";
   mkAvatarPreset "pastel-hamster" "Hamster" "/pastel-hamster.png"].

(** Lines 58-86: both updates run under [Promise.all]; they touch
    disjoint state, so running them in order is the same. *)
Definition handleSave : St PageWorld unit :=
  w ← st_get;
  match puser w with
  | None => mret ()
  | Some _ =>
      pmodify (set_saving true);;
      updateTimerSettingsP (fullPatch (localTimerSettings w));;
      updateProfileSettings (mkProfilePatch (Some (full_name (localProfile w)))
                               (Some (avatar_url (localProfile w))) (Some (avatar_type (localProfile w))));;
      pmodify (pageToast "Settings Saved");;
      pmodify (set_saving false)
  end.

Definition avatarPatch (url type : string) : ProfilePatch :=
  mkProfilePatch None (Some (Some url)) (Some (Some type)).

(** Lines 88-109: the revert in the [catch] is not reached, as
    [updateProfileSettings] does not reject. *)
Definition handleAvatarSelect (avatarId : string) : St PageWorld unit :=
  match list_find (fun a => av_id a = avatarId) AVATAR_PRESETS with
  | Some (_, avatar) =>
      pmodify (fun w => set_localProfile (mergeProfile (localProfile w) (avatarPatch (av_path avatar) "panda")) w);;
      updateProfileSettings (avatarPatch (av_path avatar) "panda")
  | None => mret ()
  end.

(** SettingsPage.tsx, lines 50-56: the page's copies follow the
    provider's state whenever it changes. *)
Definition syncLocal (w : PageWorld) : PageWorld :=
  set_localProfile (profileSettings w) (set_localTimerSettings (timerSettings (timerHalf w)) w).

Record File := mkFile { file_type : string; file_size : Z; file_name : string }.

(** [name.split('.').pop()]: the text after the last dot, or the whole
    name. *)
Fixpoint afterLastDot (s acc : string) : string :=
  match s with
  | EmptyString => acc
  | String c rest => if bool_decide (c = "."%char) then afterLastDot rest "" else afterLastDot rest (acc ++ String c "")
  end.

Definition fileExt (name : string) : string := afterLastDot name "".

(** [`${n}`] of a millisecond timestamp. *)
Definition showZ (z : Z) : string := DecimalString.NilZero.string_of_int (Z.to_int z).

(** Lines 136-138: [avatars/${user.id}-${Date.now()}.${fileExt}]. *)
Definition avatarFilePath (uid : string) (now : Z) (name : string) : string :=
  ("avatars/" ++ uid ++ "-" ++ showZ now ++ "." ++ fileExt name)%string.

Section Upload.

(** [supabase.storage.from('avatars').getPublicUrl(path).data.publicUrl] *)
Variable getPublicUrl : string -> string.

(** Lines 111-178. *)
Definition handleAvatarUpload (file : option File) : St PageWorld unit :=
  w ← st_get;
  match file, puser w with
  | Some f, Some uid =>
      if negb (String.prefix "image/" (file_type f)) then pmodify (pageToast "Invalid File")
      else if 2 * 1024 * 1024 <? file_size f then pmodify (pageToast "File Too Large")
      else
        pmodify (set_uploading true);;
        let filePath := avatarFilePath uid (pnow w) (file_name f) in
        failed ← nextFails;
        (if (failed : bool) then pmodify (pageToast "Upload Failed")
         else
           pmodify (add_object filePath);;
           updateProfileSettings (avatarPatch (getPublicUrl filePath) "custom");;
           pmodify (fun w' => set_localProfile
                                (mergeProfile (localProfile w') (avatarPatch (getPublicUrl filePath) "custom")) w');;
           pmodify (pageToast "Avatar Updated"));;
        pmodify (set_uploading false)
  | _, _ => mret ()
  end.

End Upload.

End SettingsPage.

Import Profile SettingsPage.

(** A signed-in page whose two requests follow [fs]. *)
Definition demoPage (fs : list bool) : PageWorld :=
  mkPageWorld (mkSettingsWorld defaultTimerSettings true false None None 0)
    defaultProfileSettings defaultTimerSettings
    (mkProfileSettings (Some "Ada") None None 0 0) false false [] 0
    (Some (mkProfileRow (Some "Ada") (Some "/pastel-bear.png") (Some "panda") (Some 1)))
    [] fs 1700000000000 (Some "u1") 0 0.

Definition demoImage : File := mkFile "image/png" 1000 "me.final.png".

(** ** Theorems *)

Lemma string_app_nil_r (s : string) : (s ++ "")%string = s.
Proof. induction s as [|c s IH]; [done|]. exact (f_equal (String c) IH). Qed.

Lemma string_app_assoc (s t u : string) : (s ++ (t ++ u))%string = ((s ++ t) ++ u)%string.
Proof. induction s as [|c s IH]; [done|]. exact (f_equal (String c) IH). Qed.

(** [.split('.').pop()] reads the accumulator left by a prefix. *)
Lemma afterLastDot_app s t acc : afterLastDot (s ++ t) acc = afterLastDot t (afterLastDot s acc).
Proof. revert acc. induction s as [|c s IH]; intros acc; [done|]. simpl. case_bool_decide; apply IH. Qed.

Lemma afterLastDot_no_dot e acc :
  "."%char ∉ String.list_ascii_of_string e -> afterLastDot e acc = (acc ++ e)%string.
Proof.
  revert acc. induction e as [|c e IH]; intros acc Hd; simpl in *.
  - by rewrite string_app_nil_r.
  - rewrite bool_decide_eq_false_2 by (intros ->; apply Hd; left).
    rewrite IH by (intros Hin; apply Hd; by right). by rewrite <- string_app_assoc.
Qed.

(** The file extension of an upload is the text after the name's last
    dot: a name [s.e] whose [e] has no dot gives [e]. *)
Theorem fileExt_after_last_dot s e :
  "."%char ∉ String.list_ascii_of_string e -> fileExt (s ++ "." ++ e)%string = e.
Proof.
  intros Hd. unfold fileExt. rewrite afterLastDot_app. simpl.
  by rewrite afterLastDot_no_dot.
Qed.

Lemma fileExt_after_last_dot_witness :
  ("."%char ∉ String.list_ascii_of_string "png") /\ fileExt "me.final.png" = "png".
Proof.
  assert (Hd : "."%char ∉ String.list_ascii_of_string "png") by (apply (bool_decide_unpack _); vm_compute; exact I).
  split; [exact Hd|]. exact (fileExt_after_last_dot "me.final" "png" Hd).
Defined.

(** Symbolic run of a page handler: unfold the monad and the requests,
    reduce, and split on the unknown outcomes. *)
Ltac page_unfold :=
  unfold handleSave, handleAvatarSelect, handleAvatarUpload, updateTimerSettingsP,
    updateProfileSettings, nextFails, pmodify, exec, mbind, St_bind, mret, St_ret, st_get,
    st_modify in *.
Ltac page_run :=
  page_unfold; repeat (cbn; match goal with
    | |- context [match ?l with [] => _ | _ :: _ => _ end] =>
        lazymatch l with [] => fail | _ :: _ => fail | _ => destruct l end
    | |- context [if ?b then _ else _] => is_var b; destruct b
    end); cbn.

(** C17: [handleSave] reports success for a save that did not persist.
    When the timer upsert fails, the page still ends with the "Settings
    Saved" toast and [saving] reset, while the provider holds the new
    settings and the [timer_settings] row keeps the old ones: the update
    shows "Sync Failed" and resolves instead of rejecting, so the page's
    error branch is never taken and nothing is rolled back. *)
Theorem save_always_reports_success w u fs :
  puser w = Some u -> signedIn (timerHalf w) = true -> pfaults w = true :: fs ->
  let w' := exec handleSave w in
  pageToasts w' = pageToasts w ++ ["Settings Saved"] /\ saving w' = false /\
  timerSettings (timerHalf w') = mergeTimerSettings (timerSettings (timerHalf w)) (fullPatch (localTimerSettings w)) /\
  remoteTimerSettings (timerHalf w') = remoteTimerSettings (timerHalf w) /\
  errorToasts (timerHalf w') = S (errorToasts (timerHalf w)).
Proof.
  intros Hu Hs Hf w'. unfold w'.
  destruct w as [[ts si ld rt lt0 et] ps lt lp sv up pt sf pr so pf pn pu pv tv];
    cbn in Hu, Hs, Hf; subst pu si pf.
  page_run; auto.
Qed.

(** Both upserts failing: the page reports success beside two "Sync Failed"
    toasts, and neither row changes. *)
Lemma save_always_reports_success_witness :
  (pageToasts (exec handleSave (demoPage [true; true])) = ["Settings Saved"] /\
   saving (exec handleSave (demoPage [true; true])) = false /\
   timerSettings (timerHalf (exec handleSave (demoPage [true; true])))
     = mergeTimerSettings (timerSettings (timerHalf (demoPage [true; true])))
         (fullPatch (localTimerSettings (demoPage [true; true]))) /\
   remoteTimerSettings (timerHalf (exec handleSave (demoPage [true; true])))
     = remoteTimerSettings (timerHalf (demoPage [true; true])) /\
   errorToasts (timerHalf (exec handleSave (demoPage [true; true]))) = 1%nat) /\
  profileRow (exec handleSave (demoPage [true; true])) = profileRow (demoPage [true; true]).
Proof.
  split; [exact (save_always_reports_success (demoPage [true; true]) "u1" [true] eq_refl eq_refl eq_refl)|].
  vm_compute. reflexivity.
Defined.

(** C18: Selecting a preset whose profile upsert fails leaves the new avatar
    on the page and in the provider while the [profiles] row keeps the old
    one: the revert in the page's [catch] is never reached. *)
Theorem avatar_select_failure_not_reverted w u avatarId i a fs :
  puser w = Some u -> pfaults w = true :: fs ->
  list_find (fun p => av_id p = avatarId) AVATAR_PRESETS = Some (i, a) ->
  avatar_url (localProfile (exec (handleAvatarSelect avatarId) w)) = Some (av_path a) /\
  avatar_url (profileSettings (exec (handleAvatarSelect avatarId) w)) = Some (av_path a) /\
  profileRow (exec (handleAvatarSelect avatarId) w) = profileRow w /\
  syncFailedToasts (exec (handleAvatarSelect avatarId) w) = S (syncFailedToasts w).
Proof.
  intros Hu Hf Hfind. unfold handleAvatarSelect. rewrite Hfind.
  destruct w as [th ps lt lp sv up pt sf pr so pf pn pu pv tv]; cbn in Hu, Hf; subst pu pf.
  page_run. auto.
Qed.

Lemma avatar_select_failure_not_reverted_witness :
  avatar_url (localProfile (exec (handleAvatarSelect "pastel-cat") (demoPage [true])))
    = Some "/pastel-cat.png" /\
  avatar_url (profileSettings (exec (handleAvatarSelect "pastel-cat") (demoPage [true])))
    = Some "/pastel-cat.png" /\
  profileRow (exec (handleAvatarSelect "pastel-cat") (demoPage [true])) = profileRow (demoPage [true]) /\
  syncFailedToasts (exec (handleAvatarSelect "pastel-cat") (demoPage [true]))
    = S (syncFailedToasts (demoPage [true])).
Proof.
  exact (avatar_select_failure_not_reverted (demoPage [true]) "u1" "pastel-cat" 4
           (mkAvatarPreset "pastel-cat" "Cat" "/pastel-cat.png") [] eq_refl eq_refl eq_refl).
Defined.

(** An upload that is not an image, or an image over 2 MiB, is refused
    with its toast and nothing else: no request, no stored object, no
    change of the profile. *)
Theorem upload_guards getPublicUrl w u f :
  puser w = Some u ->
  String.prefix "image/" (file_type f) = false \/ 2 * 1024 * 1024 < file_size f ->
  exec (handleAvatarUpload getPublicUrl (Some f)) w =
    pageToast (if String.prefix "image/" (file_type f) then "File Too Large" else "Invalid File") w.
Proof.
  intros Hu Hg. destruct w as [th ps lt lp sv up pt sf pr so pf pn pu pv tv]; cbn in Hu; subst pu.
  page_unfold. cbn. destruct (String.prefix "image/" (file_type f)); cbn; [|done].
  destruct Hg as [Hg|Hg]; [discriminate|]. by rewrite (proj2 (Z.ltb_lt _ _) Hg).
Qed.

Lemma upload_guards_witness :
  (String.prefix "image/" "image/png" = false \/ 2 * 1024 * 1024 < 3000000) /\
  exec (handleAvatarUpload (fun p => "https://cdn/" ++ p)%string (Some (mkFile "image/png" 3000000 "big.png")))
    (demoPage [false; false]) = pageToast "File Too Large" (demoPage [false; false]).
Proof.
  assert (Hg : String.prefix "image/" "image/png" = false \/ 2 * 1024 * 1024 < 3000000) by (right; lia).
  split; [exact Hg|].
  exact (upload_guards _ (demoPage [false; false]) "u1" (mkFile "image/png" 3000000 "big.png") eq_refl Hg).
Defined.

(** C19: When the storage upload succeeds and the profile upsert fails, the
    object stays in the bucket, the [profiles] row keeps its old avatar, and
    the page shows the new one with "Avatar Updated" (beside the provider's
    "Sync Failed"). *)
Theorem upload_sync_failure_orphans_object getPublicUrl w u f fs :
  puser w = Some u -> String.prefix "image/" (file_type f) = true ->
  file_size f <= 2 * 1024 * 1024 -> pfaults w = false :: true :: fs ->
  avatarFilePath u (pnow w) (file_name f) ∈ storedObjects (exec (handleAvatarUpload getPublicUrl (Some f)) w) /\
  profileRow (exec (handleAvatarUpload getPublicUrl (Some f)) w) = profileRow w /\
  avatar_url (localProfile (exec (handleAvatarUpload getPublicUrl (Some f)) w))
    = Some (getPublicUrl (avatarFilePath u (pnow w) (file_name f))) /\
  pageToasts (exec (handleAvatarUpload getPublicUrl (Some f)) w) = pageToasts w ++ ["Avatar Updated"] /\
  syncFailedToasts (exec (handleAvatarUpload getPublicUrl (Some f)) w) = S (syncFailedToasts w) /\
  uploadingAvatar (exec (handleAvatarUpload getPublicUrl (Some f)) w) = false.
Proof.
  intros Hu Hi Hs Hf. destruct w as [th ps lt lp sv up pt sf pr so pf pn pu pv tv]; cbn in Hu, Hf; subst pu pf.
  page_unfold. cbn. rewrite Hi, (proj2 (Z.ltb_ge _ _) Hs). cbn.
  split; [|auto]. case_bool_decide as Hin; [done|]. apply elem_of_app; right; by left.
Qed.

Lemma upload_sync_failure_orphans_object_witness :
  avatarFilePath "u1" 1700000000000 "me.final.png"
    ∈ storedObjects (exec (handleAvatarUpload (fun p => "https://cdn/" ++ p)%string (Some demoImage))
                       (demoPage [false; true])) /\
  profileRow (exec (handleAvatarUpload (fun p => "https://cdn/" ++ p)%string (Some demoImage))
                (demoPage [false; true])) = profileRow (demoPage [false; true]) /\
  avatar_url (localProfile (exec (handleAvatarUpload (fun p => "https://cdn/" ++ p)%string (Some demoImage))
                (demoPage [false; true])))
    = Some ("https://cdn/" ++ avatarFilePath "u1" 1700000000000 "me.final.png")%string /\
  pageToasts (exec (handleAvatarUpload (fun p => "https://cdn/" ++ p)%string (Some demoImage))
                (demoPage [false; true])) = ["Avatar Updated"] /\
  syncFailedToasts (exec (handleAvatarUpload (fun p => "https://cdn/" ++ p)%string (Some demoImage))
                      (demoPage [false; true])) = 1%nat /\
  uploadingAvatar (exec (handleAvatarUpload (fun p => "https://cdn/" ++ p)%string (Some demoImage))
                     (demoPage [false; true])) = false.
Proof.
  assert (Hs : file_size demoImage <= 2 * 1024 * 1024) by (cbn; lia).
  exact (upload_sync_failure_orphans_object _ (demoPage [false; true]) "u1" demoImage [] eq_refl eq_refl Hs eq_refl).
Defined.

(** A new user's profile is inserted without a name: the spread of
    [defaultProfileSettings] comes after [full_name] and overrides the name
    taken from the e-mail address with [null]. *)
Lemma new_profile_has_no_name w uid email t :
  puser w = Some uid ->
  profileRow (initSettingsPage (InitRows None t) email true w) = Some (mkProfileRow None None None None) /\
  full_name (profileSettings (initSettingsPage (InitRows None t) email true w)) = full_name (profileSettings w).
Proof.
  intros Hu. unfold initSettingsPage. rewrite Hu.
  destruct w as [th ps lt lp sv up pt sf pr so pf pn pu pv tv]. cbn. by destruct th.
Qed.
