(* ===== verification/AuthFlow.v ===== *)
(** * AuthFlow: the sign-in guard, the redirect handshake and the auth form

    [RequireAuth] ([hooks/useAuth.tsx]) blocks protected pages for a
    visitor and, from its prompt, stores [location.pathname] under the
    localStorage key [redirectAfterAuth] before opening [/auth].  The auth
    page ([pages/AuthPage.tsx]) registers two callbacks, the auth-state
    listener and [getSession().then]; each, on seeing a session, consumes
    the stored path and navigates there (or to [/]).  The small prompt
    [AuthRequiredDialog] opens [/auth] without storing a path.  The form
    validates with zod schemas and calls the auth library; its inputs,
    mode switch and submissions are events ([AuthPage.formStep]) and
    [AuthPage.view] is the rendered form.

    The browser is its location and the one localStorage key; the callbacks
    of the auth library are events in the order they run; zod's e-mail
    check and the auth library's replies are inputs. *)

From stdpp Require Import strings.
From S2P Require Import Prelude Gemini.
Import Gemini.

Module AuthFlow.

Record Browser := mkBrowser { location : string; redirectAfterAuth : option string }.

(** [navigate(p)] *)
Definition navigate (p : string) (b : Browser) : Browser := mkBrowser p (redirectAfterAuth b).
(** [localStorage.setItem('redirectAfterAuth', p)] *)
Definition setRedirect (p : string) (b : Browser) : Browser := mkBrowser (location b) (Some p).
(** [localStorage.removeItem('redirectAfterAuth')] *)
Definition removeRedirect (b : Browser) : Browser := mkBrowser (location b) None.

Module RequireAuth.

Inductive View := Spinner | SignInPrompt (open : bool) | Protected.

(** [useAuth.tsx], lines 197-255: what the guard renders. *)
Definition view (loading user showAuthPrompt : bool) : View :=
  if loading then Spinner else if negb user then SignInPrompt showAuthPrompt else Protected.

(** Lines 190-195: the effect on [[user, loading]]. *)
Definition promptEffect (loading user showAuthPrompt : bool) : bool :=
  if negb loading && negb user then true else showAuthPrompt.

(** Lines 207-214: closing the prompt leads home. *)
Definition onOpenChange (open : bool) (b : Browser) : bool * Browser :=
  (open, if open then b else navigate "/" b).

(** Lines 228-231 and 238-241: both buttons store the current path. *)
Definition onSignUp (b : Browser) : Browser := navigate "/auth?mode=signup" (setRedirect (location b) b).
Definition onSignIn (b : Browser) : Browser := navigate "/auth" (setRedirect (location b) b).

End RequireAuth.

Module AuthRequiredDialog.

(** [AuthRequiredDialog.tsx], lines 32-36 and 43-46: the prompt closes and
    opens [/auth] with no stored path. *)
Definition onSignUp (b : Browser) : bool * Browser := (false, navigate "/auth?mode=signup" b).
Definition onSignIn (b : Browser) : bool * Browser := (false, navigate "/auth" b).

Record DialogView := mkDialogView { dv_title : string; dv_description : string; dv_buttons : list string }.

(** Lines 16-55: nothing when closed; [message || ...] falls back on the
    default text for a missing or empty message. *)
Definition view (open : bool) (message : option string) : option DialogView :=
  if open then
    Some (mkDialogView "Sign In Required"
            (match message with
             | Some m => if bool_decide (m = "") then "Please sign in or create an account to continue." else m
             | None => "Please sign in or create an account to continue."
             end)
            ["Sign Up"; "Sign In"])
  else None.

End AuthRequiredDialog.

Module AuthPage.

(** Line 17: [searchParams.get('mode') !== 'signup']. *)
Definition initialIsLogin (mode : option string) : bool := negb (bool_decide (mode = Some "signup")).

(** Lines 28-36 and 41-49: the body of both callbacks.  [if (redirectTo)]
    is JavaScript truthiness: an empty path counts as none. *)
Definition onSession (hasUser : bool) (b : Browser) : Browser :=
  if hasUser then
    match redirectAfterAuth b with
    | Some p => if bool_decide (p = "") then navigate "/" b else navigate p (removeRedirect b)
    | None => navigate "/" b
    end
  else b.

(** The two subscriptions of the effect (lines 26-54), delivered in the
    order the auth library runs them. *)
Inductive SessionEvent := AuthStateChange (hasUser : bool) | GetSessionResolved (hasUser : bool).

Definition eventHasUser (e : SessionEvent) : bool :=
  match e with AuthStateChange u | GetSessionResolved u => u end.

Definition runSessionEvents (es : list SessionEvent) (b : Browser) : Browser :=
  foldl (fun b e => onSession (eventHasUser e) b) b es.

(** [errors]: a key is present when its check failed. *)
Record Errors := mkErrors { email_error : option string; password_error : option string; name_error : option string }.

Inductive SignInReply := SignInOk | SignInError (message : string) | SignInThrows.
Inductive SignUpReply := SignUpOk (user : option string) | SignUpError (message : string) | SignUpThrows.

Record Form := mkForm {
  isLogin : bool;
  email : string;
  password : string;
  fullName : string;
  formLoading : bool;
  errors : Errors;
  toasts : list string;                   (** titles *)
  profileUpserts : list (string * string);  (** [(user_id, full_name)] written *)
  timerUpserts : list string                (** [user_id]s written *)
}.

Definition with_errors (e : Errors) (f : Form) : Form :=
  mkForm (isLogin f) (email f) (password f) (fullName f) (formLoading f) e (toasts f) (profileUpserts f) (timerUpserts f).
Definition with_loading (l : bool) (f : Form) : Form :=
  mkForm (isLogin f) (email f) (password f) (fullName f) l (errors f) (toasts f) (profileUpserts f) (timerUpserts f).
Definition with_isLogin (l : bool) (f : Form) : Form :=
  mkForm l (email f) (password f) (fullName f) (formLoading f) (errors f) (toasts f) (profileUpserts f) (timerUpserts f).
Definition add_toast (t : string) (f : Form) : Form :=
  mkForm (isLogin f) (email f) (password f) (fullName f) (formLoading f) (errors f) (toasts f ++ [t])
    (profileUpserts f) (timerUpserts f).
Definition add_profile (uid : string) (f : Form) : Form :=
  mkForm (isLogin f) (email f) (password f) (fullName f) (formLoading f) (errors f) (toasts f)
    (profileUpserts f ++ [(uid, fullName f)]) (timerUpserts f).
Definition add_timer (uid : string) (f : Form) : Form :=
  mkForm (isLogin f) (email f) (password f) (fullName f) (formLoading f) (errors f) (toasts f)
    (profileUpserts f) (timerUpserts f ++ [uid]).

Section Submit.

(** zod's [z.string().email()] check (line 11). *)
Variable emailValid : string -> bool.

(** Lines 56-78: lines 12-13 are [min(6)] and [min(2)] on the length. *)
Definition validateForm (f : Form) : Errors * bool :=
  let e := if emailValid (email f) then None else Some "Please enter a valid email address" in
  let p := if (6 <=? String.length (password f))%nat then None
           else Some "Password must be at least 6 characters" in
  let n := if isLogin f then None
           else if (2 <=? String.length (fullName f))%nat then None
           else Some "Name must be at least 2 characters" in
  (mkErrors e p n, bool_decide (e = None /\ p = None /\ n = None)).

(** Lines 80-192; [profileOk] and [timerOk] are the outcomes of the two
    upserts after a sign-up, whose errors are only logged. *)
Definition handleSubmit (signIn : SignInReply) (signUp : SignUpReply) (profileOk timerOk : bool)
    (f : Form) : Form :=
  let '(errs, ok) := validateForm f in
  let f1 := with_errors errs f in
  if negb ok then f1 else
  let f2 := with_loading true f1 in
  let f3 :=
    if isLogin f2 then
      match signIn with
      | SignInOk => add_toast "Welcome back!" f2
      | SignInError msg =>
          if contains "Invalid login credentials" msg then add_toast "Login Failed" f2
          else add_toast "Error" f2
      | SignInThrows => add_toast "Error" f2
      end
    else
      match signUp with
      | SignUpError msg =>
          if contains "User already registered" msg then with_isLogin true (add_toast "Account Exists" f2)
          else add_toast "Error" f2
      | SignUpOk user =>
          let f2' := match user with
                     | Some uid =>
                         let g := if profileOk then add_profile uid f2 else f2 in
                         if timerOk then add_timer uid g else g
                     | None => f2
                     end in
          add_toast "Account Created!" f2'
      | SignUpThrows => add_toast "Error" f2
      end in
  with_loading false f3.

(** Lines 278, 295, 311 and 336: the three inputs and the mode switch;
    none of them clears [errors]. *)
Definition setFullName (v : string) (f : Form) : Form :=
  mkForm (isLogin f) (email f) (password f) v (formLoading f) (errors f) (toasts f) (profileUpserts f) (timerUpserts f).
Definition setEmail (v : string) (f : Form) : Form :=
  mkForm (isLogin f) v (password f) (fullName f) (formLoading f) (errors f) (toasts f) (profileUpserts f) (timerUpserts f).
Definition setPassword (v : string) (f : Form) : Form :=
  mkForm (isLogin f) (email f) v (fullName f) (formLoading f) (errors f) (toasts f) (profileUpserts f) (timerUpserts f).
Definition toggleMode (f : Form) : Form := with_isLogin (negb (isLogin f)) f.

(** A submission carries the auth library's replies and the outcomes of
    the two upserts. *)
Inductive FormEvent :=
  | TypeName (v : string) | TypeEmail (v : string) | TypePassword (v : string)
  | ToggleMode
  | Submit (signIn : SignInReply) (signUp : SignUpReply) (profileOk timerOk : bool).

(** The name input exists only on the sign-up form (line 268); the submit
    button is disabled while [loading] (line 320). *)
Definition formStep (f : Form) (e : FormEvent) : Form :=
  match e with
  | TypeName v => if isLogin f then f else setFullName v f
  | TypeEmail v => setEmail v f
  | TypePassword v => setPassword v f
  | ToggleMode => toggleMode f
  | Submit si su po to => if formLoading f then f else handleSubmit si su po to f
  end.

Definition formRun (f : Form) (es : list FormEvent) : Form := foldl formStep f es.

End Submit.

Record FormView := mkFormView {
  fv_tagline : string;                    (** lines 213-215 *)
  fv_heading : string;                    (** line 257 *)
  fv_nameField : option (option string);  (** lines 268-284: the field and its error *)
  fv_emailError : option string;          (** line 299 *)
  fv_passwordError : option string;       (** line 315 *)
  fv_submit : option string;              (** lines 318-328: [None] is the spinner *)
  fv_submitDisabled : bool;
  fv_switch : string * string             (** lines 334-339 *)
}.

(** Lines 195-348. *)
Definition view (f : Form) : FormView :=
  mkFormView
    (if isLogin f then "Welcome back to your organized workspace"
     else "Start organizing your tasks and boost your productivity")
    (if isLogin f then "Welcome Back" else "Create Account")
    (if isLogin f then None else Some (name_error (errors f)))
    (email_error (errors f)) (password_error (errors f))
    (if formLoading f then None else Some (if isLogin f then "Sign In" else "Create Account"))
    (formLoading f)
    (if isLogin f then ("Don't have an account?", "Sign up") else ("Already have an account?", "Sign in")).

(** A protected page and a returning visitor. *)
Definition demoBrowser : Browser := mkBrowser "/tasks" None.

Definition demoForm (login : bool) (pw name : string) : Form :=
  mkForm login "ada@example.com" pw name false (mkErrors None None None) [] [] [].

End AuthPage.

End AuthFlow.

Import AuthFlow.

(** ** Theorems *)

Lemma runSessionEvents_app es1 es2 b :
  AuthPage.runSessionEvents (es1 ++ es2) b = AuthPage.runSessionEvents es2 (AuthPage.runSessionEvents es1 b).
Proof. unfold AuthPage.runSessionEvents. by rewrite foldl_app. Qed.

(** Callbacks without a session change nothing. *)
Lemma runSessionEvents_no_user es b :
  Forall (fun e => AuthPage.eventHasUser e = false) es -> AuthPage.runSessionEvents es b = b.
Proof.
  intros Hes. revert b. induction Hes as [|e es He _ IH]; intros b; [done|].
  cbn. unfold AuthPage.onSession at 2. rewrite He. apply IH.
Qed.

(** The guard only renders the protected page to a signed-in user once
    loading is over. *)
Lemma guard_protects loading user show :
  RequireAuth.view loading user show = RequireAuth.Protected -> loading = false /\ user = true.
Proof. unfold RequireAuth.view. by destruct loading, user. Qed.

(** C21: Round trip of the redirect handshake: a visitor blocked at a page
    who uses the guard's "Sign In" button is brought back to that page by
    the first auth callback that sees the new session (after any number
    of callbacks without one), and the stored path is removed. *)
Theorem redirect_roundtrip b e es :
  location b <> "" -> AuthPage.eventHasUser e = true ->
  Forall (fun e => AuthPage.eventHasUser e = false) es ->
  AuthPage.runSessionEvents (es ++ [e]) (RequireAuth.onSignIn b) = mkBrowser (location b) None.
Proof.
  intros Hp He Hes. rewrite runSessionEvents_app, (runSessionEvents_no_user es) by exact Hes.
  cbn. unfold AuthPage.onSession. rewrite He. cbn. by rewrite bool_decide_eq_false_2.
Qed.

Lemma redirect_roundtrip_witness :
  AuthPage.runSessionEvents [AuthPage.GetSessionResolved false; AuthPage.AuthStateChange true]
    (RequireAuth.onSignIn AuthPage.demoBrowser) = mkBrowser "/tasks" None.
Proof.
  assert (Hp : location AuthPage.demoBrowser <> "") by discriminate.
  assert (Hes : Forall (fun e => AuthPage.eventHasUser e = false) [AuthPage.GetSessionResolved false])
    by (repeat constructor).
  exact (redirect_roundtrip AuthPage.demoBrowser (AuthPage.AuthStateChange true)
           [AuthPage.GetSessionResolved false] Hp eq_refl Hes).
Defined.

(** C23: When both callbacks of the auth page see the session (a visitor
    who reaches [/auth] already signed in), the first takes the visitor
    to the stored page and consumes the path, and the second then
    navigates to [/]: the visitor ends on the home page. *)
Theorem second_callback_loses_redirect b :
  location b <> "" ->
  AuthPage.runSessionEvents [AuthPage.AuthStateChange true; AuthPage.GetSessionResolved true]
    (RequireAuth.onSignIn b) = mkBrowser "/" None.
Proof.
  intros Hp. cbn. unfold AuthPage.onSession. cbn. by rewrite bool_decide_eq_false_2.
Qed.

Lemma second_callback_loses_redirect_witness :
  AuthPage.runSessionEvents [AuthPage.AuthStateChange true; AuthPage.GetSessionResolved true]
    (RequireAuth.onSignIn AuthPage.demoBrowser) = mkBrowser "/" None.
Proof.
  assert (Hp : location AuthPage.demoBrowser <> "") by discriminate.
  exact (second_callback_loses_redirect AuthPage.demoBrowser Hp).
Defined.

(** The small prompt stores no path: after signing in from it the visitor
    lands on [/], whatever page opened it. *)
Lemma dialog_sign_in_lands_home b e :
  redirectAfterAuth b = None -> AuthPage.eventHasUser e = true ->
  AuthPage.runSessionEvents [e] (snd (AuthRequiredDialog.onSignIn b)) = mkBrowser "/" None.
Proof. intros Hr He. destruct b as [l r]; cbn in Hr; subst r. cbn. unfold AuthPage.onSession. by rewrite He. Qed.

(** A password shorter than six characters blocks the form: the
    password error is shown and no request is made, whatever the auth
    library would reply. *)
Theorem short_password_blocks_submit emailValid signIn signUp pOk tOk f :
  (String.length (AuthPage.password f) < 6)%nat ->
  AuthPage.handleSubmit emailValid signIn signUp pOk tOk f =
    AuthPage.with_errors (fst (AuthPage.validateForm emailValid f)) f /\
  AuthPage.password_error (fst (AuthPage.validateForm emailValid f))
    = Some "Password must be at least 6 characters".
Proof.
  intros Hlt. assert (E : (6 <=? String.length (AuthPage.password f))%nat = false) by (apply Nat.leb_gt; lia).
  unfold AuthPage.handleSubmit, AuthPage.validateForm. rewrite E. cbn.
  rewrite bool_decide_eq_false_2 by (intros (_ & Hp & _); discriminate Hp). done.
Qed.

Lemma short_password_blocks_submit_witness :
  AuthPage.toasts (AuthPage.handleSubmit (fun _ => true) AuthPage.SignInOk (AuthPage.SignUpOk None) true true
                     (AuthPage.demoForm true "12345" "")) = [] /\
  AuthPage.password_error (fst (AuthPage.validateForm (fun _ => true) (AuthPage.demoForm true "12345" "")))
    = Some "Password must be at least 6 characters".
Proof.
  assert (H : (String.length (AuthPage.password (AuthPage.demoForm true "12345" "")) < 6)%nat) by (cbn; lia).
  destruct (short_password_blocks_submit (fun _ => true) AuthPage.SignInOk (AuthPage.SignUpOk None) true true
              (AuthPage.demoForm true "12345" "") H) as [E1 E2].
  split; [rewrite E1; reflexivity|exact E2].
Defined.

Lemma handleSubmit_not_loading emailValid si su po to f :
  AuthPage.formLoading f = false -> AuthPage.formLoading (AuthPage.handleSubmit emailValid si su po to f) = false.
Proof.
  intros Hl. unfold AuthPage.handleSubmit.
  destruct (AuthPage.validateForm emailValid f) as [errs []]; [reflexivity|exact Hl].
Qed.

(** A form whose fields pass zod's checks submits, with no error shown. *)
Lemma validateForm_pass emailValid f :
  emailValid (AuthPage.email f) = true -> (6 <= String.length (AuthPage.password f))%nat ->
  (AuthPage.isLogin f = false -> 2 <= String.length (AuthPage.fullName f))%nat ->
  AuthPage.validateForm emailValid f = (AuthPage.mkErrors None None None, true).
Proof.
  intros He Hp Hn. unfold AuthPage.validateForm. rewrite He, (proj2 (Nat.leb_le _ _) Hp).
  destruct (AuthPage.isLogin f); [|rewrite (proj2 (Nat.leb_le _ _) (Hn eq_refl))];
    by rewrite bool_decide_eq_true_2.
Qed.

(** No input leaves the submit button disabled: a submission ends with
    [loading] false, and the other inputs do not touch it. *)
Lemma formRun_not_loading emailValid f es :
  AuthPage.formLoading f = false -> AuthPage.formLoading (AuthPage.formRun emailValid f es) = false.
Proof.
  unfold AuthPage.formRun. revert f. induction es as [|e es IH]; intros f Hl; [done|].
  cbn [foldl]. apply IH. destruct e; cbn [AuthPage.formStep]; rewrite ?Hl; try done.
  - by destruct (AuthPage.isLogin f).
  - by apply handleSubmit_not_loading.
Qed.

(** Typing and switching modes never change the errors on screen: an
    error stays until the next submission, also after the field is
    corrected. *)
Lemma errors_stay_until_submit emailValid f es :
  Forall (fun e => match e with AuthPage.Submit _ _ _ _ => False | _ => True end) es ->
  AuthPage.errors (AuthPage.formRun emailValid f es) = AuthPage.errors f.
Proof.
  unfold AuthPage.formRun. revert f. induction es as [|e es IH]; intros f Hs; [done|].
  inversion_clear Hs as [|? ? He Hs']. cbn [foldl]. rewrite IH by done.
  destruct e; try contradiction; cbn; try done. by destruct (AuthPage.isLogin f).
Qed.

(** After "Account Exists" the form switches to sign-in with the same
    e-mail and password, which pass its validation: the next click signs
    in. *)
Lemma account_exists_then_sign_in emailValid f msg si po to su' po' to' :
  AuthPage.isLogin f = false -> AuthPage.formLoading f = false ->
  emailValid (AuthPage.email f) = true -> (6 <= String.length (AuthPage.password f))%nat ->
  (2 <= String.length (AuthPage.fullName f))%nat -> contains "User already registered" msg = true ->
  let f' := AuthPage.formRun emailValid f
              [AuthPage.Submit si (AuthPage.SignUpError msg) po to; AuthPage.Submit AuthPage.SignInOk su' po' to'] in
  AuthPage.isLogin f' = true /\ AuthPage.toasts f' = AuthPage.toasts f ++ ["Account Exists"; "Welcome back!"] /\
  AuthPage.profileUpserts f' = AuthPage.profileUpserts f.
Proof.
  intros Hm Hl He Hp Hn Hc f'.
  assert (E1 : AuthPage.handleSubmit emailValid si (AuthPage.SignUpError msg) po to f
               = AuthPage.with_loading false (AuthPage.with_isLogin true (AuthPage.add_toast "Account Exists"
                   (AuthPage.with_loading true (AuthPage.with_errors (AuthPage.mkErrors None None None) f))))).
  { unfold AuthPage.handleSubmit. rewrite validateForm_pass by (done || intros; done). cbn. by rewrite Hm, Hc. }
  unfold f', AuthPage.formRun. cbn [foldl AuthPage.formStep]. rewrite Hl, E1. cbn [AuthPage.formLoading AuthPage.with_loading].
  unfold AuthPage.handleSubmit. rewrite validateForm_pass by (cbn; first [done | intros; discriminate]). cbn.
  by rewrite <- app_assoc.
Qed.

(** The small prompt always has a text: a missing or empty message shows
    the default one. *)
Lemma dialog_description_nonempty message v :
  AuthRequiredDialog.view true message = Some v -> AuthRequiredDialog.dv_description v <> "".
Proof.
  intros [= <-]. cbn. destruct message as [m|]; [|discriminate].
  case_bool_decide; [discriminate|done].
Qed.
