(* ===== verification/StudyRoom.v ===== *)
(** * StudyRoom: the study room page of [pages/StudyRoomPage.tsx]

    The page creates a room code from [Math.random().toString(36)], copies
    it to the clipboard, and joins a room by a typed code of at least four
    characters (the input upper-cases what is typed and keeps at most
    six).  No room exists anywhere: joining only shows a toast, and the
    scheduled sessions are constants.  The random number's base-36 text is
    an input ([randomText], of the form ["0.xxxx..."]); toasts are their
    titles; the clipboard is a value of the state. *)

From stdpp Require Import strings.
From Stdlib Require Import Ascii.
From S2P Require Import Prelude.

Module StudyRoom.

(** Lines 11-26. *)
Record ScheduledSession := mkScheduledSession {
  ss_id : string; ss_title : string; ss_participants : Z; ss_time : string; ss_date : string
}.

Definition scheduledSessions : list ScheduledSession :=
  [mkScheduledSession "1" "Economics Study Group" 4 "3:00 PM" "Today";
   mkScheduledSession "2" "Research Paper Review" 2 "5:30 PM" "Tomorrow"].

Definition upperAscii (c : ascii) : ascii :=
  let n := nat_of_ascii c in
  if (97 <=? n)%nat && (n <=? 122)%nat then ascii_of_nat (n - 32) else c.

(** [s.toUpperCase()] on ASCII text. *)
Fixpoint toUpperCase (s : string) : string :=
  match s with
  | EmptyString => EmptyString
  | String c rest => String (upperAscii c) (toUpperCase rest)
  end.

(** Lines 29-33. *)
Record RoomState := mkRoomState {
  roomCode : string;
  newRoomName : string;
  generatedCode : string;
  copied : bool;
  clipboard : option string;
  toasts : list string;
  copyTimers : nat      (** the [setTimeout]s of line 47 not yet fired *)
}.

Definition initRoom : RoomState := mkRoomState "" "" "" false None [] 0.

(** Lines 35-42: [substring(2, 8)] skips ["0."] and keeps six digits. *)
Definition handleCreateRoom (randomText : string) (st : RoomState) : RoomState :=
  let code := toUpperCase (String.substring 2 6 randomText) in
  mkRoomState (roomCode st) (newRoomName st) code (copied st) (clipboard st) (toasts st ++ ["Room Created!"])
    (copyTimers st).

(** Lines 44-48: each copy starts a timer of its own, and none is
    cleared; the timers fire in the order they were started. *)
Definition handleCopyCode (st : RoomState) : RoomState :=
  mkRoomState (roomCode st) (newRoomName st) (generatedCode st) true (Some (generatedCode st)) (toasts st)
    (S (copyTimers st)).

(** Line 153 with [maxLength={6}]: what reaches [setRoomCode]. *)
Definition onRoomCodeChange (typed : string) (st : RoomState) : RoomState :=
  mkRoomState (toUpperCase (String.substring 0 6 typed)) (newRoomName st) (generatedCode st) (copied st)
    (clipboard st) (toasts st) (copyTimers st).

(** Lines 50-63. *)
Definition handleJoinRoom (st : RoomState) : RoomState :=
  mkRoomState (roomCode st) (newRoomName st) (generatedCode st) (copied st) (clipboard st)
    (toasts st ++ [if (String.length (roomCode st) <? 4)%nat then "Invalid Code" else "Joining Room..."])
    (copyTimers st).

Inductive RoomEvent :=
  | TypeRoomName (s : string)           (** line 94 *)
  | CreateRoom (randomText : string)    (** line 114 *)
  | CopyCode                            (** line 105, shown once a code exists *)
  | CopyTimeout                         (** the oldest pending [setTimeout] of line 47 fires *)
  | TypeRoomCode (s : string)
  | JoinRoom.

Definition step (st : RoomState) (e : RoomEvent) : RoomState :=
  match e with
  | TypeRoomName s =>
      mkRoomState (roomCode st) s (generatedCode st) (copied st) (clipboard st) (toasts st) (copyTimers st)
  | CreateRoom r => handleCreateRoom r st
  | CopyCode => if bool_decide (generatedCode st = "") then st else handleCopyCode st
  | CopyTimeout =>
      match copyTimers st with
      | O => st
      | S n => mkRoomState (roomCode st) (newRoomName st) (generatedCode st) false (clipboard st) (toasts st) n
      end
  | TypeRoomCode s => onRoomCodeChange s st
  | JoinRoom => handleJoinRoom st
  end.

Definition run (st : RoomState) (es : list RoomEvent) : RoomState := foldl step st es.

Record RoomView := mkRoomView {
  rv_code : option (string * bool);                  (** lines 97-112: the code, and the check icon *)
  rv_sessions : list (string * Z * string * string);  (** lines 168-200 *)
  rv_noSessions : bool                                (** lines 203-209 *)
}.

(** Lines 65-213. *)
Definition view (st : RoomState) : RoomView :=
  mkRoomView
    (if bool_decide (generatedCode st = "") then None else Some (generatedCode st, copied st))
    ((fun s => (ss_title s, ss_participants s, ss_time s, ss_date s)) <$> scheduledSessions)
    (bool_decide (length scheduledSessions = 0)%nat).

End StudyRoom.

Import StudyRoom.

(** ** Theorems *)

Lemma upperAscii_idem c : upperAscii (upperAscii c) = upperAscii c.
Proof. destruct c as [[] [] [] [] [] [] [] []]; reflexivity. Qed.

Lemma toUpperCase_idem s : toUpperCase (toUpperCase s) = toUpperCase s.
Proof. induction s as [|c s IH]; [done|]. cbn. by rewrite upperAscii_idem, IH. Qed.

Lemma toUpperCase_length s : String.length (toUpperCase s) = String.length s.
Proof. induction s as [|c s IH]; [done|]. cbn. by rewrite IH. Qed.

Lemma substring_0_length n s : (String.length (String.substring 0 n s) <= n)%nat.
Proof. revert s. induction n as [|n IH]; intros [|c s]; cbn; try lia. specialize (IH s). lia. Qed.

Lemma substring_0_full n s : (String.length s <= n)%nat -> String.substring 0 n s = s.
Proof. revert s. induction n as [|n IH]; intros [|c s]; cbn; intros H; try lia; try done. by rewrite IH by lia. Qed.

(** The room name typed in the dialog plays no part in the code. *)
Lemma room_name_ignored r s st :
  generatedCode (step (step st (TypeRoomName s)) (CreateRoom r)) = generatedCode (step st (CreateRoom r)).
Proof. reflexivity. Qed.

Lemma substring_length n m s :
  String.length (String.substring n m s) = Nat.min m (String.length s - n).
Proof.
  revert m s. induction n as [|n IH]; intros m s.
  - revert s. induction m as [|m IHm]; intros [|c s]; cbn; try lia. rewrite IHm. lia.
  - destruct s as [|c s]; cbn; [by destruct m|]. apply IH.
Qed.

(** Round trip of a room code: a code generated from a random text with
    at least six digits is what the copy button puts on the clipboard;
    pasted into the join box it reaches [setRoomCode] unchanged and is
    accepted. *)
Lemma created_code_joins r st :
  (8 <= String.length r)%nat ->
  clipboard (run st [CreateRoom r; CopyCode]) = Some (toUpperCase (String.substring 2 6 r)) /\
  roomCode (run st [CreateRoom r; CopyCode; TypeRoomCode (toUpperCase (String.substring 2 6 r)); JoinRoom])
    = toUpperCase (String.substring 2 6 r) /\
  toasts (run st [CreateRoom r; CopyCode; TypeRoomCode (toUpperCase (String.substring 2 6 r)); JoinRoom])
    = toasts st ++ ["Room Created!"; "Joining Room..."].
Proof.
  intros Hr.
  assert (Hl : String.length (toUpperCase (String.substring 2 6 r)) = 6%nat)
    by (rewrite toUpperCase_length, substring_length; lia).
  assert (Hne : toUpperCase (String.substring 2 6 r) <> "") by (intros E; rewrite E in Hl; discriminate).
  cbn [run foldl step]. unfold handleCreateRoom, handleCopyCode, onRoomCodeChange, handleJoinRoom; cbn.
  rewrite bool_decide_eq_false_2 by exact Hne. cbn.
  rewrite substring_0_full by lia. rewrite toUpperCase_idem, Hl. cbn.
  split; [done|]. split; [done|]. by rewrite <- app_assoc.
Qed.

(** A code of fewer than four characters is refused. *)
Lemma short_code_refused st :
  (String.length (roomCode st) < 4)%nat -> toasts (step st JoinRoom) = toasts st ++ ["Invalid Code"].
Proof. intros H. unfold step, handleJoinRoom. cbn [toasts]. by rewrite (proj2 (Nat.ltb_lt _ _) H). Qed.

(** [(0.5).toString(36)] is ["0.i"]: the page's own code is then ["I"],
    which its join check refuses. *)
Example half_gives_short_code :
  toasts (run initRoom [CreateRoom "0.i"; CopyCode; TypeRoomCode "I"; JoinRoom]) = ["Room Created!"; "Invalid Code"].
Proof. reflexivity. Qed.

Lemma copy_step st : generatedCode st <> "" -> step st CopyCode = handleCopyCode st.
Proof. intros Hc. unfold step. by rewrite bool_decide_eq_false_2. Qed.

(** The check icon of a second copy within two seconds disappears when
    the first copy's timer fires, while the second one's is still
    pending: the timers are never cleared. *)
Lemma copy_feedback_cut_short st :
  generatedCode st <> "" -> copyTimers st = 0%nat ->
  rv_code (view (run st [CopyCode; CopyCode; CopyTimeout])) = Some (generatedCode st, false) /\
  copyTimers (run st [CopyCode; CopyCode; CopyTimeout]) = 1%nat.
Proof.
  intros Hc Ht. unfold run. cbn [foldl]. rewrite (copy_step st), copy_step by exact Hc. cbn. rewrite Ht.
  unfold view. cbn. by rewrite bool_decide_eq_false_2.
Qed.

(** The "No scheduled sessions" text is dead: the list is a constant with
    two entries. *)
Lemma no_sessions_text_dead st : rv_noSessions (view st) = false.
Proof. reflexivity. Qed.
