(* ===== verification/AuthProvider.v ===== *)
(** * AuthProvider: the session state of [hooks/useAuth.tsx] and what reads it

    [AuthProvider] keeps [user], [session] and [loading] in React state,
    sets them from the auth library's two callbacks (the
    [onAuthStateChange] listener and the [getSession()] promise), runs the
    sign-in work of [Auth] ([checkAndInitializeUser], then
    [checkDailyStreak]) on a session, and offers [signOut] and
    [refreshProfile].  It renders the celebration dialog of [StreakModal]
    from the [showStreakModal] flag the sign-in work sets, and [RequireAuth]
    (module [AuthFlow.RequireAuth]) reads [user] and [loading].

    [Provider] pairs that state with the store of [Auth] ([AuthWorld]), the
    browser of [AuthFlow] and the dialog's confetti.  Each callback runs
    to completion before the next event (the interleaving of two sign-in
    runs at their awaits is the subject of [Auth.runSched]).  A session is
    its user's id; the library's sign-out notification is an
    [AuthStateChange SignedOut None] event. *)

From stdpp Require Import strings.
From S2P Require Import Prelude Clock Settings Store Auth AuthFlow StreakModal.
Import Clock Store Auth AuthFlow StreakModal.

Module AuthProvider.

(** The [event] names the listener receives. *)
Inductive AuthChangeEvent := InitialSession | SignedIn | SignedOut | TokenRefreshed | UserUpdated | PasswordRecovery.

(** Lines 21-25, with the provider's store and the dialog it renders. *)
Record Provider := mkProvider {
  user : option string;
  session : option string;
  loading : bool;
  world : AuthWorld;
  browser : Browser;
  confetti : Confetti
}.

Definition initProvider (w : AuthWorld) (b : Browser) : Provider :=
  mkProvider None None true w b (mountConfetti (showStreakModal w)).

(** A new store; the dialog's effect sees the new [showStreakModal]. *)
Definition with_world (w : AuthWorld) (p : Provider) : Provider :=
  mkProvider (user p) (session p) (loading p) w (browser p)
    (openEffect (showStreakModal (world p)) (showStreakModal w) (confetti p)).

Definition runAuth (c : St AuthWorld unit) (p : Provider) : Provider := with_world (exec c (world p)) p.

(** Lines 30-32 and 42-44. *)
Definition setSession (s : option string) (p : Provider) : Provider :=
  mkProvider s s false (world p) (browser p) (confetti p).

(** Lines 29-39: the sign-in work runs for [SIGNED_IN] and
    [TOKEN_REFRESHED] with a user. *)
Definition onAuthStateChange (ev : AuthChangeEvent) (s : option string) (p : Provider) : Provider :=
  let p := setSession s p in
  match s, ev with
  | Some _, (SignedIn | TokenRefreshed) => runAuth onSignIn p
  | _, _ => p
  end.

(** Lines 41-52. *)
Definition onGetSession (s : option string) (p : Provider) : Provider :=
  let p := setSession s p in
  match s with
  | Some _ => runAuth onSignIn p
  | None => p
  end.

(** Lines 148-153, after [supabase.auth.signOut()] has returned. *)
Definition signOut (p : Provider) : Provider :=
  mkProvider None None (loading p) (world p) (navigate "/auth" (browser p)) (confetti p).

(** Lines 155-158. *)
Definition refreshProfile (p : Provider) : Provider :=
  match user p with
  | Some _ => runAuth checkAndInitializeUser p
  | None => p
  end.

(** Line 165: the dialog's [onOpenChange] is [setShowStreakModal]. *)
Definition setShowStreakModal (v : bool) (p : Provider) : Provider :=
  let w := world p in
  with_world (mkAuthWorld v (newStreakValue w) (adb w) (afaults w) (anow w) (atz w)) p.

Inductive ProviderEvent :=
  | AuthStateChange (ev : AuthChangeEvent) (s : option string)
  | GetSessionResolved (s : option string)
  | SignOut
  | RefreshProfile
  | ModalInput (e : ModalEvent)
  | ConfettiTimeout.

Definition step (p : Provider) (e : ProviderEvent) : Provider :=
  match e with
  | AuthStateChange ev s => onAuthStateChange ev s p
  | GetSessionResolved s => onGetSession s p
  | SignOut => signOut p
  | RefreshProfile => refreshProfile p
  | ModalInput m => setShowStreakModal (onOpenChangeOf m) p
  | ConfettiTimeout =>
      mkProvider (user p) (session p) (loading p) (world p) (browser p) (confettiTimeout (confetti p))
  end.

Definition run (p : Provider) (es : list ProviderEvent) : Provider := foldl step p es.

Definition signedIn (p : Provider) : bool :=
  match user p with Some _ => true | None => false end.

(** What [RequireAuth] renders under this provider. *)
Definition guardView (p : Provider) (showAuthPrompt : bool) : RequireAuth.View :=
  RequireAuth.view (loading p) (signedIn p) showAuthPrompt.

(** Lines 163-171. *)
Definition modalView (p : Provider) : option ModalView :=
  StreakModal.view (showStreakModal (world p)) (newStreakValue (world p))
    "You logged in today! Keep the momentum going!" (confetti p).

(** An event that hands the provider a session. *)
Definition carriesSession (e : ProviderEvent) : bool :=
  match e with
  | AuthStateChange _ (Some _) | GetSessionResolved (Some _) => true
  | _ => false
  end.

(** The provider's state is consistent: [user] is the session's user and
    the confetti follows the dialog. *)
Definition providerInv (p : Provider) : Prop :=
  user p = session p /\ confettiInv (showStreakModal (world p)) (confetti p).

End AuthProvider.

Import AuthProvider.

(** ** Theorems *)

Lemma with_world_inv w p :
  providerInv p -> providerInv (with_world w p).
Proof. intros [Hu Hc]. split; [done|]. cbn. auto with studyflow. Qed.

Lemma runAuth_inv c p : providerInv p -> providerInv (runAuth c p).
Proof. apply with_world_inv. Qed.

Lemma setSession_inv s p : providerInv p -> providerInv (setSession s p).
Proof. intros [_ Hc]. by split. Qed.

#[export] Hint Resolve with_world_inv runAuth_inv setSession_inv : studyflow.

Lemma initProvider_inv w b : providerInv (initProvider w b).
Proof. split; [done|]. apply mountConfetti_inv. Qed.

Lemma provider_step_inv p e : providerInv p -> providerInv (step p e).
Proof.
  intros Hp. destruct e as [ev [u|] | [u|] | | | m |]; cbn [step].
  - unfold onAuthStateChange. destruct ev; auto with studyflow.
  - unfold onAuthStateChange. auto with studyflow.
  - unfold onGetSession. auto with studyflow.
  - unfold onGetSession. auto with studyflow.
  - destruct Hp as [_ Hc]. by split.
  - unfold refreshProfile. destruct (user p); auto with studyflow.
  - unfold setShowStreakModal. auto with studyflow.
  - destruct Hp as [Hu Hc]. split; [done|]. cbn. auto with studyflow.
Qed.

(** Every run of the provider from its initial state keeps [user] equal
    to the session's user, and shows confetti only while the celebration
    dialog is open, with its timer pending exactly then. *)
Theorem provider_invariant w b es : providerInv (run (initProvider w b) es).
Proof.
  unfold run. generalize (initProvider_inv w b). generalize (initProvider w b).
  induction es as [|e es IH]; intros p Hp; [done|]. cbn. apply IH, provider_step_inv, Hp.
Qed.

Lemma step_no_session_signed_out p e :
  carriesSession e = false -> user p = None -> user (step p e) = None.
Proof.
  intros Hc Hu. destruct e as [ev [u|] | [u|] | | | m |]; try discriminate Hc; cbn [step].
  - unfold onAuthStateChange. by destruct ev.
  - done.
  - done.
  - unfold refreshProfile. by rewrite Hu.
  - exact Hu.
  - exact Hu.
Qed.

Lemma run_no_session_signed_out p es :
  Forall (fun e => carriesSession e = false) es -> user p = None -> user (run p es) = None.
Proof.
  intros Hes. revert p. induction Hes as [|e es He _ IH]; intros p Hu; [done|].
  apply IH, step_no_session_signed_out; done.
Qed.

(** Only [signOut] moves the browser; the rest of the provider's
    inputs leave it, and a finished load stays finished. *)
Lemma runAuth_browser c p : browser (runAuth c p) = browser p.
Proof. done. Qed.

Lemma runAuth_user c p : user (runAuth c p) = user p /\ loading (runAuth c p) = loading p.
Proof. done. Qed.

Lemma provider_step_browser p e : e <> SignOut -> browser (step p e) = browser p.
Proof.
  intros Hne. destruct e as [ev [u|] | [u|] | | | m |]; cbn [step];
    unfold onAuthStateChange, refreshProfile; try destruct ev; try destruct (user p); done.
Qed.

Lemma provider_step_loading p e : loading p = false -> loading (step p e) = false.
Proof.
  intros Hl. destruct e as [ev [u|] | [u|] | | | m |]; cbn [step];
    unfold onAuthStateChange, refreshProfile; try destruct ev; try destruct (user p); done.
Qed.

Lemma signed_in_event_user ev u p :
  user (step p (AuthStateChange ev (Some u))) = Some u /\ loading (step p (AuthStateChange ev (Some u))) = false.
Proof. cbn [step]. unfold onAuthStateChange. by destruct ev. Qed.

(** C24: after [signOut] the visitor is on [/auth], and until an event brings
    a session, [RequireAuth] never shows a protected page again, whatever
    the library reports, the dialog does or the profile refreshes. *)
Theorem sign_out_stays_signed_out p es showPrompt :
  Forall (fun e => carriesSession e = false) es ->
  location (browser (step p SignOut)) = "/auth" /\
  guardView (run (step p SignOut) es) showPrompt <> RequireAuth.Protected.
Proof.
  intros Hes. split; [done|].
  assert (Hu : user (run (step p SignOut) es) = None) by (by apply run_no_session_signed_out).
  unfold guardView, RequireAuth.view, signedIn. rewrite Hu. by destruct (loading _).
Qed.

Lemma sign_out_stays_signed_out_witness :
  Forall (fun e => carriesSession e = false)
    [AuthStateChange SignedOut None; RefreshProfile; ModalInput Awesome] /\
  guardView (run (step (initProvider (mkAuthWorld false 0 (mkDb None [] None) [] 0 0) (mkBrowser "/tasks" None))
                   SignOut) [AuthStateChange SignedOut None; RefreshProfile; ModalInput Awesome]) false
    <> RequireAuth.Protected.
Proof.
  assert (H : Forall (fun e => carriesSession e = false)
                [AuthStateChange SignedOut None; RefreshProfile; ModalInput Awesome]) by repeat constructor.
  split; [exact H|].
  exact (proj2 (sign_out_stays_signed_out _ _ false H)).
Defined.

(** The sign-in work is idle for a user whose profile was active today
    and whose timer settings exist. *)
Lemma onSignIn_settled w pr t :
  afaults w = [] -> profile (adb w) = Some pr -> timer_settings_row (adb w) = Some t ->
  localDay (atz w) <$> last_active_date pr = Some (localDay (atz w) (anow w)) ->
  exec onSignIn w = w.
Proof.
  destruct w as [sm nv [pr' rows ts] fs n tz]; cbn. intros -> -> -> Hd.
  auth_unfold. cbn. rewrite bool_decide_eq_true_2 by exact Hd. done.
Qed.

Lemma openEffect_same b c : openEffect b b c = c.
Proof. by destruct b. Qed.

Lemma runAuth_idle c p : exec c (world p) = world p -> runAuth c p = p.
Proof. intros E. unfold runAuth, with_world. rewrite E, openEffect_same. by destruct p. Qed.

(** C31: a token refresh on the day of the sign-in only renews the session:
    the profile check and the daily check find nothing to do, the store is
    unchanged and the dialog is not opened again. *)
Theorem token_refresh_quiet p u pr t :
  afaults (world p) = [] -> profile (adb (world p)) = Some pr ->
  timer_settings_row (adb (world p)) = Some t ->
  localDay (atz (world p)) <$> last_active_date pr = Some (localDay (atz (world p)) (anow (world p))) ->
  step p (AuthStateChange TokenRefreshed (Some u)) = setSession (Some u) p.
Proof.
  intros Hf Hp Ht Hd. cbn [step onAuthStateChange]. apply runAuth_idle.
  by apply (onSignIn_settled _ pr t).
Qed.

Definition demoProvider : Provider :=
  mkProvider (Some "u1") (Some "u1") false
    (mkAuthWorld false 3 (mkDb (Some (mkProfile 0 3 (Some 1704708000000))) [] (Some Settings.defaultTimerSettings))
       [] 1704715200000 0)
    (mkBrowser "/" None) (mountConfetti false).

Lemma token_refresh_quiet_witness :
  (afaults (world demoProvider) = [] /\
   profile (adb (world demoProvider)) = Some (mkProfile 0 3 (Some 1704708000000)) /\
   timer_settings_row (adb (world demoProvider)) = Some Settings.defaultTimerSettings /\
   localDay 0 <$> Some 1704708000000 = Some (localDay 0 1704715200000)) /\
  step demoProvider (AuthStateChange TokenRefreshed (Some "u1")) = setSession (Some "u1") demoProvider.
Proof.
  assert (Hd : localDay 0 <$> Some 1704708000000 = Some (localDay 0 1704715200000)) by (vm_compute; reflexivity).
  split; [repeat split; exact Hd|].
  exact (token_refresh_quiet demoProvider "u1" (mkProfile 0 3 (Some 1704708000000)) Settings.defaultTimerSettings
           eq_refl eq_refl eq_refl Hd).
Defined.

(** A first visit with a session: the guard lets the user in, the profile
    is created with a streak of 1 and the dialog opens on 1 with confetti;
    the timer stops the confetti and "Awesome!" closes the dialog, leaving
    the profile as it was. *)
Theorem first_session_celebrates u rows n tz b :
  let p1 := step (initProvider (mkAuthWorld false 0 (mkDb None rows None) [] n tz) b) (GetSessionResolved (Some u)) in
  let p2 := step p1 ConfettiTimeout in
  let p3 := step p2 (ModalInput Awesome) in
  guardView p1 false = RequireAuth.Protected /\
  profile (adb (world p1)) = Some (mkProfile 0 1 (Some n)) /\
  modalView p1 = Some (mkModalView true 1 "You logged in today! Keep the momentum going!") /\
  modalView p2 = Some (mkModalView false 1 "You logged in today! Keep the momentum going!") /\
  modalView p3 = None /\ adb (world p3) = adb (world p1).
Proof.
  cbn [step onGetSession initProvider]. unfold runAuth. auth_unfold. st_run. repeat split.
Qed.
