(* ===== verification/Layout.v ===== *)
(** * Layout: routes, navigation links, the sidebar and the page frame

    [App.tsx] maps paths to pages, wrapping the app's pages in
    [RequireAuth]; [components/NavLink.tsx] is a router link that, for a
    protected destination and no user, opens its own sign-in prompt
    instead of navigating; [components/layout/Sidebar.tsx] lists the links
    and signs out through [AuthProvider]; [components/layout/WebLayout.tsx]
    frames the pages with a header (weekly streak, tasks due today, avatar
    initial); [ScrollToTopButton.tsx] and [LoadingScreen.tsx] are the
    frame's two timers and listeners.

    [App] composes the auth provider of [AuthProvider] (with the browser
    of [AuthFlow]), the sidebar's state and each link's prompt.  Route
    matching is React Router's for static paths: the query is not part of
    the path, trailing slashes are ignored and letters compare without
    case.  That is the library's behaviour, not code of the repository. *)

From stdpp Require Import strings.
From Stdlib Require Import Ascii.
From S2P Require Import Prelude Clock Store Tasks Gemini Auth AuthFlow StreakModal AuthProvider StudyRoom Dashboard.
Import Clock Store Tasks Gemini Auth AuthFlow StreakModal AuthProvider StudyRoom.

Module Routes.

Inductive Page := DashboardPage | AuthPage | TasksPage | KanbanPage | TimerPage | StreaksPage
                | SettingsPage | NotFound.

#[export] Instance Page_eq_dec : EqDecision Page.
Proof. solve_decision. Defined.

Record Route := mkRoute { r_path : string; r_page : Page; r_protected : bool }.

(** Lines 42-51; the catch-all of line 54 is [NotFound]. *)
Definition routes : list Route :=
  [mkRoute "/" DashboardPage false; mkRoute "/auth" AuthPage false;
   mkRoute "/dashboard" DashboardPage true; mkRoute "/tasks" TasksPage true;
   mkRoute "/kanban" KanbanPage true; mkRoute "/timer" TimerPage true;
   mkRoute "/streaks" StreaksPage true; mkRoute "/settings" SettingsPage true].

Fixpoint beforeQuery (s : string) : string :=
  match s with
  | EmptyString => EmptyString
  | String c rest => if bool_decide (c = "?"%char) then EmptyString else String c (beforeQuery rest)
  end.

Fixpoint stripTrailingSlashes (s : string) : string :=
  match s with
  | EmptyString => EmptyString
  | String c rest =>
      let r := stripTrailingSlashes rest in
      if bool_decide (c = "/"%char) && bool_decide (r = EmptyString) then EmptyString else String c r
  end.

Definition normalize (location : string) : string := toLowerCase (stripTrailingSlashes (beforeQuery location)).

(** The route a location selects. *)
Definition matchRoute (location : string) : Page * bool :=
  match list_find (fun r => normalize (r_path r) = normalize location) routes with
  | Some (_, r) => (r_page r, r_protected r)
  | None => (NotFound, false)
  end.

Inductive Screen := Render (pg : Page) | Guarded (v : RequireAuth.View).

(** What the app shows at a location under the auth provider: a protected
    route renders [RequireAuth], freshly mounted, whose effect opens its
    prompt once nothing is loading and no one is signed in. *)
Definition screen (p : Provider) (location : string) : Screen :=
  let '(pg, prot) := matchRoute location in
  if prot then
    match guardView p (RequireAuth.promptEffect (loading p) (signedIn p) false) with
    | RequireAuth.Protected => Render pg
    | v => Guarded v
    end
  else Render pg.

End Routes.

Module NavLink.

Record LinkState := mkLinkState { showAuthPrompt : bool; intendedDestination : string }.

Definition initLink : LinkState := mkLinkState false "".

(** Lines 23-29 and the router's navigation when the click is not
    prevented. *)
Definition handleClick (requiresAuth signedIn : bool) (to_ : string) (st : LinkState) (b : Browser)
    : LinkState * Browser :=
  if requiresAuth && negb signedIn then (mkLinkState true to_, b) else (st, navigate to_ b).

(** Lines 56-62 and 68-74. *)
Definition onSignUp (st : LinkState) (b : Browser) : LinkState * Browser :=
  (mkLinkState false (intendedDestination st),
   navigate "/auth?mode=signup" (setRedirect (intendedDestination st) b)).
Definition onSignIn (st : LinkState) (b : Browser) : LinkState * Browser :=
  (mkLinkState false (intendedDestination st), navigate "/auth" (setRedirect (intendedDestination st) b)).

(** Line 44: closing the prompt. *)
Definition onOpenChange (open : bool) (st : LinkState) : LinkState :=
  mkLinkState open (intendedDestination st).

End NavLink.

Module Sidebar.

Record NavItem := mkNavItem { label : string; path : string; requiresAuth : bool }.

(** Lines 28-33, then the settings link of lines 96-107. *)
Definition navItems : list NavItem :=
  [mkNavItem "Dashboard" "/dashboard" false; mkNavItem "Tasks" "/tasks" true;
   mkNavItem "Task Overview" "/kanban" true; mkNavItem "Focus Timer" "/timer" true].

Definition links : list NavItem := navItems ++ [mkNavItem "Settings" "/settings" true].

Record SidebarState := mkSidebarState { collapsed : bool; confirmOpen : bool }.

(** Lines 46-136: the labels shown ([None] when collapsed). *)
Definition labels (s : SidebarState) : option (list string) :=
  if collapsed s then None else Some (label <$> links).

End Sidebar.

Module App.

Import Routes NavLink Sidebar.

(** The app's state under the router: the auth provider (with the
    browser), the sidebar and the prompt of each link, by its path. *)
Record App := mkApp {
  provider : Provider;
  sidebar : SidebarState;
  linkState : string -> LinkState
}.

Definition initApp (p : Provider) : App := mkApp p (mkSidebarState false false) (fun _ => initLink).

Definition with_browser (b : Browser) (p : Provider) : Provider :=
  mkProvider (user p) (session p) (loading p) (world p) b (confetti p).

Definition setLink (path : string) (l : LinkState) (f : string -> LinkState) : string -> LinkState :=
  fun q => if bool_decide (q = path) then l else f q.

Definition findLink (path : string) : option NavItem :=
  snd <$> list_find (fun i => Sidebar.path i = path) links.

(** A link's handler run on the app's browser. *)
Definition runLink (path : string) (h : LinkState -> Browser -> LinkState * Browser) (a : App) : App :=
  let '(l, b) := h (linkState a path) (browser (provider a)) in
  mkApp (with_browser b (provider a)) (sidebar a) (setLink path l (linkState a)).

Inductive AppEvent :=
  | ToggleCollapse                         (** Sidebar line 61 *)
  | ClickLink (path : string)              (** a sidebar link *)
  | LinkSignUp (path : string) | LinkSignIn (path : string)
  | LinkPromptClose (path : string)
  | OpenSignOut | CancelSignOut            (** the alert dialog, lines 109-135 *)
  | ConfirmSignOut                         (** lines 130 and 40-43 *)
  | Provider (e : ProviderEvent)           (** the auth library's notifications and the provider's inputs *)
  | AuthPageSession (s : option string).   (** the auth page's own [getSession()] resolving *)

Definition onAuthPage (a : App) : bool :=
  bool_decide (fst (matchRoute (location (browser (provider a)))) = AuthPage).

Definition hasUser (s : option string) : bool := match s with Some _ => true | None => false end.

(** An auth-state notification reaches every subscriber: the provider's
    listener (subscribed first) and, while [AuthPage] is mounted, the
    page's ([AuthPage.tsx] lines 27-37).  Other inputs reach the provider
    only. *)
Definition deliver (e : ProviderEvent) (a : App) : App :=
  let p := AuthProvider.step (provider a) e in
  let b := match e with
           | AuthStateChange _ s => if onAuthPage a then AuthPage.onSession (hasUser s) (browser p) else browser p
           | _ => browser p
           end in
  mkApp (with_browser b p) (sidebar a) (linkState a).

Definition step (a : App) (e : AppEvent) : App :=
  match e with
  | ToggleCollapse =>
      mkApp (provider a) (mkSidebarState (negb (collapsed (sidebar a))) (confirmOpen (sidebar a))) (linkState a)
  | ClickLink path =>
      match findLink path with
      | Some i => runLink path (NavLink.handleClick (requiresAuth i) (signedIn (provider a)) path) a
      | None => a
      end
  | LinkSignUp path => runLink path NavLink.onSignUp a
  | LinkSignIn path => runLink path NavLink.onSignIn a
  | LinkPromptClose path => mkApp (provider a) (sidebar a)
      (setLink path (NavLink.onOpenChange false (linkState a path)) (linkState a))
  | OpenSignOut => mkApp (provider a) (mkSidebarState (collapsed (sidebar a)) true) (linkState a)
  | CancelSignOut => mkApp (provider a) (mkSidebarState (collapsed (sidebar a)) false) (linkState a)
  | ConfirmSignOut =>
      mkApp (AuthProvider.step (provider a) SignOut) (mkSidebarState (collapsed (sidebar a)) false)
        (linkState a)
  | Provider e => deliver e a
  | AuthPageSession s =>
      if onAuthPage a
      then mkApp (with_browser (AuthPage.onSession (hasUser s) (browser (provider a))) (provider a))
             (sidebar a) (linkState a)
      else a
  end.

Definition run (a : App) (es : list AppEvent) : App := foldl step a es.

Definition screenOf (a : App) : Screen := screen (provider a) (location (browser (provider a))).

End App.

Module WebLayout.

(** Line 28. *)
Definition weeklyStreak (sessions : list Z) : Z := Z.of_nat (length (filter (fun s => 0 < s) sessions)).

(** [d.setHours(0, 0, 0, 0)]: local midnight. *)
Definition midnight (tz t : Z) : Z := t - (t - tz * 60000) mod ms_per_day.

(** Lines 31-44 (no daylight-saving change: [tomorrow] is a day later). *)
Definition tasksDueToday (tz now : Z) (tasks : list Task) : list Task :=
  let today := midnight tz now in
  let tomorrow := today + ms_per_day in
  List.filter (fun task =>
    match deadline task with
    | None => false
    | Some d => (today <=? midnight tz d) && (midnight tz d <? tomorrow) && negb (bool_decide (status task = Tasks.Done))
    end) tasks.

(** Line 47. *)
Definition hasNotifications (tz now : Z) (tasks : list Task) : bool :=
  bool_decide (0 < length (tasksDueToday tz now tasks))%nat || true.

(** [s?.[0]?.toUpperCase()]: the first character, upper-cased. *)
Definition firstUpper (s : option string) : option string :=
  match s with
  | Some (String c _) => Some (String (upperAscii c) EmptyString)
  | _ => None
  end.

(** Line 122: [full_name?.[0]?.toUpperCase() || user?.email?.[0]?.toUpperCase() || 'U']. *)
Definition avatarInitial (fullName email : option string) : string :=
  match firstUpper fullName with
  | Some s => s
  | None => match firstUpper email with Some s => s | None => "U" end
  end.

End WebLayout.

Module ScrollToTop.

Record ScrollState := mkScrollState { isVisible : bool; scrollY : Z }.

(** Lines 10-16: the scroll listener. *)
Definition toggleVisibility (y : Z) (_ : ScrollState) : ScrollState := mkScrollState (300 <? y) y.

(** Lines 23-28: the window scrolls back to the top, and the listener
    sees the last position, 0. *)
Definition scrollToTop (st : ScrollState) : ScrollState := toggleVisibility 0 st.

Inductive ScrollEvent := Scroll (y : Z) | ClickTop.

(** The button takes no clicks while hidden ([pointer-events-none],
    line 35). *)
Definition scrollStep (st : ScrollState) (e : ScrollEvent) : ScrollState :=
  match e with
  | Scroll y => toggleVisibility y st
  | ClickTop => if isVisible st then scrollToTop st else st
  end.

End ScrollToTop.

Module LoadingScreen.

(** [isLoading] of [App.tsx] (line 26), [isVisible] of the screen and its
    two timers: the three-second one of the effect (cleared on unmount)
    and the half-second one it starts, which calls [onFinished]. *)
Record LoadingState := mkLoading { isLoading : bool; isVisible : bool; outerPending : bool; innerPending : bool }.

Definition initLoading : LoadingState := mkLoading true true true false.

Inductive LoadingEvent := OuterFires | InnerFires.

(** Lines 12-15 and App line 33 ([onFinished] is [setIsLoading(false)]). *)
Definition loadingStep (st : LoadingState) (e : LoadingEvent) : LoadingState :=
  match e with
  | OuterFires => if outerPending st then mkLoading (isLoading st) false false true else st
  | InnerFires => if innerPending st then mkLoading false (isVisible st) (outerPending st) false else st
  end.

End LoadingScreen.

Import Routes NavLink Sidebar App WebLayout ScrollToTop LoadingScreen.

(** ** Theorems *)

(** *** Routes and the guard *)

(** An app event that gives the provider a session. *)
Definition appCarriesSession (e : AppEvent) : bool :=
  match e with
  | Provider e => carriesSession e
  | _ => false
  end.

(** Whether the app renders the page of a protected route. *)
Definition protectedRendered (a : App) : bool :=
  match screenOf a with
  | Render _ => snd (matchRoute (location (browser (provider a))))
  | Guarded _ => false
  end.

Lemma screen_signed_out p loc :
  user p = None -> loading p = false ->
  screen p loc = if snd (matchRoute loc) then Guarded (RequireAuth.SignInPrompt true) else Render (fst (matchRoute loc)).
Proof.
  intros Hu Hl. unfold screen, guardView, signedIn, RequireAuth.promptEffect, RequireAuth.view.
  rewrite Hu, Hl. by destruct (matchRoute loc) as [pg []].
Qed.

Lemma screen_signed_in p loc u :
  user p = Some u -> loading p = false -> screen p loc = Render (fst (matchRoute loc)).
Proof.
  intros Hu Hl. unfold screen, guardView, signedIn, RequireAuth.promptEffect, RequireAuth.view.
  rewrite Hu, Hl. by destruct (matchRoute loc) as [pg []].
Qed.

Lemma runLink_provider path h a :
  user (provider (runLink path h a)) = user (provider a) /\ loading (provider (runLink path h a)) = loading (provider a).
Proof. unfold runLink. by destruct (h _ _). Qed.

Lemma app_step_signed_out a e :
  appCarriesSession e = false -> user (provider a) = None -> loading (provider a) = false ->
  user (provider (step a e)) = None /\ loading (provider (step a e)) = false.
Proof.
  intros Hc Hu Hl. destruct e; cbn [step]; try (split; assumption).
  all: try match goal with
       | |- context [runLink ?p ?h ?a] => destruct (runLink_provider p h a) as [-> ->]; by split
       end.
  - destruct (findLink _); [|done].
    match goal with |- context [runLink ?p ?h ?a] => destruct (runLink_provider p h a) as [-> ->]; by split end.
  - split; [done|]. by apply provider_step_loading.
  - unfold deliver; cbn. split; [by apply step_no_session_signed_out|by apply provider_step_loading].
  - by destruct (onAuthPage a).
Qed.

(** C25: a visitor who is not signed in never sees a protected page: from
    a loaded, signed-out app, no sequence of clicks on the sidebar, its
    links' prompts, the sign-out dialog or the provider's inputs renders
    a protected route, until an event brings a session. *)
Theorem signed_out_never_renders_protected a es :
  user (provider a) = None -> loading (provider a) = false ->
  Forall (fun e => appCarriesSession e = false) es ->
  protectedRendered (run a es) = false.
Proof.
  intros Hu Hl Hes. revert a Hu Hl. induction Hes as [|e es He _ IH]; intros a Hu Hl.
  - unfold protectedRendered, screenOf. rewrite screen_signed_out by done.
    by destruct (matchRoute _) as [pg []].
  - destruct (app_step_signed_out a e He Hu Hl). by apply IH.
Qed.

Definition demoApp : App :=
  initApp (mkProvider None None false (mkAuthWorld false 0 (mkDb None [] None) [] 0 0)
             (mkBrowser "/" None) (mountConfetti false)).

Lemma signed_out_never_renders_protected_witness :
  Forall (fun e => appCarriesSession e = false) [ClickLink "/dashboard"; ClickLink "/tasks"; ConfirmSignOut] /\
  protectedRendered (run demoApp [ClickLink "/dashboard"; ClickLink "/tasks"; ConfirmSignOut]) = false.
Proof.
  assert (H : Forall (fun e => appCarriesSession e = false) [ClickLink "/dashboard"; ClickLink "/tasks"; ConfirmSignOut])
    by repeat constructor.
  split; [exact H|]. exact (signed_out_never_renders_protected demoApp _ eq_refl eq_refl H).
Defined.

(** The sidebar's "Dashboard" link, marked as a public demo, goes to the
    protected [/dashboard]: a signed-out visitor lands on the guard's
    prompt (the public demo is [/]). *)
Lemma dashboard_link_prompts a :
  user (provider a) = None -> loading (provider a) = false ->
  location (browser (provider (step a (ClickLink "/dashboard")))) = "/dashboard" /\
  screenOf (step a (ClickLink "/dashboard")) = Guarded (RequireAuth.SignInPrompt true).
Proof.
  intros Hu Hl. cbn [step]. unfold runLink, NavLink.handleClick, signedIn. rewrite Hu. cbn.
  split; [done|]. unfold screenOf. rewrite screen_signed_out by done. reflexivity.
Qed.

(** *** A protected link through sign-in and back *)

Lemma findLink_links i : i ∈ links -> findLink (Sidebar.path i) = Some i.
Proof.
  intros Hi. unfold links, navItems in Hi. cbn in Hi.
  repeat (apply elem_of_cons in Hi as [->|Hi]; [reflexivity|]). exact (False_rect _ (not_elem_of_nil _ Hi)).
Qed.

Lemma links_path_nonempty i : i ∈ links -> Sidebar.path i <> "".
Proof.
  intros Hi. repeat (apply elem_of_cons in Hi as [->|Hi]; [discriminate|]).
  by apply not_elem_of_nil in Hi.
Qed.

Lemma deliver_signed_in_on_auth a u :
  onAuthPage a = true ->
  browser (provider (deliver (AuthStateChange SignedIn (Some u)) a)) = AuthPage.onSession true (browser (provider a)) /\
  user (provider (deliver (AuthStateChange SignedIn (Some u)) a)) = Some u /\
  loading (provider (deliver (AuthStateChange SignedIn (Some u)) a)) = false.
Proof.
  intros Ha. unfold deliver. rewrite Ha. cbn [hasUser provider with_browser browser user loading].
  rewrite provider_step_browser by discriminate. split; [done|]. apply signed_in_event_user.
Qed.

(** A protected link's prompt stores the link's path and opens the auth
    page. *)
Lemma link_prompt_sign_in a i :
  i ∈ links -> requiresAuth i = true -> user (provider a) = None ->
  let a2 := run a [ClickLink (Sidebar.path i); LinkSignIn (Sidebar.path i)] in
  browser (provider a2) = mkBrowser "/auth" (Some (Sidebar.path i)) /\ onAuthPage a2 = true.
Proof.
  intros Hi Hr Hu a2. unfold a2, run. cbn [foldl step]. rewrite (findLink_links i Hi).
  unfold runLink, NavLink.handleClick, signedIn. rewrite Hr, Hu. cbn.
  unfold setLink. rewrite bool_decide_eq_true_2 by done. cbn. split; [done|]. reflexivity.
Qed.

(** C22: the sign-in round trip through a sidebar link: signed out, a
    click on a protected link opens the link's prompt; its "Sign In"
    button stores the link's path and opens [/auth]; when the auth
    library reports the sign-in, the auth page returns the visitor to that
    path, the stored path is consumed and the page itself is rendered. *)
Theorem link_sign_in_roundtrip a i u :
  i ∈ links -> requiresAuth i = true -> user (provider a) = None ->
  let a' := run a [ClickLink (Sidebar.path i); LinkSignIn (Sidebar.path i); Provider (AuthStateChange SignedIn (Some u))] in
  location (browser (provider a')) = Sidebar.path i /\ redirectAfterAuth (browser (provider a')) = None /\
  screenOf a' = Render (fst (matchRoute (Sidebar.path i))).
Proof.
  intros Hi Hr Hu a'. destruct (link_prompt_sign_in a i Hi Hr Hu) as [Hb Ha].
  unfold a'. change (run a _) with (step (run a [ClickLink (Sidebar.path i); LinkSignIn (Sidebar.path i)])
                                      (Provider (AuthStateChange SignedIn (Some u)))).
  cbn [step]. destruct (deliver_signed_in_on_auth _ u Ha) as (Hb' & Hu' & Hl').
  unfold screenOf. rewrite Hb', Hb. unfold AuthPage.onSession. cbn.
  rewrite bool_decide_eq_false_2 by exact (links_path_nonempty i Hi). cbn.
  split; [done|]. split; [done|]. by apply (screen_signed_in _ _ u).
Qed.

Lemma link_sign_in_roundtrip_witness :
  (mkNavItem "Tasks" "/tasks" true ∈ links /\ requiresAuth (mkNavItem "Tasks" "/tasks" true) = true /\
   user (provider demoApp) = None) /\
  screenOf (run demoApp [ClickLink "/tasks"; LinkSignIn "/tasks"; Provider (AuthStateChange SignedIn (Some "u1"))])
    = Render TasksPage.
Proof.
  assert (Hi : mkNavItem "Tasks" "/tasks" true ∈ links) by (apply list_elem_of_In; cbn; tauto).
  split; [split; [exact Hi|split; reflexivity]|].
  exact (proj2 (proj2 (link_sign_in_roundtrip demoApp _ "u1" Hi eq_refl eq_refl))).
Defined.

(** *** The page frame *)

Lemma midnight_localDay tz t : midnight tz t = localDay tz t * ms_per_day + tz * 60000.
Proof.
  unfold midnight, localDay. pose proof (Z.div_mod (t - tz * 60000) ms_per_day ltac:(unfold ms_per_day; lia)). lia.
Qed.

(** The header's "due today" list holds exactly the unfinished tasks whose
    deadline falls on today's local calendar day, in the provider's order. *)
Lemma tasksDueToday_spec tz now tasks task :
  task ∈ tasksDueToday tz now tasks <->
  task ∈ tasks /\ status task <> Tasks.Done /\
  exists d, deadline task = Some d /\ localDay tz d = localDay tz now.
Proof.
  unfold tasksDueToday. rewrite list_elem_of_In, filter_In, <- list_elem_of_In.
  destruct (deadline task) as [d|]; [|naive_solver].
  rewrite !midnight_localDay, !andb_true_iff, Z.leb_le, Z.ltb_lt, negb_true_iff, bool_decide_eq_false.
  assert (0 < ms_per_day) by (unfold ms_per_day; lia).
  split.
  - intros (Ht & (H1 & H2) & Hs). split; [done|]. split; [done|]. exists d. split; [done|]. nia.
  - intros (Ht & Hs & d' & [= <-] & Hd). rewrite Hd. split; [done|]. split; [split; lia|done].
Qed.

(** The header's "Day Streak" and the dashboard's streak card count the
    same days: those of the weekly array with a session. *)
Lemma header_streak_agrees sessions :
  weeklyStreak sessions = Z.of_nat (WeeklyStreak.currentStreak sessions).
Proof.
  unfold weeklyStreak, WeeklyStreak.currentStreak. f_equal.
  induction sessions as [|x l IH]; [done|]. rewrite filter_cons, count_where_cons.
  case_decide as Hx; [rewrite (proj2 (Z.ltb_lt 0 x) Hx)|rewrite (proj2 (Z.ltb_ge 0 x)) by lia]; cbn; lia.
Qed.

(** The notification dot is always shown ([|| true]). *)
Lemma notifications_always_shown tz now tasks : hasNotifications tz now tasks = true.
Proof. apply orb_true_r. Qed.

Example avatar_initials :
  avatarInitial (Some "ada") (Some "x@y.z") = "A" /\ avatarInitial (Some "") (Some "bob@y.z") = "B" /\
  avatarInitial None None = "U".
Proof. repeat split. Qed.

(** The scroll button is visible exactly when the page is scrolled past
    300 pixels, after any sequence of scrolls and clicks. *)
Lemma scroll_button_visible st es :
  ScrollToTop.isVisible st = (300 <? scrollY st) ->
  ScrollToTop.isVisible (foldl scrollStep st es) = (300 <? scrollY (foldl scrollStep st es)).
Proof.
  revert st. induction es as [|e es IH]; intros st Hst; [done|]. cbn. apply IH.
  destruct e as [y|]; [reflexivity|]. unfold scrollStep.
  destruct (ScrollToTop.isVisible st) eqn:E; [reflexivity|congruence].
Qed.

Definition loadingFading : LoadingState := mkLoading true false false true.
Definition loadingDone : LoadingState := mkLoading false false false false.

Lemma loading_done_stays es : foldl loadingStep loadingDone es = loadingDone.
Proof. induction es as [|[] es IH]; cbn; auto. Qed.

Lemma loading_fading_runs es :
  foldl loadingStep loadingFading es = loadingFading \/ foldl loadingStep loadingFading es = loadingDone.
Proof.
  induction es as [|[] es IH]; cbn; auto. right. apply loading_done_stays.
Qed.

Lemma loading_init_runs es :
  foldl loadingStep initLoading es = initLoading \/ foldl loadingStep initLoading es = loadingFading \/
  foldl loadingStep initLoading es = loadingDone.
Proof.
  induction es as [|[] es IH]; cbn; auto. right. apply loading_fading_runs.
Qed.

(** The loading screen goes away once its three-second timer and then its
    half-second timer have fired, whatever else happens between. *)
Lemma loading_screen_finishes es1 es2 es3 :
  isLoading (foldl loadingStep initLoading (es1 ++ OuterFires :: es2 ++ InnerFires :: es3)) = false.
Proof.
  rewrite foldl_app. cbn [foldl].
  assert (Hf : forall s, s = loadingFading \/ s = loadingDone ->
                 isLoading (foldl loadingStep s (es2 ++ InnerFires :: es3)) = false).
  { intros s Hs. rewrite foldl_app. cbn [foldl].
    assert (Hd : foldl loadingStep s es2 = loadingFading \/ foldl loadingStep s es2 = loadingDone)
      by (destruct Hs as [->| ->]; [apply loading_fading_runs|right; apply loading_done_stays]).
    destruct Hd as [-> | ->]; cbn; by rewrite loading_done_stays. }
  apply Hf. destruct (loading_init_runs es1) as [-> | [-> | ->]]; cbn; auto.
Qed.
