(* ===== verification/SettingsView.v ===== *)
(** * SettingsView: the settings page as the user drives it, [pages/SettingsPage.tsx]

    The handlers of [Profile.SettingsPage] change the settings provider
    and the page's copies ([localProfile], [localTimerSettings]); two
    effects copy the provider's state back into the copies whenever the
    provider replaces it (lines 50-56).  React compares states by
    identity: a call of [setProfileSettings] fires the effect even when the
    new object equals the old one, so the effects here run when the
    provider's version counters moved.

    [page_step] is one user input followed by those effects; the page's
    form inputs, its avatar removal and its sign-out button are here, the
    sign-out acting on the auth provider of [AuthProvider].  [view] is the
    rendered page. *)

From stdpp Require Import strings.
From Stdlib Require Import Ascii.
From S2P Require Import Prelude Settings Profile AuthFlow AuthProvider Layout.
Import Settings Profile AuthFlow AuthProvider.

Module SettingsView.

Import Profile.Profile Profile.SettingsPage.

(** Lines 243-262: the button shown on a custom avatar sets the first
    preset, with the type ["panda"] the presets use. *)
Definition presetPath0 : string :=
  match AVATAR_PRESETS with a :: _ => av_path a | [] => "" end.

Definition removeCustomAvatar : St PageWorld unit :=
  updateProfileSettings (avatarPatch presetPath0 "panda");;
  pmodify (fun w => set_localProfile (mergeProfile (localProfile w) (avatarPatch presetPath0 "panda")) w).

(** Line 302: the name input. *)
Definition onNameInput (s : string) (w : PageWorld) : PageWorld :=
  set_localProfile (mergeProfile (localProfile w) (mkProfilePatch (Some (Some s)) None None)) w.

(** Lines 405 and 415: the two switches. *)
Definition onAutoBreaks (b : bool) (w : PageWorld) : PageWorld :=
  set_localTimerSettings (mergeTimerSettings (localTimerSettings w) (mkPatch None None None None (Some b) None)) w.
Definition onAutoPomodoros (b : bool) (w : PageWorld) : PageWorld :=
  set_localTimerSettings (mergeTimerSettings (localTimerSettings w) (mkPatch None None None None None (Some b))) w.

(** Lines 50-56: the effects on [[timerSettings]] and [[profileSettings]],
    run after an input that replaced them. *)
Definition copyEffects (before after : PageWorld) : PageWorld :=
  let w := if bool_decide (timerVersion before = timerVersion after) then after
           else set_localTimerSettings (timerSettings (timerHalf after)) after in
  if bool_decide (profileVersion before = profileVersion w) then w
  else set_localProfile (profileSettings w) w.

Inductive PageInput :=
  | TypeName (s : string)
  | FocusInput (parsed : option Z) | ShortBreakInput (parsed : option Z)
  | LongBreakInput (parsed : option Z) | SessionsInput (parsed : option Z)
  | AutoBreaks (b : bool) | AutoPomodoros (b : bool)
  | SelectPreset (avatarId : string)
  | UploadAvatar (file : option File)
  | RemoveCustom
  | SaveClick
  | ConfirmSignOut.

Section Step.

Variable getPublicUrl : string -> string.

(** One input of the page, then the effects.  The sign-out dialog's
    action runs [handleSignOut] (lines 180-182, 440), the auth provider's
    [signOut]. *)
Definition page_step (st : PageWorld * Provider) (e : PageInput) : PageWorld * Provider :=
  let '(w, p) := st in
  let w' := match e with
            | TypeName s => onNameInput s w
            | FocusInput v => set_localTimerSettings (onFocusInput v (localTimerSettings w)) w
            | ShortBreakInput v => set_localTimerSettings (onShortBreakInput v (localTimerSettings w)) w
            | LongBreakInput v => set_localTimerSettings (onLongBreakInput v (localTimerSettings w)) w
            | SessionsInput v => set_localTimerSettings (onSessionsInput v (localTimerSettings w)) w
            | AutoBreaks b => onAutoBreaks b w
            | AutoPomodoros b => onAutoPomodoros b w
            | SelectPreset a => exec (handleAvatarSelect a) w
            | UploadAvatar f => exec (handleAvatarUpload getPublicUrl f) w
            | RemoveCustom => exec removeCustomAvatar w
            | SaveClick => exec handleSave w
            | ConfirmSignOut => w
            end in
  (copyEffects w w', match e with ConfirmSignOut => AuthProvider.step p SignOut | _ => p end).

Definition page_run (st : PageWorld * Provider) (es : list PageInput) : PageWorld * Provider :=
  foldl page_step st es.

End Step.

Record PresetButton := mkPresetButton { pb_name : string; pb_selected : bool }.

Record PageView := mkPageView {
  sv_avatarUrl : option string;         (** line 218 *)
  sv_avatarInitial : string;            (** line 220 *)
  sv_uploadLabel : string;              (** line 234 *)
  sv_removeShown : bool;                (** line 243 *)
  sv_presets : list PresetButton;       (** lines 270-291 *)
  sv_name : string;                     (** line 301 *)
  sv_email : option string;             (** line 309 *)
  sv_studyTime : Z * Z;                 (** line 314: hours and minutes *)
  sv_streak : Z;                        (** line 318 *)
  sv_timer : TimerSettings;             (** lines 335-417 *)
  sv_saveDisabled : bool                (** line 448 *)
}.

(** Lines 184-463; [None] is the spinner shown while the provider loads. *)
Definition view (email : option string) (w : PageWorld) : option PageView :=
  if Settings.loading (timerHalf w) then None else
  let lp := localProfile w in
  Some (mkPageView
    (match avatar_url lp with Some u => if bool_decide (u = "") then None else Some u | None => None end)
    (WebLayout.avatarInitial (full_name lp) email)
    (if uploadingAvatar w then "Uploading..." else "Upload Custom")
    (bool_decide (avatar_type lp = Some "custom") &&
       match avatar_url lp with Some u => negb (bool_decide (u = "")) | None => false end)
    ((fun a => mkPresetButton (av_name a) (bool_decide (avatar_url lp = Some (av_path a)))) <$> AVATAR_PRESETS)
    (default "" (full_name lp))
    email
    (total_study_minutes (profileSettings w) / 60, Z.rem (total_study_minutes (profileSettings w)) 60)
    (streak_days (profileSettings w))
    (localTimerSettings w)
    (saving w)).

End SettingsView.

Import SettingsView Profile.Profile Profile.SettingsPage.

(** ** Theorems *)

(** An input that replaced neither provider state fires no effect. *)
Lemma copyEffects_quiet before after :
  timerVersion before = timerVersion after -> profileVersion before = profileVersion after ->
  copyEffects before after = after.
Proof.
  intros Ht Hp. unfold copyEffects.
  rewrite (bool_decide_eq_true_2 (timerVersion before = _)) by done. cbv zeta.
  by rewrite bool_decide_eq_true_2.
Qed.

(** An input that replaced the provider's profile, and not its timer
    settings, overwrites the page's copy of the profile. *)
Lemma copyEffects_profile before after :
  timerVersion before = timerVersion after -> profileVersion before <> profileVersion after ->
  copyEffects before after = set_localProfile (profileSettings after) after.
Proof.
  intros Ht Hp. unfold copyEffects.
  rewrite (bool_decide_eq_true_2 (timerVersion before = _)) by done. cbv zeta.
  by rewrite bool_decide_eq_false_2.
Qed.

(** What [updateProfileSettings] does to the page's world, whatever the
    upsert answers: the provider's profile is merged and replaced, the
    page's copies are left alone. *)
Lemma updateProfileSettings_effect pp w :
  let w' := exec (updateProfileSettings pp) w in
  profileSettings w' = mergeProfile (profileSettings w) pp /\ profileVersion w' = S (profileVersion w) /\
  timerVersion w' = timerVersion w /\ localProfile w' = localProfile w.
Proof.
  destruct w as [th ps lt lp sv up pt sf pr so pf pn pu pv tv].
  unfold updateProfileSettings, exec, mbind, St_bind, mret, St_ret, st_get, pmodify, st_modify, nextFails,
    set_profileSettings, set_profileRow, syncFailed; cbn.
  destruct pu; [|done]. destruct pf as [|[] fs]; cbn; done.
Qed.

Lemma handleAvatarSelect_effect a avatar w :
  list_find (fun x => av_id x = a) AVATAR_PRESETS = Some avatar ->
  let w' := exec (handleAvatarSelect a) w in
  profileSettings w' = mergeProfile (profileSettings w) (avatarPatch (av_path avatar.2) "panda") /\
  profileVersion w' = S (profileVersion w) /\ timerVersion w' = timerVersion w.
Proof.
  intros Hf w'. unfold w', handleAvatarSelect. rewrite Hf. destruct avatar as [k av].
  rewrite exec_seq. unfold pmodify. rewrite exec_modify.
  destruct (updateProfileSettings_effect (avatarPatch (av_path av) "panda")
              (set_localProfile (mergeProfile (localProfile w) (avatarPatch (av_path av) "panda")) w))
    as (E1 & E2 & E3 & _).
  rewrite E1, E2, E3. done.
Qed.

(** C20: choosing a preset avatar throws away an unsaved edit of the full
    name: [updateProfileSettings] replaces the provider's profile object,
    the page's effect copies it over the page's copy, and the name field
    shows the stored name again instead of the typed one (also when the
    chosen avatar is the current one, as React compares by identity). *)
Theorem preset_discards_unsaved_name gpu w p s a avatar :
  list_find (fun x => av_id x = a) AVATAR_PRESETS = Some avatar ->
  let w' := fst (page_run gpu (w, p) [TypeName s; SelectPreset a]) in
  localProfile w' = profileSettings w' /\ full_name (localProfile w') = full_name (profileSettings w).
Proof.
  intros Hf w'. unfold w', page_run. cbn [foldl page_step fst].
  set (w1 := onNameInput s w).
  rewrite (copyEffects_quiet w w1) by done. destruct (handleAvatarSelect_effect a avatar w1 Hf) as (E1 & E2 & E3).
  rewrite copyEffects_profile by (rewrite ?E2, ?E3; lia). split; [done|]. cbn. by rewrite E1.
Qed.

Lemma preset_discards_unsaved_name_witness :
  list_find (fun x => av_id x = "pastel-cat") AVATAR_PRESETS = Some (4%nat, mkAvatarPreset "pastel-cat" "Cat" "/pastel-cat.png") /\
  full_name (localProfile (fst (page_run (fun _ => "") (demoPage [false], demoProvider)
                                         [TypeName "Grace"; SelectPreset "pastel-cat"]))) = None.
Proof.
  assert (Hf : list_find (fun x => av_id x = "pastel-cat") AVATAR_PRESETS
               = Some (4%nat, mkAvatarPreset "pastel-cat" "Cat" "/pastel-cat.png")) by reflexivity.
  split; [exact Hf|].
  exact (proj2 (preset_discards_unsaved_name (fun _ => "") (demoPage [false]) demoProvider "Grace" _ _ Hf)).
Defined.

(** The sign-out dialog's action signs out through the auth provider and
    opens [/auth]; the page's world is untouched. *)
Lemma settings_sign_out gpu w p :
  let st := page_step gpu (w, p) ConfirmSignOut in
  fst st = w /\ AuthProvider.user (snd st) = None /\ location (AuthProvider.browser (snd st)) = "/auth".
Proof. cbn. by rewrite copyEffects_quiet. Qed.

(** The total study time reads as hours and minutes that add back up to
    the stored minutes. *)
Lemma study_time_split email w v :
  view email w = Some v -> 0 <= total_study_minutes (profileSettings w) ->
  60 * (sv_studyTime v).1 + (sv_studyTime v).2 = total_study_minutes (profileSettings w) /\
  0 <= (sv_studyTime v).2 < 60.
Proof.
  unfold view. destruct (Settings.loading _); [done|]. intros [= <-] Hm. cbn.
  rewrite Z.rem_mod_nonneg by lia. pose proof (Z.div_mod (total_study_minutes (profileSettings w)) 60).
  pose proof (Z.mod_pos_bound (total_study_minutes (profileSettings w)) 60). lia.
Qed.
