(* ===== verification/AppShell.v ===== *)
(** * AppShell: the page frame's header and the app under its loading screen

    [components/layout/WebLayout.tsx] wraps every page in the sidebar and
    a header: the weekly streak, the notification bell with its popover
    and the avatar linking to [/settings] ([HeaderView]).  [App.tsx]
    mounts the [LoadingScreen] (lines 26 and 33) next to the router: the
    providers and the routes run from the start, behind a full-screen
    overlay ([components/LoadingScreen.tsx], lines 20-86) that takes the
    pointer until its fade starts ([Shell]).

    The inputs of [Layout.App] are pointer inputs (clicks on the sidebar,
    its links' prompts and the sign-out dialog) or notifications of the
    auth library; the overlay swallows the former, never the latter. *)

From stdpp Require Import strings.
From S2P Require Import Prelude Clock Tasks Profile AuthFlow AuthProvider Layout Pages.
Import Clock Tasks Profile.Profile AuthFlow AuthProvider.

Module HeaderView.

Import Layout.WebLayout.

(** Lines 78-112: one entry per task due today, or the empty notice, then
    the entry of upcoming features (its trailing emoji left out). *)
Inductive Notice :=
  | DueToday (title text : string)
  | NoTasksDueToday
  | UpcomingFeatures (title text : string).

Definition dueNotice (t : Task) : Notice :=
  DueToday "Task Due Today" (StreaksPageView.dq ++ title t ++ StreaksPageView.dq ++ " is due today").

Definition notices (tz now : Z) (tasks : list Task) : list Notice :=
  match tasksDueToday tz now tasks with
  | [] => [NoTasksDueToday]
  | ts => dueNotice <$> ts
  end ++ [UpcomingFeatures "Upcoming Exciting Features" "New collaboration tools and AI enhancements coming soon!"].

Record Header := mkHeader {
  hv_streak : Z;                  (** line 59 *)
  hv_dot : bool;                  (** lines 67-69 *)
  hv_notices : list Notice;       (** lines 72-114 *)
  hv_avatarUrl : option string;   (** line 120: [avatar_url || undefined] *)
  hv_initial : string;            (** line 122 *)
  hv_link : string                (** line 118 *)
}.

(** Lines 49-126 over the session provider's weekly array, the task
    provider's tasks, the settings provider's profile and the user's
    e-mail. *)
Definition view (tz now : Z) (sessions : list Z) (tasks : list Task) (ps : ProfileSettings)
    (email : option string) : Header :=
  mkHeader (weeklyStreak sessions) (hasNotifications tz now tasks) (notices tz now tasks)
    (match avatar_url ps with Some u => if bool_decide (u = "") then None else Some u | None => None end)
    (avatarInitial (full_name ps) email) "/settings".

End HeaderView.

Module LoadingView.

Import Layout.LoadingScreen.

Record Overlay := mkOverlay { faded : bool; takesPointer : bool }.

(** App line 33 and lines 20-26: the overlay is rendered while [isLoading];
    once [isVisible] is false it fades ([opacity-0]) and lets the pointer
    through ([pointer-events-none]). *)
Definition view (st : LoadingState) : option Overlay :=
  if isLoading st then Some (mkOverlay (negb (isVisible st)) (isVisible st)) else None.

Definition blocksPointer (st : LoadingState) : bool :=
  match view st with Some o => takesPointer o | None => false end.

End LoadingView.

Module Shell.

Import Layout.LoadingScreen Layout.App LoadingView.

(** [App.tsx] lines 25-65: the loading screen's state next to the app. *)
Record Shell := mkShell { screen : LoadingState; app : App }.

Definition initShell (p : AuthProvider.Provider) : Shell := mkShell initLoading (initApp p).

Inductive ShellEvent := Timer (e : LoadingEvent) | Input (e : AppEvent).

Definition pointerInput (e : AppEvent) : bool :=
  match e with
  | Layout.App.Provider _ | AuthPageSession _ => false
  | _ => true
  end.

(** A pointer input under the overlay hits the overlay; everything else
    reaches the app. *)
Definition step (s : Shell) (e : ShellEvent) : Shell :=
  match e with
  | Timer t => mkShell (loadingStep (screen s) t) (app s)
  | Input e => if pointerInput e && blocksPointer (screen s) then s else mkShell (screen s) (App.step (app s) e)
  end.

Definition run (s : Shell) (es : list ShellEvent) : Shell := foldl step s es.

(** The app's inputs among the shell's events. *)
Definition inputs (es : list ShellEvent) : list AppEvent :=
  omap (fun e => match e with Input a => Some a | Timer _ => None end) es.

End Shell.

Import HeaderView LoadingView Shell Layout.LoadingScreen.

(** ** Theorems *)

(** Every unfinished task due on today's local day has its entry in the
    bell's popover. *)
Lemma due_task_notified tz now sessions tasks ps email t d :
  t ∈ tasks -> status t <> Tasks.Done -> deadline t = Some d -> localDay tz d = localDay tz now ->
  dueNotice t ∈ hv_notices (HeaderView.view tz now sessions tasks ps email).
Proof.
  intros Ht Hs Hd Hday. cbn. unfold notices.
  assert (Hin : t ∈ Layout.WebLayout.tasksDueToday tz now tasks)
    by (apply tasksDueToday_spec; eauto 6).
  destruct (Layout.WebLayout.tasksDueToday tz now tasks) as [|t0 ts] eqn:E;
    [by apply not_elem_of_nil in Hin|].
  apply elem_of_app. left. change (dueNotice t ∈ dueNotice <$> (t0 :: ts)).
  by apply list_elem_of_fmap_2.
Qed.

(** The empty notice shows exactly when no task is due today. *)
Lemma no_due_notice tz now sessions tasks ps email :
  NoTasksDueToday ∈ hv_notices (HeaderView.view tz now sessions tasks ps email) <->
  Layout.WebLayout.tasksDueToday tz now tasks = [].
Proof.
  cbn. unfold notices. destruct (Layout.WebLayout.tasksDueToday tz now tasks) as [|t ts].
  { split; [done|]. intros _. apply elem_of_app. left. by apply list_elem_of_singleton. }
  rewrite elem_of_app, list_elem_of_fmap, list_elem_of_singleton. split; [|done].
  intros [(x & Hx & _)|Hx]; discriminate.
Qed.

Lemma inputs_input a es : inputs (Input a :: es) = a :: inputs es.
Proof. reflexivity. Qed.

Lemma inputs_timer t es : inputs (Timer t :: es) = inputs es.
Proof. reflexivity. Qed.

Lemma app_run_cons a e es : App.run a (e :: es) = App.run (App.step a e) es.
Proof. reflexivity. Qed.

Lemma blocks_init : blocksPointer initLoading = true.
Proof. reflexivity. Qed.

Create Rewrite HintDb shell.
#[local] Hint Rewrite inputs_input inputs_timer app_run_cons : shell.

(** The loading screen never holds back the auth library: notifications
    and the auth page's callbacks reach the app as if there were no
    overlay. *)
Lemma run_notifications s es :
  Forall (fun e => match e with Input a => pointerInput a = false | Timer _ => True end) es ->
  app (Shell.run s es) = App.run (app s) (inputs es).
Proof.
  unfold Shell.run. revert s. induction es as [|[t|a] es IH]; intros s Hf; [done|..];
    inversion_clear Hf as [|? ? Ha Hes]; cbn [foldl]; autorewrite with shell; rewrite IH by done; [done|].
  cbn. by rewrite Ha.
Qed.

(** Until the three-second timer fires, the overlay swallows every click:
    the app sees only the auth library's notifications. *)
Lemma run_under_overlay s es :
  screen s = initLoading -> Timer OuterFires ∉ es ->
  app (Shell.run s es) = App.run (app s) (List.filter (fun a => negb (pointerInput a)) (inputs es)).
Proof.
  unfold Shell.run. revert s. induction es as [|[[]|a] es IH]; intros s Hs Hn; [done|..].
  - exfalso. apply Hn. by left.
  - cbn [foldl]. autorewrite with shell. rewrite IH; [done|by cbn; rewrite Hs|]. intros Hi. apply Hn. by right.
  - assert (Hn' : Timer OuterFires ∉ es) by (intros Hi; apply Hn; by right).
    cbn [foldl]. autorewrite with shell.
    change (step s (Input a)) with (if pointerInput a && blocksPointer (screen s) then s
                                    else mkShell (screen s) (App.step (app s) a)).
    rewrite Hs, blocks_init.
    destruct (pointerInput a) eqn:Ep; cbn [List.filter negb andb]; rewrite IH by done; rewrite Ep; [done|].
    by autorewrite with shell.
Qed.

(** Once the loading screen is gone every input reaches the app. *)
Lemma run_after_loading s es :
  screen s = Layout.loadingDone -> app (Shell.run s es) = App.run (app s) (inputs es).
Proof.
  unfold Shell.run. revert s. induction es as [|[t|a] es IH]; intros s Hs; [done|..];
    cbn [foldl]; autorewrite with shell.
  - rewrite IH; [done|]. cbn. rewrite Hs. by destruct t.
  - unfold Shell.step. rewrite Hs. cbn. rewrite andb_false_r. rewrite IH; [done|]. done.
Qed.
