(* ===== verification/ProviderTree.v ===== *)
(** * ProviderTree: the provider nesting of [App.tsx] and the context hooks

    Each provider ([AuthProvider] of [hooks/useAuth.tsx], [SettingsProvider],
    [SessionProvider], [TimerProvider], [TaskProvider] of [context/]) puts a
    React context around its children; each hook [useAuth], [useSettings],
    [useSessions], [useTimer], [useTasks] reads the nearest one and throws
    when there is none (the context's default is [undefined]).  React
    Router's hooks and [<Link>] throw likewise outside [<BrowserRouter>].
    The providers themselves call hooks: [SettingsProvider] reads the auth
    context, [TimerProvider] the settings and the sessions, and so on.

    A component is its name, the hooks it calls in the order of its body,
    the context it provides and the components it renders.  [render] is
    React's depth-first rendering as far as contexts go: a component whose
    hook throws renders nothing below it.  Which route is rendered depends
    on the location; the tree holds all of them, so a tree that renders
    without error does so at every location.  [ErrorBoundary] and
    [NotFound], which [App.tsx] imports but the repository does not hold,
    are left out. *)

From stdpp Require Import strings sets.
From S2P Require Import Prelude.

Module ProviderTree.

(** [createContext<...>(undefined)] of [AuthContext], [SettingsContext],
    [SessionContext], [TimerContext], [TaskContext]; [RouterCtx] is the
    router's. *)
Inductive Ctx := RouterCtx | AuthCtx | SettingsCtx | SessionCtx | TimerCtx | TaskCtx.

#[export] Instance Ctx_eq_dec : EqDecision Ctx.
Proof. solve_decision. Defined.

Definition provided (c : Ctx) (env : list Ctx) (err : string) : option string :=
  if bool_decide (c ∈ env) then None else Some err.

(** [hooks/useAuth.tsx] lines 176-182. *)
Definition useAuth (env : list Ctx) : option string :=
  provided AuthCtx env "useAuth must be used within an AuthProvider".

(** [context/SessionContext.tsx] lines 215-221. *)
Definition useSessions (env : list Ctx) : option string :=
  provided SessionCtx env "useSessions must be used within SessionProvider".

(** [context/SettingsContext.tsx] lines 217-223. *)
Definition useSettings (env : list Ctx) : option string :=
  provided SettingsCtx env "useSettings must be used within a SettingsProvider".

(** [context/TaskContext.tsx] lines 305-311. *)
Definition useTasks (env : list Ctx) : option string :=
  provided TaskCtx env "useTasks must be used within a TaskProvider".

(** [context/TimerContext.tsx] lines 100-106. *)
Definition useTimer (env : list Ctx) : option string :=
  provided TimerCtx env "useTimer must be used within a TimerProvider".

Inductive Hook :=
  | UseAuth | UseSessions | UseSettings | UseTasks | UseTimer
  | UseNavigate | UseLocation | UseSearchParams | UseHref.

(** React Router's hooks: the library's check of its context. *)
Definition routerHook (name : string) (env : list Ctx) : option string :=
  provided RouterCtx env (name +:+ "() may be used only in the context of a <Router> component.").

Definition callHook (h : Hook) : list Ctx -> option string :=
  match h with
  | UseAuth => useAuth | UseSessions => useSessions | UseSettings => useSettings
  | UseTasks => useTasks | UseTimer => useTimer
  | UseNavigate => routerHook "useNavigate" | UseLocation => routerHook "useLocation"
  | UseSearchParams => routerHook "useSearchParams" | UseHref => routerHook "useHref"
  end.

Fixpoint firstError (env : list Ctx) (hs : list Hook) : option string :=
  match hs with
  | [] => None
  | h :: hs => match callHook h env with Some e => Some e | None => firstError env hs end
  end.

Inductive Tree := El (name : string) (hooks : list Hook) (provides : option Ctx) (children : list Tree).

Definition extend (p : option Ctx) (env : list Ctx) : list Ctx :=
  match p with Some c => c :: env | None => env end.

(** The components that throw, with their errors, in rendering order. *)
Fixpoint render (env : list Ctx) (t : Tree) {struct t} : list (string * string) :=
  match t with
  | El n hs p cs =>
      match firstError env hs with
      | Some e => [(n, e)]
      | None =>
          (fix go (cs : list Tree) : list (string * string) :=
             match cs with [] => [] | c :: cs => render (extend p env) c ++ go cs end) cs
      end
  end.

(** *** The components, with their hooks in the order of their bodies *)

Definition leaf (n : string) : Tree := El n [] None [].
Definition link : Tree := El "Link" [UseHref] None [].

(** [components/auth/AuthRequiredDialog.tsx] line 14. *)
Definition authRequiredDialog : Tree := El "AuthRequiredDialog" [UseNavigate] None [].
(** [components/tasks/AddTaskDialog.tsx] lines 36-38. *)
Definition addTaskDialog : Tree := El "AddTaskDialog" [UseAuth; UseNavigate] None [].
(** [components/tasks/TaskCard.tsx] line 50, with its dialogs. *)
Definition taskCard : Tree := El "TaskCard" [UseAuth] None [addTaskDialog; authRequiredDialog].
(** [components/dashboard/CurrentTask.tsx] lines 19-20. *)
Definition currentTask : Tree := El "CurrentTask" [UseNavigate; UseAuth] None [authRequiredDialog].
(** [components/timer/FocusTimer.tsx] lines 23-33. *)
Definition focusTimer : Tree := El "FocusTimer" [UseSettings; UseTimer; UseSessions] None [].
(** [components/NavLink.tsx] lines 18-19, around React Router's [NavLink]. *)
Definition navLink : Tree := El "NavLink" [UseAuth; UseNavigate] None [El "RouterNavLink" [UseHref] None []].
(** [components/layout/Sidebar.tsx] lines 37-38. *)
Definition sidebar : Tree := El "Sidebar" [UseAuth; UseNavigate] None [navLink].
(** [components/layout/WebLayout.tsx] lines 22-25 and 49-133, around the page. *)
Definition webLayout (page : list Tree) : Tree :=
  El "WebLayout" [UseSessions; UseSettings; UseAuth; UseTasks] None ([sidebar; link] ++ page ++ [leaf "ScrollToTopButton"]).
Definition kanbanBoard : Tree :=
  El "KanbanBoard" [] None [El "KanbanColumn" [] None [leaf "KanbanCard"]].

(** The pages, [pages/*.tsx]. *)
Definition dashboard : Tree :=
  El "Dashboard" [UseTasks; UseSessions; UseSettings; UseAuth; UseNavigate] None
    [webLayout [leaf "WeeklyStreak"; currentTask; leaf "ProgressOverview"; focusTimer; taskCard; addTaskDialog]].
Definition tasksPage : Tree := El "TasksPage" [UseTasks] None [webLayout [taskCard; addTaskDialog]].
Definition kanbanPage : Tree := El "KanbanPage" [UseTasks] None [webLayout [kanbanBoard; taskCard; addTaskDialog]].
Definition timerPage : Tree := El "TimerPage" [] None [webLayout [focusTimer]].
Definition streaksPage : Tree := El "StreaksPage" [] None [webLayout []].
Definition settingsPage : Tree := El "SettingsPage" [UseAuth; UseNavigate; UseSettings] None [webLayout []].
Definition authPage : Tree := El "AuthPage" [UseSearchParams; UseNavigate] None [link].

(** [hooks/useAuth.tsx] lines 184-187: the guard and the page it protects. *)
Definition requireAuth (page : Tree) : Tree := El "RequireAuth" [UseAuth; UseNavigate; UseLocation] None [page].

(** [App.tsx] lines 40-55. *)
Definition routes : Tree :=
  El "Routes" [UseLocation] None
    [dashboard; authPage; requireAuth dashboard; requireAuth tasksPage; requireAuth kanbanPage;
     requireAuth timerPage; requireAuth streaksPage; requireAuth settingsPage].

(** The providers' own hooks: [hooks/useAuth.tsx] line 26 (with the
    celebration modal of lines 163-171 after its children),
    [SettingsContext.tsx] line 35, [SessionContext.tsx] line 16,
    [TimerContext.tsx] lines 19-20, [TaskContext.tsx] line 49. *)
Definition authProvider (cs : list Tree) : Tree :=
  El "AuthProvider" [UseNavigate] (Some AuthCtx) (cs ++ [leaf "StreakCelebrationModal"]).
Definition settingsProvider (cs : list Tree) : Tree := El "SettingsProvider" [UseAuth] (Some SettingsCtx) cs.
Definition sessionProvider (cs : list Tree) : Tree := El "SessionProvider" [UseAuth] (Some SessionCtx) cs.
Definition timerProvider (cs : list Tree) : Tree :=
  El "TimerProvider" [UseSettings; UseSessions] (Some TimerCtx) cs.
Definition taskProvider (cs : list Tree) : Tree := El "TaskProvider" [UseAuth] (Some TaskCtx) cs.

(** [App.tsx] lines 28-64. *)
Definition appTree : Tree :=
  El "QueryClientProvider" [] None
    [El "TooltipProvider" [] None
       [leaf "Toaster"; leaf "Sonner"; leaf "LoadingScreen";
        El "BrowserRouter" [] (Some RouterCtx)
          [authProvider [settingsProvider [sessionProvider [timerProvider [taskProvider [routes]]]]]]]].

(** *** Scoping, declaratively *)

(** Every hook of every component finds its context among the providers
    above the component. *)
Fixpoint scoped (env : list Ctx) (t : Tree) {struct t} : Prop :=
  match t with
  | El n hs p cs =>
      Forall (fun h => callHook h env = None) hs /\
      (fix go (cs : list Tree) : Prop :=
         match cs with [] => True | c :: cs => scoped (extend p env) c /\ go cs end) cs
  end.

End ProviderTree.

Import ProviderTree.

(** ** Theorems *)

(** Induction on trees, with the hypothesis on every child. *)
Section TreeInd.
Variable P : Tree -> Prop.
Hypothesis HEl : forall n hs p cs, Forall P cs -> P (El n hs p cs).

Fixpoint Tree_ind' (t : Tree) : P t :=
  match t with
  | El n hs p cs =>
      HEl n hs p cs
        ((fix go (cs : list Tree) : Forall P cs :=
            match cs with [] => Forall_nil_2 _ | c :: cs => Forall_cons_2 _ _ _ (Tree_ind' c) (go cs) end) cs)
  end.
End TreeInd.

Lemma Forall_zip {A} (P Q R : A -> Prop) l :
  Forall P l -> Forall Q l -> (forall x, P x -> Q x -> R x) -> Forall R l.
Proof. intros HP HQ H. induction HP; inversion_clear HQ; constructor; auto. Qed.

Lemma render_El env n hs p cs :
  render env (El n hs p cs) =
  match firstError env hs with
  | Some e => [(n, e)]
  | None => mjoin (render (extend p env) <$> cs)
  end.
Proof.
  cbn. destruct (firstError env hs); [done|]. induction cs as [|c cs IH]; [done|]. cbn. by rewrite IH.
Qed.

Lemma scoped_El env n hs p cs :
  scoped env (El n hs p cs) <-> Forall (fun h => callHook h env = None) hs /\ Forall (scoped (extend p env)) cs.
Proof.
  cbn. apply and_iff_compat_l. induction cs as [|c cs IH]; [by split|].
  rewrite list.Forall_cons, <- IH. done.
Qed.

Lemma firstError_None env hs : firstError env hs = None <-> Forall (fun h => callHook h env = None) hs.
Proof.
  induction hs as [|h hs IH]; [by split|]. cbn. rewrite list.Forall_cons, <- IH.
  destruct (callHook h env); naive_solver.
Qed.

Lemma mjoin_nil {A} (ls : list (list A)) : mjoin ls = [] <-> Forall (fun l => l = []) ls.
Proof.
  induction ls as [|l ls IH]; [by split|]. cbn. rewrite app_nil, list.Forall_cons, IH. done.
Qed.

(** The executable check and the declarative one agree: a tree renders
    without a hook error exactly when every hook finds its provider. *)
Lemma render_nil_scoped t : forall env, render env t = [] <-> scoped env t.
Proof.
  induction t as [n hs p cs IH] using Tree_ind'. intros env.
  rewrite render_El, scoped_El, <- firstError_None.
  destruct (firstError env hs) as [e|]; [naive_solver|].
  rewrite mjoin_nil, Forall_fmap. split; intros Hcs.
  - split; [done|]. apply (Forall_zip _ _ _ _ IH Hcs). intros c Hc Hr. by apply Hc.
  - destruct Hcs as [_ Hcs]. apply (Forall_zip _ _ _ _ IH Hcs). intros c Hc Hs. by apply Hc.
Qed.

Lemma callHook_mono env env' h :
  env ⊆ env' -> callHook h env = None -> callHook h env' = None.
Proof.
  intros Hsub. destruct h; cbn; unfold useAuth, useSessions, useSettings, useTasks, useTimer, routerHook, provided;
    case_bool_decide as Hin; try done; intros _; rewrite bool_decide_eq_true_2; auto.
Qed.

(** Adding providers above a tree never makes one of its hooks throw. *)
Lemma scoped_mono t : forall env env', env ⊆ env' -> scoped env t -> scoped env' t.
Proof.
  induction t as [n hs p cs IH] using Tree_ind'. intros env env' Hsub.
  rewrite !scoped_El. intros [Hhs Hcs]. split.
  - revert Hhs. apply Forall_impl. intros h. by apply callHook_mono.
  - apply (Forall_zip _ _ _ _ IH Hcs). intros c Hc Hs.
    apply (Hc (extend p env)); [|done]. destruct p; [|done]. cbn. set_solver.
Qed.

(** C26: no hook of the app throws, on any route: each provider of [App.tsx]
    sits inside the providers its own hooks read, and every page, layout
    and dialog inside all of them. *)
Theorem app_hooks_scoped : scoped [] appTree.
Proof. apply render_nil_scoped. vm_compute. reflexivity. Qed.

(** The order matters: with [TimerProvider] above [SessionProvider], the
    timer provider's [useSessions] throws and nothing below it renders. *)
Example timer_above_sessions_throws :
  render [] (El "BrowserRouter" [] (Some RouterCtx)
               [authProvider [settingsProvider [timerProvider [sessionProvider [taskProvider [routes]]]]]])
  = [("TimerProvider", "useSessions must be used within SessionProvider")].
Proof. vm_compute. reflexivity. Qed.
